(** * Instance lifecycle and mount coordination of the prompt assistant

    A shallow embedding of [js/modules/PromptAssistant.js]: the instance
    registry, the per-node scan, the asynchronous mount with its positioning
    callbacks, event binding, teardown, and the translate / expand button
    handlers, together with the properties the specification states about
    them.

    Conventions of the embedding.
    - JavaScript objects that are shared and mutated (assistant objects, DOM
      input elements, toolbar roots) live in stores indexed by an identity;
      every reference is an identity, so aliasing is kept.
    - [PromptAssistant.instances] is a JavaScript [Map]; it is an insertion
      ordered association list here because the code iterates over it.
    - The cache services of [services/cache.js] are not part of the sources.
      The mutating calls the code makes to the history and tag services are
      recorded, in order, in [cache_calls]; the translate cache is modelled
      from the specification.
    - Logging through [logger.debug], [logger.warn], [logger.error] and
      [console.warn] has no effect on the state and is left out; the summary
      lines written with [logger.log] are kept in [log].
    - Styling, button construction and highlight animation are left out. *)

From Stdlib Require Import String Ascii ZArith List Bool Lia.
From stdpp Require Import base option gmap strings list fin_maps pretty.

Local Open Scope string_scope.
Local Open Scope list_scope.

(** ** JavaScript values used as identifiers *)

(** A node id (or a graph id) is a number or a string. *)
Inductive JsId :=
  | IdNum (n : Z)
  | IdStr (s : string).

#[global] Instance JsId_eq_dec : EqDecision JsId.
Proof. solve_decision. Defined.

(** [String(x)] and the interpolation of [x] in a template literal. *)
Definition String_ (x : JsId) : string :=
  match x with
  | IdNum n => pretty n
  | IdStr s => s
  end.

(** Interpolation of a possibly undefined value. *)
Definition interp (x : option JsId) : string :=
  match x with
  | Some v => String_ v
  | None => "undefined"
  end.

Definition interp_str (x : option string) : string :=
  match x with
  | Some v => v
  | None => "undefined"
  end.

(** Truthiness of a string and of an identifier. *)
Definition truthy_str (s : string) : bool :=
  match s with
  | EmptyString => false
  | String _ _ => true
  end.

Definition truthy_id (x : JsId) : bool :=
  match x with
  | IdNum n => negb (n =? 0)%Z
  | IdStr s => truthy_str s
  end.

(** [a || b] on possibly undefined strings; [or_str a None] is [a] when it is
    truthy and nothing otherwise. *)
Definition or_str (a b : option string) : option string :=
  match a with
  | Some x => if truthy_str x then Some x else b
  | None => b
  end.

(** ** String primitives *)

Fixpoint startsWith (s p : string) : bool :=
  match p, s with
  | EmptyString, _ => true
  | String _ _, EmptyString => false
  | String c p', String d s' => Ascii.eqb c d && startsWith s' p'
  end.

(** [s.split(sep)] for a one character separator. *)
Fixpoint split (sep : ascii) (s : string) : list string :=
  match s with
  | EmptyString => [EmptyString]
  | String c s' =>
      if Ascii.eqb c sep then EmptyString :: split sep s'
      else match split sep s' with
           | [] => [String c EmptyString]
           | h :: t => String c h :: t
           end
  end.

(** [s.includes(sub)] *)
Fixpoint includes (s sub : string) : bool :=
  startsWith s sub ||
  match s with
  | EmptyString => false
  | String _ s' => includes s' sub
  end.

(** ** The JavaScript [Map] *)

Module JsMap.
Section Ops.
Context {V : Type}.
Implicit Types (m : list (string * V)) (k : string) (v : V).

Fixpoint get k m : option V :=
  match m with
  | [] => None
  | (k', v) :: m' => if String.eqb k k' then Some v else get k m'
  end.

Definition has k m : bool :=
  match get k m with Some _ => true | None => false end.

(** [set] keeps the position of a key that is present and appends a new
    key at the end. *)
Fixpoint set k v m : list (string * V) :=
  match m with
  | [] => [(k, v)]
  | (k', v') :: m' =>
      if String.eqb k k' then (k', v) :: m' else (k', v') :: set k v m'
  end.

Fixpoint delete k m : list (string * V) :=
  match m with
  | [] => []
  | (k', v') :: m' =>
      if String.eqb k k' then delete k m' else (k', v') :: delete k m'
  end.

Definition keys m : list string := map fst m.
End Ops.
End JsMap.


(** ** Identities of shared objects *)

(** DOM input elements, toolbar roots, mount containers of the host page and
    assistant objects are referred to by identity. The toolbar root built for
    an assistant object carries the identity of that object. *)
Definition ElemId := nat.
Definition UiId := nat.
Definition MpId := nat.
Definition WId := nat.

(** ** Listeners and their de-registration closures *)

(** [Resize] stands for a [ResizeObserver] observing the element. *)
Inductive EvKind := Blur | Input | Resize.

#[global] Instance EvKind_eq_dec : EqDecision EvKind.
Proof. solve_decision. Defined.

(** The closures pushed on [_eventCleanupFunctions]: the function returned by
    [EventManager.addDOMListener] for an element (or [disconnect] of an
    observer), and the one returned for the window resize fallback. *)
Inductive Cleanup :=
  | RemoveListener (e : ElemId) (k : EvKind) (w : WId)
  | RemoveWindowResize (w : WId).

(** ** DOM input elements *)

Inductive ElemKind := TEXTAREA | ComfyMarkdown | Tiptap | ContentEditable | Plain.

(** The properties of an input element the code reads and writes. The kind
    tells a textarea, an element of class comfy-markdown, one of class tiptap
    or ProseMirror, another content-editable element, and anything else.
    [value] stands for the text [getInputValue] and [setInputValue] work on:
    the property [value] of a textarea, and [textContent] or [innerHTML] of
    an editor. Only a textarea has a property [value], see [dom_value]; the
    other kinds are elements that are not form controls. For a comfy-markdown
    wrapper the inner editor is identified with the wrapper. [in_body] is
    [document.body.contains(el)]. *)
Module Elem.
Record t := mk {
  kind : ElemKind;
  value : string;
  in_body : bool;
  _promptAssistantMounted : bool;
  _promptAssistantWidgetKey : option string;
  _promptAssistantBound : bool;
  promptAssistantUniqueId : option string;
  listeners : list (EvKind * WId);
  dispatched : list string
}.

(** An element none of whose properties has been set. *)
Definition blank : t := mk Plain "" false false None false None [] [].

Definition set_value (v : string) (e : t) : t :=
  mk (kind e) v (in_body e) (_promptAssistantMounted e)
     (_promptAssistantWidgetKey e) (_promptAssistantBound e)
     (promptAssistantUniqueId e) (listeners e) (dispatched e).

Definition set_marker (m : bool) (k : option string) (e : t) : t :=
  mk (kind e) (value e) (in_body e) m k (_promptAssistantBound e)
     (promptAssistantUniqueId e) (listeners e) (dispatched e).

Definition set_bound (b : bool) (e : t) : t :=
  mk (kind e) (value e) (in_body e) (_promptAssistantMounted e)
     (_promptAssistantWidgetKey e) b
     (promptAssistantUniqueId e) (listeners e) (dispatched e).

Definition set_uniqueId (u : option string) (e : t) : t :=
  mk (kind e) (value e) (in_body e) (_promptAssistantMounted e)
     (_promptAssistantWidgetKey e) (_promptAssistantBound e)
     u (listeners e) (dispatched e).

Definition set_listeners (l : list (EvKind * WId)) (e : t) : t :=
  mk (kind e) (value e) (in_body e) (_promptAssistantMounted e)
     (_promptAssistantWidgetKey e) (_promptAssistantBound e)
     (promptAssistantUniqueId e) l (dispatched e).

(** The host takes the element out of the document or puts it back. *)
Definition set_in_body (b : bool) (e : t) : t :=
  mk (kind e) (value e) b (_promptAssistantMounted e)
     (_promptAssistantWidgetKey e) (_promptAssistantBound e)
     (promptAssistantUniqueId e) (listeners e) (dispatched e).

Definition dispatch (evs : list string) (e : t) : t :=
  mk (kind e) (value e) (in_body e) (_promptAssistantMounted e)
     (_promptAssistantWidgetKey e) (_promptAssistantBound e)
     (promptAssistantUniqueId e) (listeners e) (dispatched e ++ evs).
End Elem.

(** ** Assistant objects *)

Inductive RenderMode := VUE_NODES | LITEGRAPH.

(** The object literal built by [createAssistant] and the properties added to
    it later. A property that is [undefined] is [None] (or [false], [[]]).
    [workflow_id], [nodeType] and [isVueMode] are the fields of [nodeInfo]. *)
Module Assistant.
Record t := mk {
  nodeId : option JsId;
  inputId : option string;
  widgetKey : option string;
  text_element : option ElemId;
  inputEl : option ElemId;
  isDestroyed : bool;
  _isMounting : bool;
  workflow_id : option string;
  nodeType : option string;
  isVueMode : bool;
  container : option UiId;
  element : option UiId;
  _eventCleanupFunctions : list Cleanup;
  _undoStateInitialized : bool;
  _inputEventsBound : bool;
  _renderMode : option RenderMode
}.

(** What is left of an object once [_cleanupInstance] has deleted every
    enumerable property of it. *)
Definition husk : t :=
  mk None None None None None false false None
     None false None None [] false false None.

Definition set_els (te : option ElemId) (ie : option ElemId) (a : t) : t :=
  mk (nodeId a) (inputId a) (widgetKey a) te ie (isDestroyed a)
     (_isMounting a) (workflow_id a) (nodeType a) (isVueMode a)
     (container a) (element a) (_eventCleanupFunctions a)
     (_undoStateInitialized a) (_inputEventsBound a) (_renderMode a).

Definition set_isDestroyed (b : bool) (a : t) : t :=
  mk (nodeId a) (inputId a) (widgetKey a) (text_element a) (inputEl a) b
     (_isMounting a) (workflow_id a) (nodeType a) (isVueMode a)
     (container a) (element a) (_eventCleanupFunctions a)
     (_undoStateInitialized a) (_inputEventsBound a) (_renderMode a).

Definition set_isMounting (b : bool) (a : t) : t :=
  mk (nodeId a) (inputId a) (widgetKey a) (text_element a) (inputEl a)
     (isDestroyed a) b (workflow_id a) (nodeType a) (isVueMode a)
     (container a) (element a) (_eventCleanupFunctions a)
     (_undoStateInitialized a) (_inputEventsBound a) (_renderMode a).

Definition set_ui (c : option UiId) (e : option UiId) (a : t) : t :=
  mk (nodeId a) (inputId a) (widgetKey a) (text_element a) (inputEl a)
     (isDestroyed a) (_isMounting a) (workflow_id a) (nodeType a)
     (isVueMode a) c e (_eventCleanupFunctions a) (_undoStateInitialized a)
     (_inputEventsBound a) (_renderMode a).

Definition set_cleanups (l : list Cleanup) (a : t) : t :=
  mk (nodeId a) (inputId a) (widgetKey a) (text_element a) (inputEl a)
     (isDestroyed a) (_isMounting a) (workflow_id a) (nodeType a)
     (isVueMode a) (container a) (element a) l (_undoStateInitialized a)
     (_inputEventsBound a) (_renderMode a).

Definition set_undoStateInitialized (b : bool) (a : t) : t :=
  mk (nodeId a) (inputId a) (widgetKey a) (text_element a) (inputEl a)
     (isDestroyed a) (_isMounting a) (workflow_id a) (nodeType a)
     (isVueMode a) (container a) (element a) (_eventCleanupFunctions a) b
     (_inputEventsBound a) (_renderMode a).

Definition set_inputEventsBound (b : bool) (a : t) : t :=
  mk (nodeId a) (inputId a) (widgetKey a) (text_element a) (inputEl a)
     (isDestroyed a) (_isMounting a) (workflow_id a) (nodeType a)
     (isVueMode a) (container a) (element a) (_eventCleanupFunctions a)
     (_undoStateInitialized a) b (_renderMode a).

Definition set_renderMode (r : option RenderMode) (a : t) : t :=
  mk (nodeId a) (inputId a) (widgetKey a) (text_element a) (inputEl a)
     (isDestroyed a) (_isMounting a) (workflow_id a) (nodeType a)
     (isVueMode a) (container a) (element a) (_eventCleanupFunctions a)
     (_undoStateInitialized a) (_inputEventsBound a) r.
End Assistant.

(** ** Calls to the cache services *)

Inductive OpType := op_input | op_expand | op_translate.

(** The record passed to [HistoryCacheService.addHistory]; the timestamp and
    the request id, which come from the clock and from [APIService], are
    left out. The content is [None] when the code passes [undefined]. *)
Record HistoryItem := mkItem {
  item_workflow_id : string;
  item_node_id : option JsId;
  item_input_id : option string;
  item_content : option string;
  item_operation_type : OpType
}.

(** The mutating entry points of [HistoryCacheService] and
    [TagCacheService] the code calls. The content handed to [initUndoState]
    is [None] when the code passes [undefined]. *)
Inductive ServiceCall :=
  | addHistory (item : HistoryItem)
  | addHistoryAndUpdateUndoState
      (nodeId : option JsId) (inputId : option string) (content : string)
  | initUndoState
      (nodeId : option JsId) (inputId : option string)
      (content : option string)
  | clearNodeHistory (nodeId : JsId)
  | clearAllHistory
  | clearCache (nodeId : JsId) (inputId : string)
  | clearAllTagCache.

(** Lines written with [logger.log]. The counts interpolated in the summary
    lines are read from the cache services and are not represented. *)
Inductive LogLine :=
  | log_node_summary (nodeId : JsId) (instanceNames : list string)
  | log_global_summary (instanceNames : list string)
  | log_remaining.

(** Requests sent to a translation or language-model provider. *)
Inductive ProviderCall :=
  | googleTranslate (text : string)
  | baiduTranslate (text : string)
  | llmTranslateStream (text : string)
  | llmTranslate (text : string)
  | llmExpandPromptStream (text : string)
  | llmExpandPrompt (text : string).

(** ** The state of the page *)

Record State := mkState {
  instances : list (string * WId);
  heap : gmap WId Assistant.t;
  next_obj : WId;
  elems : gmap ElemId Elem.t;
  dom_parent : gmap UiId MpId;
  destroyed : list UiId;
  PromptAssistantInputWidgetMap : gmap string (option ElemId * WId);
  window_resize : list WId;
  cache_calls : list ServiceCall;
  translate_cache : list (string * string);
  provider_calls : list ProviderCall;
  log : list LogLine;
  entropy : nat
}.

Definition with_instances (f : list (string * WId) -> list (string * WId))
  (s : State) : State :=
  mkState (f (instances s)) (heap s) (next_obj s) (elems s) (dom_parent s)
    (destroyed s) (PromptAssistantInputWidgetMap s) (window_resize s)
    (cache_calls s) (translate_cache s) (provider_calls s) (log s) (entropy s).

Definition with_heap (f : gmap WId Assistant.t -> gmap WId Assistant.t)
  (s : State) : State :=
  mkState (instances s) (f (heap s)) (next_obj s) (elems s) (dom_parent s)
    (destroyed s) (PromptAssistantInputWidgetMap s) (window_resize s)
    (cache_calls s) (translate_cache s) (provider_calls s) (log s) (entropy s).

Definition with_next_obj (n : WId) (s : State) : State :=
  mkState (instances s) (heap s) n (elems s) (dom_parent s)
    (destroyed s) (PromptAssistantInputWidgetMap s) (window_resize s)
    (cache_calls s) (translate_cache s) (provider_calls s) (log s) (entropy s).

Definition with_elems (f : gmap ElemId Elem.t -> gmap ElemId Elem.t)
  (s : State) : State :=
  mkState (instances s) (heap s) (next_obj s) (f (elems s)) (dom_parent s)
    (destroyed s) (PromptAssistantInputWidgetMap s) (window_resize s)
    (cache_calls s) (translate_cache s) (provider_calls s) (log s) (entropy s).

Definition with_dom_parent (f : gmap UiId MpId -> gmap UiId MpId)
  (s : State) : State :=
  mkState (instances s) (heap s) (next_obj s) (elems s) (f (dom_parent s))
    (destroyed s) (PromptAssistantInputWidgetMap s) (window_resize s)
    (cache_calls s) (translate_cache s) (provider_calls s) (log s) (entropy s).

Definition with_destroyed (f : list UiId -> list UiId) (s : State) : State :=
  mkState (instances s) (heap s) (next_obj s) (elems s) (dom_parent s)
    (f (destroyed s)) (PromptAssistantInputWidgetMap s) (window_resize s)
    (cache_calls s) (translate_cache s) (provider_calls s) (log s) (entropy s).

Definition with_inputWidgetMap
  (f : gmap string (option ElemId * WId) -> gmap string (option ElemId * WId))
  (s : State) : State :=
  mkState (instances s) (heap s) (next_obj s) (elems s) (dom_parent s)
    (destroyed s) (f (PromptAssistantInputWidgetMap s)) (window_resize s)
    (cache_calls s) (translate_cache s) (provider_calls s) (log s) (entropy s).

Definition with_window_resize (f : list WId -> list WId) (s : State) : State :=
  mkState (instances s) (heap s) (next_obj s) (elems s) (dom_parent s)
    (destroyed s) (PromptAssistantInputWidgetMap s) (f (window_resize s))
    (cache_calls s) (translate_cache s) (provider_calls s) (log s) (entropy s).

Definition with_cache_calls (f : list ServiceCall -> list ServiceCall)
  (s : State) : State :=
  mkState (instances s) (heap s) (next_obj s) (elems s) (dom_parent s)
    (destroyed s) (PromptAssistantInputWidgetMap s) (window_resize s)
    (f (cache_calls s)) (translate_cache s) (provider_calls s) (log s)
    (entropy s).

Definition with_translate_cache
  (f : list (string * string) -> list (string * string)) (s : State) : State :=
  mkState (instances s) (heap s) (next_obj s) (elems s) (dom_parent s)
    (destroyed s) (PromptAssistantInputWidgetMap s) (window_resize s)
    (cache_calls s) (f (translate_cache s)) (provider_calls s) (log s)
    (entropy s).

Definition with_provider_calls (f : list ProviderCall -> list ProviderCall)
  (s : State) : State :=
  mkState (instances s) (heap s) (next_obj s) (elems s) (dom_parent s)
    (destroyed s) (PromptAssistantInputWidgetMap s) (window_resize s)
    (cache_calls s) (translate_cache s) (f (provider_calls s)) (log s)
    (entropy s).

Definition with_log (f : list LogLine -> list LogLine) (s : State) : State :=
  mkState (instances s) (heap s) (next_obj s) (elems s) (dom_parent s)
    (destroyed s) (PromptAssistantInputWidgetMap s) (window_resize s)
    (cache_calls s) (translate_cache s) (provider_calls s) (f (log s))
    (entropy s).

Definition with_entropy (n : nat) (s : State) : State :=
  mkState (instances s) (heap s) (next_obj s) (elems s) (dom_parent s)
    (destroyed s) (PromptAssistantInputWidgetMap s) (window_resize s)
    (cache_calls s) (translate_cache s) (provider_calls s) (log s) n.

(** Reading and writing the stores. An identity without an entry denotes an
    object none of whose properties has been set. *)
Definition get_elem (e : ElemId) (s : State) : Elem.t :=
  default Elem.blank (elems s !! e).

Definition upd_elem (e : ElemId) (f : Elem.t -> Elem.t) (s : State) : State :=
  with_elems (fun m => <[e := f (get_elem e s)]> m) s.

Definition get_obj (w : WId) (s : State) : Assistant.t :=
  default Assistant.husk (heap s !! w).

Definition upd_obj (w : WId) (f : Assistant.t -> Assistant.t) (s : State)
  : State :=
  with_heap (fun m => <[w := f (get_obj w s)]> m) s.

Definition call (c : ServiceCall) (s : State) : State :=
  with_cache_calls (fun l => l ++ [c]) s.

Definition logger_log (l : LogLine) (s : State) : State :=
  with_log (fun ls => ls ++ [l]) s.

(** Removal of one occurrence, as a de-registration closure does. *)
Fixpoint remove_one {A} `{EqDecision A} (x : A) (l : list A) : list A :=
  match l with
  | [] => []
  | y :: l' => if decide (x = y) then l' else y :: remove_one x l'
  end.

Definition run_cleanup (c : Cleanup) (s : State) : State :=
  match c with
  | RemoveListener e k w =>
      upd_elem e (fun el =>
        Elem.set_listeners (remove_one (k, w) (Elem.listeners el)) el) s
  | RemoveWindowResize w => with_window_resize (remove_one w) s
  end.

(** Two states that differ at most in the input elements and in the window
    listeners. *)
Definition same_but_elems (s s' : State) : Prop :=
  instances s' = instances s /\ heap s' = heap s
  /\ next_obj s' = next_obj s /\ dom_parent s' = dom_parent s
  /\ destroyed s' = destroyed s
  /\ PromptAssistantInputWidgetMap s' = PromptAssistantInputWidgetMap s
  /\ cache_calls s' = cache_calls s
  /\ translate_cache s' = translate_cache s
  /\ provider_calls s' = provider_calls s
  /\ log s' = log s /\ entropy s' = entropy s.

(** ** The host: nodes, widgets and the page *)

Record Graph := mkGraph {
  graph_id : option JsId;
  graph_workflow_id : option JsId
}.

(** An entry of [node.widgets], or the virtual widget built by the DOM scan.
    The back reference [widget.node], which the code fills in when it is
    missing, is not represented. *)
Module InputWidget.
Record t := mk {
  name : option string;
  id : option string;
  inputEl : option ElemId;
  element : option ElemId
}.
End InputWidget.

(** [type] is [None] when [typeof node.type] is not ['string']; [widgets] is
    [None] when [node.widgets] is missing. *)
Module Node.
Record t := mk {
  id : option JsId;
  type : option string;
  widgets : option (list InputWidget.t);
  graph : option Graph;
  constructor_name : option string
}.
End Node.

(** What [document.querySelector('[data-node-id=...]')] and the queries below
    that container return. *)
Record NodeDom := mkNodeDom {
  p_textareas : list ElemId;
  all_textareas : list ElemId;
  tiptap_editor : option ElemId
}.

(** Everything the code reads and does not own: the feature flags, the
    globals of the page, the collaborators that are not part of the sources
    ([UIToolkit.isValidInput], [PromptFormatter], [MarkdownNoteTranslate]),
    the clock and the random source, and the attachment of mount containers.
    [protectAndExtract_texts html] is the [texts] of
    [MarkdownNoteTranslate.protectAndExtract(html)], and
    [restoreWithTranslations html segments] the text restored from the
    placeholders of [html] and the translated segments.
    [global_graphId] is the binding of the identifier [graphId] in the global
    scope of the page, if it has one. [Date_now] and [Math_random] give the
    text interpolated at the n-th draw. [mp_node] gives the [data-node-id] of
    the node container around a mount container. *)
Record Host := mkHost {
  FEATURES_enabled : bool;
  PROMPT_ASSISTANT_WORKFLOW_SWITCHING : bool;
  vueNodesMode : bool;
  isVueNodesMode : bool;
  ResizeObserver : bool;
  app_graph : option Graph;
  global_graphId : option string;
  isValidInput : InputWidget.t -> Node.t -> bool;
  Date_now : nat -> string;
  Math_random : nat -> string;
  mp_in_body : MpId -> bool;
  mp_node : MpId -> option string;
  node_dom : string -> option NodeDom;
  useTranslateCache : bool;
  cacheMixedLangTranslation : bool;
  enableStreaming : bool;
  formatTranslatedText : string -> string;
  isMixedChineseEnglish : string -> bool;
  protectAndExtract_texts : string -> list string;
  restoreWithTranslations : string -> list string -> string
}.

(** ** The registry *)

(** [PromptAssistant.addInstance], for a key and an object that are not
    [null]. *)
Definition addInstance (key : string) (w : WId) (s : State) : State :=
  with_instances (JsMap.set key w) s.

Definition getInstance (key : string) (s : State) : option WId :=
  JsMap.get key (instances s).

Definition hasInstance (key : string) (s : State) : bool :=
  JsMap.has key (instances s).

(** ** Teardown of one instance: [_cleanupInstance] *)

Definition reset_bound (oe : option ElemId) (s : State) : State :=
  match oe with
  | Some e =>
      if Elem._promptAssistantBound (get_elem e s)
      then upd_elem e (Elem.set_bound false) s
      else s
  | None => s
  end.

(** [el._promptAssistantMounted = false; delete el._promptAssistantWidgetKey] *)
Definition reset_marker (e : ElemId) (s : State) : State :=
  upd_elem e (Elem.set_marker false None) s.

(** The mount marker of an element that carries one is reset. *)
Definition reset_marker_if_mounted (e : ElemId) (s : State) : State :=
  if Elem._promptAssistantMounted (get_elem e s) then reset_marker e s else s.

(** Steps 3 to 3.6: every saved de-registration closure is run, then the
    binding flag and the mount marker of [inputEl] and of [text_element] are
    reset; the marker of [text_element] only when it is another element. *)
Definition cleanup_elements (a : Assistant.t) (s : State) : State :=
  let s := foldl (fun s c => run_cleanup c s) s
             (Assistant._eventCleanupFunctions a) in
  let s := reset_bound (Assistant.inputEl a) s in
  let s := reset_bound (Assistant.text_element a) s in
  let s := from_option (fun e => reset_marker_if_mounted e s) s
             (Assistant.inputEl a) in
  match Assistant.text_element a with
  | Some e =>
      if bool_decide (Assistant.text_element a = Assistant.inputEl a)
      then s else reset_marker_if_mounted e s
  | None => s
  end.

(** The writes to [isDestroyed], [buttons], [_eventCleanupFunctions],
    [_undoStateInitialized] and [_inputEventsBound] that precede step 8 are
    subsumed by it: step 8 deletes these properties and nothing reads them in
    between. *)
Definition _cleanupInstance (w : WId) (instanceKey : string)
  (skipRemove : bool) (s : State) : State :=
  let a := get_obj w s in
  let s := cleanup_elements a s in
  (* 4. the toolbar root is removed from its parent *)
  let s := from_option (fun ui => with_dom_parent (delete ui) s) s
             (Assistant.element a) in
  (* 5. the entry of the global input map is deleted *)
  let s :=
    if truthy_str instanceKey
    then with_inputWidgetMap (delete instanceKey) s else s in
  (* 7. removal from the registry unless told to skip it *)
  let s :=
    if negb skipRemove && truthy_str instanceKey
    then with_instances (JsMap.delete instanceKey) s else s in
  (* 8. every property of the object is deleted *)
  with_heap (insert w Assistant.husk) s.

(** ** [cleanup(nodeId, silent)] *)

(** The filter of the node branch: the exact key, the old [nodeId_] prefix, or
    [nodeId] as second [_]-separated part. *)
Definition key_matches (searchId key : string) : bool :=
  String.eqb key searchId
  || startsWith key (searchId +:+ "_")
  || let parts := split "_" key in
     (2 <=? length parts)%nat && bool_decide (parts !! 1 = Some searchId).

(** The filter of the branch taken while a workflow is being switched. *)
Definition key_matches_switching (nodeId : option JsId) (key : string) : bool :=
  match nodeId with
  | None => true
  | Some n => startsWith key (String_ n +:+ "_")
  end.

(** One round of the loop that clears the tag cache of the matching
    instances and collects their names. *)
Definition clear_tags_step (n : JsId) (acc : State * list string)
  (key : string) : State * list string :=
  let '(s, names) := acc in
  match getInstance key s with
  | Some w =>
      match Assistant.inputId (get_obj w s) with
      | Some i =>
          if truthy_str i
          then (call (clearCache n i) s, names ++ [i])
          else (s, names)
      | None => (s, names)
      end
  | None => (s, names)
  end.

(** The loop of the branch taken while a workflow is being switched. *)
Definition switching_step (s : State) (key : string) : State :=
  match getInstance key s with
  | Some w => _cleanupInstance w key false s
  | None => s
  end.

(** The loop of the node branch that tears the instances down. *)
Definition node_step (s : State) (key : string) : State :=
  match getInstance key s with
  | Some w => with_instances (JsMap.delete key) (_cleanupInstance w key true s)
  | None => s
  end.

(** The loop of the global branch, over the entries of the registry. *)
Definition global_step (acc : State * list string) (kv : string * WId)
  : State * list string :=
  let '(s, names) := acc in
  let '(key, w) := kv in
  let a := get_obj w s in
  (_cleanupInstance w key true s,
   names ++ [default key (or_str (Assistant.inputId a) None)]).

Definition cleanup (h : Host) (nodeId : option JsId) (silent : bool)
  (s : State) : State :=
  if PROMPT_ASSISTANT_WORKFLOW_SWITCHING h then
    (* only the toolbars are torn down, the caches are kept *)
    let keysToDelete :=
      filter (fun key => key_matches_switching nodeId key = true)
        (JsMap.keys (instances s)) in
    let s := foldl switching_step s keysToDelete in
    match nodeId with
    | None => with_instances (fun _ => []) s
    | Some _ => s
    end
  else
    match nodeId with
    | Some n =>
        let searchId := String_ n in
        let keysToDelete :=
          filter (fun key => key_matches searchId key = true)
            (JsMap.keys (instances s)) in
        if (0 <? length keysToDelete)%nat then
          let s := call (clearNodeHistory n) s in
          let r := foldl (clear_tags_step n) (s, []) keysToDelete in
          let s := foldl node_step r.1 keysToDelete in
          if negb silent
          then logger_log (log_node_summary n r.2) s
          else s
        else s
    | None =>
        if (0 <? length (instances s))%nat then
          let s := call clearAllHistory s in
          let s := call clearAllTagCache s in
          let r := foldl global_step (s, []) (instances s) in
          let s := with_instances (fun _ => []) r.1 in
          if negb silent
          then logger_log log_remaining
                 (logger_log (log_global_summary r.2) s)
          else s
        else s
    end.

(** The keys a call of [cleanup] selects: the filter of the branch it takes. *)
Definition cleanup_selects (h : Host) (nodeId : option JsId) (key : string)
  : bool :=
  if PROMPT_ASSISTANT_WORKFLOW_SWITCHING h
  then key_matches_switching nodeId key
  else match nodeId with
       | Some n => key_matches (String_ n) key
       | None => true
       end.

(** ** Node classification *)

Definition lower_ascii (c : ascii) : ascii :=
  let n := nat_of_ascii c in
  if (65 <=? n)%nat && (n <=? 90)%nat then ascii_of_nat (n + 32) else c.

(** [s.toLowerCase()]; only the letters A-Z are mapped, which is what the
    method does on the ASCII part of a string. *)
Fixpoint toLowerCase (s : string) : string :=
  match s with
  | EmptyString => EmptyString
  | String c s' => String (lower_ascii c) (toLowerCase s')
  end.

Definition is_hex (c : ascii) : bool :=
  let n := nat_of_ascii (lower_ascii c) in
  ((48 <=? n)%nat && (n <=? 57)%nat) || ((97 <=? n)%nat && (n <=? 102)%nat).

(** Reads [n] hexadecimal digits. *)
Fixpoint hex_run (n : nat) (s : string) : option string :=
  match n, s with
  | O, _ => Some s
  | S n', String c s' => if is_hex c then hex_run n' s' else None
  | S _, EmptyString => None
  end.

(** Groups of hexadecimal digits separated by dashes, up to the end. *)
Fixpoint hex_groups (gs : list nat) (s : string) : bool :=
  match gs with
  | [] => false
  | n :: gs' =>
      match hex_run n s, gs' with
      | Some EmptyString, [] => true
      | Some (String "-" s'), _ :: _ => hex_groups gs' s'
      | _, _ => false
      end
  end.

(** The test [/^[0-9a-f]{8}-[0-9a-f]{4}-[0-9a-f]{4}-[0-9a-f]{4}-[0-9a-f]{12}$/i]. *)
Definition is_uuid (s : string) : bool := hex_groups [8; 4; 4; 4; 12]%nat s.

Definition markdownNodeTypes : list string :=
  ["Note"; "MarkdownNote"; "PreviewAny"; "PreviewTextNode"].

Definition str_in (x : string) (l : list string) : bool :=
  existsb (String.eqb x) l.

Definition _isMarkdownNode (node : Node.t) : bool :=
  match Node.type node with
  | None => false
  | Some ty =>
      truthy_str ty &&
      (str_in ty markdownNodeTypes
       || let typeLower := toLowerCase ty in
          includes typeLower "markdown"
          || (includes typeLower "preview" && includes typeLower "text")
          || includes typeLower "subgraph")
  end.

Definition _isSubgraphNode (node : Node.t) : bool :=
  match Node.type node with
  | None => false
  | Some ty => truthy_str ty && is_uuid ty
  end.

(** [PromptAssistant.isValidNode] *)
Definition isValidNode (h : Host) (node : Node.t) : bool :=
  match Node.id node with
  | None => false
  | Some i =>
      if bool_decide (i = IdNum (-1)) then false
      else
        match Node.type node with
        | None => false
        | Some ty =>
            let isMarkdownNode :=
              str_in ty markdownNodeTypes
              || includes (toLowerCase ty) "markdown"
              || (includes (toLowerCase ty) "preview"
                  && includes (toLowerCase ty) "text") in
            let isUUIDType := is_uuid ty in
            let isSubgraphType :=
              String.eqb ty "Subgraph"
              || startsWith ty "workflow/"
              || bool_decide (Node.constructor_name node = Some "Subgraph") in
            if vueNodesMode h && (isMarkdownNode || isUUIDType || isSubgraphType)
            then true
            else match Node.widgets node with Some _ => true | None => false end
        end
  end.

(** ** Keys *)

(** [graph?.id || graph?._workflow_id || 'main'] for
    [graph = node.graph || app.graph]. *)
Definition graphId_of (h : Host) (node : Node.t) : string :=
  let graph := match Node.graph node with
               | Some g => Some g
               | None => app_graph h
               end in
  let pick (x : option JsId) :=
    match x with
    | Some v => if truthy_id v then Some (String_ v) else None
    | None => None
    end in
  match graph with
  | Some g =>
      match pick (graph_id g) with
      | Some v => v
      | None => default "main" (pick (graph_workflow_id g))
      end
  | None => "main"
  end.

(** [_getAssistantKey(node, inputId)] for a node that is not [null]. *)
Definition _getAssistantKey (h : Host) (node : Node.t)
  (inputId : option string) : string :=
  graphId_of h node +:+ "_" +:+ interp (Node.id node) +:+ "_"
  +:+ interp_str inputId.

(** ** Blank text *)

Definition three_byte_space (a b c : nat) : bool :=
  (((a =? 225) && (b =? 154) && (c =? 128))
   || ((a =? 226) && (b =? 128)
       && (((128 <=? c) && (c <=? 138)) || (c =? 168) || (c =? 169)
           || (c =? 175)))
   || ((a =? 226) && (b =? 129) && (c =? 159))
   || ((a =? 227) && (b =? 128) && (c =? 128))
   || ((a =? 239) && (b =? 187) && (c =? 191)))%nat.

(** [s.trim() === ''] on the UTF-8 encoding of [s]: the white space and line
    terminator characters of ECMAScript are skipped. *)
Fixpoint blank (s : string) : bool :=
  match s with
  | EmptyString => true
  | String c1 s1 =>
      let a := nat_of_ascii c1 in
      if (((9 <=? a) && (a <=? 13)) || (a =? 32))%nat then blank s1
      else
        match s1 with
        | String c2 s2 =>
            let b := nat_of_ascii c2 in
            if ((a =? 194) && (b =? 160))%nat then blank s2
            else
              match s2 with
              | String c3 s3 =>
                  if three_byte_space a b (nat_of_ascii c3) then blank s3
                  else false
              | EmptyString => false
              end
        | EmptyString => false
        end
  end.

(** ** Event binding *)

Definition add_listener (e : ElemId) (k : EvKind) (w : WId) (s : State)
  : State :=
  upd_elem e (fun el => Elem.set_listeners (Elem.listeners el ++ [(k, w)]) el) s.

Definition push_cleanup (w : WId) (c : Cleanup) (s : State) : State :=
  upd_obj w (fun a =>
    Assistant.set_cleanups (Assistant._eventCleanupFunctions a ++ [c]) a) s.

(** [EventManager.addDOMListener(el, kind, ...)] followed by the push of the
    function it returns; for [Resize], [new ResizeObserver(..).observe(el)]
    followed by the push of its [disconnect]. *)
Definition listen (e : ElemId) (k : EvKind) (w : WId) (s : State) : State :=
  push_cleanup w (RemoveListener e k w) (add_listener e k w s).

(** The window resize fallback used when there is no [ResizeObserver]. *)
Definition listen_window (w : WId) (s : State) : State :=
  push_cleanup w (RemoveWindowResize w)
    (with_window_resize (fun l => l ++ [w]) s).

(** [el.value]: the text of a textarea. An element of another kind is not a
    form control and has no such property, so the read gives [undefined]. *)
Definition dom_value (el : Elem.t) : option string :=
  match Elem.kind el with
  | TEXTAREA => Some (Elem.value el)
  | _ => None
  end.

(** [a || b] on element references. *)
Definition or_el (a b : option ElemId) : option ElemId :=
  match a with Some _ => a | None => b end.

(** [_initializeInputElBindings(widget, inputWidget, node, inputId, nodeInfo)] *)
Definition _initializeInputElBindings (h : Host) (w : WId)
  (inputWidget : InputWidget.t) (node : Node.t) (inputId : option string)
  (s : State) : State :=
  match or_el (InputWidget.inputEl inputWidget) (Assistant.inputEl (get_obj w s))
  with
  | None => s
  | Some inputEl =>
      let nodeId := Node.id node in
      (* the undo state is initialised once per widget *)
      let s :=
        if Assistant._undoStateInitialized (get_obj w s) then s
        else
          (* [inputEl.value || ''] *)
          let initialValue := default "" (dom_value (get_elem inputEl s)) in
          let s :=
            if negb (blank initialValue)
            then call (addHistoryAndUpdateUndoState nodeId inputId initialValue) s
            else call (initUndoState nodeId inputId (Some initialValue)) s in
          upd_obj w (Assistant.set_undoStateInitialized true) s in
      (* the guard is the flag of the widget *)
      if Assistant._inputEventsBound (get_obj w s) then s
      else
        let s := upd_elem inputEl (Elem.set_bound true) s in
        let s := upd_obj w (Assistant.set_inputEventsBound true) s in
        let s := listen inputEl Blur w s in
        let s := listen inputEl Input w s in
        if ResizeObserver h then listen inputEl Resize w s
        else listen_window w s
  end.

(** The listener registered for [blur], by [_initializeInputElBindings] and
    by the fallback binding of both positioning functions alike: the value of
    the element is recorded as an input of the user and the undo state is
    reset to it. [workflow_id], [nodeId] and [inputId] are what the closure
    reads from its call or from the widget. *)
Definition blur_listener (workflow_id : option string) (nodeId : option JsId)
  (inputId : option string) (inputEl : ElemId) (s : State) : State :=
  let content := dom_value (get_elem inputEl s) in
  let s :=
    call (addHistory
            (mkItem (default "" (or_str workflow_id None)) nodeId inputId
               content op_input)) s in
  call (initUndoState nodeId inputId content) s.

(** ** Positioning *)

(** What [nodeMountService.findMountContainerWithRetry] resolves to when it
    finds a container. [ci_nodeTextareas] lists, when [nodeContainer] is
    present, the textareas below it with their parent elements. *)
Record ContainerInfo := mkInfo {
  ci_mode : RenderMode;
  ci_container : MpId;
  ci_textarea : option ElemId;
  ci_nodeTextareas : option (list (ElemId * MpId));
  ci_isNoteNode : bool
}.

(** [container.destroy()] of the toolbar with root [ui]. *)
Definition destroy (ui : UiId) (s : State) : State :=
  with_destroyed (fun l => l ++ [ui]) s.

(** [widget.inputEl = textarea; widget.text_element = textarea] and the same
    update of the entry of the global input map, when there is one. *)
Definition retarget (w : WId) (textarea : ElemId) (s : State) : State :=
  let key := interp_str (Assistant.widgetKey (get_obj w s)) in
  let s := upd_obj w (Assistant.set_els (Some textarea) (Some textarea)) s in
  match PromptAssistantInputWidgetMap s !! key with
  | Some (_, o) => with_inputWidgetMap (insert key (Some textarea, o)) s
  | None => s
  end.

(** [mp.querySelector('.assistant-container-common')]: a toolbar root is
    attached below the mount container. *)
Definition has_assistant (mp : MpId) (s : State) : bool :=
  existsb (fun p => Nat.eqb p.2 mp) (map_to_list (dom_parent s)).

(** [mp.contains(ui)] *)
Definition contains (mp : MpId) (ui : UiId) (s : State) : bool :=
  bool_decide (dom_parent s !! ui = Some mp).

(** The removal of the candidate from the registry and the destruction of its
    container: [_cleanupRedundantWidget], and the same statements spelled out
    twice in [_applyLitegraphPositioning]. *)
Definition _cleanupRedundantWidget (w : WId) (s : State) : State :=
  let a := get_obj w s in
  let s :=
    match Assistant.widgetKey a with
    | Some k =>
        if truthy_str k && hasInstance k s
        then with_instances (JsMap.delete k) s else s
    | None => s
    end in
  match Assistant.container a with
  | Some c => destroy c s
  | None => s
  end.

(** [el._promptAssistantMounted = true; el._promptAssistantWidgetKey = key] *)
Definition claim (e : ElemId) (key : option string) (s : State) : State :=
  upd_elem e (Elem.set_marker true key) s.

(** The part of both positioning functions that initialises the undo state
    when the widget has not done so, with [el.value] as it is read. *)
Definition init_undo_if_needed (w : WId) (e : ElemId) (s : State) : State :=
  if Assistant._undoStateInitialized (get_obj w s) then s
  else
    let a := get_obj w s in
    let s := call (initUndoState (Assistant.nodeId a) (Assistant.inputId a)
                     (dom_value (get_elem e s))) s in
    upd_obj w (Assistant.set_undoStateInitialized true) s.

(** [_applyLitegraphPositioning(widget, containerDiv, containerInfo)] *)
Definition _applyLitegraphPositioning (w : WId) (containerDiv : UiId)
  (ci : ContainerInfo) (s : State) : State :=
  let domWidgetContainer := ci_container ci in
  let textarea := ci_textarea ci in
  (* the reference to the input element is corrected *)
  let s :=
    match textarea with
    | Some t =>
        if bool_decide (Assistant.inputEl (get_obj w s) = Some t) then s
        else retarget w t s
    | None => s
    end in
  let inputEl := or_el (Assistant.inputEl (get_obj w s)) textarea in
  let isBound := Assistant._inputEventsBound (get_obj w s) in
  (* fallback binding, guarded by the flag of the widget *)
  let s :=
    match inputEl with
    | Some e =>
        if negb isBound then
          let s := upd_elem e (Elem.set_bound true) s in
          let s := upd_obj w (Assistant.set_inputEventsBound true) s in
          let s := listen e Blur w s in
          let s := listen e Input w s in
          init_undo_if_needed w e s
        else s
    | None => s
    end in
  (* an element that carries a mount marker is not mounted again *)
  if from_option (fun e => Elem._promptAssistantMounted (get_elem e s)) false
       inputEl
  then _cleanupRedundantWidget w s
  else if has_assistant domWidgetContainer s
  then _cleanupRedundantWidget w s
  else
    let s := from_option
               (fun e => claim e (Assistant.widgetKey (get_obj w s)) s) s
               inputEl in
    with_dom_parent (insert containerDiv domWidgetContainer) s.

(** The textarea and the container the Vue positioning works with: for a note
    node without textarea the first textarea below the node container and its
    parent are taken. *)
Definition vue_target (ci : ContainerInfo) : option ElemId * MpId :=
  match ci_textarea ci, ci_isNoteNode ci, ci_nodeTextareas ci with
  | None, true, Some ((t, parent) :: _) => (Some t, parent)
  | _, _, _ => (ci_textarea ci, ci_container ci)
  end.

(** [_applyVueNodesPositioning(widget, containerDiv, containerInfo)] *)
Definition _applyVueNodesPositioning (h : Host) (w : WId) (containerDiv : UiId)
  (ci : ContainerInfo) (s : State) : State :=
  let textarea := (vue_target ci).1 in
  let container := (vue_target ci).2 in
  (* the reference to the input element is refreshed and events are bound,
     guarded by the flag of the element *)
  let s :=
    match textarea with
    | Some t =>
        if bool_decide (Assistant.inputEl (get_obj w s) = Some t) then s
        else
          let s := retarget w t s in
          if Elem._promptAssistantBound (get_elem t s) then s
          else
            let s := upd_elem t (Elem.set_bound true) s in
            let s := listen t Blur w s in
            let s := listen t Input w s in
            let s := if ResizeObserver h then listen t Resize w s else s in
            init_undo_if_needed w t s
    | None => s
    end in
  (* an element claimed under another key is left to its owner *)
  if from_option
       (fun t =>
          Elem._promptAssistantMounted (get_elem t s)
          && negb (bool_decide (Elem._promptAssistantWidgetKey (get_elem t s)
                                = Assistant.widgetKey (get_obj w s))))
       false textarea
  then _cleanupRedundantWidget w s
  else if has_assistant container s && negb (contains container containerDiv s)
  then _cleanupRedundantWidget w s
  else
    let s := from_option
               (fun t => claim t (Assistant.widgetKey (get_obj w s)) s) s
               textarea in
    if contains container containerDiv s then s
    else with_dom_parent (insert containerDiv container) s.

(** The element a mount attempt is about: for the legacy mode
    [widget.inputEl || textarea] once the reference has been corrected, for
    the Vue mode the textarea. *)
Definition mount_target (ci : ContainerInfo) (w : WId) (s : State)
  : option ElemId :=
  match ci_mode ci with
  | LITEGRAPH => or_el (ci_textarea ci) (Assistant.inputEl (get_obj w s))
  | VUE_NODES => (vue_target ci).1
  end.

(** The continuation of [findMountContainerWithRetry] in [_setupUIPosition]:
    the positioning chosen by the render mode, and the verdict handed to
    [onComplete]. [None] is a search that found no container. *)
Definition positioning (h : Host) (w : WId) (containerDiv : UiId)
  (containerInfo : option ContainerInfo) (s : State) : bool * State :=
  match containerInfo with
  | None => (false, s)
  | Some ci =>
      let s :=
        match ci_mode ci with
        | VUE_NODES => _applyVueNodesPositioning h w containerDiv ci s
        | LITEGRAPH => _applyLitegraphPositioning w containerDiv ci s
        end in
      (true, upd_obj w (Assistant.set_renderMode (Some (ci_mode ci))) s)
  end.

(** The callback [createAssistantUI] hands to [_setupUIPosition]. [container]
    is the toolbar the callback closes over. *)
Definition onComplete (w : WId) (container : UiId) (success : bool)
  (s : State) : State :=
  if Assistant.isDestroyed (get_obj w s) then s
  else if negb success then
    let s := destroy container s in
    match Assistant.widgetKey (get_obj w s) with
    | Some widgetKey =>
        if truthy_str widgetKey then
          let s := if hasInstance widgetKey s
                   then with_instances (JsMap.delete widgetKey) s else s in
          with_inputWidgetMap (delete widgetKey) s
        else s
    | None => s
    end
  else upd_obj w (Assistant.set_isMounting false) s.

(** The asynchronous end of a mount: the search of the container settles,
    positioning runs and the callback is told the verdict. *)
Definition mount_settled (h : Host) (w : WId) (container : UiId)
  (containerInfo : option ContainerInfo) (s : State) : State :=
  let '(success, s) := positioning h w container containerInfo s in
  onComplete w container success s.

(** ** Creation *)

(** The synchronous part of [createAssistantUI]: the toolbar is rendered and
    the object keeps it as [container] and [element]; the search of the mount
    container is started and settles later, see [mount_settled]. The buttons
    and their context menus are not represented. *)
Definition createAssistantUI (w : WId) (s : State) : State :=
  upd_obj w (Assistant.set_ui (Some w) (Some w)) s.

(** [nodeInfo.workflow_id], computed by the callers as
    [app.graph?._workflow_id || 'unknown']. *)
Definition workflow_id_of (h : Host) : string :=
  match app_graph h with
  | Some g =>
      match graph_workflow_id g with
      | Some v => if truthy_id v then String_ v else "unknown"
      | None => "unknown"
      end
  | None => "unknown"
  end.

(** [createAssistant(node, inputId, inputWidget, nodeInfo, assistantKey)] for
    a node and a widget that are not [null]; the result is the object
    returned, [None] for [null]. *)
Definition createAssistant (h : Host) (node : Node.t)
  (inputId : option string) (inputWidget : InputWidget.t)
  (assistantKey : option string) (s : State) : option WId * State :=
  if negb (FEATURES_enabled h) || negb (from_option truthy_str false inputId)
  then (None, s)
  else if negb (isValidInput h inputWidget node) then (None, s)
  else
    let inputEl := or_el (InputWidget.inputEl inputWidget)
                         (InputWidget.element inputWidget) in
    let isVueMode := vueNodesMode h in
    if negb (from_option (fun _ => true) false inputEl) && negb isVueMode
    then (None, s)
    else
      let nodeId := Node.id node in
      let widgetKey :=
        default (_getAssistantKey h node inputId) (or_str assistantKey None) in
      (* an instance registered under the key is returned as it is *)
      match getInstance widgetKey s with
      | Some existing => (Some existing, s)
      | None =>
          let w := next_obj s in
          let widget :=
            Assistant.mk nodeId inputId (Some widgetKey) inputEl inputEl
              false true (Some (workflow_id_of h)) (Node.type node) isVueMode
              None None [] false false None in
          let s := with_next_obj (S w) (with_heap (insert w widget) s) in
          let s := with_inputWidgetMap (insert widgetKey (inputEl, w)) s in
          let s := createAssistantUI w s in
          let s := addInstance widgetKey w s in
          let s :=
            match inputEl with
            | Some _ => _initializeInputElBindings h w inputWidget node inputId s
            | None => s
            end in
          (Some w, s)
      end.

(** The widget [setupNodeAssistant] hands on: for a note node a copy whose
    [inputEl] is [inputWidget.element || inputWidget.inputEl]. *)
Definition processedWidget (node : Node.t) (inputWidget : InputWidget.t)
  : InputWidget.t :=
  if _isMarkdownNode node
  then InputWidget.mk (InputWidget.name inputWidget)
         (InputWidget.id inputWidget)
         (or_el (InputWidget.element inputWidget)
                (InputWidget.inputEl inputWidget))
         (InputWidget.element inputWidget)
  else inputWidget.

(** [setupNodeAssistant(node, inputWidget, assistantKey)]. The random input
    id is drawn only when the widget has neither name nor id. *)
Definition setupNodeAssistant (h : Host) (node : Node.t)
  (inputWidget : InputWidget.t) (assistantKey : option string) (s : State)
  : option WId * State :=
  let '(inputId, s) :=
    match or_str (or_str (InputWidget.name inputWidget)
                         (InputWidget.id inputWidget)) None
    with
    | Some i => (i, s)
    | None => (Math_random h (entropy s), with_entropy (S (entropy s)) s)
    end in
  createAssistant h node (Some inputId) (processedWidget node inputWidget)
    assistantKey s.

(** ** Presence of the toolbar in the page *)

(** [document.body.contains(ui)] *)
Definition body_contains (h : Host) (ui : option UiId) (s : State) : bool :=
  match ui with
  | Some u =>
      match dom_parent s !! u with
      | Some mp => mp_in_body h mp
      | None => false
      end
  | None => false
  end.

(** [document.querySelector('[data-node-id=...]')?.contains(ui)] *)
Definition node_container_contains (h : Host) (node : Node.t)
  (ui : option UiId) (s : State) : bool :=
  match node_dom h (interp (Node.id node)), ui with
  | Some _, Some u =>
      match dom_parent s !! u with
      | Some mp => bool_decide (mp_node h mp = Some (interp (Node.id node)))
      | None => false
      end
  | _, _ => false
  end.

Definition isUIPresent (h : Host) (node : Node.t) (ui : option UiId)
  (s : State) : bool :=
  if isVueNodesMode h then node_container_contains h node ui s
  else body_contains h ui s.

(** ** The DOM scan of the Vue mode *)

(** [_mountDomAssistant(node, element, inputId, index)] *)
Definition _mountDomAssistant (h : Host) (node : Node.t) (element : ElemId)
  (inputId : string) (s : State) : State :=
  let assistantKey := _getAssistantKey h node (Some inputId) in
  let go (s : State) : State :=
    if Elem._promptAssistantMounted (get_elem element s) then s
    else
      let virtualWidget :=
        InputWidget.mk (Some inputId) (Some inputId) (Some element)
          (Some element) in
      (createAssistant h node (Some inputId) virtualWidget
         (Some assistantKey) s).2 in
  match getInstance assistantKey s with
  | Some w =>
      let ui := Assistant.element (get_obj w s) in
      if from_option (fun _ => true) false ui && isUIPresent h node ui s
      then s
      else go (cleanup h (Node.id node) false s)
  | None => go s
  end.

(** Mounting on every element of a list, with its index. *)
Fixpoint mount_each (h : Host) (node : Node.t) (single : bool)
  (els : list ElemId) (index : nat) (s : State) : State :=
  match els with
  | [] => s
  | el :: els' =>
      let inputId := if single then "text" else "input_" +:+ pretty index in
      mount_each h node single els' (S index)
        (_mountDomAssistant h node el inputId s)
  end.

(** [_handleVueDomScanNode(node)]. When the container of the node is not
    rendered yet a retried search is started, which settles later, see
    [dom_scan_settled]. *)
Definition _handleVueDomScanNode (h : Host) (node : Node.t) (s : State)
  : State :=
  if negb (_isMarkdownNode node) && negb (_isSubgraphNode node) then s
  else
    match node_dom h (interp (Node.id node)) with
    | None => s
    | Some nd =>
        let textareas :=
          match p_textareas nd with
          | [] => all_textareas nd
          | _ :: _ => p_textareas nd
          end in
        match textareas with
        | [] =>
            match tiptap_editor nd with
            | Some editor => _mountDomAssistant h node editor "text" s
            | None => s
            end
        | _ :: _ =>
            mount_each h node (Nat.eqb (length textareas) 1) textareas 0 s
        end
    end.

(** The continuation of the retried search of [_retryDomScan]. *)
Definition dom_scan_settled (h : Host) (node : Node.t) (inputId : string)
  (textarea : option ElemId) (s : State) : State :=
  match textarea with
  | Some t => _mountDomAssistant h node t inputId s
  | None => s
  end.

(** ** The scan of a node: [checkAndSetupNode] *)

(** How a call ends: normally, or with a [ReferenceError] that leaves the
    scan. *)
Inductive Completion :=
  | Normal (s : State)
  | ReferenceError (s : State).

Definition state_of (c : Completion) : State :=
  match c with
  | Normal s => s
  | ReferenceError s => s
  end.

Definition input_name (w : InputWidget.t) : option string :=
  or_str (InputWidget.name w) (InputWidget.id w).

(** The key of an input that shares its name with another valid input. The
    template literals read the identifier [graphId], which is not declared in
    [checkAndSetupNode]; it resolves to a global of that name or raises. The
    result is the key, or [None] when the read raised. *)
Definition disambiguated_key (h : Host) (node : Node.t)
  (inputWidget : InputWidget.t) (inputId : option string) (widgetIndex : nat)
  (s : State) : option string * State :=
  let indexed (graphId : string) : string :=
    graphId +:+ "_" +:+ interp (Node.id node) +:+ "_" +:+ interp_str inputId
    +:+ "_" +:+ pretty widgetIndex in
  match or_el (InputWidget.inputEl inputWidget)
              (InputWidget.element inputWidget) with
  | Some inputEl =>
      match or_str (Elem.promptAssistantUniqueId (get_elem inputEl s)) None
      with
      | Some u => (Some u, s)
      | None =>
          match global_graphId h with
          | None => (None, s)
          | Some graphId =>
              let u := indexed graphId +:+ "_" +:+ Date_now h (entropy s)
                       +:+ "_" +:+ Math_random h (entropy s) in
              (Some u,
               with_entropy (S (entropy s))
                 (upd_elem inputEl (Elem.set_uniqueId (Some u)) s))
          end
      end
  | None =>
      match global_graphId h with
      | None => (None, s)
      | Some graphId => (Some (indexed graphId), s)
      end
  end.

(** What the scan decides for an input whose key is registered. *)
Inductive Verdict := Skip | Rebuild (s : State).

(** The check of a registered instance: a lost toolbar or a stale input
    element leads to a cleanup and a rebuild, a mount in progress or a sound
    instance is skipped. *)
Definition check_existing (h : Host) (node : Node.t)
  (inputWidget : InputWidget.t) (assistantKey : string) (w : WId)
  (s : State) : Verdict :=
  let instance := get_obj w s in
  let currentInputEl := InputWidget.inputEl inputWidget in
  let instanceInputEl := Assistant.text_element instance in
  let instanceUIEl := Assistant.element instance in
  let present := isUIPresent h node instanceUIEl s in
  if negb (from_option (fun _ => true) false instanceUIEl)
     || (negb present && negb (Assistant._isMounting instance))
  then Rebuild (cleanup h (Some (IdStr assistantKey)) false s)
  else if negb present && Assistant._isMounting instance then Skip
  else
    match instanceInputEl, currentInputEl with
    | Some old, Some cur =>
        if bool_decide (old = cur) then Skip
        else if negb (Elem.in_body (get_elem old s))
        then Rebuild (cleanup h (Node.id node) false s)
        else Skip
    | _, _ => Skip
    end.

(** The body of the [forEach] over the valid inputs. *)
Definition scan_input (h : Host) (node : Node.t)
  (validInputs : list InputWidget.t) (widgetIndex : nat)
  (inputWidget : InputWidget.t) (s : State) : Completion :=
  let inputId := input_name inputWidget in
  let sameNameWidgets :=
    filter (fun w => input_name w = inputId) validInputs in
  let keyed :=
    if (1 <? length sameNameWidgets)%nat
    then disambiguated_key h node inputWidget inputId widgetIndex s
    else (Some (_getAssistantKey h node inputId), s) in
  match keyed with
  | (None, s) => ReferenceError s
  | (Some assistantKey, s) =>
      let create (s : State) : Completion :=
        if negb (FEATURES_enabled h) then Normal s
        else
          match or_el (InputWidget.inputEl inputWidget)
                      (InputWidget.element inputWidget) with
          | Some inputEl =>
              if Elem._promptAssistantMounted (get_elem inputEl s)
              then Normal s
              else Normal (setupNodeAssistant h node inputWidget
                             (Some assistantKey) s).2
          | None =>
              Normal (setupNodeAssistant h node inputWidget
                        (Some assistantKey) s).2
          end in
      match getInstance assistantKey s with
      | Some w =>
          match check_existing h node inputWidget assistantKey w s with
          | Skip => Normal s
          | Rebuild s => create s
          end
      | None => create s
      end
  end.

(** The [forEach]: an exception ends it. *)
Fixpoint scan_inputs (h : Host) (node : Node.t)
  (validInputs : list InputWidget.t) (widgetIndex : nat)
  (rest : list InputWidget.t) (s : State) : Completion :=
  match rest with
  | [] => Normal s
  | inputWidget :: rest' =>
      match scan_input h node validInputs widgetIndex inputWidget s with
      | Normal s => scan_inputs h node validInputs (S widgetIndex) rest' s
      | ReferenceError s => ReferenceError s
      end
  end.

(** [checkAndSetupNode(node)] for a node that is not [null]. *)
Definition checkAndSetupNode (h : Host) (node : Node.t) (s : State)
  : Completion :=
  if negb (FEATURES_enabled h) then Normal s
  else
    let isVueMode := vueNodesMode h in
    match Node.widgets node with
    | None =>
        if isVueMode && isValidNode h node
        then Normal (_handleVueDomScanNode h node s)
        else Normal s
    | Some widgets =>
        let isValid := isValidNode h node in
        if negb isValid then Normal s
        else
          let validInputs :=
            List.filter (fun widget => isValidInput h widget node) widgets in
          match validInputs with
          | [] =>
              if isVueMode && isValid
              then Normal (_handleVueDomScanNode h node s)
              else Normal s
          | _ :: _ => scan_inputs h node validInputs 0 validInputs s
          end
    end.

(** ** The translate cache *)

(** Modelled from the spec: [TranslateCacheService] ([services/cache.js] is
    not among the sources). The cache maps a source text to its translation
    and back, by exact match; a new translation of a source replaces the old
    one. A query that matches a source text answers with the translation, one
    that matches a translation answers with the source. *)
Inductive CacheHit :=
  | hit_source (translatedText : string)
  | hit_translated (sourceText : string).

Definition queryTranslateCache (text : string) (cache : list (string * string))
  : option CacheHit :=
  match List.find (fun p => String.eqb p.1 text) cache with
  | Some p => Some (hit_source p.2)
  | None =>
      match List.find (fun p => String.eqb p.2 text) cache with
      | Some p => Some (hit_translated p.1)
      | None => None
      end
  end.

Definition addTranslateCache (source translated : string)
  (cache : list (string * string)) : list (string * string) :=
  (source, translated)
  :: List.filter (fun p => negb (String.eqb p.1 source)) cache.

(** ** Reading and writing the bound input *)

(** [getInputValue(widget, options)]. The assistant object has no [value]
    property and the widgets of the host node are outside the embedding, so
    the reads of these mirrors, which the source falls back to for an editor
    whose text is blank, yield nothing. *)
Definition getInputValue (w : WId) (s : State) : string :=
  match Assistant.inputEl (get_obj w s) with
  | None => ""
  | Some e =>
      match Elem.kind (get_elem e s) with
      | Plain => ""
      | _ => Elem.value (get_elem e s)
      end
  end.

(** [setInputValue(widget, content, options)]: the content is written; the
    [input] and [change] events are dispatched unless [silent] is set. The
    copies written to the mirrors named above are not represented. *)
Definition setInputValue (w : WId) (content : string) (silent : bool)
  (s : State) : bool * State :=
  match Assistant.inputEl (get_obj w s) with
  | None => (false, s)
  | Some e =>
      match Elem.kind (get_elem e s) with
      | Plain => (false, s)
      | _ =>
          let s := upd_elem e (Elem.set_value content) s in
          (true,
           if silent then s
           else upd_elem e (Elem.dispatch ["input"; "change"]) s)
      end
  end.

(** [updateInputWithHighlight(widget, content, options)] *)
Definition updateInputWithHighlight (w : WId) (content : string) (s : State)
  : State :=
  match Assistant.inputEl (get_obj w s) with
  | None => s
  | Some _ => (setInputValue w content false s).2
  end.

(** ** The translate and expand handlers *)

(** The answer of a provider: [result.success] and [result.data?.translated]
    (or [result.data?.expanded]). *)
Record ApiResult := mkResult {
  success : bool;
  data : option string
}.

(** The provider named by [/config/translate]; anything but google and baidu,
    a failed request included, selects the language model. *)
Inductive TranslateProvider := provider_google | provider_baidu | provider_llm.

(** How the work function handed to [handleAsyncButtonOperation] ends: with
    its result, or by throwing. *)
Inductive Outcome :=
  | Succeeded (useCache : bool)
  | Failed.

Definition join_lines (l : list string) : string :=
  match l with
  | [] => ""
  | x :: l' => foldl (fun acc y => acc +:+ String "010" y) x l'
  end.

Definition history_item (w : WId) (content : string) (op : OpType) (s : State)
  : HistoryItem :=
  let a := get_obj w s in
  mkItem (default "" (or_str (Assistant.workflow_id a) None))
    (Assistant.nodeId a) (Assistant.inputId a) (Some content) op.

(** The record of a result: the history entry and the reset of the undo
    state. *)
Definition record_result (w : WId) (content : string) (op : OpType)
  (s : State) : State :=
  let a := get_obj w s in
  call (initUndoState (Assistant.nodeId a) (Assistant.inputId a)
          (Some content))
    (call (addHistory (history_item w content op s)) s).

Definition isMarkdownLiteGraph (w : WId) (s : State) : bool :=
  let a := get_obj w s in
  let hasMarkdownClass :=
    match Assistant.inputEl a with
    | Some e =>
        match Elem.kind (get_elem e s) with
        | ComfyMarkdown => true
        | _ => false
        end
    | None => false
    end in
  (bool_decide (Assistant.nodeType a = Some "MarkdownNote") || hasMarkdownClass)
  && negb (Assistant.isVueMode a).

(** The text sent to the cache and to the provider: the input, or in the
    Markdown mode the extracted texts joined by line feeds when there are
    any. *)
Definition contentToTranslate (h : Host) (w : WId) (s : State) : string :=
  let inputValue := getInputValue w s in
  if isMarkdownLiteGraph w s then
    match protectAndExtract_texts h inputValue with
    | [] => inputValue
    | texts => join_lines texts
    end
  else inputValue.

(** The text written back for a raw result. *)
Definition finalResultText (h : Host) (isMd : bool) (inputValue raw : string)
  : string :=
  if isMd then restoreWithTranslations h inputValue (split "010" raw) else raw.

(** One call of the streaming callback: the chunk is appended to the text
    collected so far, which is written to the input silently. *)
Definition stream_chunk (w : WId) (acc : string * State) (chunk : string)
  : string * State :=
  let streamContent := acc.1 +:+ chunk in
  (streamContent, (setInputValue w streamContent true acc.2).2).

(** The text a streaming provider has delivered once all chunks are in. *)
Fixpoint concat_text (l : list string) : string :=
  match l with
  | [] => ""
  | x :: l' => x +:+ concat_text l'
  end.

(** [a || b || ''] on texts. *)
Definition first_text (a : string) (b : option string) : string :=
  if truthy_str a then a else default "" (or_str b None).

(** The translate handler up to the provider call: the cache, when the
    feature is on, is asked first. *)
Inductive Started :=
  | rejected
  | served (s : State)
  | requesting (s : State).

Definition translate_begin (h : Host) (w : WId) (s : State) : Started :=
  let isMd := isMarkdownLiteGraph w s in
  let inputValue := getInputValue w s in
  if blank inputValue then rejected
  else
    let content := contentToTranslate h w s in
    if blank content then rejected
    else
      let cacheResult :=
        if useTranslateCache h
        then queryTranslateCache content (translate_cache s)
        else None in
      match cacheResult with
      | Some hit =>
          let rawResultText :=
            match hit with
            | hit_source translatedText => translatedText
            | hit_translated sourceText => sourceText
            end in
          let final := finalResultText h isMd inputValue rawResultText in
          let s := updateInputWithHighlight w final s in
          served (record_result w final op_translate s)
      | None => requesting s
      end.

(** The request a cache miss leads to. *)
Definition translate_request (h : Host) (provider : TranslateProvider)
  (content : string) : ProviderCall :=
  match provider with
  | provider_google => googleTranslate content
  | provider_baidu => baiduTranslate content
  | provider_llm =>
      if enableStreaming h then llmTranslateStream content
      else llmTranslate content
  end.

(** The handler once the provider has answered. [inputValue], [content] and
    [isMd] are the values computed before the request. *)
Definition translate_finish (h : Host) (w : WId) (isMd : bool)
  (inputValue content streamContent : string) (result : option ApiResult)
  (s : State) : Outcome * State :=
  match result with
  | None => (Failed, s)
  | Some r =>
      if success r then
        let rawTranslated := first_text streamContent (data r) in
        let formattedText := formatTranslatedText h rawTranslated in
        let final := finalResultText h isMd inputValue formattedText in
        let s := call (addHistory (history_item w final op_translate s)) s in
        let s := updateInputWithHighlight w final s in
        let a := get_obj w s in
        let s := call (initUndoState (Assistant.nodeId a) (Assistant.inputId a)
                         (Some final)) s in
        let s :=
          if useTranslateCache h then
            let isMixedLang := isMixedChineseEnglish h content in
            if negb isMixedLang || cacheMixedLangTranslation h
            then with_translate_cache (addTranslateCache content formattedText) s
            else s
          else s in
        (Succeeded false, s)
      else (Failed, s)
  end.

(** The work function of the translate button. [chunks] are the pieces the
    streaming provider delivers and [result] is its answer; both are ignored
    where the code does not ask for them. *)
Definition translate_onClick (h : Host) (w : WId)
  (provider : TranslateProvider) (chunks : list string)
  (result : option ApiResult) (s : State) : Outcome * State :=
  match translate_begin h w s with
  | rejected => (Failed, s)
  | served s' => (Succeeded true, s')
  | requesting s' =>
      let isMd := isMarkdownLiteGraph w s in
      let inputValue := getInputValue w s in
      let content := contentToTranslate h w s in
      let request := translate_request h provider content in
      let s' := with_provider_calls (fun l => l ++ [request]) s' in
      let streamed :=
        match request with
        | llmTranslateStream _ => foldl (stream_chunk w) ("", s') chunks
        | _ => ("", s')
        end in
      translate_finish h w isMd inputValue content streamed.1 result streamed.2
  end.

(** The work function of the expand button. *)
Definition expand_onClick (h : Host) (w : WId) (chunks : list string)
  (result : option ApiResult) (s : State) : Outcome * State :=
  let inputValue := getInputValue w s in
  if blank inputValue then (Failed, s)
  else
    let request :=
      if enableStreaming h then llmExpandPromptStream inputValue
      else llmExpandPrompt inputValue in
    let s := with_provider_calls (fun l => l ++ [request]) s in
    let streamed :=
      if enableStreaming h then foldl (stream_chunk w) ("", s) chunks
      else ("", s) in
    let s := streamed.2 in
    let finalContent :=
      first_text streamed.1 (from_option data None result) in
    match result with
    | Some r =>
        if success r && truthy_str finalContent then
          let s := updateInputWithHighlight w finalContent s in
          (Succeeded false, record_result w finalContent op_expand s)
        else (Failed, s)
    | None => (Failed, s)
    end.

(** Whether the request of the translate handler streams. *)
Definition translate_streams (h : Host) (provider : TranslateProvider) : bool :=
  match provider with
  | provider_llm => enableStreaming h
  | _ => false
  end.

(** The two service calls that record a result. *)
Definition recorded (w : WId) (content : string) (op : OpType) (s : State)
  : list ServiceCall :=
  [addHistory (history_item w content op s);
   initUndoState (Assistant.nodeId (get_obj w s))
     (Assistant.inputId (get_obj w s)) (Some content)].

(** ** The two ways of binding *)

(** The initial binding done by [createAssistant] and the fallback binding
    done by the legacy positioning. *)
Inductive BindPath :=
  | initial_binding (inputWidget : InputWidget.t) (node : Node.t)
      (inputId : option string)
  | positioning_fallback (containerDiv : UiId) (ci : ContainerInfo).

Definition run_bind (h : Host) (w : WId) (p : BindPath) (s : State) : State :=
  match p with
  | initial_binding inputWidget node inputId =>
      _initializeInputElBindings h w inputWidget node inputId s
  | positioning_fallback containerDiv ci =>
      _applyLitegraphPositioning w containerDiv ci s
  end.

(** The element a binding path binds, if it finds one. *)
Definition bind_target (w : WId) (p : BindPath) (s : State) : option ElemId :=
  match p with
  | initial_binding inputWidget _ _ =>
      or_el (InputWidget.inputEl inputWidget) (Assistant.inputEl (get_obj w s))
  | positioning_fallback _ ci =>
      or_el (ci_textarea ci) (Assistant.inputEl (get_obj w s))
  end.

(** ** What binding leaves alone *)

(** The properties of an element that binding does not touch. *)
Definition elem_core (el : Elem.t) :=
  (Elem.kind el, Elem.value el, Elem.in_body el,
   Elem._promptAssistantMounted el, Elem._promptAssistantWidgetKey el,
   Elem.promptAssistantUniqueId el, Elem.dispatched el).

(** The properties of an assistant object that neither binding nor the
    correction of its element reference touches. *)
Definition obj_id (a : Assistant.t) :=
  (Assistant.nodeId a, Assistant.inputId a, Assistant.widgetKey a,
   Assistant.isDestroyed a, Assistant._isMounting a, Assistant.workflow_id a,
   Assistant.nodeType a, Assistant.isVueMode a, Assistant.container a,
   Assistant.element a).

Definition obj_els (a : Assistant.t) :=
  (Assistant.text_element a, Assistant.inputEl a).

(** A change of state made of binding effects only: listeners, binding
    flags, undo initialisation, element references of objects and the entries
    of the global input map. *)
Definition bound_only (s s' : State) : Prop :=
  instances s' = instances s /\ next_obj s' = next_obj s
  /\ dom_parent s' = dom_parent s /\ destroyed s' = destroyed s
  /\ translate_cache s' = translate_cache s
  /\ provider_calls s' = provider_calls s
  /\ log s' = log s /\ entropy s' = entropy s
  /\ (forall e, elem_core (get_elem e s') = elem_core (get_elem e s))
  /\ (forall w, obj_id (get_obj w s') = obj_id (get_obj w s)).

(** Two states with the same listeners on every element and on the
    window. *)
Definition same_listeners (s s' : State) : Prop :=
  (forall e, Elem.listeners (get_elem e s') = Elem.listeners (get_elem e s))
  /\ window_resize s' = window_resize s.

(** Two states whose assistant objects carry the same binding flag. *)
Definition same_bound_flags (s s' : State) : Prop :=
  forall w, Assistant._inputEventsBound (get_obj w s')
            = Assistant._inputEventsBound (get_obj w s).

(** What an aborted mount leaves: the candidate is not registered, its
    container is destroyed, nothing is attached and no mount marker moved. *)
Definition aborted (k : string) (ui : UiId) (s s' : State) : Prop :=
  getInstance k s' = None /\ ui ∈ destroyed s'
  /\ dom_parent s' = dom_parent s
  /\ forall e,
       Elem._promptAssistantMounted (get_elem e s')
       = Elem._promptAssistantMounted (get_elem e s)
       /\ Elem._promptAssistantWidgetKey (get_elem e s')
          = Elem._promptAssistantWidgetKey (get_elem e s).

(** A change of state made of binding effects for the widget [w] alone: the
    element references of every object and all other objects stay as they
    were. *)
Definition binds_for (w : WId) (s s' : State) : Prop :=
  bound_only s s'
  /\ (forall w', obj_els (get_obj w' s') = obj_els (get_obj w' s))
  /\ (forall w', w' <> w -> get_obj w' s' = get_obj w' s).

(** ** Concrete scenarios *)

(** A page in the legacy render mode: the feature switch is on, every widget
    handed to [isValidInput] is accepted, no global [graphId] exists, mount
    containers are attached to the document. *)
Definition legacy_host : Host := {|
  FEATURES_enabled := true;
  PROMPT_ASSISTANT_WORKFLOW_SWITCHING := false;
  vueNodesMode := false;
  isVueNodesMode := false;
  ResizeObserver := true;
  app_graph := None;
  global_graphId := None;
  isValidInput := fun _ _ => true;
  Date_now := fun _ => "1700000000000";
  Math_random := fun _ => "k3j9x2abc";
  mp_in_body := fun _ => true;
  mp_node := fun _ => None;
  node_dom := fun _ => None;
  useTranslateCache := true;
  cacheMixedLangTranslation := false;
  enableStreaming := true;
  formatTranslatedText := fun t => t;
  isMixedChineseEnglish := fun _ => false;
  protectAndExtract_texts := fun _ => [];
  restoreWithTranslations := fun html _ => html
|}.

(** The same page with the translate cache switched off. *)
Definition host_cache_off : Host := {|
  FEATURES_enabled := true;
  PROMPT_ASSISTANT_WORKFLOW_SWITCHING := false;
  vueNodesMode := false;
  isVueNodesMode := false;
  ResizeObserver := true;
  app_graph := None;
  global_graphId := None;
  isValidInput := fun _ _ => true;
  Date_now := fun _ => "1700000000000";
  Math_random := fun _ => "k3j9x2abc";
  mp_in_body := fun _ => true;
  mp_node := fun _ => None;
  node_dom := fun _ => None;
  useTranslateCache := false;
  cacheMixedLangTranslation := false;
  enableStreaming := true;
  formatTranslatedText := fun t => t;
  isMixedChineseEnglish := fun _ => false;
  protectAndExtract_texts := fun _ => [];
  restoreWithTranslations := fun html _ => html
|}.

(** The same page while a workflow is being switched. *)
Definition host_switching : Host := {|
  FEATURES_enabled := true;
  PROMPT_ASSISTANT_WORKFLOW_SWITCHING := true;
  vueNodesMode := false;
  isVueNodesMode := false;
  ResizeObserver := true;
  app_graph := None;
  global_graphId := None;
  isValidInput := fun _ _ => true;
  Date_now := fun _ => "1700000000000";
  Math_random := fun _ => "k3j9x2abc";
  mp_in_body := fun _ => true;
  mp_node := fun _ => None;
  node_dom := fun _ => None;
  useTranslateCache := true;
  cacheMixedLangTranslation := false;
  enableStreaming := true;
  formatTranslatedText := fun t => t;
  isMixedChineseEnglish := fun _ => false;
  protectAndExtract_texts := fun _ => [];
  restoreWithTranslations := fun html _ => html
|}.

Definition textarea (value : string) : Elem.t :=
  Elem.mk TEXTAREA value true false None false None [] [].

(** A page with two textareas, holding [hello] and nothing, and no
    assistant yet. *)
Definition fresh_page : State := {|
  instances := [];
  heap := ∅;
  next_obj := 0;
  elems := <[1 := textarea "hello"]> (<[2 := textarea ""]> ∅);
  dom_parent := ∅;
  destroyed := [];
  PromptAssistantInputWidgetMap := ∅;
  window_resize := [];
  cache_calls := [];
  translate_cache := [];
  provider_calls := [];
  log := [];
  entropy := 0
|}.

Definition widget_text : InputWidget.t :=
  InputWidget.mk (Some "text") None (Some 1) None.

Definition widget_note : InputWidget.t :=
  InputWidget.mk (Some "note") None (Some 2) None.

(** Node 5 of the main graph with one text widget. *)
Definition node5 : Node.t :=
  Node.mk (Some (IdNum 5)) (Some "CLIPTextEncode") (Some [widget_text])
    None None.

(** The page once the scan of node 5 has created its assistant under the key
    [main_5_text]; the mount has not settled yet. *)
Definition page_scanned : State :=
  state_of (checkAndSetupNode legacy_host node5 fresh_page).

(** The page once the mount has settled in the container 7. *)
Definition page_mounted : State :=
  mount_settled legacy_host 0 0
    (Some (mkInfo LITEGRAPH 7 (Some 1) None false)) page_scanned.

Definition widget_alias : InputWidget.t :=
  InputWidget.mk (Some "alias") None (Some 1) None.

(** Node 5 with a second widget that shows the same textarea. *)
Definition node5_two : Node.t :=
  Node.mk (Some (IdNum 5)) (Some "CLIPTextEncode")
    (Some [widget_text; widget_alias]) None None.

(** Both candidates are created by one scan; the mount of the first settles
    and claims the textarea. *)
Definition page_race : State :=
  mount_settled legacy_host 0 0
    (Some (mkInfo LITEGRAPH 7 (Some 1) None false))
    (state_of (checkAndSetupNode legacy_host node5_two fresh_page)).

(** The key [createAssistant] registers a candidate under. *)
Definition key_of (h : Host) (node : Node.t) (inputId : option string)
  (assistantKey : option string) : string :=
  default (_getAssistantKey h node inputId) (or_str assistantKey None).

Definition widget_text2 : InputWidget.t :=
  InputWidget.mk (Some "text") None (Some 2) None.

(** Node 5 with two valid inputs that are both named [text], each with its
    own textarea. *)
Definition node5_dup : Node.t :=
  Node.mk (Some (IdNum 5)) (Some "CLIPTextEncode")
    (Some [widget_text; widget_text2]) None None.

(** ** Notions used to state the idempotence of the scan *)

(** The key the scan computes for an input whose name no other valid input
    shares. *)
Definition input_key (h : Host) (node : Node.t) (iw : InputWidget.t) : string :=
  _getAssistantKey h node (input_name iw).

(** The gates between an unregistered input and the creation of its
    assistant: the feature switch, the mount marker of its element, the
    validity of the widget handed on, and the presence of an element outside
    the Vue mode. *)
Definition creatable (h : Host) (node : Node.t) (iw : InputWidget.t)
  (s : State) : bool :=
  FEATURES_enabled h
  && negb (from_option
             (fun e => Elem._promptAssistantMounted (get_elem e s)) false
             (or_el (InputWidget.inputEl iw) (InputWidget.element iw)))
  && isValidInput h (processedWidget node iw) node
  && (from_option (fun _ => true) false
        (or_el (InputWidget.inputEl (processedWidget node iw))
               (InputWidget.element (processedWidget node iw)))
      || vueNodesMode h).

(** Identities are handed out in order: no toolbar root with an identity not
    yet handed out is attached, and the registry holds identities handed
    out. *)
Definition well_formed (s : State) : Prop :=
  (forall u, (next_obj s <= u)%nat -> dom_parent s !! u = None)
  /\ (forall k w, getInstance k s = Some w -> (w < next_obj s)%nat).

(** No registered instance of the inputs is found lost or stale by the
    scan. *)
Definition nothing_stale (h : Host) (node : Node.t)
  (validInputs : list InputWidget.t) (s : State) : Prop :=
  forall iw w, In iw validInputs ->
    getInstance (input_key h node iw) s = Some w ->
    check_existing h node iw (input_key h node iw) w s = Skip.

(** An input the scan has nothing left to do for: its key is registered or
    its creation is gated. *)
Definition settled (h : Host) (node : Node.t) (iw : InputWidget.t)
  (s : State) : Prop :=
  getInstance (input_key h node iw) s <> None \/ creatable h node iw s = false.

(** The valid inputs of a node. *)
Definition validInputs_of (h : Host) (node : Node.t) : list InputWidget.t :=
  match Node.widgets node with
  | Some widgets => List.filter (fun widget => isValidInput h widget node) widgets
  | None => []
  end.

(** The page after the host has replaced the textarea of node 5: the old
    element 1 is out of the document and the widget shows the new element
    3. *)
Definition page_replaced : State :=
  upd_elem 3 (fun _ => textarea "hello")
    (upd_elem 1 (Elem.set_in_body false) page_mounted).

Definition widget_text_new : InputWidget.t :=
  InputWidget.mk (Some "text") None (Some 3) None.

Definition node5_new : Node.t :=
  Node.mk (Some (IdNum 5)) (Some "CLIPTextEncode") (Some [widget_text_new])
    None None.

(** The inputs carry a name (or id) that is not empty. *)
Definition named (validInputs : list InputWidget.t) : Prop :=
  forall iw, In iw validInputs ->
    exists n, input_name iw = Some n /\ truthy_str n = true.

(** A state that keeps the registrations of another and gates creation in the
    same way. *)
Definition extends (h : Host) (node : Node.t) (s s' : State) : Prop :=
  (forall k w, getInstance k s = Some w -> getInstance k s' = Some w)
  /\ (forall iw, creatable h node iw s' = creatable h node iw s).

(** * Further parts of [PromptAssistant.js] *)

(** ** Keys and the filter of [cleanup] *)

(** A text without the separator of the keys. *)
Definition no_underscore (s : string) : Prop := includes s "_" = false.

(** ** The guards of [createAssistant] *)

(** The conjunction of the checks [createAssistant] makes before it looks at
    the registry: the feature switch, an input id that is not empty, a widget
    [UIToolkit.isValidInput] accepts, and an input element unless the page is
    in the Vue mode. *)
Definition accepts (h : Host) (node : Node.t) (inputId : option string)
  (inputWidget : InputWidget.t) : bool :=
  FEATURES_enabled h
  && from_option truthy_str false inputId
  && isValidInput h inputWidget node
  && (from_option (fun _ => true) false
        (or_el (InputWidget.inputEl inputWidget)
               (InputWidget.element inputWidget))
      || vueNodesMode h).

(** ** The undo state *)

(** Two states with the same calls made to the cache services and the same
    undo flag on every assistant object. *)
Definition same_undo (s s' : State) : Prop :=
  cache_calls s' = cache_calls s
  /\ forall w, Assistant._undoStateInitialized (get_obj w s')
               = Assistant._undoStateInitialized (get_obj w s).

(** [inputEl.value || '']: the text of a textarea, the empty text for an
    element of another kind. *)
Definition initial_value (el : Elem.t) : string := default "" (dom_value el).

(** The call [_initializeInputElBindings] makes to the history service for an
    initial value [v]. *)
Definition undo_call (nodeId : option JsId) (inputId : option string)
  (v : string) : ServiceCall :=
  if blank v then initUndoState nodeId inputId (Some v)
  else addHistoryAndUpdateUndoState nodeId inputId v.

(** ** Listeners of an assistant object *)

(** No element and no window listener belongs to the object [w]. *)
Definition unlistened (w : WId) (s : State) : Prop :=
  (forall e k, (k, w) ∉ Elem.listeners (get_elem e s))
  /\ w ∉ window_resize s.

(** What [_initializeInputElBindings] attaches for the object [w]: a blur and
    an input listener on the element and an observer of its size, or a
    listener of the window when the page has no [ResizeObserver]. *)
Definition bound_listeners (h : Host) (w : WId) : list (EvKind * WId) :=
  [(Blur, w); (Input, w)] ++ (if ResizeObserver h then [(Resize, w)] else []).

Definition bound_cleanups (h : Host) (w : WId) (e : ElemId) : list Cleanup :=
  [RemoveListener e Blur w; RemoveListener e Input w;
   if ResizeObserver h then RemoveListener e Resize w
   else RemoveWindowResize w].

(** ** What teardown leaves of an element *)

(** The properties of an element that no teardown touches: its kind, its
    text, its place in the document, its generated identifier and the events
    dispatched on it. *)
Definition elem_static (el : Elem.t) :=
  (Elem.kind el, Elem.value el, Elem.in_body el,
   Elem.promptAssistantUniqueId el, Elem.dispatched el).

(** The mount marker and the binding flag of an element. *)
Definition elem_flags (el : Elem.t) :=
  (Elem._promptAssistantMounted el, Elem._promptAssistantWidgetKey el,
   Elem._promptAssistantBound el).

(** ** The outcome of the expand handler *)

(** The request the expand handler sends for a text. *)
Definition expand_request (h : Host) (inputValue : string) : ProviderCall :=
  if enableStreaming h then llmExpandPromptStream inputValue
  else llmExpandPrompt inputValue.

(** The text the streaming callback has left in the input when the answer of
    the provider arrives. *)
Definition streamed_text (h : Host) (chunks : list string) (before : string)
  : string :=
  if enableStreaming h
  then match chunks with [] => before | _ :: _ => concat_text chunks end
  else before.

(** ** The preset width: [calculateAssistantWidth] *)

(** The four arguments are the truthiness of [window.FEATURES.history],
    [.tag], [.expand] and [.translate]. *)
Definition calculateAssistantWidth (hasHistory hasTag hasExpand hasTranslate : bool)
  : Z :=
  let otherFeaturesCount :=
    length (List.filter (fun b : bool => b) [hasTag; hasExpand; hasTranslate]) in
  if hasHistory && (otherFeaturesCount =? 3)%nat then 143
  else if hasHistory && (otherFeaturesCount =? 2)%nat then 121
  else if hasHistory && (otherFeaturesCount =? 1)%nat then 99
  else if hasHistory && (otherFeaturesCount =? 0)%nat then 77
  else if negb hasHistory && (otherFeaturesCount =? 3)%nat then 72
  else if negb hasHistory && (otherFeaturesCount =? 2)%nat then 50
  else if negb hasHistory && (otherFeaturesCount =? 1)%nat then 28
  else 28.

(** The number of buttons a set of switches stands for: three for the
    history, one for each of the others. *)
Definition button_count (hasHistory hasTag hasExpand hasTranslate : bool) : Z :=
  (if hasHistory then 3 else 0) + (if hasTag then 1 else 0)
  + (if hasExpand then 1 else 0) + (if hasTranslate then 1 else 0).

(** ** The offset that avoids the scroll bar *)

(** What [_detectScrollbar] reads of an input element. *)
Record Metrics := mkMetrics {
  is_textarea : bool;
  scrollHeight : Z;
  clientHeight : Z
}.

(** [_detectScrollbar(inputEl)]; [None] is a missing element. *)
Definition _detectScrollbar (inputEl : option Metrics) : bool :=
  match inputEl with
  | None => false
  | Some m =>
      if negb (is_textarea m) then false
      else (clientHeight m <? scrollHeight m)%Z
  end.

(** What [_adjustPositionForScrollbar] reads and writes of the toolbar root:
    [dataset.hasScrollbar] and [style.right]. *)
Record ToolbarStyle := mkStyle {
  dataset_hasScrollbar : option string;
  style_right : option string
}.

(** [String(b)] *)
Definition String_bool (b : bool) : string := if b then "true" else "false".

(** [_adjustPositionForScrollbar(widget, inputEl, forceUpdate)] on the toolbar
    root of the widget, [None] when the widget has none. The removal of the
    highlight of the input is styling and left out. *)
Definition _adjustPositionForScrollbar (element : option ToolbarStyle)
  (inputEl : option Metrics) (forceUpdate : bool) : option ToolbarStyle :=
  match element, inputEl with
  | Some containerDiv, Some _ =>
      let hasScrollbar := _detectScrollbar inputEl in
      let prevState :=
        bool_decide (dataset_hasScrollbar containerDiv = Some "true") in
      if negb forceUpdate && Bool.eqb prevState hasScrollbar then element
      else
        let rightOffset := if hasScrollbar then "16px" else "4px" in
        Some (mkStyle (Some (String_bool hasScrollbar)) (Some rightOffset))
  | _, _ => element
  end.

(** The adjustments made after the mount: the forced one, then one for each
    later event on the input, with the metrics of the input at that time. *)
Definition adjust_each (element : option ToolbarStyle) (first : Metrics)
  (later : list Metrics) : option ToolbarStyle :=
  foldl (fun el m => _adjustPositionForScrollbar el (Some m) false)
    (_adjustPositionForScrollbar element (Some first) true) later.

(** ** The text of the input as a list of items: [_getTextGridItems] *)

(** Texts are held in their UTF-8 encoding. The functions below read the
    characters the regular expressions of the source name from their
    encodings; a byte that continues a character never starts one, so a
    match found at a byte is a match of a character. *)

(** [s.trimStart()] *)
Fixpoint trimStart (s : string) : string :=
  match s with
  | EmptyString => EmptyString
  | String c1 s1 =>
      let a := nat_of_ascii c1 in
      if (((9 <=? a) && (a <=? 13)) || (a =? 32))%nat then trimStart s1
      else
        match s1 with
        | String c2 s2 =>
            let b := nat_of_ascii c2 in
            if ((a =? 194) && (b =? 160))%nat then trimStart s2
            else
              match s2 with
              | String c3 s3 =>
                  if three_byte_space a b (nat_of_ascii c3) then trimStart s3
                  else s
              | EmptyString => s
              end
        | EmptyString => s
        end
  end.

(** [s.trimEnd()]: the longest white suffix is dropped. *)
Fixpoint trimEnd (s : string) : string :=
  match s with
  | EmptyString => EmptyString
  | String c s' => if blank s then EmptyString else String c (trimEnd s')
  end.

(** [s.trim()] *)
Definition trim (s : string) : string := trimEnd (trimStart s).

(** [s.length]: the number of UTF-16 code units of the text. A character
    encoded on four bytes takes two units, any other character one. *)
Fixpoint js_length (s : string) : nat :=
  match s with
  | EmptyString => 0
  | String c s' =>
      let a := nat_of_ascii c in
      ((if (a <? 128) || ((192 <=? a) && (a <? 240)) then 1
        else if (240 <=? a) then 2 else 0) + js_length s')%nat
  end.

(** [s.split(re)] for a regular expression that matches, at a byte of [s],
    the next [sep_len] bytes when that number is positive and nothing
    otherwise. [skip] counts the bytes of a match still to be dropped. *)
Fixpoint split_with (sep_len : string -> nat) (skip : nat) (s : string)
  : list string :=
  match s with
  | EmptyString => [EmptyString]
  | String c s' =>
      match skip with
      | S k => split_with sep_len k s'
      | O =>
          match sep_len s with
          | S k => EmptyString :: split_with sep_len k s'
          | O =>
              match split_with sep_len O s' with
              | [] => [String c EmptyString]
              | p :: ps => String c p :: ps
              end
          end
      end
  end.

(** The match of [/\r?\n/] at the head of a text. *)
Definition line_break_len (s : string) : nat :=
  match s with
  | String "010" _ => 1
  | String "013" (String "010" _) => 2
  | _ => 0
  end.

(** The match of [/[,，、]/] at the head of a text: the comma, the full-width
    comma U+FF0C and the ideographic comma U+3001. *)
Definition comma_len (s : string) : nat :=
  match s with
  | String c1 s1 =>
      if (nat_of_ascii c1 =? 44)%nat then 1
      else
        match s1 with
        | String c2 (String c3 _) =>
            let a := nat_of_ascii c1 in
            let b := nat_of_ascii c2 in
            let c := nat_of_ascii c3 in
            if (((a =? 239) && (b =? 188) && (c =? 140))
                || ((a =? 227) && (b =? 128) && (c =? 129)))%nat
            then 3 else 0
        | _ => 0
        end
  | EmptyString => 0
  end.

(** The match of [/\s+/] at the head of a text: the whole run of white
    space. *)
Definition white_run_len (s : string) : nat :=
  String.length s - String.length (trimStart s).

Definition split_lines : string -> list string := split_with line_break_len 0.
Definition split_commas : string -> list string := split_with comma_len 0.
Definition split_white : string -> list string := split_with white_run_len 0.

(** The brackets of the class [[\(（\[\【\{「『]] on three bytes: U+FF08,
    U+3010, U+300C and U+300E; and those of [[\)）\]\】\}」』]]: U+FF09,
    U+3011, U+300D and U+300F. *)
Definition wide_opener (a b c : nat) : bool :=
  (((a =? 239) && (b =? 188) && (c =? 136))
   || ((a =? 227) && (b =? 128)
       && ((c =? 144) || (c =? 140) || (c =? 142))))%nat.

Definition wide_closer (a b c : nat) : bool :=
  (((a =? 239) && (b =? 188) && (c =? 137))
   || ((a =? 227) && (b =? 128)
       && ((c =? 145) || (c =? 141) || (c =? 143))))%nat.

(** The text without the run of opening brackets at its start. *)
Fixpoint strip_openers (s : string) : string :=
  match s with
  | EmptyString => EmptyString
  | String c1 s1 =>
      let a := nat_of_ascii c1 in
      if ((a =? 40) || (a =? 91) || (a =? 123))%nat then strip_openers s1
      else
        match s1 with
        | String c2 (String c3 s3) =>
            if wide_opener a (nat_of_ascii c2) (nat_of_ascii c3)
            then strip_openers s3 else s
        | _ => s
        end
  end.

(** The text consists of closing brackets only. *)
Fixpoint all_closers (s : string) : bool :=
  match s with
  | EmptyString => true
  | String c1 s1 =>
      let a := nat_of_ascii c1 in
      if ((a =? 41) || (a =? 93) || (a =? 125))%nat then all_closers s1
      else
        match s1 with
        | String c2 (String c3 s3) =>
            if wide_closer a (nat_of_ascii c2) (nat_of_ascii c3)
            then all_closers s3 else false
        | _ => false
        end
  end.

(** The text without the run of closing brackets at its end. *)
Fixpoint strip_closers (s : string) : string :=
  match s with
  | EmptyString => EmptyString
  | String c s' =>
      if all_closers s then EmptyString else String c (strip_closers s')
  end.

(** [text.replace(/^[\(（\[\【\{「『]+|[\)）\]\】\}」』]+$/g, '')]: the
    first alternative matches the opening brackets at the start, the second
    one the closing brackets at the end of what is left. *)
Definition strip_brackets (s : string) : string :=
  strip_closers (strip_openers s).

(** An entry of the list: [translated] and [original] are [None] when the
    property is [undefined]. *)
Record TextItem := mkTextItem {
  ti_text : string;
  ti_value : string;
  ti_translated : option string;
  ti_original : option string
}.

(** [x || undefined] on a text that may be [null]. *)
Definition or_undefined (x : option string) : option string := or_str x None.

Section TextGrid.

(** [TranslateCacheService.queryTranslateCache], which is not among the
    sources. *)
Variable query : string -> option CacheHit.

Definition translated_of (text : string) : option string :=
  match query text with
  | Some (hit_source t) => or_undefined (Some t)
  | _ => None
  end.

Definition original_of (text : string) : option string :=
  match query text with
  | Some (hit_source t) => None
  | Some (hit_translated o) => or_undefined (Some o)
  | None => None
  end.

(** The body of [parts.forEach]. *)
Definition add_part (items : list TextItem) (part : string) : list TextItem :=
  let text := trim (strip_brackets (trim part)) in
  if truthy_str text && (0 <? js_length text)%nat
     && (js_length text <=? 100)%nat
  then
    if existsb (fun item => String.eqb (ti_text item) text
                            || String.eqb (ti_value item) text) items
    then items
    else items ++ [mkTextItem text text (translated_of text) (original_of text)]
  else items.

(** The body of [lines.forEach]. *)
Definition add_line (items : list TextItem) (line : string) : list TextItem :=
  let trimmedLine := trim line in
  if negb (truthy_str trimmedLine) then items
  else foldl add_part items (split_commas trimmedLine).

(** The body of [words.forEach]. *)
Definition add_word (items : list TextItem) (word : string) : list TextItem :=
  let trimmedWord := trim word in
  if truthy_str trimmedWord && (0 <? js_length trimmedWord)%nat
     && (js_length trimmedWord <=? 50)%nat
  then items ++ [mkTextItem trimmedWord trimmedWord
                   (translated_of trimmedWord) None]
  else items.

(** The items parsed from the lines and the commas. *)
Definition items_by_commas (inputValue : string) : list TextItem :=
  foldl add_line [] (split_lines inputValue).

(** The function on the text of the input,
    [widget.inputEl.value || '']. *)
Definition textGridItems (inputValue : string) : list TextItem :=
  if negb (truthy_str (trim inputValue)) then []
  else
    let items := items_by_commas inputValue in
    let items :=
      match items with
      | [] => foldl add_word items (split_white (trim inputValue))
      | _ :: _ => items
      end in
    match items with
    | [] =>
        if (js_length (trim inputValue) <=? 100)%nat
        then
          let t := trim inputValue in
          [mkTextItem t t (translated_of t) None]
        else items
    | _ :: _ => items
    end.

(** [_getTextGridItems(widget)]. Reading [value] of a missing input element
    raises a [TypeError], which is [None] here; an element that is not a
    textarea has no [value]. *)
Definition _getTextGridItems (w : WId) (s : State) : option (list TextItem) :=
  match Assistant.inputEl (get_obj w s) with
  | None => None
  | Some e =>
      let inputValue :=
        match Elem.kind (get_elem e s) with
        | TEXTAREA => Elem.value (get_elem e s)
        | _ => ""
        end in
      Some (textGridItems inputValue)
  end.

End TextGrid.

(** An item with a text that is not empty, of at most [bound] code units,
    and with that text as its value. *)
Definition item_ok (bound : nat) (it : TextItem) : Prop :=
  truthy_str (ti_text it) = true
  /\ (js_length (ti_text it) <= bound)%nat
  /\ ti_value it = ti_text it.

(** The text and the value of the items of a list. *)
Definition item_texts (items : list TextItem) : list (string * string) :=
  map (fun it => (ti_text it, ti_value it)) items.

(** ** The master switch: [toggleGlobalFeature] *)

(** [window.FEATURES.enabled = b] *)
Definition set_enabled (b : bool) (h : Host) : Host :=
  mkHost b (PROMPT_ASSISTANT_WORKFLOW_SWITCHING h) (vueNodesMode h)
    (isVueNodesMode h) (ResizeObserver h) (app_graph h) (global_graphId h)
    (isValidInput h) (Date_now h) (Math_random h) (mp_in_body h) (mp_node h)
    (node_dom h) (useTranslateCache h) (cacheMixedLangTranslation h)
    (enableStreaming h) (formatTranslatedText h) (isMixedChineseEnglish h)
    (protectAndExtract_texts h) (restoreWithTranslations h).

(** A function installed as [app.canvas.onSelectionChange]: one of the host,
    told apart by a name, or the one [toggleGlobalFeature] creates. *)
Inductive SelectionHandler :=
  | handler_of_host (name : nat)
  | handler_of_assistant.

#[global] Instance SelectionHandler_eq_dec : EqDecision SelectionHandler.
Proof. solve_decision. Defined.

(** What the switch reads and writes of [app.canvas]. [canvas_graph] is
    [None] when the canvas has no graph; an entry of the list of nodes is
    [None] for a hole, and holds otherwise the node and its flag
    [_promptAssistantInitialized]. [selectionHandlerCreated] tells whether
    [_promptAssistantSelectionHandler] has been created. *)
Record Canvas := mkCanvas {
  canvas_graph : option (list (option (Node.t * bool)));
  onSelectionChange : option SelectionHandler;
  selectionHandlerCreated : bool;
  _originalSelectionChange : option SelectionHandler
}.

Definition set_nodes (nodes : list (option (Node.t * bool))) (c : Canvas)
  : Canvas :=
  mkCanvas (Some nodes) (onSelectionChange c) (selectionHandlerCreated c)
    (_originalSelectionChange c).

Definition set_onSelectionChange (f : option SelectionHandler) (c : Canvas)
  : Canvas :=
  mkCanvas (canvas_graph c) f (selectionHandlerCreated c)
    (_originalSelectionChange c).

Definition set_handlerCreated (c : Canvas) : Canvas :=
  mkCanvas (canvas_graph c) (onSelectionChange c) true
    (_originalSelectionChange c).

Definition set_original (f : option SelectionHandler) (c : Canvas) : Canvas :=
  mkCanvas (canvas_graph c) (onSelectionChange c) (selectionHandlerCreated c) f.

(** The loop over the nodes of the graph that scans every node not flagged
    yet, after flagging it. A scan that raises ends the loop. *)
Fixpoint scan_nodes (h : Host) (nodes : list (option (Node.t * bool)))
  (s : State) : list (option (Node.t * bool)) * Completion :=
  match nodes with
  | [] => ([], Normal s)
  | None :: rest =>
      let r := scan_nodes h rest s in (None :: r.1, r.2)
  | Some (node, true) :: rest =>
      let r := scan_nodes h rest s in (Some (node, true) :: r.1, r.2)
  | Some (node, false) :: rest =>
      match checkAndSetupNode h node s with
      | Normal s' =>
          let r := scan_nodes h rest s' in (Some (node, true) :: r.1, r.2)
      | ReferenceError s' => (Some (node, true) :: rest, ReferenceError s')
      end
  end.

(** What a call leaves: the value of [window.FEATURES.enabled], the canvas,
    the state, and whether the line that reports the action was logged. *)
Record Toggled := mkToggled {
  t_enabled : bool;
  t_canvas : option Canvas;
  t_state : State;
  t_logged : bool
}.

(** [toggleGlobalFeature(enable, force)]. [canvas] is [app.canvas], [None]
    when there is none; [creationMode] is the value of the setting
    [PromptAssistant.Settings.CreationMode]. The initialisation of the event
    and resource managers and the update of the visibility of the buttons
    belong to modules that are not among the sources and have no effect
    here. *)
Definition toggleGlobalFeature (h : Host) (canvas : option Canvas)
  (creationMode : option string) (enable force : bool) (s : State) : Toggled :=
  let oldValue := FEATURES_enabled h in
  let h := set_enabled enable h in
  if negb force && Bool.eqb oldValue enable
  then mkToggled enable canvas s false
  else if enable then
    (* 1. the flags of the nodes are reset *)
    let canvas :=
      match canvas with
      | Some c =>
          match canvas_graph c with
          | Some nodes =>
              Some (set_nodes
                      (map (fun n => match n with
                                     | Some (node, _) => Some (node, false)
                                     | None => None
                                     end) nodes) c)
          | None => Some c
          end
      | None => None
      end in
    match canvas with
    | None => mkToggled enable None s true
    | Some c =>
        (* 2. the selection handler is installed, the one of the host saved *)
        let c := if selectionHandlerCreated c then c else set_handlerCreated c in
        let c :=
          match onSelectionChange c with
          | Some f =>
              if bool_decide (f = handler_of_assistant) then c
              else set_original (Some f) c
          | None => c
          end in
        let c := set_onSelectionChange (Some handler_of_assistant) c in
        (* 3. in the automatic mode every node is scanned *)
        if String.eqb (default "auto" (or_str creationMode None)) "auto" then
          match canvas_graph c with
          | None =>
              (* reading [_nodes] of a missing graph raises *)
              mkToggled oldValue (Some c) s true
          | Some nodes =>
              let r := scan_nodes h nodes s in
              match r.2 with
              | Normal s' => mkToggled enable (Some (set_nodes r.1 c)) s' true
              | ReferenceError s' =>
                  mkToggled oldValue (Some (set_nodes r.1 c)) s' true
              end
          end
        else mkToggled enable (Some c) s true
    end
  else
    let s := cleanup h None true s in
    let canvas :=
      match canvas with
      | Some c => Some (set_onSelectionChange (_originalSelectionChange c) c)
      | None => None
      end in
    mkToggled enable canvas s true.

(** The [onChange] of the setting [PromptAssistant.Features.Enabled] in
    [settings.js], for a page on which [app.promptAssistant] exists. The
    image caption assistant it toggles as well is not among the sources. *)
Definition masterSwitch_onChange (h : Host) (canvas : option Canvas)
  (creationMode : option string) (value : bool) (s : State) : Toggled :=
  let currentState := FEATURES_enabled h in
  let h := set_enabled value h in
  toggleGlobalFeature h canvas creationMode value
    (negb (Bool.eqb currentState value)) s.


(** ** Elements after a cleanup *)

(** An element that carries neither the mount marker nor the binding flag. *)
Definition released (e : ElemId) (s : State) : Prop :=
  Elem._promptAssistantMounted (get_elem e s) = false
  /\ Elem._promptAssistantBound (get_elem e s) = false.

(** Two states that agree on the next identity to hand out and on the kind,
    the text and the place of every element. *)
Definition same_page (s s' : State) : Prop :=
  next_obj s' = next_obj s
  /\ forall e, elem_static (get_elem e s') = elem_static (get_elem e s).

(** ** The nodes after the switch has been turned on *)

(** The nodes of a list of entries, without their flags. *)
Definition nodes_of (nodes : list (option (Node.t * bool)))
  : list (option Node.t) :=
  map (option_map fst) nodes.

(** An entry that is a hole or a node flagged as initialised. *)
Definition flagged (n : option (Node.t * bool)) : Prop :=
  match n with
  | Some (_, b) => b = true
  | None => True
  end.

(** * Properties *)

(** ** The JavaScript [Map] keeps one entry per key *)

Section JsMapFacts.
Context {V : Type}.
Implicit Types (m : list (string * V)) (k : string) (v : V).

Lemma get_set_same k v m : JsMap.get k (JsMap.set k v m) = Some v.
Proof.
  induction m as [|[k' v'] m IH]; simpl.
  - by rewrite String.eqb_refl.
  - destruct (String.eqb k k') eqn:E; simpl; rewrite E; [done | exact IH].
Qed.

Lemma get_set_other k k' v m :
  k <> k' -> JsMap.get k' (JsMap.set k v m) = JsMap.get k' m.
Proof.
  intros Hne. induction m as [|[k0 v0] m IH]; simpl.
  - destruct (String.eqb k' k) eqn:E; [|done].
    apply String.eqb_eq in E. congruence.
  - destruct (String.eqb k k0) eqn:E; simpl.
    + apply String.eqb_eq in E. subst k0.
      destruct (String.eqb k' k) eqn:E'; [|done].
      apply String.eqb_eq in E'. congruence.
    + by rewrite IH.
Qed.

Lemma get_delete_same k m : JsMap.get k (JsMap.delete k m) = None.
Proof.
  induction m as [|[k' v'] m IH]; simpl; [done|].
  destruct (String.eqb k k') eqn:E; simpl; [exact IH | by rewrite E].
Qed.

Lemma get_delete_other k k' m :
  k <> k' -> JsMap.get k' (JsMap.delete k m) = JsMap.get k' m.
Proof.
  intros Hne. induction m as [|[k0 v0] m IH]; simpl; [done|].
  destruct (String.eqb k k0) eqn:E; simpl.
  - apply String.eqb_eq in E. subst k0.
    destruct (String.eqb k' k) eqn:E'; [|exact IH].
    apply String.eqb_eq in E'. congruence.
  - by rewrite IH.
Qed.

Lemma get_delete_None k k' m :
  JsMap.get k' m = None -> JsMap.get k' (JsMap.delete k m) = None.
Proof.
  destruct (decide (k = k')) as [->|Hne].
  - intros _. apply get_delete_same.
  - intros H. by rewrite get_delete_other.
Qed.

Lemma get_Some_keys k v m : JsMap.get k m = Some v -> k ∈ JsMap.keys m.
Proof.
  induction m as [|[k' v'] m IH]; simpl; [done|].
  destruct (String.eqb k k') eqn:E.
  - apply String.eqb_eq in E. subst. intros _. apply list_elem_of_here.
  - intros H. apply list_elem_of_further. by apply IH.
Qed.

Lemma keys_get_Some k m : k ∈ JsMap.keys m -> is_Some (JsMap.get k m).
Proof.
  induction m as [|[k' v'] m IH]; simpl.
  - intros H. by apply elem_of_nil in H.
  - intros H. destruct (String.eqb k k') eqn:E; [by eexists|].
    apply elem_of_cons in H as [->|H]; [|by apply IH].
    by rewrite String.eqb_refl in E.
Qed.

Lemma keys_delete k k' m :
  k' ∈ JsMap.keys (JsMap.delete k m) -> k' ∈ JsMap.keys m /\ k' <> k.
Proof.
  induction m as [|[k0 v0] m IH]; simpl.
  - intros H. by apply elem_of_nil in H.
  - destruct (String.eqb k k0) eqn:E; simpl.
    + intros H. destruct (IH H) as [H1 H2]. split; [|done].
      by apply list_elem_of_further.
    + intros H. apply elem_of_cons in H as [->|H].
      * split; [apply list_elem_of_here|].
        intros ->. by rewrite String.eqb_refl in E.
      * destruct (IH H) as [H1 H2]. split; [|done].
        by apply list_elem_of_further.
Qed.

Lemma NoDup_keys_delete k m :
  NoDup (JsMap.keys m) -> NoDup (JsMap.keys (JsMap.delete k m)).
Proof.
  induction m as [|[k0 v0] m IH]; simpl; [done|].
  intros H. apply NoDup_cons in H as [Hni Hnd].
  destruct (String.eqb k k0) eqn:E; simpl; [by apply IH|].
  apply NoDup_cons. split; [|by apply IH].
  intros Hin. apply keys_delete in Hin as [Hin _]. by apply Hni.
Qed.

Lemma keys_set k v m :
  JsMap.keys (JsMap.set k v m) =
  if JsMap.has k m then JsMap.keys m else JsMap.keys m ++ [k].
Proof.
  unfold JsMap.has.
  induction m as [|[k0 v0] m IH]; simpl; [done|].
  destruct (String.eqb k k0) eqn:E; simpl; [done|].
  rewrite IH. by destruct (JsMap.get k m).
Qed.

Lemma NoDup_keys_set k v m :
  NoDup (JsMap.keys m) -> NoDup (JsMap.keys (JsMap.set k v m)).
Proof.
  intros H. rewrite keys_set. unfold JsMap.has.
  destruct (JsMap.get k m) eqn:E; [done|].
  apply NoDup_app. split; [done|]. split.
  - intros x Hx Hx'. apply list_elem_of_singleton in Hx'. subst x.
    apply keys_get_Some in Hx as [? Hx]. congruence.
  - apply NoDup_singleton.
Qed.
End JsMapFacts.

(** ** Frame lemmas of the teardown *)

Lemma foldl_frame {A B C} (proj : A -> C) (f : A -> B -> A) l a :
  (forall a b, proj (f a b) = proj a) -> proj (foldl f a l) = proj a.
Proof.
  intros H. revert a. induction l as [|b l IH]; intros a; simpl; [done|].
  by rewrite IH, H.
Qed.

Lemma same_but_elems_refl s : same_but_elems s s.
Proof. by repeat split. Qed.

Lemma same_but_elems_trans s1 s2 s3 :
  same_but_elems s1 s2 -> same_but_elems s2 s3 -> same_but_elems s1 s3.
Proof.
  unfold same_but_elems. intros H1 H2.
  destruct H1 as (A1 & A2 & A3 & A4 & A5 & A6 & A7 & A8 & A9 & A10 & A11).
  destruct H2 as (B1 & B2 & B3 & B4 & B5 & B6 & B7 & B8 & B9 & B10 & B11).
  repeat split; congruence.
Qed.

Lemma upd_elem_frame e f s : same_but_elems s (upd_elem e f s).
Proof. by repeat split. Qed.

Lemma run_cleanup_frame c s : same_but_elems s (run_cleanup c s).
Proof. destruct c; by repeat split. Qed.

Lemma run_cleanups_frame cs : forall s,
  same_but_elems s (foldl (fun s c => run_cleanup c s) s cs).
Proof.
  induction cs as [|c cs IH]; intros s; simpl.
  - apply same_but_elems_refl.
  - eapply same_but_elems_trans; [apply run_cleanup_frame | apply IH].
Qed.

Lemma reset_bound_frame oe s : same_but_elems s (reset_bound oe s).
Proof.
  unfold reset_bound. destruct oe; [|apply same_but_elems_refl].
  case_match; [apply upd_elem_frame | apply same_but_elems_refl].
Qed.

Lemma reset_marker_if_mounted_frame e s :
  same_but_elems s (reset_marker_if_mounted e s).
Proof.
  unfold reset_marker_if_mounted, reset_marker.
  case_match; [apply upd_elem_frame | apply same_but_elems_refl].
Qed.

Lemma cleanup_elements_frame a s : same_but_elems s (cleanup_elements a s).
Proof.
  unfold cleanup_elements. cbv zeta.
  pose proof (run_cleanups_frame (Assistant._eventCleanupFunctions a) s) as H1.
  set (s1 := foldl _ s _) in *.
  pose proof (reset_bound_frame (Assistant.inputEl a) s1) as H2.
  set (s2 := reset_bound _ s1) in *.
  pose proof (reset_bound_frame (Assistant.text_element a) s2) as H3.
  set (s3 := reset_bound _ s2) in *.
  assert (same_but_elems s3
            (from_option (fun e => reset_marker_if_mounted e s3) s3
               (Assistant.inputEl a))) as H4.
  { destruct (Assistant.inputEl a); simpl;
      [apply reset_marker_if_mounted_frame | apply same_but_elems_refl]. }
  set (s4 := from_option _ s3 _) in *.
  assert (same_but_elems s s4) as H
    by eauto using same_but_elems_trans.
  destruct (Assistant.text_element a); [|done].
  case_match; [done|].
  eapply same_but_elems_trans; [exact H | apply reset_marker_if_mounted_frame].
Qed.

Lemma cleanupInstance_instances w k b s :
  instances (_cleanupInstance w k b s) =
  if negb b && truthy_str k then JsMap.delete k (instances s) else instances s.
Proof.
  unfold _cleanupInstance.
  destruct (cleanup_elements_frame (get_obj w s) s) as (H & _).
  generalize dependent (cleanup_elements (get_obj w s) s). intros s' H.
  destruct (Assistant.element (get_obj w s)), (truthy_str k), b;
    simpl; by rewrite ?H.
Qed.

Lemma cleanupInstance_heap w k b s :
  heap (_cleanupInstance w k b s) = <[w := Assistant.husk]> (heap s).
Proof.
  unfold _cleanupInstance.
  destruct (cleanup_elements_frame (get_obj w s) s) as (_ & H & _).
  generalize dependent (cleanup_elements (get_obj w s) s). intros s' H.
  destruct (Assistant.element (get_obj w s)), (truthy_str k), b;
    simpl; by rewrite ?H.
Qed.

Lemma cleanupInstance_caches w k b s :
  cache_calls (_cleanupInstance w k b s) = cache_calls s
  /\ translate_cache (_cleanupInstance w k b s) = translate_cache s
  /\ log (_cleanupInstance w k b s) = log s.
Proof.
  unfold _cleanupInstance.
  destruct (cleanup_elements_frame (get_obj w s) s)
    as (_ & _ & _ & _ & _ & _ & H1 & H2 & _ & H3 & _).
  generalize dependent (cleanup_elements (get_obj w s) s). intros s' H1 H2 H3.
  destruct (Assistant.element (get_obj w s)), (truthy_str k), b;
    simpl; by rewrite ?H1, ?H2, ?H3.
Qed.

Lemma cleanupInstance_dom w k b s :
  dom_parent (_cleanupInstance w k b s) =
  match Assistant.element (get_obj w s) with
  | Some ui => delete ui (dom_parent s)
  | None => dom_parent s
  end.
Proof.
  unfold _cleanupInstance.
  destruct (cleanup_elements_frame (get_obj w s) s) as (_ & _ & _ & H & _).
  generalize dependent (cleanup_elements (get_obj w s) s). intros s' H.
  destruct (Assistant.element (get_obj w s)), (truthy_str k), b;
    simpl; by rewrite ?H.
Qed.

#[local] Opaque _cleanupInstance.

(** ** Loops of [cleanup] *)

Section TeardownLoop.
Variable step : State -> string -> State.
Variable good : string -> Prop.

Hypothesis step_miss : forall s k k',
  getInstance k' s = None -> getInstance k' (step s k) = None.
Hypothesis step_other : forall s k k',
  k <> k' -> getInstance k' (step s k) = getInstance k' s.
Hypothesis step_hit : forall s k w,
  getInstance k s = Some w ->
  (good k -> getInstance k (step s k) = None)
  /\ heap (step s k) !! w = Some Assistant.husk.
Hypothesis step_husk : forall s k w,
  heap s !! w = Some Assistant.husk ->
  heap (step s k) !! w = Some Assistant.husk.

Lemma loop_miss ks : forall s k',
  getInstance k' s = None -> getInstance k' (foldl step s ks) = None.
Proof. induction ks as [|k ks IH]; intros s k' H; simpl; auto. Qed.

Lemma loop_husk ks : forall s w,
  heap s !! w = Some Assistant.husk ->
  heap (foldl step s ks) !! w = Some Assistant.husk.
Proof. induction ks as [|k ks IH]; intros s w H; simpl; auto. Qed.

Lemma loop_hit ks : forall s key w,
  key ∈ ks -> getInstance key s = Some w ->
  (good key -> getInstance key (foldl step s ks) = None)
  /\ heap (foldl step s ks) !! w = Some Assistant.husk.
Proof.
  induction ks as [|k ks IH]; intros s key w Hin Hget; simpl.
  - by apply elem_of_nil in Hin.
  - destruct (decide (k = key)) as [->|Hne].
    + destruct (step_hit s key w Hget) as [H1 H2]. split.
      * intros Hg. apply loop_miss. auto.
      * by apply loop_husk.
    + apply elem_of_cons in Hin as [->|Hin]; [done|].
      apply IH; [done|]. by rewrite step_other.
Qed.
End TeardownLoop.

Lemma startsWith_nonempty s p :
  startsWith s (p +:+ "_") = true -> truthy_str s = true.
Proof. destruct s; [by destruct p | done]. Qed.

Lemma switching_step_facts :
  (forall s k k', getInstance k' s = None ->
     getInstance k' (switching_step s k) = None)
  /\ (forall s k k', k <> k' ->
     getInstance k' (switching_step s k) = getInstance k' s)
  /\ (forall s k w, getInstance k s = Some w ->
     (truthy_str k = true -> getInstance k (switching_step s k) = None)
     /\ heap (switching_step s k) !! w = Some Assistant.husk)
  /\ (forall s k w, heap s !! w = Some Assistant.husk ->
     heap (switching_step s k) !! w = Some Assistant.husk).
Proof.
  unfold switching_step, getInstance. repeat split.
  - intros s k k' H. destruct (JsMap.get k (instances s)); [|done].
    rewrite cleanupInstance_instances. simpl.
    destruct (truthy_str k); [by apply get_delete_None | done].
  - intros s k k' Hne. destruct (JsMap.get k (instances s)); [|done].
    rewrite cleanupInstance_instances. simpl.
    destruct (truthy_str k); [by apply get_delete_other | done].
  - intros Ht. rewrite H, cleanupInstance_instances. simpl. rewrite Ht.
    apply get_delete_same.
  - rewrite H, cleanupInstance_heap. apply lookup_insert_eq.
  - intros s k w H. destruct (JsMap.get k (instances s)); [|done].
    rewrite cleanupInstance_heap.
    destruct (decide (w0 = w)) as [->|Hne];
      [apply lookup_insert_eq | by rewrite lookup_insert_ne].
Qed.

Lemma node_step_facts :
  (forall s k k', getInstance k' s = None ->
     getInstance k' (node_step s k) = None)
  /\ (forall s k k', k <> k' ->
     getInstance k' (node_step s k) = getInstance k' s)
  /\ (forall s k w, getInstance k s = Some w ->
     (True -> getInstance k (node_step s k) = None)
     /\ heap (node_step s k) !! w = Some Assistant.husk)
  /\ (forall s k w, heap s !! w = Some Assistant.husk ->
     heap (node_step s k) !! w = Some Assistant.husk).
Proof.
  unfold node_step, getInstance. repeat split.
  - intros s k k' H. destruct (JsMap.get k (instances s)); [|done].
    simpl. rewrite cleanupInstance_instances. simpl.
    by apply get_delete_None.
  - intros s k k' Hne. destruct (JsMap.get k (instances s)); [|done].
    simpl. rewrite cleanupInstance_instances. simpl.
    by apply get_delete_other.
  - intros _. rewrite H. simpl. apply get_delete_same.
  - rewrite H. simpl. rewrite cleanupInstance_heap. apply lookup_insert_eq.
  - intros s k w H. destruct (JsMap.get k (instances s)); [|done].
    simpl. rewrite cleanupInstance_heap.
    destruct (decide (w0 = w)) as [->|Hne];
      [apply lookup_insert_eq | by rewrite lookup_insert_ne].
Qed.

Lemma clear_tags_step_frame n s names k :
  let r := clear_tags_step n (s, names) k in
  instances r.1 = instances s /\ heap r.1 = heap s
  /\ translate_cache r.1 = translate_cache s /\ log r.1 = log s
  /\ exists cs, cache_calls r.1 = cache_calls s ++ cs.
Proof.
  unfold clear_tags_step.
  destruct (getInstance k s) as [w|];
    [|repeat split; exists []; by rewrite app_nil_r].
  destruct (Assistant.inputId (get_obj w s)) as [i|];
    [|repeat split; exists []; by rewrite app_nil_r].
  destruct (truthy_str i);
    [|repeat split; exists []; by rewrite app_nil_r].
  repeat split. by exists [clearCache n i].
Qed.

Lemma clear_tags_frame n ks : forall s names,
  let r := foldl (clear_tags_step n) (s, names) ks in
  instances r.1 = instances s /\ heap r.1 = heap s
  /\ translate_cache r.1 = translate_cache s /\ log r.1 = log s.
Proof.
  induction ks as [|k ks IH]; intros s names; [done|].
  cbn [foldl].
  destruct (clear_tags_step_frame n s names k) as (G1 & G2 & G3 & G4 & _).
  destruct (clear_tags_step n (s, names) k) as [s' names'].
  destruct (IH s' names') as (H1 & H2 & H3 & H4).
  cbn [fst] in *. cbv zeta. by rewrite H1, H2, H3, H4.
Qed.

Lemma global_loop_husk kvs : forall s names w,
  heap s !! w = Some Assistant.husk ->
  heap (foldl global_step (s, names) kvs).1 !! w = Some Assistant.husk.
Proof.
  induction kvs as [|[k w'] kvs IH]; intros s names w H; simpl; [done|].
  apply IH. rewrite cleanupInstance_heap.
  destruct (decide (w' = w)) as [->|Hne];
    [apply lookup_insert_eq | by rewrite lookup_insert_ne].
Qed.

Lemma global_loop_hit kvs : forall s names key w,
  (key, w) ∈ kvs ->
  heap (foldl global_step (s, names) kvs).1 !! w = Some Assistant.husk.
Proof.
  induction kvs as [|[k w'] kvs IH]; intros s names key w Hin; simpl.
  - by apply elem_of_nil in Hin.
  - apply elem_of_cons in Hin as [Heq|Hin].
    + inversion Heq; subst. apply global_loop_husk.
      rewrite cleanupInstance_heap. apply lookup_insert_eq.
    + by eapply IH.
Qed.

Lemma global_loop_frame kvs : forall s names,
  let r := foldl global_step (s, names) kvs in
  cache_calls r.1 = cache_calls s
  /\ translate_cache r.1 = translate_cache s /\ log r.1 = log s.
Proof.
  simpl. induction kvs as [|[k w] kvs IH]; intros s names; simpl; [done|].
  destruct (IH (_cleanupInstance w k true s)
              (names ++ [default k (or_str (Assistant.inputId (get_obj w s)) None)]))
    as (H1 & H2 & H3).
  destruct (cleanupInstance_caches w k true s) as (G1 & G2 & G3).
  by rewrite H1, H2, H3.
Qed.

Lemma get_Some_elem {V} k (v : V) m : JsMap.get k m = Some v -> (k, v) ∈ m.
Proof.
  induction m as [|[k' v'] m IH]; simpl; [done|].
  destruct (String.eqb k k') eqn:E.
  - apply String.eqb_eq in E. subst. intros [= ->]. apply list_elem_of_here.
  - intros H. apply list_elem_of_further. by apply IH.
Qed.

Lemma with_log_reset l s' s :
  log s' = log s -> with_log (fun _ => log s) (logger_log l s') = s'.
Proof. destruct s'. unfold logger_log, with_log. simpl. by intros ->. Qed.

Lemma with_log_reset2 l1 l2 s' s :
  log s' = log s ->
  with_log (fun _ => log s) (logger_log l1 (logger_log l2 s')) = s'.
Proof. destruct s'. unfold logger_log, with_log. simpl. by intros ->. Qed.

Lemma with_log_id s' s :
  log s' = log s -> with_log (fun _ => log s) s' = s'.
Proof. destruct s'. unfold with_log. simpl. by intros ->. Qed.

Lemma switching_loop_frame ks : forall s,
  cache_calls (foldl switching_step s ks) = cache_calls s
  /\ translate_cache (foldl switching_step s ks) = translate_cache s
  /\ log (foldl switching_step s ks) = log s.
Proof.
  induction ks as [|k ks IH]; intros s; simpl; [done|].
  destruct (IH (switching_step s k)) as (H1 & H2 & H3).
  rewrite H1, H2, H3. unfold switching_step.
  destruct (getInstance k s); [|done]. apply cleanupInstance_caches.
Qed.

Lemma node_loop_frame ks : forall s,
  cache_calls (foldl node_step s ks) = cache_calls s
  /\ translate_cache (foldl node_step s ks) = translate_cache s
  /\ log (foldl node_step s ks) = log s.
Proof.
  induction ks as [|k ks IH]; intros s; simpl; [done|].
  destruct (IH (node_step s k)) as (H1 & H2 & H3).
  rewrite H1, H2, H3. unfold node_step.
  destruct (getInstance k s); [|done]. simpl. apply cleanupInstance_caches.
Qed.

Section TeardownLoopDom.
Variable step : State -> string -> State.

Hypothesis step_other : forall s k k',
  k <> k' -> getInstance k' (step s k) = getInstance k' s.
Hypothesis step_dom_none : forall s k ui,
  dom_parent s !! ui = None -> dom_parent (step s k) !! ui = None.
Hypothesis step_hit_dom : forall s k w ui,
  getInstance k s = Some w -> Assistant.element (get_obj w s) = Some ui ->
  dom_parent (step s k) !! ui = None.
Hypothesis step_obj_other : forall s k w,
  getInstance k s <> Some w -> heap (step s k) !! w = heap s !! w.

Lemma loop_dom_none ks : forall s ui,
  dom_parent s !! ui = None -> dom_parent (foldl step s ks) !! ui = None.
Proof. induction ks as [|k ks IH]; intros s ui H; simpl; auto. Qed.

Lemma loop_hit_dom ks : forall s key w ui,
  key ∈ ks -> getInstance key s = Some w ->
  Assistant.element (get_obj w s) = Some ui ->
  dom_parent (foldl step s ks) !! ui = None.
Proof.
  induction ks as [|k ks IH]; intros s key w ui Hin Hget Hel; simpl.
  - by apply elem_of_nil in Hin.
  - destruct (decide (getInstance k s = Some w)) as [Hk|Hk].
    + apply loop_dom_none. by eapply step_hit_dom.
    + assert (k <> key) as Hne by (intros ->; done).
      apply elem_of_cons in Hin as [->|Hin]; [done|].
      apply (IH _ key w); [done | by rewrite step_other |].
      unfold get_obj. rewrite step_obj_other; done.
Qed.
End TeardownLoopDom.

Lemma switching_step_dom_facts :
  (forall s k ui, dom_parent s !! ui = None ->
     dom_parent (switching_step s k) !! ui = None)
  /\ (forall s k w ui, getInstance k s = Some w ->
     Assistant.element (get_obj w s) = Some ui ->
     dom_parent (switching_step s k) !! ui = None)
  /\ (forall s k w, getInstance k s <> Some w ->
     heap (switching_step s k) !! w = heap s !! w).
Proof.
  unfold switching_step. repeat split.
  - intros s k ui H. destruct (getInstance k s); [|done].
    rewrite cleanupInstance_dom. case_match; [|done].
    by apply lookup_delete_None; right.
  - intros s k w ui Hg He. rewrite Hg, cleanupInstance_dom, He.
    apply lookup_delete_eq.
  - intros s k w Hg. destruct (getInstance k s) as [w'|]; [|done].
    rewrite cleanupInstance_heap. apply lookup_insert_ne. congruence.
Qed.

Lemma node_step_dom_facts :
  (forall s k ui, dom_parent s !! ui = None ->
     dom_parent (node_step s k) !! ui = None)
  /\ (forall s k w ui, getInstance k s = Some w ->
     Assistant.element (get_obj w s) = Some ui ->
     dom_parent (node_step s k) !! ui = None)
  /\ (forall s k w, getInstance k s <> Some w ->
     heap (node_step s k) !! w = heap s !! w).
Proof.
  unfold node_step. repeat split.
  - intros s k ui H. destruct (getInstance k s); [|done]. simpl.
    rewrite cleanupInstance_dom. case_match; [|done].
    by apply lookup_delete_None; right.
  - intros s k w ui Hg He. rewrite Hg. simpl.
    rewrite cleanupInstance_dom, He. apply lookup_delete_eq.
  - intros s k w Hg. destruct (getInstance k s) as [w'|]; [|done]. simpl.
    rewrite cleanupInstance_heap. apply lookup_insert_ne. congruence.
Qed.

Lemma global_loop_dom_none kvs : forall s names ui,
  dom_parent s !! ui = None ->
  dom_parent (foldl global_step (s, names) kvs).1 !! ui = None.
Proof.
  induction kvs as [|[k w'] kvs IH]; intros s names ui H; simpl; [done|].
  apply IH. rewrite cleanupInstance_dom. case_match; [|done].
  by apply lookup_delete_None; right.
Qed.

Lemma global_loop_hit_dom kvs : forall s names key w ui,
  (key, w) ∈ kvs -> Assistant.element (get_obj w s) = Some ui ->
  dom_parent (foldl global_step (s, names) kvs).1 !! ui = None.
Proof.
  induction kvs as [|[k w'] kvs IH]; intros s names key w ui Hin He; simpl.
  - by apply elem_of_nil in Hin.
  - destruct (decide (w' = w)) as [->|Hne].
    + apply global_loop_dom_none. rewrite cleanupInstance_dom, He.
      apply lookup_delete_eq.
    + apply elem_of_cons in Hin as [Heq|Hin]; [congruence|].
      apply (IH _ _ key w); [done|].
      unfold get_obj. rewrite cleanupInstance_heap.
      by rewrite lookup_insert_ne.
Qed.

Lemma clear_tags_calls n ks : forall s names,
  exists cs, cache_calls (foldl (clear_tags_step n) (s, names) ks).1
             = cache_calls s ++ cs.
Proof.
  induction ks as [|k ks IH]; intros s names.
  - exists []. by rewrite app_nil_r.
  - cbn [foldl].
    destruct (clear_tags_step_frame n s names k) as (_ & _ & _ & _ & cs & G).
    destruct (clear_tags_step n (s, names) k) as [s' names'].
    destruct (IH s' names') as [cs' H]. cbn [fst] in *.
    exists (cs ++ cs'). by rewrite H, G, app_assoc.
Qed.

Lemma clear_tags_hit n ks : forall s names key w i,
  key ∈ ks -> getInstance key s = Some w ->
  Assistant.inputId (get_obj w s) = Some i -> truthy_str i = true ->
  clearCache n i ∈ cache_calls (foldl (clear_tags_step n) (s, names) ks).1.
Proof.
  induction ks as [|k ks IH]; intros s names key w i Hin Hg Hi Ht.
  - by apply elem_of_nil in Hin.
  - cbn [foldl]. apply elem_of_cons in Hin as [<-|Hin].
    + assert (clear_tags_step n (s, names) key
              = (call (clearCache n i) s, names ++ [i])) as ->
        by (unfold clear_tags_step; by rewrite Hg, Hi, Ht).
      destruct (clear_tags_calls n ks (call (clearCache n i) s) (names ++ [i]))
        as [cs ->].
      unfold call, with_cache_calls. cbn [cache_calls]. set_solver.
    + destruct (clear_tags_step_frame n s names k) as (G1 & G2 & _).
      destruct (clear_tags_step n (s, names) k) as [s' names'].
      cbn [fst] in *. eapply IH; try done.
      * unfold getInstance. by rewrite G1.
      * unfold get_obj. by rewrite G2.
Qed.

Lemma filter_keys_elem (P : string -> bool) key w (m : list (string * WId)) :
  JsMap.get key m = Some w -> P key = true ->
  key ∈ filter (fun k => P k = true) (JsMap.keys m).
Proof.
  intros Hg HP. apply list_elem_of_filter. split; [done|].
  by eapply get_Some_keys.
Qed.

Lemma cleanup_selected_removed h nodeId silent s key w :
  getInstance key s = Some w ->
  cleanup_selects h nodeId key = true ->
  getInstance key (cleanup h nodeId silent s) = None
  /\ heap (cleanup h nodeId silent s) !! w = Some Assistant.husk
  /\ (forall ui, Assistant.element (get_obj w s) = Some ui ->
        dom_parent (cleanup h nodeId silent s) !! ui = None).
Proof.
  intros Hg Hsel. unfold cleanup_selects in Hsel. unfold cleanup.
  destruct switching_step_facts as (S1 & S2 & S3 & S4).
  destruct switching_step_dom_facts as (D1 & D2 & D3).
  destruct node_step_facts as (N1 & N2 & N3 & N4).
  destruct node_step_dom_facts as (E1 & E2 & E3).
  destruct (PROMPT_ASSISTANT_WORKFLOW_SWITCHING h).
  - pose proof (filter_keys_elem (key_matches_switching nodeId) key w
                  (instances s) Hg Hsel) as Hin.
    destruct (loop_hit switching_step (fun k => truthy_str k = true)
                S1 S2 S3 S4 _ s key w Hin Hg) as [H1 H2].
    pose proof (fun ui => loop_hit_dom switching_step S2 D1 D2 D3 _ s key w ui
                  Hin Hg) as H3.
    destruct nodeId as [n|]; simpl.
    + split; [|done]. apply H1. simpl in Hsel.
      by eapply startsWith_nonempty.
    + done.
  - destruct nodeId as [n|].
    + pose proof (filter_keys_elem (key_matches (String_ n)) key w
                    (instances s) Hg Hsel) as Hin.
      set (ks := filter _ _) in *.
      destruct (0 <? length ks)%nat eqn:Hlen.
      2:{ apply Nat.ltb_ge in Hlen. destruct ks; [|simpl in Hlen; lia].
          by apply elem_of_nil in Hin. }
      destruct (clear_tags_frame n ks (call (clearNodeHistory n) s) [])
        as (F1 & F2 & _). simpl in F1, F2.
      set (r := foldl (clear_tags_step n) _ ks) in *.
      assert (getInstance key r.1 = Some w) as Hg'
        by (unfold getInstance; by rewrite F1).
      destruct (loop_hit node_step (fun _ => True)
                  N1 N2 N3 N4 _ r.1 key w Hin Hg') as [H1 H2].
      assert (get_obj w r.1 = get_obj w s) as Ho
        by (unfold get_obj; by rewrite F2).
      pose proof (fun ui => loop_hit_dom node_step N2 E1 E2 E3 _ r.1 key w ui
                    Hin Hg') as H3.
      rewrite Ho in H3.
      destruct silent; simpl; auto.
    + destruct (0 <? length (instances s))%nat eqn:Hlen.
      2:{ apply Nat.ltb_ge in Hlen. unfold getInstance in Hg.
          destruct (instances s); [done | simpl in Hlen; lia]. }
      apply get_Some_elem in Hg.
      set (s0 := call clearAllTagCache (call clearAllHistory s)).
      pose proof (global_loop_hit (instances s) s0 [] key w Hg) as H2.
      pose proof (fun ui => global_loop_hit_dom (instances s) s0 [] key w ui Hg)
        as H3.
      change (instances s0) with (instances s).
      destruct silent; simpl; auto.
Qed.

Lemma cleanup_silent_eq h nodeId s :
  cleanup h nodeId true s = with_log (fun _ => log s) (cleanup h nodeId false s).
Proof.
  unfold cleanup.
  destruct (PROMPT_ASSISTANT_WORKFLOW_SWITCHING h).
  - set (ks := filter _ _).
    destruct (switching_loop_frame ks s) as (_ & _ & H).
    destruct nodeId; symmetry.
    + by apply with_log_id.
    + apply with_log_id. by simpl.
  - destruct nodeId as [n|].
    + set (ks := filter _ _).
      destruct (0 <? length ks)%nat; [|symmetry; by apply with_log_id].
      simpl. symmetry. apply with_log_reset.
      destruct (node_loop_frame ks
                  (foldl (clear_tags_step n) (call (clearNodeHistory n) s, []) ks).1)
        as (_ & _ & ->).
      by destruct (clear_tags_frame n ks (call (clearNodeHistory n) s) [])
        as (_ & _ & _ & ->).
    + destruct (0 <? length (instances s))%nat; [|symmetry; by apply with_log_id].
      simpl. symmetry. apply with_log_reset2. simpl.
      by destruct (global_loop_frame (instances s)
                  (call clearAllTagCache (call clearAllHistory s)) [])
        as (_ & _ & ->).
Qed.

Lemma cleanup_clears_caches h nodeId silent s key w :
  PROMPT_ASSISTANT_WORKFLOW_SWITCHING h = false ->
  getInstance key s = Some w ->
  cleanup_selects h nodeId key = true ->
  match nodeId with
  | Some n =>
      clearNodeHistory n ∈ cache_calls (cleanup h nodeId silent s)
      /\ forall i, Assistant.inputId (get_obj w s) = Some i ->
           truthy_str i = true ->
           clearCache n i ∈ cache_calls (cleanup h nodeId silent s)
  | None =>
      clearAllHistory ∈ cache_calls (cleanup h nodeId silent s)
      /\ clearAllTagCache ∈ cache_calls (cleanup h nodeId silent s)
  end.
Proof.
  intros Hsw Hg Hsel. unfold cleanup_selects in Hsel. unfold cleanup.
  rewrite Hsw in *. destruct nodeId as [n|].
  - pose proof (filter_keys_elem (key_matches (String_ n)) key w
                  (instances s) Hg Hsel) as Hin.
    set (ks := filter _ _) in *.
    destruct (0 <? length ks)%nat eqn:Hlen.
    2:{ apply Nat.ltb_ge in Hlen. destruct ks; [|simpl in Hlen; lia].
        by apply elem_of_nil in Hin. }
    set (s0 := call (clearNodeHistory n) s).
    assert (cache_calls (if negb silent
               then logger_log (log_node_summary n (foldl (clear_tags_step n) (s0, []) ks).2)
                      (foldl node_step (foldl (clear_tags_step n) (s0, []) ks).1 ks)
               else foldl node_step (foldl (clear_tags_step n) (s0, []) ks).1 ks)
            = cache_calls (foldl (clear_tags_step n) (s0, []) ks).1) as ->.
    { destruct (node_loop_frame ks (foldl (clear_tags_step n) (s0, []) ks).1)
        as (H & _).
      by destruct silent. }
    split.
    + destruct (clear_tags_calls n ks s0 []) as [cs ->].
      subst s0. unfold call, with_cache_calls. simpl. set_solver.
    + intros i Hi Ht. by eapply (clear_tags_hit n ks s0 [] key w i).
  - destruct (0 <? length (instances s))%nat eqn:Hlen.
    2:{ apply Nat.ltb_ge in Hlen. unfold getInstance in Hg.
        destruct (instances s); [done | simpl in Hlen; lia]. }
    set (s0 := call clearAllTagCache (call clearAllHistory s)).
    destruct (global_loop_frame (instances s) s0 []) as (H & _).
    change (instances s0) with (instances s) in *.
    assert (cache_calls s0 = cache_calls s ++ [clearAllHistory; clearAllTagCache])
      as Hs0.
    { subst s0. unfold call, with_cache_calls. simpl. by rewrite <- app_assoc. }
    destruct silent; simpl; rewrite H, Hs0; set_solver.
Qed.

(** C9. For every node id (or none, meaning all instances) the two values of
    [silent] give the same state but for the summary lines in the log, which
    the silent call does not write. In both cases every selected instance is
    removed from the registry and torn down (its object emptied, its toolbar
    root detached), and outside a workflow switch its node history and tag
    cache are cleared. *)
Theorem cleanup_silent_only_suppresses_log (h : Host) (nodeId : option JsId)
  (s : State) :
  cleanup h nodeId true s = with_log (fun _ => log s) (cleanup h nodeId false s)
  /\ (forall silent key w,
        getInstance key s = Some w ->
        cleanup_selects h nodeId key = true ->
        getInstance key (cleanup h nodeId silent s) = None
        /\ heap (cleanup h nodeId silent s) !! w = Some Assistant.husk
        /\ (forall ui, Assistant.element (get_obj w s) = Some ui ->
              dom_parent (cleanup h nodeId silent s) !! ui = None)
        /\ (PROMPT_ASSISTANT_WORKFLOW_SWITCHING h = false ->
            match nodeId with
            | Some n =>
                clearNodeHistory n ∈ cache_calls (cleanup h nodeId silent s)
                /\ forall i, Assistant.inputId (get_obj w s) = Some i ->
                     truthy_str i = true ->
                     clearCache n i ∈ cache_calls (cleanup h nodeId silent s)
            | None =>
                clearAllHistory ∈ cache_calls (cleanup h nodeId silent s)
                /\ clearAllTagCache ∈ cache_calls (cleanup h nodeId silent s)
            end)).
Proof.
  split; [apply cleanup_silent_eq|].
  intros silent key w Hg Hsel.
  destruct (cleanup_selected_removed h nodeId silent s key w Hg Hsel)
    as (H1 & H2 & H3).
  repeat split; try done.
  intros Hsw. by apply (cleanup_clears_caches h nodeId silent s key w).
Qed.

Lemma switching_loop_other ks : forall s key,
  key ∉ ks ->
  getInstance key (foldl switching_step s ks) = getInstance key s.
Proof.
  destruct switching_step_facts as (_ & S2 & _).
  induction ks as [|k ks IH]; intros s key Hni; simpl; [done|].
  apply not_elem_of_cons in Hni as [Hne Hni].
  rewrite IH by done. by apply S2.
Qed.

(** While the workflow-switching flag is set, [cleanup], for a node or for
    all instances, removes the instances its filter selects from the
    registry and tears them down (object emptied, toolbar root detached),
    leaves the other instances registered, and makes no call to the history
    or tag services and no change to the translate cache. *)
Lemma cleanup_while_switching_keeps_caches (h : Host)
  (nodeId : option JsId) (silent : bool) (s : State) :
  PROMPT_ASSISTANT_WORKFLOW_SWITCHING h = true ->
  cache_calls (cleanup h nodeId silent s) = cache_calls s
  /\ translate_cache (cleanup h nodeId silent s) = translate_cache s
  /\ (forall key w,
        getInstance key s = Some w ->
        key_matches_switching nodeId key = true ->
        getInstance key (cleanup h nodeId silent s) = None
        /\ heap (cleanup h nodeId silent s) !! w = Some Assistant.husk
        /\ (forall ui, Assistant.element (get_obj w s) = Some ui ->
              dom_parent (cleanup h nodeId silent s) !! ui = None))
  /\ (forall key,
        key_matches_switching nodeId key = false ->
        getInstance key (cleanup h nodeId silent s) = getInstance key s).
Proof.
  intros Hsw. repeat split.
  - unfold cleanup. rewrite Hsw. set (ks := filter _ _).
    destruct (switching_loop_frame ks s) as (H & _).
    by destruct nodeId.
  - unfold cleanup. rewrite Hsw. set (ks := filter _ _).
    destruct (switching_loop_frame ks s) as (_ & H & _).
    by destruct nodeId.
  - apply (cleanup_selected_removed h nodeId silent s key w); [done|].
    unfold cleanup_selects. by rewrite Hsw.
  - apply (cleanup_selected_removed h nodeId silent s key w); [done|].
    unfold cleanup_selects. by rewrite Hsw.
  - apply (cleanup_selected_removed h nodeId silent s key w); [done|].
    unfold cleanup_selects. by rewrite Hsw.
  - intros key Hno. unfold cleanup. rewrite Hsw.
    destruct nodeId as [n|]; [|done].
    apply switching_loop_other. intros Hin.
    apply list_elem_of_filter in Hin as [Hin _]. congruence.
Qed.

(** ** Small checks of the string primitives *)

Example is_uuid_yes : is_uuid "0a1B2c3d-0000-ffff-1234-0123456789ab" = true.
Proof. reflexivity. Qed.

Example is_uuid_no : is_uuid "0a1B2c3d-0000-ffff-1234-0123456789abc" = false.
Proof. reflexivity. Qed.

Example split_key : split "_" "main_5_text" = ["main"; "5"; "text"].
Proof. reflexivity. Qed.

Example key_of_node :
  _getAssistantKey
    (mkHost true false false false true None None (fun _ _ => true)
       (fun _ => "0") (fun _ => "r") (fun _ => true) (fun _ => None)
       (fun _ => None) true false true id (fun _ => false) (fun _ => [])
       (fun x _ => x))
    (Node.mk (Some (IdNum 5)) (Some "CLIPTextEncode") (Some []) None None)
    (Some "text")
  = "main_5_text".
Proof. reflexivity. Qed.

(** ** Reading the stores after a write *)

Lemma get_elem_upd_elem e e' f s :
  get_elem e (upd_elem e' f s) =
  if decide (e = e') then f (get_elem e s) else get_elem e s.
Proof.
  unfold get_elem, upd_elem, with_elems. cbn [elems].
  destruct (decide (e = e')) as [->|Hne].
  - by rewrite lookup_insert_eq.
  - by rewrite lookup_insert_ne.
Qed.

Lemma get_obj_upd_obj w w' f s :
  get_obj w (upd_obj w' f s) =
  if decide (w = w') then f (get_obj w s) else get_obj w s.
Proof.
  unfold get_obj, upd_obj, with_heap. cbn [heap].
  destruct (decide (w = w')) as [->|Hne].
  - by rewrite lookup_insert_eq.
  - by rewrite lookup_insert_ne.
Qed.

Lemma get_obj_same_but_elems w s s' :
  same_but_elems s s' -> get_obj w s' = get_obj w s.
Proof. intros (_ & H & _). unfold get_obj. by rewrite H. Qed.

(** ** The bound input under the handlers *)

Lemma setInputValue_frame w content silent s :
  same_but_elems s (setInputValue w content silent s).2.
Proof.
  unfold setInputValue.
  destruct (Assistant.inputEl (get_obj w s)); [|apply same_but_elems_refl].
  destruct (Elem.kind (get_elem e s)), silent; by repeat split.
Qed.

Lemma updateInputWithHighlight_frame w content s :
  same_but_elems s (updateInputWithHighlight w content s).
Proof.
  unfold updateInputWithHighlight.
  destruct (Assistant.inputEl (get_obj w s)); [|apply same_but_elems_refl].
  apply setInputValue_frame.
Qed.

(** A silent write changes the value of the bound element and nothing else:
    no event is dispatched, no listener and no flag is touched. *)
Lemma setInputValue_silent_elem w content s e :
  let el := get_elem e s in
  let el' := get_elem e (setInputValue w content true s).2 in
  el' = el \/ el' = Elem.set_value content el.
Proof.
  unfold setInputValue.
  destruct (Assistant.inputEl (get_obj w s)) as [e0|]; [|by left].
  destruct (Elem.kind (get_elem e0 s)); cbn [snd];
    try (by left);
    rewrite get_elem_upd_elem; destruct (decide (e = e0)) as [->|];
      auto.
Qed.

Lemma stream_chunk_frame w acc chunk :
  same_but_elems acc.2 (stream_chunk w acc chunk).2
  /\ (stream_chunk w acc chunk).1 = acc.1 +:+ chunk
  /\ forall e,
       Elem.dispatched (get_elem e (stream_chunk w acc chunk).2)
       = Elem.dispatched (get_elem e acc.2)
       /\ Elem.listeners (get_elem e (stream_chunk w acc chunk).2)
          = Elem.listeners (get_elem e acc.2).
Proof.
  unfold stream_chunk. cbn [fst snd]. split; [apply setInputValue_frame|].
  split; [done|]. intros e.
  by destruct (setInputValue_silent_elem w (acc.1 +:+ chunk) acc.2 e)
    as [-> | ->].
Qed.

Lemma append_assoc a b c : (a +:+ b) +:+ c = a +:+ (b +:+ c).
Proof.
  induction a as [|x a IH]; [done|].
  change (String x ((a +:+ b) +:+ c) = String x (a +:+ b +:+ c)).
  by rewrite IH.
Qed.

Lemma append_nil_r a : a +:+ "" = a.
Proof.
  induction a as [|x a IH]; [done|].
  change (String x (a +:+ "") = String x a). by rewrite IH.
Qed.

Lemma streaming_frame w chunks : forall acc,
  same_but_elems acc.2 (foldl (stream_chunk w) acc chunks).2
  /\ (foldl (stream_chunk w) acc chunks).1 = acc.1 +:+ concat_text chunks.
Proof.
  induction chunks as [|c chunks IH]; intros acc; cbn [foldl concat_text].
  - split; [apply same_but_elems_refl | by rewrite append_nil_r].
  - destruct (IH (stream_chunk w acc c)) as [H1 H2].
    destruct (stream_chunk_frame w acc c) as (G1 & G2 & _).
    split; [by eapply same_but_elems_trans|].
    by rewrite H2, G2, append_assoc.
Qed.

Lemma history_item_frame w c op s s' :
  heap s' = heap s -> history_item w c op s' = history_item w c op s.
Proof. intros H. unfold history_item, get_obj. by rewrite H. Qed.

Lemma recorded_frame w c op s s' :
  heap s' = heap s -> recorded w c op s' = recorded w c op s.
Proof.
  intros H. unfold recorded. rewrite (history_item_frame w c op s s' H).
  unfold get_obj. by rewrite H.
Qed.

Lemma record_result_calls w c op s :
  cache_calls (record_result w c op s) = cache_calls s ++ recorded w c op s.
Proof.
  unfold record_result, recorded, call, with_cache_calls. cbn [cache_calls].
  by rewrite <- app_assoc.
Qed.

Lemma record_result_frame w c op s :
  heap (record_result w c op s) = heap s
  /\ translate_cache (record_result w c op s) = translate_cache s
  /\ provider_calls (record_result w c op s) = provider_calls s
  /\ elems (record_result w c op s) = elems s
  /\ instances (record_result w c op s) = instances s.
Proof. done. Qed.

Lemma expand_onClick_calls h w chunks result s :
  let r := expand_onClick h w chunks result s in
  let final :=
    first_text (if enableStreaming h then concat_text chunks else "")
      (from_option data None result) in
  cache_calls r.2 =
  cache_calls s ++
  match r.1 with
  | Succeeded _ => recorded w final op_expand s
  | Failed => []
  end.
Proof.
  cbv zeta. unfold expand_onClick.
  destruct (blank (getInputValue w s)); [by rewrite app_nil_r|].
  set (s0 := with_provider_calls _ s).
  assert (heap s0 = heap s /\ cache_calls s0 = cache_calls s) as [Hh Hc] by done.
  set (st := if enableStreaming h then foldl _ _ _ else ("", s0)).
  assert (same_but_elems s0 st.2
          /\ st.1 = (if enableStreaming h then concat_text chunks else ""))
    as [Hf Ht].
  { subst st. destruct (enableStreaming h).
    - destruct (streaming_frame w chunks ("", s0)) as [H1 H2]. done.
    - split; [apply same_but_elems_refl | done]. }
  rewrite <- Ht.
  destruct Hf as (_ & Hh' & _ & _ & _ & _ & Hc' & _).
  destruct result as [r|]; cbn [from_option];
    [|cbn [fst snd]; by rewrite Hc', Hc, app_nil_r].
  destruct (success r && truthy_str (first_text st.1 (data r)));
    cbn [fst snd]; [|by rewrite Hc', Hc, app_nil_r].
  rewrite record_result_calls.
  destruct (updateInputWithHighlight_frame w (first_text st.1 (data r)) st.2)
    as (_ & Hh2 & _ & _ & _ & _ & Hc2 & _).
  rewrite Hc2, Hc', Hc. f_equal. apply recorded_frame. congruence.
Qed.

Lemma translate_finish_calls h w isMd inputValue content sc result s :
  let r := translate_finish h w isMd inputValue content sc result s in
  let final :=
    finalResultText h isMd inputValue
      (formatTranslatedText h (first_text sc (from_option data None result))) in
  cache_calls r.2 =
  cache_calls s ++
  match r.1 with
  | Succeeded _ => recorded w final op_translate s
  | Failed => []
  end.
Proof.
  cbv zeta. unfold translate_finish.
  destruct result as [r|]; [|by rewrite app_nil_r].
  destruct (success r); [|by rewrite app_nil_r]. cbn [from_option fst snd].
  set (final := finalResultText _ _ _ _).
  set (s1 := call _ s).
  destruct (updateInputWithHighlight_frame w final s1)
    as (_ & Hh2 & _ & _ & _ & _ & Hc2 & _).
  set (s2 := updateInputWithHighlight w final s1) in *.
  assert (cache_calls
            (if useTranslateCache h
             then if negb (isMixedChineseEnglish h content)
                     || cacheMixedLangTranslation h
                  then with_translate_cache
                         (addTranslateCache content
                            (formatTranslatedText h (first_text sc (data r))))
                         (call (initUndoState (Assistant.nodeId (get_obj w s2))
                                  (Assistant.inputId (get_obj w s2))
                                  (Some final)) s2)
                  else call (initUndoState (Assistant.nodeId (get_obj w s2))
                               (Assistant.inputId (get_obj w s2))
                               (Some final)) s2
             else call (initUndoState (Assistant.nodeId (get_obj w s2))
                          (Assistant.inputId (get_obj w s2)) (Some final)) s2)
          = cache_calls s2
            ++ [initUndoState (Assistant.nodeId (get_obj w s2))
                  (Assistant.inputId (get_obj w s2)) (Some final)]) as ->.
  { by destruct (useTranslateCache h),
         (negb (isMixedChineseEnglish h content) || cacheMixedLangTranslation h). }
  rewrite Hc2. subst s1. unfold call at 1, with_cache_calls. cbn [cache_calls].
  rewrite <- app_assoc. f_equal. unfold recorded. cbn [app]. f_equal.
  unfold get_obj. by rewrite Hh2.
Qed.

Lemma translate_begin_served h w s s' :
  translate_begin h w s = served s' ->
  exists raw,
    useTranslateCache h = true
    /\ blank (getInputValue w s) = false
    /\ (queryTranslateCache (contentToTranslate h w s) (translate_cache s)
          = Some (hit_source raw)
        \/ queryTranslateCache (contentToTranslate h w s) (translate_cache s)
          = Some (hit_translated raw))
    /\ s' = record_result w
              (finalResultText h (isMarkdownLiteGraph w s) (getInputValue w s) raw)
              op_translate
              (updateInputWithHighlight w
                 (finalResultText h (isMarkdownLiteGraph w s)
                    (getInputValue w s) raw) s).
Proof.
  unfold translate_begin.
  destruct (blank (getInputValue w s)); [done|].
  destruct (blank (contentToTranslate h w s)); [done|].
  destruct (useTranslateCache h); [|done].
  destruct (queryTranslateCache _ _) as [[raw|raw]|]; [| |done];
    intros [= <-]; exists raw; auto.
Qed.

Lemma translate_begin_requesting h w s s' :
  translate_begin h w s = requesting s' ->
  s' = s
  /\ (useTranslateCache h = false
      \/ queryTranslateCache (contentToTranslate h w s) (translate_cache s)
         = None).
Proof.
  unfold translate_begin.
  destruct (blank (getInputValue w s)); [done|].
  destruct (blank (contentToTranslate h w s)); [done|].
  destruct (useTranslateCache h); [|intros [= <-]; auto].
  destruct (queryTranslateCache _ _) as [[raw|raw]|]; [done|done|].
  intros [= <-]; auto.
Qed.

(** The text the translate handler writes back when the provider answers. *)
Lemma translate_onClick_calls h w provider chunks result s :
  let r := translate_onClick h w provider chunks result s in
  exists final,
    cache_calls r.2 =
    cache_calls s ++
    match r.1 with
    | Succeeded _ => recorded w final op_translate s
    | Failed => []
    end
    /\ (r.1 = Succeeded false ->
        final =
        finalResultText h (isMarkdownLiteGraph w s) (getInputValue w s)
          (formatTranslatedText h
             (first_text
                (if translate_streams h provider then concat_text chunks
                 else "")
                (from_option data None result)))).
Proof.
  cbv zeta. unfold translate_onClick.
  destruct (translate_begin h w s) as [|s'|s'] eqn:Hb.
  - exists "". cbn [fst snd]. by rewrite app_nil_r.
  - apply translate_begin_served in Hb as (raw & _ & _ & _ & ->).
    exists (finalResultText h (isMarkdownLiteGraph w s) (getInputValue w s) raw).
    cbn [fst snd]. split; [|done].
    rewrite record_result_calls.
    destruct (updateInputWithHighlight_frame w
                (finalResultText h (isMarkdownLiteGraph w s)
                   (getInputValue w s) raw) s)
      as (_ & Hh & _ & _ & _ & _ & Hc & _).
    rewrite Hc. f_equal. by apply recorded_frame.
  - apply translate_begin_requesting in Hb as [-> _].
    set (rq := translate_request h provider (contentToTranslate h w s)).
    set (s0 := with_provider_calls _ s).
    assert (heap s0 = heap s /\ cache_calls s0 = cache_calls s) as [Hh Hc]
      by done.
    set (st := match rq with llmTranslateStream _ => _ | _ => _ end).
    assert (same_but_elems s0 st.2
            /\ st.1 = (if translate_streams h provider
                       then concat_text chunks else "")) as [Hf Ht].
    { subst st rq. unfold translate_request, translate_streams.
      destruct provider; try (split; [apply same_but_elems_refl | done]).
      destruct (enableStreaming h);
        [|split; [apply same_but_elems_refl | done]].
      destruct (streaming_frame w chunks ("", s0)) as [H1 H2]. done. }
    rewrite <- Ht. eexists. split; [|reflexivity].
    rewrite translate_finish_calls.
    destruct Hf as (_ & Hh' & _ & _ & _ & _ & Hc' & _).
    rewrite Hc', Hc. f_equal.
    destruct (translate_finish _ _ _ _ _ _ _ _).1; [|done].
    apply recorded_frame. congruence.
Qed.

(** ** The cache in the translate handler *)

Lemma getInputValue_nonblank w s :
  blank (getInputValue w s) = false ->
  exists e, Assistant.inputEl (get_obj w s) = Some e
            /\ Elem.kind (get_elem e s) <> Plain.
Proof.
  unfold getInputValue.
  destruct (Assistant.inputEl (get_obj w s)) as [e|]; [|done].
  intros H. exists e. split; [done|]. intros Hk. by rewrite Hk in H.
Qed.

Lemma getInputValue_after_update w c s :
  blank (getInputValue w s) = false ->
  getInputValue w (updateInputWithHighlight w c s) = c.
Proof.
  intros H. apply getInputValue_nonblank in H as (e & He & Hk).
  unfold updateInputWithHighlight, setInputValue, getInputValue.
  rewrite He.
  destruct (Elem.kind (get_elem e s)) eqn:Ek; [| | | |done]; cbn [snd];
    unfold get_obj, upd_elem, with_elems; cbn [heap];
    fold (get_obj w s); rewrite He; unfold get_elem; cbn [elems];
    rewrite !lookup_insert_eq; cbn; fold (get_elem e s); by rewrite Ek.
Qed.

Lemma getInputValue_frame w s s' :
  heap s' = heap s -> elems s' = elems s ->
  getInputValue w s' = getInputValue w s.
Proof.
  intros Hh He. unfold getInputValue, get_obj, get_elem. by rewrite Hh, He.
Qed.

Lemma translate_served_effects h w s s' :
  translate_begin h w s = served s' ->
  translate_cache s' = translate_cache s
  /\ provider_calls s' = provider_calls s
  /\ exists raw,
       (queryTranslateCache (contentToTranslate h w s) (translate_cache s)
          = Some (hit_source raw)
        \/ queryTranslateCache (contentToTranslate h w s) (translate_cache s)
          = Some (hit_translated raw))
       /\ getInputValue w s'
          = finalResultText h (isMarkdownLiteGraph w s) (getInputValue w s) raw.
Proof.
  intros Hb. apply translate_begin_served in Hb as (raw & _ & Hnb & Hq & ->).
  set (final := finalResultText _ _ _ _).
  destruct (updateInputWithHighlight_frame w final s)
    as (_ & _ & _ & _ & _ & _ & _ & Ht & Hp & _).
  repeat split; [done | done |].
  exists raw. split; [done|].
  rewrite (getInputValue_frame w (updateInputWithHighlight w final s)); [|done..].
  by apply getInputValue_after_update.
Qed.

Lemma translate_finish_cache h w isMd inputValue content sc result s :
  let r := translate_finish h w isMd inputValue content sc result s in
  translate_cache r.2 = translate_cache s
  \/ (r.1 = Succeeded false
      /\ (exists res, result = Some res /\ success res = true)
      /\ useTranslateCache h = true
      /\ (isMixedChineseEnglish h content = false
          \/ cacheMixedLangTranslation h = true)
      /\ translate_cache r.2 =
         addTranslateCache content
           (formatTranslatedText h
              (first_text sc (from_option data None result)))
           (translate_cache s)).
Proof.
  cbv zeta. unfold translate_finish.
  destruct result as [r|]; [|by left].
  destruct (success r) eqn:Hs; [|by left]. cbn [from_option].
  set (final := finalResultText _ _ _ _).
  set (s1 := call _ s).
  destruct (updateInputWithHighlight_frame w final s1)
    as (_ & _ & _ & _ & _ & _ & _ & Ht & _).
  change (translate_cache s1) with (translate_cache s) in Ht.
  set (s2 := updateInputWithHighlight w final s1) in *. clearbody s2.
  unfold call, with_cache_calls, with_translate_cache.
  destruct (useTranslateCache h); [|left; by cbn].
  destruct (isMixedChineseEnglish h content) eqn:Hm; cbn [negb orb].
  - destruct (cacheMixedLangTranslation h) eqn:Hc; [|left; by cbn].
    right. cbn. rewrite Ht. repeat split; eauto.
  - right. cbn. rewrite Ht. repeat split; eauto.
Qed.

(** C7. A run of the translate handler that is served from the cache ends
    with the cached counterpart in the input and leaves the cache as it was;
    and whenever a run changes the cache, the run was not served from the
    cache, the provider answered with success, the cache feature is on, the
    text sent was not detected as mixed Chinese/English or the policy allows
    caching such text, and the change is the record of that text with its
    formatted translation. *)
Theorem translate_cache_written_only_for_provider_result (h : Host) (w : WId)
  (provider : TranslateProvider) (chunks : list string)
  (result : option ApiResult) (s : State) :
  let r := translate_onClick h w provider chunks result s in
  let content := contentToTranslate h w s in
  (forall s', translate_begin h w s = served s' ->
     r = (Succeeded true, s')
     /\ translate_cache r.2 = translate_cache s
     /\ provider_calls r.2 = provider_calls s
     /\ exists raw,
          (queryTranslateCache content (translate_cache s)
             = Some (hit_source raw)
           \/ queryTranslateCache content (translate_cache s)
             = Some (hit_translated raw))
          /\ getInputValue w r.2
             = finalResultText h (isMarkdownLiteGraph w s)
                 (getInputValue w s) raw)
  /\ (translate_cache r.2 <> translate_cache s ->
      r.1 = Succeeded false
      /\ translate_begin h w s = requesting s
      /\ provider_calls r.2
         = provider_calls s ++ [translate_request h provider content]
      /\ (exists res, result = Some res /\ success res = true)
      /\ useTranslateCache h = true
      /\ (isMixedChineseEnglish h content = false
          \/ cacheMixedLangTranslation h = true)
      /\ translate_cache r.2 =
         addTranslateCache content
           (formatTranslatedText h
              (first_text
                 (if translate_streams h provider then concat_text chunks
                  else "")
                 (from_option data None result)))
           (translate_cache s)).
Proof.
  cbv zeta. split.
  - intros s' Hb. unfold translate_onClick. rewrite Hb. cbn [fst snd].
    split; [done|]. by apply translate_served_effects.
  - unfold translate_onClick.
    destruct (translate_begin h w s) as [|s'|s'] eqn:Hb; cbn [fst snd].
    + done.
    + destruct (translate_served_effects h w s s' Hb) as (H & _). done.
    + apply translate_begin_requesting in Hb as [-> _].
      set (rq := translate_request h provider (contentToTranslate h w s)).
      set (s0 := with_provider_calls _ s).
      set (st := match rq with llmTranslateStream _ => _ | _ => _ end).
      assert (same_but_elems s0 st.2
              /\ st.1 = (if translate_streams h provider
                         then concat_text chunks else "")) as [Hf Ht].
      { subst st rq. unfold translate_request, translate_streams.
        destruct provider; try (split; [apply same_but_elems_refl | done]).
        destruct (enableStreaming h);
          [|split; [apply same_but_elems_refl | done]].
        destruct (streaming_frame w chunks ("", s0)) as [H1 H2]. done. }
      destruct Hf as (_ & _ & _ & _ & _ & _ & _ & Hc & Hp & _).
      rewrite <- Ht.
      destruct (translate_finish_cache h w (isMarkdownLiteGraph w s)
                  (getInputValue w s) (contentToTranslate h w s) st.1 result
                  st.2) as [Heq|(H1 & H2 & H3 & H4 & H5)].
      * intros Hne. exfalso. apply Hne. by rewrite Heq, Hc.
      * intros _. repeat split; try done.
        -- unfold translate_finish in *.
           destruct result as [res|]; [|done].
           destruct (success res); [|done]. cbn [snd].
           set (final := finalResultText _ _ _ _).
           destruct (updateInputWithHighlight_frame w final
                       (call (addHistory (history_item w final op_translate st.2))
                          st.2))
             as (_ & _ & _ & _ & _ & _ & _ & _ & Hp' & _).
           set (s2 := updateInputWithHighlight w final _) in *.
           assert (provider_calls s2 = provider_calls s ++ [rq]) as Hs2
             by (rewrite Hp'; cbn [provider_calls call with_cache_calls];
                 by rewrite Hp).
           by destruct (useTranslateCache h),
                (negb (isMixedChineseEnglish h (contentToTranslate h w s))
                 || cacheMixedLangTranslation h).
        -- by rewrite H5, Hc.
Qed.

Lemma find_some_in {A} (f : A -> bool) l x :
  List.find f l = Some x -> In x l /\ f x = true.
Proof. apply List.find_some. Qed.

Lemma query_source text cache :
  (exists t, In (text, t) cache) ->
  exists t, In (text, t) cache
            /\ queryTranslateCache text cache = Some (hit_source t).
Proof.
  intros [t Hin]. unfold queryTranslateCache.
  destruct (List.find (fun p => String.eqb p.1 text) cache) as [[a b]|] eqn:E.
  - apply find_some_in in E as [Hin' Heq]. cbn in Heq.
    apply String.eqb_eq in Heq. subst a. by exists b.
  - exfalso. pose proof (List.find_none _ _ E _ Hin) as H. cbn in H.
    by rewrite String.eqb_refl in H.
Qed.

Lemma query_translated text cache :
  (forall t, ~ In (text, t) cache) ->
  (exists src, In (src, text) cache) ->
  exists src, In (src, text) cache
              /\ queryTranslateCache text cache = Some (hit_translated src).
Proof.
  intros Hno [src Hin]. unfold queryTranslateCache.
  destruct (List.find (fun p => String.eqb p.1 text) cache) as [[a b]|] eqn:E.
  - apply find_some_in in E as [Hin' Heq]. cbn in Heq.
    apply String.eqb_eq in Heq. subst a. by destruct (Hno b).
  - destruct (List.find (fun p => String.eqb p.2 text) cache) as [[a b]|] eqn:E'.
    + apply find_some_in in E' as [Hin' Heq]. cbn in Heq.
      apply String.eqb_eq in Heq. subst b. by exists a.
    + exfalso. pose proof (List.find_none _ _ E' _ Hin) as H. cbn in H.
      by rewrite String.eqb_refl in H.
Qed.

(** The cache returns what was added, in both directions. *)
Lemma query_after_add source translated cache :
  queryTranslateCache source (addTranslateCache source translated cache)
  = Some (hit_source translated)
  /\ (translated <> source ->
      (forall t, ~ In (translated, t) cache) ->
      queryTranslateCache translated (addTranslateCache source translated cache)
      = Some (hit_translated source)).
Proof.
  unfold queryTranslateCache, addTranslateCache. cbn [List.find fst snd].
  rewrite String.eqb_refl. split; [done|]. intros Hne Hno.
  destruct (String.eqb source translated) eqn:E.
  { apply String.eqb_eq in E. congruence. }
  destruct (List.find (fun p => String.eqb p.1 translated) _) as [[a b]|] eqn:F.
  - apply find_some_in in F as [Hin Heq]. cbn in Heq.
    apply String.eqb_eq in Heq. subst a.
    apply List.filter_In in Hin as [Hin _]. by destruct (Hno b).
  - by rewrite String.eqb_refl.
Qed.

Lemma translate_hit h w provider chunks result s raw :
  useTranslateCache h = true ->
  blank (getInputValue w s) = false ->
  blank (contentToTranslate h w s) = false ->
  (queryTranslateCache (contentToTranslate h w s) (translate_cache s)
     = Some (hit_source raw)
   \/ queryTranslateCache (contentToTranslate h w s) (translate_cache s)
     = Some (hit_translated raw)) ->
  let r := translate_onClick h w provider chunks result s in
  r.1 = Succeeded true
  /\ provider_calls r.2 = provider_calls s
  /\ getInputValue w r.2
     = finalResultText h (isMarkdownLiteGraph w s) (getInputValue w s) raw.
Proof.
  intros Hu Hb1 Hb2 Hq. cbv zeta.
  assert (exists s', translate_begin h w s = served s') as [s' Hs'].
  { unfold translate_begin. rewrite Hb1, Hb2, Hu.
    destruct Hq as [-> | ->]; by eexists. }
  unfold translate_onClick. rewrite Hs'. cbn [fst snd].
  destruct (translate_served_effects h w s s' Hs') as (_ & Hp & raw' & Hq' & Hv).
  repeat split; [done|].
  rewrite Hv. destruct Hq as [Hq|Hq], Hq' as [Hq'|Hq']; congruence.
Qed.

(** C8, as amended. When the translate-cache feature is on and the text to
    translate is not blank, the handler asks the cache before it sends
    anything: if the text is a cached source text, a cached translation of it
    is written to the input and no request is sent; if it is not a source
    text but a cached translation, a source text it was produced from is
    written instead, again without a request. *)
Theorem translate_consults_cache_when_enabled (h : Host) (w : WId)
  (provider : TranslateProvider) (chunks : list string)
  (result : option ApiResult) (s : State) :
  useTranslateCache h = true ->
  blank (getInputValue w s) = false ->
  blank (contentToTranslate h w s) = false ->
  let content := contentToTranslate h w s in
  let r := translate_onClick h w provider chunks result s in
  let applied raw :=
    r.1 = Succeeded true
    /\ provider_calls r.2 = provider_calls s
    /\ getInputValue w r.2
       = finalResultText h (isMarkdownLiteGraph w s) (getInputValue w s) raw in
  ((exists t, In (content, t) (translate_cache s)) ->
   exists t, In (content, t) (translate_cache s) /\ applied t)
  /\ ((forall t, ~ In (content, t) (translate_cache s)) ->
      (exists src, In (src, content) (translate_cache s)) ->
      exists src, In (src, content) (translate_cache s) /\ applied src).
Proof.
  intros Hu Hb1 Hb2. cbv zeta. split.
  - intros Hex. apply query_source in Hex as (t & Hin & Hq).
    exists t. split; [done|].
    apply (translate_hit h w provider chunks result s t); auto.
  - intros Hno Hex.
    destruct (query_translated _ _ Hno Hex) as (src & Hin & Hq).
    exists src. split; [done|].
    apply (translate_hit h w provider chunks result s src); auto.
Qed.

(** ** The scenarios at work *)

Example page_scanned_registry : instances page_scanned = [("main_5_text", 0)].
Proof. reflexivity. Qed.

Example page_scanned_object :
  heap page_scanned !! 0 =
  Some (Assistant.mk (Some (IdNum 5)) (Some "text") (Some "main_5_text")
          (Some 1) (Some 1) false true (Some "unknown")
          (Some "CLIPTextEncode") false (Some 0) (Some 0)
          [RemoveListener 1 Blur 0; RemoveListener 1 Input 0;
           RemoveListener 1 Resize 0]
          true true None).
Proof. reflexivity. Qed.

Example page_scanned_calls :
  cache_calls page_scanned
  = [addHistoryAndUpdateUndoState (Some (IdNum 5)) (Some "text") "hello"].
Proof. reflexivity. Qed.

Example page_mounted_marker :
  get_elem 1 page_mounted
  = Elem.mk TEXTAREA "hello" true true (Some "main_5_text") true None
      [(Blur, 0); (Input, 0); (Resize, 0)] []
  /\ dom_parent page_mounted !! 0 = Some 7
  /\ Assistant._isMounting (get_obj 0 page_mounted) = false.
Proof. repeat split; reflexivity. Qed.

(** C8, as stated, fails: with the translate-cache feature off a cached source
    text is sent to the provider and the answer of the provider is written;
    and a blank input is rejected even though it is a cached translation. *)
Lemma translate_ignores_cache_when_off_or_blank :
  (let s := with_translate_cache (fun _ => [("hello", "bonjour")]) page_mounted in
   let r := translate_onClick host_cache_off 0 provider_llm ["sa"; "lut"]
              (Some (mkResult true None)) s in
   getInputValue 0 s = "hello"
   /\ queryTranslateCache "hello" (translate_cache s)
      = Some (hit_source "bonjour")
   /\ provider_calls r.2 = [llmTranslateStream "hello"]
   /\ getInputValue 0 r.2 = "salut")
  /\ (let s := with_translate_cache (fun _ => [("hello", "")])
                 (upd_elem 1 (Elem.set_value "") page_mounted) in
      let r := translate_onClick legacy_host 0 provider_llm [] None s in
      getInputValue 0 s = ""
      /\ queryTranslateCache "" (translate_cache s)
         = Some (hit_translated "hello")
      /\ r.1 = Failed
      /\ getInputValue 0 r.2 = "").
Proof. vm_compute. repeat split. Qed.

Lemma translate_consults_cache_witness :
  let s := with_translate_cache (fun _ => [("hello", "bonjour")]) page_mounted in
  let r := translate_onClick legacy_host 0 provider_llm [] None s in
  useTranslateCache legacy_host = true
  /\ blank (getInputValue 0 s) = false
  /\ (exists t, In ("hello", t) (translate_cache s)
                /\ r.1 = Succeeded true
                /\ provider_calls r.2 = provider_calls s
                /\ getInputValue 0 r.2 = t).
Proof.
  cbv zeta. split; [reflexivity|]. split; [reflexivity|].
  apply (translate_consults_cache_when_enabled legacy_host 0 provider_llm []
           None
           (with_translate_cache (fun _ => [("hello", "bonjour")]) page_mounted));
    [reflexivity | reflexivity | reflexivity |].
  exists "bonjour". left. reflexivity.
Defined.

(** ** Binding effects *)

Lemma bound_only_refl s : bound_only s s.
Proof. by repeat split. Qed.

Lemma bound_only_trans s1 s2 s3 :
  bound_only s1 s2 -> bound_only s2 s3 -> bound_only s1 s3.
Proof.
  intros (A1 & A2 & A3 & A4 & A5 & A6 & A7 & A8 & A9 & A10)
         (B1 & B2 & B3 & B4 & B5 & B6 & B7 & B8 & B9 & B10).
  repeat split; try congruence.
  all: intros x; first [by rewrite B9, A9 | by rewrite B10, A10].
Qed.

Lemma bound_only_upd_elem e f s :
  (forall el, elem_core (f el) = elem_core el) ->
  bound_only s (upd_elem e f s).
Proof.
  intros Hf. repeat split; try done.
  intros e'. rewrite get_elem_upd_elem. by destruct (decide (e' = e)).
Qed.

Lemma bound_only_upd_obj w f s :
  (forall a, obj_id (f a) = obj_id a) ->
  bound_only s (upd_obj w f s).
Proof.
  intros Hf. repeat split; try done.
  intros w'. rewrite get_obj_upd_obj. by destruct (decide (w' = w)).
Qed.

Lemma bound_only_call c s : bound_only s (call c s).
Proof. by repeat split. Qed.

Lemma bound_only_listen e k w s : bound_only s (listen e k w s).
Proof.
  unfold listen, push_cleanup.
  apply (bound_only_trans s (add_listener e k w s)).
  - unfold add_listener. by apply bound_only_upd_elem.
  - by apply bound_only_upd_obj.
Qed.

Lemma bound_only_listen_window w s : bound_only s (listen_window w s).
Proof.
  unfold listen_window, push_cleanup.
  apply (bound_only_trans s (with_window_resize (fun l => l ++ [w]) s)).
  - by repeat split.
  - by apply bound_only_upd_obj.
Qed.

Lemma bound_only_retarget w t s : bound_only s (retarget w t s).
Proof.
  unfold retarget.
  set (s1 := upd_obj w _ s).
  assert (bound_only s s1) as H1 by (by apply bound_only_upd_obj).
  destruct (PromptAssistantInputWidgetMap s1 !! _) as [[? o]|]; [|done].
  apply (bound_only_trans s s1); [exact H1|]. by repeat split.
Qed.

Lemma bound_only_init_undo w e s : bound_only s (init_undo_if_needed w e s).
Proof.
  unfold init_undo_if_needed.
  destruct (Assistant._undoStateInitialized (get_obj w s));
    [apply bound_only_refl|].
  cbv zeta. set (c := initUndoState _ _ _).
  apply (bound_only_trans s (call c s)); [apply bound_only_call|].
  by apply bound_only_upd_obj.
Qed.

(** The statements that bind an element for a widget. *)
Lemma bound_only_bind_core e w s :
  bound_only s
    (listen e Input w
       (listen e Blur w
          (upd_obj w (Assistant.set_inputEventsBound true)
             (upd_elem e (Elem.set_bound true) s)))).
Proof.
  set (s1 := upd_elem e (Elem.set_bound true) s).
  set (s2 := upd_obj w (Assistant.set_inputEventsBound true) s1).
  set (s3 := listen e Blur w s2).
  assert (bound_only s s1) as H1 by (by apply bound_only_upd_elem).
  assert (bound_only s1 s2) as H2 by (by apply bound_only_upd_obj).
  pose proof (bound_only_listen e Blur w s2) as H3.
  pose proof (bound_only_listen e Input w s3) as H4.
  eauto using bound_only_trans.
Qed.

Lemma initializeInputElBindings_bound_only h w iw node inputId s :
  bound_only s (_initializeInputElBindings h w iw node inputId s).
Proof.
  unfold _initializeInputElBindings.
  destruct (or_el _ _) as [e|]; [|apply bound_only_refl]. cbv zeta.
  set (s1 := if Assistant._undoStateInitialized (get_obj w s) then s else _).
  assert (bound_only s s1) as H1.
  { subst s1. destruct (Assistant._undoStateInitialized (get_obj w s));
      [apply bound_only_refl|].
    set (s0 := if negb _ then _ else _).
    apply (bound_only_trans s s0); [|by apply bound_only_upd_obj].
    subst s0. destruct (negb _); apply bound_only_call. }
  clearbody s1.
  destruct (Assistant._inputEventsBound (get_obj w s1)); [done|].
  pose proof (bound_only_bind_core e w s1) as H2.
  set (s2 := listen e Input w _) in *. clearbody s2.
  destruct (ResizeObserver h).
  - pose proof (bound_only_listen e Resize w s2).
    eauto using bound_only_trans.
  - pose proof (bound_only_listen_window w s2).
    eauto using bound_only_trans.
Qed.

(** ** Listeners and the guard of the widget *)

Lemma same_listeners_refl s : same_listeners s s.
Proof. by split. Qed.

Lemma same_listeners_trans s1 s2 s3 :
  same_listeners s1 s2 -> same_listeners s2 s3 -> same_listeners s1 s3.
Proof.
  intros [A1 A2] [B1 B2]. split; [|congruence].
  intros e. by rewrite B1, A1.
Qed.

Lemma same_listeners_upd_elem e f s :
  (forall el, Elem.listeners (f el) = Elem.listeners el) ->
  same_listeners s (upd_elem e f s).
Proof.
  intros Hf. split; [|done].
  intros e'. rewrite get_elem_upd_elem. by destruct (decide (e' = e)).
Qed.

Lemma same_listeners_heap s s' :
  elems s' = elems s -> window_resize s' = window_resize s ->
  same_listeners s s'.
Proof. intros He Hw. split; [|done]. intros e. unfold get_elem. by rewrite He. Qed.

Lemma same_listeners_retarget w t s : same_listeners s (retarget w t s).
Proof.
  unfold retarget. set (s1 := upd_obj w _ s).
  destruct (PromptAssistantInputWidgetMap s1 !! _) as [[? o]|];
    by apply same_listeners_heap.
Qed.

Lemma same_listeners_cleanupRedundant w s :
  same_listeners s (_cleanupRedundantWidget w s).
Proof.
  unfold _cleanupRedundantWidget. cbv zeta.
  set (s1 := match Assistant.widgetKey (get_obj w s) with Some _ => _ | None => s end).
  assert (elems s1 = elems s /\ window_resize s1 = window_resize s) as [H1 H2].
  { subst s1. destruct (Assistant.widgetKey (get_obj w s)) as [k|]; [|done].
    by destruct (truthy_str k && hasInstance k s). }
  destruct (Assistant.container (get_obj w s)); by apply same_listeners_heap.
Qed.

Lemma same_flags_refl s : same_bound_flags s s.
Proof. done. Qed.

Lemma same_flags_trans s1 s2 s3 :
  same_bound_flags s1 s2 -> same_bound_flags s2 s3 -> same_bound_flags s1 s3.
Proof. intros A B w. by rewrite B, A. Qed.

Lemma same_flags_heap s s' : heap s' = heap s -> same_bound_flags s s'.
Proof. intros H w. unfold get_obj. by rewrite H. Qed.

Lemma same_flags_upd_obj w f s :
  (forall a, Assistant._inputEventsBound (f a) = Assistant._inputEventsBound a) ->
  same_bound_flags s (upd_obj w f s).
Proof.
  intros Hf w'. rewrite get_obj_upd_obj. by destruct (decide (w' = w)).
Qed.

Lemma same_flags_retarget w t s : same_bound_flags s (retarget w t s).
Proof.
  unfold retarget. set (s1 := upd_obj w _ s).
  assert (same_bound_flags s s1) as H1 by (by apply same_flags_upd_obj).
  destruct (PromptAssistantInputWidgetMap s1 !! _) as [[? o]|]; [|done].
  intros w'. by rewrite <- H1.
Qed.

Lemma same_flags_listen e k w s : same_bound_flags s (listen e k w s).
Proof.
  unfold listen, push_cleanup.
  apply (same_flags_trans s (add_listener e k w s));
    [by apply same_flags_heap | by apply same_flags_upd_obj].
Qed.

Lemma same_flags_listen_window w s : same_bound_flags s (listen_window w s).
Proof.
  unfold listen_window, push_cleanup.
  apply (same_flags_trans s (with_window_resize (fun l => l ++ [w]) s));
    [by apply same_flags_heap | by apply same_flags_upd_obj].
Qed.

Lemma same_flags_init_undo w e s : same_bound_flags s (init_undo_if_needed w e s).
Proof.
  unfold init_undo_if_needed.
  destruct (Assistant._undoStateInitialized (get_obj w s)); [done|].
  cbv zeta. set (c := initUndoState _ _ _).
  apply (same_flags_trans s (call c s));
    [by apply same_flags_heap | by apply same_flags_upd_obj].
Qed.

Lemma same_flags_cleanupRedundant w s :
  same_bound_flags s (_cleanupRedundantWidget w s).
Proof.
  apply same_flags_heap. unfold _cleanupRedundantWidget. cbv zeta.
  set (s1 := match Assistant.widgetKey (get_obj w s) with Some _ => _ | None => s end).
  assert (heap s1 = heap s) as H1.
  { subst s1. destruct (Assistant.widgetKey (get_obj w s)) as [k|]; [|done].
    by destruct (truthy_str k && hasInstance k s). }
  by destruct (Assistant.container (get_obj w s)).
Qed.

(** The end of the legacy positioning, after the binding part: abort, or
    claim and attach. *)
Lemma litegraph_tail_frame w ui mp oe s :
  let s' :=
    if from_option (fun e => Elem._promptAssistantMounted (get_elem e s)) false oe
    then _cleanupRedundantWidget w s
    else if has_assistant mp s
    then _cleanupRedundantWidget w s
    else with_dom_parent (insert ui mp)
           (from_option (fun e => claim e (Assistant.widgetKey (get_obj w s)) s)
              s oe) in
  same_listeners s s' /\ same_bound_flags s s'.
Proof.
  cbv zeta.
  destruct (from_option _ false oe);
    [split; [apply same_listeners_cleanupRedundant
            | apply same_flags_cleanupRedundant]|].
  destruct (has_assistant mp s);
    [split; [apply same_listeners_cleanupRedundant
            | apply same_flags_cleanupRedundant]|].
  destruct oe as [e|]; cbn [from_option]; [|by split].
  split.
  - apply (same_listeners_trans s (claim e (Assistant.widgetKey (get_obj w s)) s)).
    + unfold claim. by apply same_listeners_upd_elem.
    + by apply same_listeners_heap.
  - by apply same_flags_heap.
Qed.

Lemma retarget_inputEl w t s :
  Assistant.inputEl (get_obj w (retarget w t s)) = Some t.
Proof.
  unfold retarget. set (s1 := upd_obj w _ s).
  assert (Assistant.inputEl (get_obj w s1) = Some t) as H1.
  { subst s1. rewrite get_obj_upd_obj. by destruct (decide (w = w)). }
  by destruct (PromptAssistantInputWidgetMap s1 !! _) as [[? o]|].
Qed.

Lemma initialize_when_bound h w iw node inputId s :
  Assistant._inputEventsBound (get_obj w s) = true ->
  same_listeners s (_initializeInputElBindings h w iw node inputId s).
Proof.
  intros Hb. unfold _initializeInputElBindings.
  destruct (or_el _ _) as [e|]; [|apply same_listeners_refl]. cbv zeta.
  set (s1 := if Assistant._undoStateInitialized (get_obj w s) then s else _).
  assert (same_listeners s s1 /\ same_bound_flags s s1) as [H1 H2].
  { subst s1. destruct (Assistant._undoStateInitialized (get_obj w s));
      [by split|].
    set (s0 := if negb _ then _ else _).
    assert (heap s0 = heap s /\ elems s0 = elems s
            /\ window_resize s0 = window_resize s) as (A & B & C)
      by (subst s0; by destruct (negb _)).
    split.
    - by apply same_listeners_heap.
    - apply (same_flags_trans s s0); [by apply same_flags_heap|].
      by apply same_flags_upd_obj. }
  by rewrite H2, Hb.
Qed.

Lemma initialize_sets_flag h w iw node inputId s :
  or_el (InputWidget.inputEl iw) (Assistant.inputEl (get_obj w s)) <> None ->
  Assistant._inputEventsBound
    (get_obj w (_initializeInputElBindings h w iw node inputId s)) = true.
Proof.
  intros Ht. unfold _initializeInputElBindings.
  destruct (or_el _ _) as [e|]; [|done]. cbv zeta.
  set (s1 := if Assistant._undoStateInitialized (get_obj w s) then s else _).
  clearbody s1.
  destruct (Assistant._inputEventsBound (get_obj w s1)) eqn:Hb; [done|].
  set (s2 := upd_obj w (Assistant.set_inputEventsBound true) _).
  assert (Assistant._inputEventsBound (get_obj w s2) = true) as H2.
  { subst s2. rewrite get_obj_upd_obj. by destruct (decide (w = w)). }
  clearbody s2.
  rewrite <- H2.
  pose proof (same_flags_listen e Blur w s2) as F1.
  set (s3 := listen e Blur w s2) in *.
  pose proof (same_flags_listen e Input w s3) as F2.
  set (s4 := listen e Input w s3) in *.
  destruct (ResizeObserver h).
  - by rewrite (same_flags_listen e Resize w s4), F2, F1.
  - by rewrite (same_flags_listen_window w s4), F2, F1.
Qed.

Lemma litegraph_when_bound w ui ci s :
  Assistant._inputEventsBound (get_obj w s) = true ->
  same_listeners s (_applyLitegraphPositioning w ui ci s).
Proof.
  intros Hb. unfold _applyLitegraphPositioning. cbv zeta.
  set (s1 := match ci_textarea ci with Some _ => _ | None => s end).
  assert (same_listeners s s1 /\ same_bound_flags s s1) as [H1 H2].
  { subst s1. destruct (ci_textarea ci) as [t|]; [|by split].
    destruct (bool_decide _); [by split|].
    split; [apply same_listeners_retarget | apply same_flags_retarget]. }
  clearbody s1. rewrite H2, Hb. cbn [negb].
  set (oe := or_el _ _).
  assert ((match oe with Some _ => s1 | None => s1 end) = s1) as ->
    by (by destruct oe).
  destruct (litegraph_tail_frame w ui (ci_container ci) oe s1) as [H3 _].
  by apply (same_listeners_trans s s1).
Qed.

Lemma litegraph_sets_flag w ui ci s :
  or_el (ci_textarea ci) (Assistant.inputEl (get_obj w s)) <> None ->
  Assistant._inputEventsBound
    (get_obj w (_applyLitegraphPositioning w ui ci s)) = true.
Proof.
  intros Ht. unfold _applyLitegraphPositioning. cbv zeta.
  set (s1 := match ci_textarea ci with Some _ => _ | None => s end).
  assert (or_el (Assistant.inputEl (get_obj w s1)) (ci_textarea ci) <> None)
    as Ht1.
  { subst s1. destruct (ci_textarea ci) as [t|].
    - destruct (bool_decide _) eqn:E.
      + apply bool_decide_eq_true in E. by rewrite E.
      + by rewrite retarget_inputEl.
    - cbn [or_el] in *. by destruct (Assistant.inputEl (get_obj w s)). }
  clearbody s1.
  destruct (or_el (Assistant.inputEl (get_obj w s1)) (ci_textarea ci))
    as [e|] eqn:Hoe; [|done].
  set (s2 := if negb (Assistant._inputEventsBound (get_obj w s1)) then _ else s1).
  assert (Assistant._inputEventsBound (get_obj w s2) = true) as H2.
  { subst s2.
    destruct (Assistant._inputEventsBound (get_obj w s1)) eqn:Hb; [done|].
    cbn [negb].
    set (s3 := upd_obj w (Assistant.set_inputEventsBound true) _).
    assert (Assistant._inputEventsBound (get_obj w s3) = true) as H3.
    { subst s3. rewrite get_obj_upd_obj. by destruct (decide (w = w)). }
    clearbody s3.
    pose proof (same_flags_listen e Blur w s3) as F1.
    set (s4 := listen e Blur w s3) in *.
    pose proof (same_flags_listen e Input w s4) as F2.
    set (s5 := listen e Input w s4) in *.
    by rewrite (same_flags_init_undo w e s5), F2, F1. }
  clearbody s2.
  destruct (litegraph_tail_frame w ui (ci_container ci) (Some e) s2) as [_ H3].
  cbv zeta in H3. cbn [from_option] in *. by rewrite H3.
Qed.

(** C5, as amended. Binding is done once per assistant object: once a binding
    path (the initial binding or the fallback of the legacy positioning) has
    found an element to bind for a widget, any further run of either path for
    the same widget attaches no listener and no observer, whatever element it
    is given; the guard is the flag [_inputEventsBound] of the widget. *)
Theorem binding_once_per_widget (h : Host) (w : WId) (first second : BindPath)
  (s : State) :
  bind_target w first s <> None ->
  let s1 := run_bind h w first s in
  Assistant._inputEventsBound (get_obj w s1) = true
  /\ same_listeners s1 (run_bind h w second s1).
Proof.
  intros Ht. cbv zeta.
  assert (Assistant._inputEventsBound (get_obj w (run_bind h w first s)) = true)
    as Hb.
  { destruct first; cbn [run_bind bind_target] in *.
    - by apply initialize_sets_flag.
    - by apply litegraph_sets_flag. }
  split; [done|].
  destruct second; cbn [run_bind].
  - by apply initialize_when_bound.
  - by apply litegraph_when_bound.
Qed.

(** C5, as stated, fails: the flag on the element does not stop a second
    widget from binding the same element. After the first assistant is
    created the textarea carries the flag and three listeners; creating a
    second assistant for a widget that shows the same textarea attaches three
    more. *)
Lemma second_widget_binds_same_element_again :
  let s1 := (createAssistant legacy_host node5 (Some "text") widget_text None
               fresh_page).2 in
  let s2 := (createAssistant legacy_host node5 (Some "alias") widget_alias None
               s1).2 in
  Elem._promptAssistantBound (get_elem 1 s1) = true
  /\ Elem.listeners (get_elem 1 s1) = [(Blur, 0); (Input, 0); (Resize, 0)]
  /\ Elem.listeners (get_elem 1 s2)
     = [(Blur, 0); (Input, 0); (Resize, 0); (Blur, 1); (Input, 1); (Resize, 1)].
Proof. vm_compute. repeat split. Qed.

Lemma binding_once_witness :
  let first := positioning_fallback 0 (mkInfo LITEGRAPH 7 (Some 1) None false) in
  let second := initial_binding widget_text node5 (Some "text") in
  bind_target 0 first page_scanned <> None
  /\ Assistant._inputEventsBound
       (get_obj 0 (run_bind legacy_host 0 first page_scanned)) = true
  /\ same_listeners (run_bind legacy_host 0 first page_scanned)
       (run_bind legacy_host 0 second
          (run_bind legacy_host 0 first page_scanned)).
Proof.
  cbv zeta. split; [vm_compute; discriminate|].
  apply (binding_once_per_widget legacy_host 0
           (positioning_fallback 0 (mkInfo LITEGRAPH 7 (Some 1) None false))
           (initial_binding widget_text node5 (Some "text")) page_scanned).
  vm_compute; discriminate.
Defined.

(** ** A claimed element aborts the mount *)

Lemma elem_core_marker el el' :
  elem_core el' = elem_core el ->
  Elem._promptAssistantMounted el' = Elem._promptAssistantMounted el
  /\ Elem._promptAssistantWidgetKey el' = Elem._promptAssistantWidgetKey el.
Proof. unfold elem_core. intros [= ]. done. Qed.

Lemma obj_id_fields a a' :
  obj_id a' = obj_id a ->
  Assistant.widgetKey a' = Assistant.widgetKey a
  /\ Assistant.container a' = Assistant.container a
  /\ Assistant.isDestroyed a' = Assistant.isDestroyed a
  /\ Assistant._isMounting a' = Assistant._isMounting a
  /\ Assistant.element a' = Assistant.element a.
Proof. unfold obj_id. intros [= ]. done. Qed.

Lemma cleanupRedundant_aborts w k ui s :
  Assistant.widgetKey (get_obj w s) = Some k -> truthy_str k = true ->
  Assistant.container (get_obj w s) = Some ui ->
  aborted k ui s (_cleanupRedundantWidget w s).
Proof.
  intros Hk Ht Hc. unfold _cleanupRedundantWidget. cbv zeta.
  rewrite Hk, Hc, Ht. cbn [andb]. unfold hasInstance, JsMap.has, getInstance.
  destruct (JsMap.get k (instances s)) eqn:Hg.
  - repeat split; try done.
    + unfold destroy, with_destroyed, with_instances. cbn [instances].
      apply get_delete_same.
    + unfold destroy, with_destroyed. cbn [destroyed]. set_solver.
  - repeat split; try done.
    unfold destroy, with_destroyed. cbn [destroyed]. set_solver.
Qed.

Lemma aborted_after_binding k ui s s2 s3 :
  bound_only s s2 -> aborted k ui s2 s3 -> aborted k ui s s3.
Proof.
  intros (_ & _ & Hd & _ & _ & _ & _ & _ & He & _) (A1 & A2 & A3 & A4).
  repeat split; try done; try congruence.
  - destruct (A4 e) as [-> _]. by destruct (elem_core_marker _ _ (He e)).
  - destruct (A4 e) as [_ ->]. by destruct (elem_core_marker _ _ (He e)).
Qed.

Lemma aborted_heap k ui s s3 s4 :
  aborted k ui s s3 ->
  instances s4 = instances s3 -> destroyed s4 = destroyed s3 ->
  dom_parent s4 = dom_parent s3 -> elems s4 = elems s3 ->
  aborted k ui s s4.
Proof.
  intros (A1 & A2 & A3 & A4) Hi Hd Hp He.
  unfold aborted, getInstance, get_elem in *.
  rewrite Hi, Hd, Hp, He. done.
Qed.

Lemma litegraph_abort w ui ci s e k :
  Assistant.widgetKey (get_obj w s) = Some k -> truthy_str k = true ->
  Assistant.container (get_obj w s) = Some ui ->
  or_el (ci_textarea ci) (Assistant.inputEl (get_obj w s)) = Some e ->
  Elem._promptAssistantMounted (get_elem e s) = true ->
  aborted k ui s (_applyLitegraphPositioning w ui ci s).
Proof.
  intros Hk Ht Hc Htgt Hm. unfold _applyLitegraphPositioning. cbv zeta.
  set (s1 := match ci_textarea ci with Some _ => _ | None => s end).
  assert (bound_only s s1
          /\ or_el (Assistant.inputEl (get_obj w s1)) (ci_textarea ci) = Some e)
    as [H1 Htgt1].
  { subst s1. destruct (ci_textarea ci) as [t|].
    - cbn [or_el] in Htgt. injection Htgt as ->.
      destruct (bool_decide _) eqn:E.
      + apply bool_decide_eq_true in E. rewrite E. by split.
      + split; [apply bound_only_retarget | by rewrite retarget_inputEl].
    - cbn [or_el] in *. split; [done|].
      by destruct (Assistant.inputEl (get_obj w s)). }
  clearbody s1. rewrite Htgt1.
  set (s2 := if negb (Assistant._inputEventsBound (get_obj w s1)) then _ else s1).
  assert (bound_only s1 s2) as H2.
  { subst s2. destruct (negb _); [|done].
    pose proof (bound_only_bind_core e w s1) as B1.
    set (s3 := listen e Input w _) in *.
    pose proof (bound_only_init_undo w e s3) as B2.
    by apply (bound_only_trans s1 s3). }
  clearbody s2.
  pose proof (bound_only_trans _ _ _ H1 H2) as H12.
  destruct H12 as (_ & _ & _ & _ & _ & _ & _ & _ & He & Ho).
  destruct (elem_core_marker _ _ (He e)) as [Hm2 _].
  destruct (obj_id_fields _ _ (Ho w)) as (Hk2 & Hc2 & _).
  cbn [from_option]. rewrite Hm2, Hm.
  apply (aborted_after_binding k ui s s2); [by eapply bound_only_trans|].
  apply cleanupRedundant_aborts; congruence.
Qed.

Lemma vue_abort h w ui ci s e k :
  Assistant.widgetKey (get_obj w s) = Some k -> truthy_str k = true ->
  Assistant.container (get_obj w s) = Some ui ->
  (vue_target ci).1 = Some e ->
  Elem._promptAssistantMounted (get_elem e s) = true ->
  Elem._promptAssistantWidgetKey (get_elem e s) <> Some k ->
  aborted k ui s (_applyVueNodesPositioning h w ui ci s).
Proof.
  intros Hk Ht Hc Htgt Hm Hne. unfold _applyVueNodesPositioning. cbv zeta.
  rewrite Htgt.
  set (s1 := if bool_decide _ then s else _).
  assert (bound_only s s1) as H1.
  { subst s1. destruct (bool_decide _); [done|].
    pose proof (bound_only_retarget w e s) as B0.
    set (s0 := retarget w e s) in *. clearbody s0.
    destruct (Elem._promptAssistantBound (get_elem e s0)); [done|].
    assert (bound_only s0 (upd_elem e (Elem.set_bound true) s0)) as B1
      by (by apply bound_only_upd_elem).
    set (s2 := upd_elem e _ s0) in *. clearbody s2.
    pose proof (bound_only_listen e Blur w s2) as B2.
    set (s3 := listen e Blur w s2) in *. clearbody s3.
    pose proof (bound_only_listen e Input w s3) as B3.
    set (s4 := listen e Input w s3) in *. clearbody s4.
    assert (bound_only s4 (if ResizeObserver h then listen e Resize w s4 else s4))
      as B4 by (destruct (ResizeObserver h);
                [apply bound_only_listen | apply bound_only_refl]).
    set (s5 := if ResizeObserver h then _ else _) in *. clearbody s5.
    pose proof (bound_only_init_undo w e s5) as B5.
    eauto 10 using bound_only_trans. }
  clearbody s1.
  pose proof H1 as (_ & _ & _ & _ & _ & _ & _ & _ & He & Ho).
  destruct (elem_core_marker _ _ (He e)) as [Hm1 Hkey1].
  destruct (obj_id_fields _ _ (Ho w)) as (Hk1 & Hc1 & _).
  cbn [from_option]. rewrite Hm1, Hm, Hkey1, Hk1, Hk. cbn [andb].
  rewrite bool_decide_eq_false_2 by done. cbn [negb].
  apply (aborted_after_binding k ui s s1); [done|].
  apply cleanupRedundant_aborts; congruence.
Qed.

Lemma scan_input_gate h node validInputs widgetIndex iw s e :
  (length (filter (fun w => input_name w = input_name iw) validInputs) <= 1)%nat ->
  getInstance (_getAssistantKey h node (input_name iw)) s = None ->
  or_el (InputWidget.inputEl iw) (InputWidget.element iw) = Some e ->
  Elem._promptAssistantMounted (get_elem e s) = true ->
  scan_input h node validInputs widgetIndex iw s = Normal s.
Proof.
  intros Hlen Hg He Hm. unfold scan_input. cbv zeta.
  destruct (1 <? length _)%nat eqn:E; [apply Nat.ltb_lt in E; lia|].
  rewrite Hg, He, Hm. by destruct (negb (FEATURES_enabled h)).
Qed.

(** C2. A mount attempt whose target element already carries the mount marker
    of another key is dropped: the candidate is no longer registered, its
    container is destroyed, no toolbar is attached, and the marker of every
    element, the existing claim included, stays as it was. The scan does not
    even create a candidate for an input whose element carries a marker. *)
Theorem claimed_element_wins (h : Host) (w : WId) (ui : UiId)
  (ci : ContainerInfo) (s : State) (e : ElemId) (k : string) :
  Assistant.widgetKey (get_obj w s) = Some k -> truthy_str k = true ->
  Assistant.container (get_obj w s) = Some ui ->
  mount_target ci w s = Some e ->
  Elem._promptAssistantMounted (get_elem e s) = true ->
  Elem._promptAssistantWidgetKey (get_elem e s) <> Some k ->
  aborted k ui s (mount_settled h w ui (Some ci) s)
  /\ forall node validInputs widgetIndex iw,
       (length (filter (fun w => input_name w = input_name iw) validInputs)
        <= 1)%nat ->
       getInstance (_getAssistantKey h node (input_name iw)) s = None ->
       or_el (InputWidget.inputEl iw) (InputWidget.element iw) = Some e ->
       scan_input h node validInputs widgetIndex iw s = Normal s.
Proof.
  intros Hk Ht Hc Htgt Hm Hne. split.
  - unfold mount_settled, positioning, onComplete, mount_target in *.
    set (s1 := match ci_mode ci with VUE_NODES => _ | LITEGRAPH => _ end).
    assert (aborted k ui s s1) as H1.
    { subst s1. destruct (ci_mode ci).
      - by apply (vue_abort h w ui ci s e k).
      - by apply (litegraph_abort w ui ci s e k). }
    clearbody s1. cbn [negb].
    set (s2 := upd_obj w _ s1).
    assert (aborted k ui s s2) as H2 by (by apply (aborted_heap k ui s s1)).
    destruct (Assistant.isDestroyed (get_obj w s2)); [done|].
    by apply (aborted_heap k ui s s2).
  - intros node validInputs widgetIndex iw Hlen Hg He.
    by apply (scan_input_gate h node validInputs widgetIndex iw s e).
Qed.

Example page_race_state :
  instances page_race = [("main_5_text", 0); ("main_5_alias", 1)]
  /\ Elem._promptAssistantWidgetKey (get_elem 1 page_race) = Some "main_5_text".
Proof. split; reflexivity. Qed.

Lemma claimed_element_wins_witness :
  let ci := mkInfo LITEGRAPH 8 (Some 1) None false in
  Assistant.widgetKey (get_obj 1 page_race) = Some "main_5_alias"
  /\ Elem._promptAssistantMounted (get_elem 1 page_race) = true
  /\ Elem._promptAssistantWidgetKey (get_elem 1 page_race) <> Some "main_5_alias"
  /\ aborted "main_5_alias" 1 page_race
       (mount_settled legacy_host 1 1 (Some ci) page_race).
Proof.
  cbv zeta. split; [reflexivity|]. split; [reflexivity|].
  split; [vm_compute; discriminate|].
  apply (claimed_element_wins legacy_host 1 1
           (mkInfo LITEGRAPH 8 (Some 1) None false) page_race 1 "main_5_alias");
    [reflexivity | reflexivity | reflexivity | reflexivity | reflexivity
    | vm_compute; discriminate].
Defined.

(** ** Creation registers the candidate; a failed mount removes it *)

Lemma append_truthy a b : truthy_str b = true -> truthy_str (a +:+ b) = true.
Proof. destruct a; [done | by intros _]. Qed.

Lemma getAssistantKey_truthy h node inputId :
  truthy_str (_getAssistantKey h node inputId) = true.
Proof. unfold _getAssistantKey. by apply append_truthy. Qed.

Lemma key_of_truthy h node inputId assistantKey :
  truthy_str (key_of h node inputId assistantKey) = true.
Proof.
  unfold key_of, or_str. destruct assistantKey as [k|]; cbn [default].
  - destruct (truthy_str k) eqn:E; [done|]. apply getAssistantKey_truthy.
  - apply getAssistantKey_truthy.
Qed.

Lemma createAssistant_existing h node inputId iw assistantKey s w0 :
  getInstance (key_of h node inputId assistantKey) s = Some w0 ->
  (createAssistant h node inputId iw assistantKey s).2 = s
  /\ ((createAssistant h node inputId iw assistantKey s).1 = Some w0
      \/ (createAssistant h node inputId iw assistantKey s).1 = None).
Proof.
  intros Hg. unfold createAssistant. fold (key_of h node inputId assistantKey).
  destruct (_ || _); [by split; [|right]|].
  destruct (negb (isValidInput h iw node)); [by split; [|right]|].
  cbv zeta. destruct (_ && _); [by split; [|right]|].
  rewrite Hg. by split; [|left].
Qed.

Lemma binds_for_refl w s : binds_for w s s.
Proof. split; [apply bound_only_refl | by split]. Qed.

Lemma binds_for_trans w s1 s2 s3 :
  binds_for w s1 s2 -> binds_for w s2 s3 -> binds_for w s1 s3.
Proof.
  intros (A1 & A2 & A3) (B1 & B2 & B3). split; [by eapply bound_only_trans|].
  split.
  - intros w'. by rewrite B2, A2.
  - intros w' Hne. by rewrite B3, A3.
Qed.

Lemma binds_for_elems w s s' :
  bound_only s s' -> heap s' = heap s -> binds_for w s s'.
Proof.
  intros H Hh. split; [done|]. unfold get_obj. rewrite Hh. by split.
Qed.

Lemma binds_for_upd_elem w e f s :
  (forall el, elem_core (f el) = elem_core el) ->
  binds_for w s (upd_elem e f s).
Proof.
  intros Hf. apply binds_for_elems; [by apply bound_only_upd_elem | done].
Qed.

Lemma binds_for_call w c s : binds_for w s (call c s).
Proof. apply binds_for_elems; [apply bound_only_call | done]. Qed.

Lemma binds_for_upd_obj w f s :
  (forall a, obj_id (f a) = obj_id a) ->
  (forall a, obj_els (f a) = obj_els a) ->
  binds_for w s (upd_obj w f s).
Proof.
  intros H1 H2. split; [by apply bound_only_upd_obj|]. split.
  - intros w'. rewrite get_obj_upd_obj. by destruct (decide (w' = w)).
  - intros w' Hne. rewrite get_obj_upd_obj. by destruct (decide (w' = w)).
Qed.

Lemma binds_for_listen e k w s : binds_for w s (listen e k w s).
Proof.
  unfold listen, push_cleanup.
  apply (binds_for_trans w s (add_listener e k w s)).
  - unfold add_listener. by apply binds_for_upd_elem.
  - by apply binds_for_upd_obj.
Qed.

Lemma binds_for_listen_window w s : binds_for w s (listen_window w s).
Proof.
  unfold listen_window, push_cleanup.
  apply (binds_for_trans w s (with_window_resize (fun l => l ++ [w]) s)).
  - apply binds_for_elems; [by repeat split | done].
  - by apply binds_for_upd_obj.
Qed.

Lemma initializeInputElBindings_binds_for h w iw node inputId s :
  binds_for w s (_initializeInputElBindings h w iw node inputId s).
Proof.
  unfold _initializeInputElBindings.
  destruct (or_el _ _) as [e|]; [|apply binds_for_refl]. cbv zeta.
  set (s1 := if Assistant._undoStateInitialized (get_obj w s) then s else _).
  assert (binds_for w s s1) as H1.
  { subst s1. destruct (Assistant._undoStateInitialized (get_obj w s));
      [apply binds_for_refl|].
    set (s0 := if negb _ then _ else _).
    apply (binds_for_trans w s s0); [|by apply binds_for_upd_obj].
    subst s0. destruct (negb _); apply binds_for_call. }
  clearbody s1.
  destruct (Assistant._inputEventsBound (get_obj w s1)); [done|].
  assert (binds_for w s1 (upd_elem e (Elem.set_bound true) s1)) as H2
    by (by apply binds_for_upd_elem).
  set (s2 := upd_elem e _ s1) in *. clearbody s2.
  assert (binds_for w s2 (upd_obj w (Assistant.set_inputEventsBound true) s2))
    as H3 by (by apply binds_for_upd_obj).
  set (s3 := upd_obj w _ s2) in *. clearbody s3.
  pose proof (binds_for_listen e Blur w s3) as H4.
  set (s4 := listen e Blur w s3) in *. clearbody s4.
  pose proof (binds_for_listen e Input w s4) as H5.
  set (s5 := listen e Input w s4) in *. clearbody s5.
  destruct (ResizeObserver h).
  - pose proof (binds_for_listen e Resize w s5).
    eauto 10 using binds_for_trans.
  - pose proof (binds_for_listen_window w s5).
    eauto 10 using binds_for_trans.
Qed.

Lemma register_candidate_facts key w (widget : Assistant.t)
  (el : option ElemId) s :
  let s1 :=
    addInstance key w
      (createAssistantUI w
         (with_inputWidgetMap (insert key (el, w))
            (with_next_obj (S w) (with_heap (insert w widget) s)))) in
  instances s1 = JsMap.set key w (instances s)
  /\ next_obj s1 = S w /\ dom_parent s1 = dom_parent s
  /\ destroyed s1 = destroyed s /\ entropy s1 = entropy s
  /\ elems s1 = elems s
  /\ heap s1 = <[w := Assistant.set_ui (Some w) (Some w) widget]> (heap s).
Proof.
  cbv zeta. repeat split.
  cbn [heap addInstance createAssistantUI upd_obj with_instances
       with_heap with_inputWidgetMap with_next_obj].
  rewrite insert_insert_eq. f_equal. f_equal.
  unfold get_obj. cbn [heap with_heap with_inputWidgetMap with_next_obj].
  by rewrite lookup_insert_eq.
Qed.

Lemma createAssistant_fresh h node inputId iw assistantKey s :
  FEATURES_enabled h = true ->
  from_option truthy_str false inputId = true ->
  isValidInput h iw node = true ->
  (or_el (InputWidget.inputEl iw) (InputWidget.element iw) <> None
   \/ vueNodesMode h = true) ->
  getInstance (key_of h node inputId assistantKey) s = None ->
  let key := key_of h node inputId assistantKey in
  let w := next_obj s in
  let r := createAssistant h node inputId iw assistantKey s in
  r.1 = Some w
  /\ instances r.2 = JsMap.set key w (instances s)
  /\ next_obj r.2 = S w
  /\ dom_parent r.2 = dom_parent s
  /\ destroyed r.2 = destroyed s
  /\ entropy r.2 = entropy s
  /\ (forall e, elem_core (get_elem e r.2) = elem_core (get_elem e s))
  /\ (forall w', w' <> w -> get_obj w' r.2 = get_obj w' s)
  /\ obj_id (get_obj w r.2)
     = (Node.id node, inputId, Some key, false, true,
        Some (workflow_id_of h), Node.type node, vueNodesMode h,
        Some w, Some w)
  /\ obj_els (get_obj w r.2)
     = (or_el (InputWidget.inputEl iw) (InputWidget.element iw),
        or_el (InputWidget.inputEl iw) (InputWidget.element iw)).
Proof.
  intros He Hi Hv Hel Hg. cbv zeta.
  unfold createAssistant. fold (key_of h node inputId assistantKey).
  rewrite He, Hi, Hv. cbn [negb orb].
  assert (negb (from_option (fun _ => true) false
                  (or_el (InputWidget.inputEl iw) (InputWidget.element iw)))
          && negb (vueNodesMode h) = false) as ->.
  { destruct Hel as [Hel| ->]; [|by rewrite andb_false_r].
    by destruct (or_el _ _). }
  rewrite Hg. cbn [fst snd].
  set (key := key_of h node inputId assistantKey).
  set (w := next_obj s).
  set (el := or_el (InputWidget.inputEl iw) (InputWidget.element iw)).
  set (widget := Assistant.mk _ _ _ _ _ _ _ _ _ _ _ _ _ _ _ _).
  set (s1 := addInstance key w _).
  assert (instances s1 = JsMap.set key w (instances s)
          /\ next_obj s1 = S w /\ dom_parent s1 = dom_parent s
          /\ destroyed s1 = destroyed s /\ entropy s1 = entropy s
          /\ elems s1 = elems s
          /\ heap s1 = <[w := Assistant.set_ui (Some w) (Some w) widget]> (heap s))
    as (A1 & A2 & A3 & A4 & A5 & A6 & A7).
  { apply register_candidate_facts. }
  clearbody s1.
  set (s2 := match el with Some _ => _ | None => s1 end).
  assert (binds_for w s1 s2) as B.
  { subst s2. destruct el; [|apply binds_for_refl].
    apply initializeInputElBindings_binds_for. }
  clearbody s2.
  destruct B as ((B1 & B2 & B3 & B4 & _ & _ & _ & B8 & B9 & B10) & C1 & C2).
  repeat split; try congruence.
  - intros e. rewrite B9. unfold get_elem. by rewrite A6.
  - intros w' Hne. rewrite C2 by done. unfold get_obj.
    by rewrite A7, lookup_insert_ne.
  - rewrite B10. unfold get_obj. by rewrite A7, lookup_insert_eq.
  - rewrite C1. unfold get_obj. by rewrite A7, lookup_insert_eq.
Qed.

Lemma mount_failed h w c s k :
  Assistant.widgetKey (get_obj w s) = Some k -> truthy_str k = true ->
  Assistant.isDestroyed (get_obj w s) = false ->
  let s' := mount_settled h w c None s in
  getInstance k s' = None /\ c ∈ destroyed s'
  /\ PromptAssistantInputWidgetMap s' !! k = None
  /\ elems s' = elems s /\ heap s' = heap s /\ next_obj s' = next_obj s
  /\ dom_parent s' = dom_parent s.
Proof.
  intros Hk Ht Hd. cbv zeta.
  unfold mount_settled, positioning, onComplete. rewrite Hd. cbn [negb].
  assert (Assistant.widgetKey (get_obj w (destroy c s)) = Some k) as -> by done.
  rewrite Ht. unfold hasInstance, JsMap.has, getInstance.
  assert (instances (destroy c s) = instances s) as -> by done.
  destruct (JsMap.get k (instances s)) eqn:Hg.
  - repeat split; try done.
    + cbn [instances with_inputWidgetMap with_instances]. apply get_delete_same.
    + cbn [destroyed with_inputWidgetMap with_instances destroy with_destroyed].
      set_solver.
    + cbn [PromptAssistantInputWidgetMap with_inputWidgetMap].
      apply lookup_delete_eq.
  - repeat split; try done.
    + cbn [destroyed with_inputWidgetMap destroy with_destroyed]. set_solver.
    + cbn [PromptAssistantInputWidgetMap with_inputWidgetMap].
      apply lookup_delete_eq.
Qed.

(** C4, as amended. A candidate is registered under its key as soon as it is
    created, with its mounting flag set, before the search for its mount
    container settles. When the search fails, the callback removes the entry
    of the key from the registry and from the global input map and destroys
    the container, and sets no mount marker; creation for the same input is
    then possible again and registers a new candidate. *)
Theorem failed_mount_unregisters (h : Host) (node : Node.t)
  (inputId : option string) (iw : InputWidget.t)
  (assistantKey : option string) (s : State) :
  FEATURES_enabled h = true ->
  from_option truthy_str false inputId = true ->
  isValidInput h iw node = true ->
  (or_el (InputWidget.inputEl iw) (InputWidget.element iw) <> None
   \/ vueNodesMode h = true) ->
  getInstance (key_of h node inputId assistantKey) s = None ->
  let key := key_of h node inputId assistantKey in
  let w := next_obj s in
  let s1 := (createAssistant h node inputId iw assistantKey s).2 in
  let s2 := mount_settled h w w None s1 in
  (getInstance key s1 = Some w
   /\ Assistant._isMounting (get_obj w s1) = true)
  /\ (getInstance key s2 = None
      /\ w ∈ destroyed s2
      /\ PromptAssistantInputWidgetMap s2 !! key = None
      /\ forall e, Elem._promptAssistantMounted (get_elem e s2)
                   = Elem._promptAssistantMounted (get_elem e s))
  /\ ((createAssistant h node inputId iw assistantKey s2).1
        = Some (next_obj s2)
      /\ getInstance key (createAssistant h node inputId iw assistantKey s2).2
         = Some (next_obj s2)).
Proof.
  intros He Hi Hv Hel Hg. cbv zeta.
  destruct (createAssistant_fresh h node inputId iw assistantKey s
              He Hi Hv Hel Hg)
    as (F1 & F2 & F3 & F4 & F5 & F6 & F7 & F8 & F9 & F10).
  set (key := key_of h node inputId assistantKey) in *.
  set (w := next_obj s) in *.
  set (s1 := (createAssistant h node inputId iw assistantKey s).2) in *.
  clearbody s1.
  unfold obj_id in F9. injection F9 as _ _ Hk Hd Hm _ _ _ _ _.
  destruct (mount_failed h w w s1 key Hk (key_of_truthy _ _ _ _) Hd)
    as (M1 & M2 & M3 & M4 & M5 & M6 & M7).
  set (s2 := mount_settled h w w None s1) in *. clearbody s2.
  split; [|split].
  - split; [|done]. unfold getInstance. rewrite F2. apply get_set_same.
  - repeat split; try done.
    intros e. unfold get_elem at 1. rewrite M4. fold (get_elem e s1).
    by destruct (elem_core_marker _ _ (F7 e)).
  - destruct (createAssistant_fresh h node inputId iw assistantKey s2
                He Hi Hv Hel M1) as (G1 & G2 & _).
    split; [done|]. fold key in G2.
    unfold getInstance. rewrite G2. apply get_set_same.
Qed.

(** C4, as stated, fails: the candidate of the scan is in the registry, with
    its mounting flag set, before any callback has run; the failure callback
    is what takes it out again. *)
Lemma candidate_registered_while_mounting :
  getInstance "main_5_text" page_scanned = Some 0
  /\ Assistant._isMounting (get_obj 0 page_scanned) = true
  /\ getInstance "main_5_text" (mount_settled legacy_host 0 0 None page_scanned)
     = None.
Proof. vm_compute. repeat split. Qed.

Lemma failed_mount_witness :
  let s1 := (createAssistant legacy_host node5 (Some "text") widget_text None
               fresh_page).2 in
  let s2 := mount_settled legacy_host 0 0 None s1 in
  FEATURES_enabled legacy_host = true
  /\ getInstance "main_5_text" fresh_page = None
  /\ getInstance "main_5_text" s1 = Some 0
  /\ getInstance "main_5_text" s2 = None
  /\ (createAssistant legacy_host node5 (Some "text") widget_text None s2).1
     = Some 1.
Proof.
  cbv zeta. split; [reflexivity|]. split; [reflexivity|].
  destruct (failed_mount_unregisters legacy_host node5 (Some "text")
              widget_text None fresh_page eq_refl eq_refl eq_refl
              (or_introl (fun H : Some 1 = None => eq_ind (Some 1)
                 (fun o => match o with Some _ => True | None => False end)
                 I None H))
              eq_refl)
    as ((H1 & _) & (H2 & _) & (H3 & _)).
  split; [exact H1|]. split; [exact H2|]. exact H3.
Defined.

(** ** Keys of inputs that share a name *)

Lemma disambiguated_key_raises h node iw inputId widgetIndex s :
  global_graphId h = None ->
  match or_el (InputWidget.inputEl iw) (InputWidget.element iw) with
  | Some e => or_str (Elem.promptAssistantUniqueId (get_elem e s)) None = None
  | None => True
  end ->
  disambiguated_key h node iw inputId widgetIndex s = (None, s).
Proof.
  intros Hg He. unfold disambiguated_key. cbv zeta. rewrite Hg.
  destruct (or_el _ _) as [e|]; [|done]. by rewrite He.
Qed.

(** With shared names and no global [graphId] the body of the loop raises
    before it stores anything. *)
Lemma duplicate_names_raise h node validInputs widgetIndex iw s :
  global_graphId h = None ->
  (1 < length (filter (fun w => input_name w = input_name iw) validInputs))%nat ->
  match or_el (InputWidget.inputEl iw) (InputWidget.element iw) with
  | Some e => or_str (Elem.promptAssistantUniqueId (get_elem e s)) None = None
  | None => True
  end ->
  scan_input h node validInputs widgetIndex iw s = ReferenceError s.
Proof.
  intros Hg Hlen He. unfold scan_input. cbv zeta.
  apply Nat.ltb_lt in Hlen. rewrite Hlen.
  by rewrite disambiguated_key_raises.
Qed.

(** What the code is after: were [graphId] bound, the identifier would be
    stored on the element at the first scan and read back at every later
    one, whatever the clock and the random source say then. *)
Lemma disambiguated_key_read_back h node iw inputId i j s e k s1 :
  or_el (InputWidget.inputEl iw) (InputWidget.element iw) = Some e ->
  disambiguated_key h node iw inputId i s = (Some k, s1) ->
  disambiguated_key h node iw inputId j s1 = (Some k, s1).
Proof.
  intros He. unfold disambiguated_key. cbv zeta. rewrite He.
  destruct (or_str (Elem.promptAssistantUniqueId (get_elem e s)) None)
    as [u|] eqn:Hu.
  - intros [= <- <-]. by rewrite Hu.
  - destruct (global_graphId h) as [g|]; [|done].
    intros [= <- <-].
    set (u := _ +:+ _).
    assert (or_str (Elem.promptAssistantUniqueId
                      (get_elem e (with_entropy (S (entropy s))
                         (upd_elem e (Elem.set_uniqueId (Some u)) s)))) None
            = Some u) as ->; [|done].
    assert (get_elem e (with_entropy (S (entropy s))
                          (upd_elem e (Elem.set_uniqueId (Some u)) s))
            = Elem.set_uniqueId (Some u) (get_elem e s)) as ->.
    { change (get_elem e (with_entropy _ ?x)) with (get_elem e x).
      rewrite get_elem_upd_elem. by destruct (decide (e = e)). }
    cbn [Elem.promptAssistantUniqueId Elem.set_uniqueId or_str].
    assert (truthy_str u = true) as ->; [|done].
    subst u. apply append_truthy. reflexivity.
Qed.

(** C3 at the failing input. Node 5 has two valid inputs named [text], each
    with a textarea that carries no identifier yet. The scan raises at the
    first of them, stores no identifier and registers nothing; a second scan
    does the same. *)
Theorem duplicate_named_inputs_raise :
  checkAndSetupNode legacy_host node5_dup fresh_page = ReferenceError fresh_page
  /\ Elem.promptAssistantUniqueId (get_elem 1 fresh_page) = None
  /\ instances fresh_page = []
  /\ checkAndSetupNode legacy_host node5_dup
       (state_of (checkAndSetupNode legacy_host node5_dup fresh_page))
     = ReferenceError fresh_page.
Proof. vm_compute. repeat split. Qed.

(** ** One instance per key *)

(** C1, as stated, fails: an instance whose toolbar is still attached is torn
    down and replaced when the widget shows another input element and the old
    one has left the document. *)
Lemma attached_instance_rebuilt_for_new_element :
  getInstance "main_5_text" page_replaced = Some 0
  /\ Assistant.isDestroyed (get_obj 0 page_replaced) = false
  /\ isUIPresent legacy_host node5_new
       (Assistant.element (get_obj 0 page_replaced)) page_replaced = true
  /\ (let s' := state_of (checkAndSetupNode legacy_host node5_new page_replaced) in
      getInstance "main_5_text" s' = Some 1
      /\ heap s' !! 0 = Some Assistant.husk
      /\ Assistant.inputEl (get_obj 1 s') = Some 3).
Proof. vm_compute. repeat split. Qed.

Lemma filter_unique {A B} `{EqDecision B} (f : A -> B) (l : list A) x :
  NoDup (map f l) -> In x l ->
  length (filter (fun y => f y = f x) l) = 1%nat.
Proof.
  induction l as [|a l IH]; [done|].
  intros Hnd Hin. cbn [map] in Hnd. apply NoDup_cons in Hnd as [Hni Hnd].
  rewrite filter_cons. destruct Hin as [->|Hin].
  - rewrite decide_True by done. cbn [length]. f_equal.
    assert (filter (fun y => f y = f x) l = []) as ->; [|done].
    destruct (filter _ l) as [|y t] eqn:E; [done|]. exfalso.
    assert (y ∈ filter (fun y => f y = f x) l) as Hy
      by (rewrite E; apply list_elem_of_here).
    apply list_elem_of_filter in Hy as [Heq Hy].
    apply Hni. rewrite <- Heq. apply list_elem_of_fmap. eauto.
  - rewrite decide_False; [by apply IH|].
    intros Heq. apply Hni. rewrite Heq. apply list_elem_of_fmap.
    exists x. split; [done|]. by apply list_elem_of_In.
Qed.

Lemma isUIPresent_detached h node w s :
  dom_parent s !! w = None -> isUIPresent h node (Some w) s = false.
Proof.
  intros H. unfold isUIPresent, node_container_contains, body_contains.
  rewrite H. destruct (isVueNodesMode h); [|done].
  by destruct (node_dom h _).
Qed.

Lemma check_new h node iw k w s ui :
  Assistant.element (get_obj w s) = Some ui ->
  dom_parent s !! ui = None ->
  Assistant._isMounting (get_obj w s) = true ->
  check_existing h node iw k w s = Skip.
Proof.
  intros He Hd Hm. unfold check_existing. cbv zeta.
  rewrite He, Hm, (isUIPresent_detached h node ui s Hd). done.
Qed.

Lemma isUIPresent_frame h node ui s s' :
  dom_parent s' = dom_parent s ->
  isUIPresent h node ui s' = isUIPresent h node ui s.
Proof.
  intros H. unfold isUIPresent, node_container_contains, body_contains.
  by rewrite H.
Qed.

Lemma check_existing_frame h node iw k w s s' :
  get_obj w s' = get_obj w s -> dom_parent s' = dom_parent s ->
  (forall e, Elem.in_body (get_elem e s') = Elem.in_body (get_elem e s)) ->
  check_existing h node iw k w s = Skip ->
  check_existing h node iw k w s' = Skip.
Proof.
  intros Ho Hd He. unfold check_existing. cbv zeta.
  rewrite Ho, (isUIPresent_frame h node _ s s' Hd).
  destruct (_ || _); [done|]. destruct (_ && _); [done|].
  destruct (Assistant.text_element (get_obj w s)) as [old|]; [|done].
  destruct (InputWidget.inputEl iw) as [cur|]; [|done].
  destruct (bool_decide (old = cur)); [done|]. rewrite He.
  by destruct (negb _).
Qed.

(** A registered instance with a toolbar that is attached, whose element is
    the one the widget shows or is still in the document, is left alone. *)
Lemma check_existing_sound h node iw k w s ui :
  Assistant.element (get_obj w s) = Some ui ->
  isUIPresent h node (Some ui) s = true ->
  match Assistant.text_element (get_obj w s), InputWidget.inputEl iw with
  | Some old, Some cur => old = cur \/ Elem.in_body (get_elem old s) = true
  | _, _ => True
  end ->
  check_existing h node iw k w s = Skip.
Proof.
  intros He Hp Hel. unfold check_existing. cbv zeta. rewrite He, Hp.
  cbn [from_option negb orb andb].
  destruct (Assistant.text_element (get_obj w s)) as [old|]; [|done].
  destruct (InputWidget.inputEl iw) as [cur|]; [|done].
  destruct Hel as [->|Hb].
  - by rewrite bool_decide_eq_true_2.
  - rewrite Hb. by destruct (bool_decide _).
Qed.

Lemma scan_input_skip h node validInputs widgetIndex iw s w :
  (length (filter (fun x => input_name x = input_name iw) validInputs) <= 1)%nat ->
  getInstance (input_key h node iw) s = Some w ->
  check_existing h node iw (input_key h node iw) w s = Skip ->
  scan_input h node validInputs widgetIndex iw s = Normal s.
Proof.
  intros Hlen Hg Hc. unfold scan_input. cbv zeta.
  destruct (1 <? length _)%nat eqn:E; [apply Nat.ltb_lt in E; lia|].
  fold (input_key h node iw). by rewrite Hg, Hc.
Qed.

Lemma createAssistant_gated h node inputId iw assistantKey s :
  FEATURES_enabled h
  && from_option truthy_str false inputId
  && isValidInput h iw node
  && (from_option (fun _ => true) false
        (or_el (InputWidget.inputEl iw) (InputWidget.element iw))
      || vueNodesMode h) = false ->
  createAssistant h node inputId iw assistantKey s = (None, s).
Proof.
  intros H. unfold createAssistant.
  destruct (FEATURES_enabled h); [|done].
  destruct (from_option truthy_str false inputId); [|done].
  destruct (isValidInput h iw node); [|done]. cbn [negb orb andb] in *.
  cbv zeta.
  destruct (from_option _ false (or_el _ _)); [done|].
  cbn [orb negb andb] in *. by rewrite H.
Qed.

Lemma key_of_given h node inputId k :
  truthy_str k = true -> key_of h node inputId (Some k) = k.
Proof. intros H. unfold key_of, or_str. by rewrite H. Qed.

Lemma scan_input_create h node validInputs widgetIndex iw s n :
  (length (filter (fun x => input_name x = input_name iw) validInputs) <= 1)%nat ->
  input_name iw = Some n -> truthy_str n = true ->
  getInstance (input_key h node iw) s = None ->
  scan_input h node validInputs widgetIndex iw s =
  Normal (if creatable h node iw s
          then (createAssistant h node (Some n) (processedWidget node iw)
                  (Some (input_key h node iw)) s).2
          else s).
Proof.
  intros Hlen Hn Ht Hg. unfold scan_input. cbv zeta.
  destruct (1 <? length _)%nat eqn:E; [apply Nat.ltb_lt in E; lia|].
  fold (input_key h node iw). rewrite Hg. unfold creatable.
  destruct (FEATURES_enabled h) eqn:He; [|done]. cbn [negb andb].
  assert (setupNodeAssistant h node iw (Some (input_key h node iw)) s
          = createAssistant h node (Some n) (processedWidget node iw)
              (Some (input_key h node iw)) s) as Hsetup.
  { unfold setupNodeAssistant. unfold input_name in Hn. rewrite Hn.
    cbn [or_str]. by rewrite Ht. }
  rewrite Hsetup.
  destruct (or_el (InputWidget.inputEl iw) (InputWidget.element iw)) as [e|];
    cbn [from_option].
  - destruct (Elem._promptAssistantMounted (get_elem e s)); [done|].
    cbn [negb andb].
    destruct (isValidInput h (processedWidget node iw) node
              && (from_option (fun _ => true) false
                    (or_el (InputWidget.inputEl (processedWidget node iw))
                       (InputWidget.element (processedWidget node iw)))
                  || vueNodesMode h)) eqn:G; [done|].
    rewrite createAssistant_gated; [done|].
    rewrite He. cbn [from_option]. rewrite Ht. cbn [andb]. exact G.
  - cbn [negb andb].
    destruct (isValidInput h (processedWidget node iw) node
              && (from_option (fun _ => true) false
                    (or_el (InputWidget.inputEl (processedWidget node iw))
                       (InputWidget.element (processedWidget node iw)))
                  || vueNodesMode h)) eqn:G; [done|].
    rewrite createAssistant_gated; [done|].
    rewrite He. cbn [from_option]. rewrite Ht. cbn [andb]. exact G.
Qed.

Lemma creatable_frame h node iw s s' :
  (forall e, elem_core (get_elem e s') = elem_core (get_elem e s)) ->
  creatable h node iw s' = creatable h node iw s.
Proof.
  intros He. unfold creatable.
  destruct (or_el (InputWidget.inputEl iw) (InputWidget.element iw)) as [e|];
    [|done].
  cbn [from_option]. by rewrite (proj1 (elem_core_marker _ _ (He e))).
Qed.

Lemma extends_refl h node s : extends h node s s.
Proof. by split. Qed.

Lemma extends_trans h node s1 s2 s3 :
  extends h node s1 s2 -> extends h node s2 s3 -> extends h node s1 s3.
Proof.
  intros [A1 B1] [A2 B2]. split; [by eauto|].
  intros iw. by rewrite B2, B1.
Qed.

Lemma settled_extends h node iw s s' :
  extends h node s s' -> settled h node iw s -> settled h node iw s'.
Proof.
  intros [A B] [Hr|Hc]; [left|right; by rewrite B].
  destruct (getInstance (input_key h node iw) s) as [w|] eqn:E; [|done].
  by rewrite (A _ _ E).
Qed.

(** One step of the scan on an input whose name no other valid input has. *)
Lemma scan_input_step h node validInputs widgetIndex iw s :
  named validInputs -> NoDup (map input_name validInputs) ->
  In iw validInputs ->
  well_formed s -> nothing_stale h node validInputs s ->
  exists s',
    scan_input h node validInputs widgetIndex iw s = Normal s'
    /\ well_formed s' /\ nothing_stale h node validInputs s'
    /\ extends h node s s' /\ settled h node iw s'
    /\ (NoDup (JsMap.keys (instances s)) ->
        NoDup (JsMap.keys (instances s')))
    /\ (forall k x, getInstance k s' = Some x ->
          getInstance k s = Some x
          \/ (k = input_key h node iw /\ creatable h node iw s = true)).
Proof.
  intros Hnamed Hnd Hin [Hdom Hreg] Hstale.
  destruct (Hnamed iw Hin) as (n & Hn & Ht).
  assert (length (filter (fun x => input_name x = input_name iw) validInputs)
          <= 1)%nat as Hlen
    by (by rewrite (filter_unique input_name validInputs iw Hnd Hin)).
  destruct (getInstance (input_key h node iw) s) as [w|] eqn:Hg.
  { exists s. split; [|split; [done|split; [done|split;
      [apply extends_refl|split; [left; by rewrite Hg|split; [done|by left]]]]]].
    apply (scan_input_skip h node validInputs widgetIndex iw s w Hlen Hg).
    by apply Hstale. }
  rewrite (scan_input_create h node validInputs widgetIndex iw s n Hlen Hn Ht Hg).
  destruct (creatable h node iw s) eqn:Hc.
  2:{ exists s. split; [done|]. split; [done|]. split; [done|].
      split; [apply extends_refl|]. split; [by right|]. split; [done|by left]. }
  pose proof Hc as Hcr.
  set (key := input_key h node iw) in *.
  assert (truthy_str key = true) as Hkt by apply getAssistantKey_truthy.
  pose proof (key_of_given h node (Some n) key Hkt) as Hkey.
  unfold creatable in Hc.
  apply andb_prop in Hc as [Hc Hel]. apply andb_prop in Hc as [Hc Hv].
  apply andb_prop in Hc as [He _].
  destruct (createAssistant_fresh h node (Some n) (processedWidget node iw)
              (Some key) s He Ht Hv) as
    (_ & Hi & Hnext & Hd & _ & _ & Hcore & Hold & Hid & _).
  { apply orb_prop in Hel as [Hel|Hvue]; [left|by right].
    by destruct (or_el _ _). }
  { by rewrite Hkey. }
  rewrite Hkey in Hi, Hid.
  set (s' := (createAssistant h node (Some n) (processedWidget node iw)
                (Some key) s).2) in *.
  clearbody s'.
  assert (forall k x, getInstance k s' = Some x ->
            (k = key /\ x = next_obj s) \/ (k <> key /\ getInstance k s = Some x))
    as Hcases.
  { intros k x. unfold getInstance. rewrite Hi.
    destruct (decide (k = key)) as [->|Hne].
    - rewrite get_set_same. intros [= <-]. by left.
    - rewrite get_set_other by done. by right. }
  assert (Assistant.element (get_obj (next_obj s) s') = Some (next_obj s)
          /\ Assistant._isMounting (get_obj (next_obj s) s') = true)
    as [Hui Hmount].
  { unfold obj_id in Hid. by injection Hid as _ _ _ _ -> _ _ _ _ ->. }
  exists s'. split; [done|]. split; [|split; [|split; [|split; [|split]]]].
  - split.
    + intros u Hu. rewrite Hd. apply Hdom. lia.
    + intros k x Hx. rewrite Hnext.
      destruct (Hcases k x Hx) as [[_ ->]|[_ Hx']]; [lia|].
      specialize (Hreg k x Hx'). lia.
  - intros iw' w' Hin' Hg'.
    destruct (Hcases _ _ Hg') as [[_ ->]|[_ Hx']].
    + apply (check_new h node iw' _ (next_obj s) s' (next_obj s) Hui);
        [|done].
      rewrite Hd. by apply Hdom.
    + apply (check_existing_frame h node iw' _ w' s s').
      * apply Hold. specialize (Hreg _ _ Hx'). lia.
      * done.
      * intros e. specialize (Hcore e). unfold elem_core in Hcore. congruence.
      * by apply Hstale.
  - split.
    + intros k x Hx. unfold getInstance. rewrite Hi.
      rewrite get_set_other; [done|]. intros <-.
      unfold getInstance in Hx, Hg. congruence.
    + intros iw0. by apply creatable_frame.
  - left. unfold getInstance. fold key. by rewrite Hi, get_set_same.
  - rewrite Hi. apply NoDup_keys_set.
  - intros k x Hx. destruct (Hcases k x Hx) as [[-> _]|[_ Hx']];
      [by right|by left].
Qed.

Lemma scan_input_settled h node validInputs widgetIndex iw s :
  named validInputs -> NoDup (map input_name validInputs) ->
  In iw validInputs ->
  nothing_stale h node validInputs s -> settled h node iw s ->
  scan_input h node validInputs widgetIndex iw s = Normal s.
Proof.
  intros Hnamed Hnd Hin Hstale Hset.
  destruct (Hnamed iw Hin) as (n & Hn & Ht).
  assert (length (filter (fun x => input_name x = input_name iw) validInputs)
          <= 1)%nat as Hlen
    by (by rewrite (filter_unique input_name validInputs iw Hnd Hin)).
  destruct (getInstance (input_key h node iw) s) as [w|] eqn:Hg.
  - apply (scan_input_skip h node validInputs widgetIndex iw s w Hlen Hg).
    by apply Hstale.
  - rewrite (scan_input_create h node validInputs widgetIndex iw s n Hlen Hn Ht Hg).
    destruct Hset as [Hr|Hc]; [done|]. by rewrite Hc.
Qed.

Lemma scan_inputs_first h node validInputs :
  named validInputs -> NoDup (map input_name validInputs) ->
  forall rest widgetIndex s,
    (forall iw, In iw rest -> In iw validInputs) ->
    well_formed s -> nothing_stale h node validInputs s ->
    exists s',
      scan_inputs h node validInputs widgetIndex rest s = Normal s'
      /\ well_formed s' /\ nothing_stale h node validInputs s'
      /\ extends h node s s'
      /\ (forall iw, In iw rest -> settled h node iw s')
      /\ (NoDup (JsMap.keys (instances s)) ->
          NoDup (JsMap.keys (instances s')))
      /\ (forall k x, getInstance k s' = Some x ->
            getInstance k s = Some x
            \/ exists iw, In iw rest /\ k = input_key h node iw
                          /\ creatable h node iw s = true).
Proof.
  intros Hnamed Hnd rest.
  induction rest as [|iw rest IH]; intros idx s Hsub Hwf Hstale.
  - exists s. cbn [scan_inputs]. split; [done|]. split; [done|].
    split; [done|]. split; [apply extends_refl|]. split; [by intros ? []|].
    split; [done|]. intros k x Hx. by left.
  - cbn [scan_inputs].
    destruct (scan_input_step h node validInputs idx iw s Hnamed Hnd)
      as (s1 & -> & Hwf1 & Hst1 & Hex1 & Hset1 & Hnd1 & Hfrom1);
      [apply Hsub; by left|done|done|].
    destruct (IH (S idx) s1)
      as (s2 & -> & Hwf2 & Hst2 & Hex2 & Hset2 & Hnd2 & Hfrom2);
      [intros ? ?; apply Hsub; by right|done|done|].
    exists s2. split; [done|]. split; [done|]. split; [done|].
    split; [by apply (extends_trans h node s s1 s2)|].
    split; [|split; [by auto|]].
    + intros iw' [<-|Hin'].
      * by apply (settled_extends h node iw s1 s2).
      * by apply Hset2.
    + intros k x Hx. destruct (Hfrom2 k x Hx) as [Hx1|(iw' & Hin' & -> & Hc')].
      * destruct (Hfrom1 k x Hx1) as [Hx0|[-> Hc]]; [by left|].
        right. exists iw. split; [by left|done].
      * right. exists iw'. split; [by right|]. split; [done|].
        by rewrite <- (proj2 Hex1 iw').
Qed.

Lemma foldl_invariant {A B} (P : A -> Prop) (f : A -> B -> A) l a :
  (forall a b, P a -> P (f a b)) -> P a -> P (foldl f a l).
Proof.
  intros H. revert a. induction l as [|b l IH]; intros a Ha; simpl; [done|].
  apply IH, H, Ha.
Qed.

Lemma cleanupInstance_NoDup w k b s :
  NoDup (JsMap.keys (instances s)) ->
  NoDup (JsMap.keys (instances (_cleanupInstance w k b s))).
Proof.
  intros H. rewrite cleanupInstance_instances.
  destruct (negb b && truthy_str k); [by apply NoDup_keys_delete|done].
Qed.

(** The registry never holds a key twice: [cleanup] keeps this. *)
Lemma cleanup_NoDup h nodeId silent s :
  NoDup (JsMap.keys (instances s)) ->
  NoDup (JsMap.keys (instances (cleanup h nodeId silent s))).
Proof.
  intros H. unfold cleanup.
  destruct (PROMPT_ASSISTANT_WORKFLOW_SWITCHING h).
  - cbv zeta.
    assert (NoDup (JsMap.keys (instances
              (foldl switching_step s
                 (filter (fun key => key_matches_switching nodeId key = true)
                    (JsMap.keys (instances s))))))) as H'.
    { apply (foldl_invariant (fun s => NoDup (JsMap.keys (instances s))));
        [|done].
      intros a k Ha. unfold switching_step.
      destruct (getInstance k a); [by apply cleanupInstance_NoDup|done]. }
    destruct nodeId; [done|]. cbn [instances with_instances JsMap.keys map].
    apply NoDup_nil_2.
  - destruct nodeId as [n|].
    + cbv zeta. destruct (0 <? _)%nat; [|done].
      set (r := foldl (clear_tags_step n) _ _).
      assert (NoDup (JsMap.keys (instances r.1))) as Hr.
      { subst r.
        destruct (clear_tags_frame n
                    (filter (fun key => key_matches (String_ n) key = true)
                       (JsMap.keys (instances s)))
                    (call (clearNodeHistory n) s) []) as (-> & _).
        done. }
      clearbody r.
      assert (NoDup (JsMap.keys (instances
                (foldl node_step r.1
                   (filter (fun key => key_matches (String_ n) key = true)
                      (JsMap.keys (instances s))))))) as H'.
      { apply (foldl_invariant (fun s => NoDup (JsMap.keys (instances s))));
          [|done].
        intros a k Ha. unfold node_step.
        destruct (getInstance k a); [|done].
        cbn [instances with_instances].
        by apply NoDup_keys_delete, cleanupInstance_NoDup. }
      by destruct (negb silent).
    + destruct (0 <? _)%nat; [|done]. cbv zeta.
      destruct (negb silent); cbn [instances with_instances logger_log with_log
        JsMap.keys map]; apply NoDup_nil_2.
Qed.

(** ... and so does [createAssistant]. *)
Lemma createAssistant_NoDup h node inputId iw assistantKey s :
  NoDup (JsMap.keys (instances s)) ->
  NoDup (JsMap.keys (instances
           (createAssistant h node inputId iw assistantKey s).2)).
Proof.
  intros H.
  destruct (getInstance (key_of h node inputId assistantKey) s) as [w|] eqn:Hg.
  { by rewrite (proj1 (createAssistant_existing h node inputId iw
                         assistantKey s w Hg)). }
  destruct (FEATURES_enabled h
            && from_option truthy_str false inputId
            && isValidInput h iw node
            && (from_option (fun _ => true) false
                  (or_el (InputWidget.inputEl iw) (InputWidget.element iw))
                || vueNodesMode h)) eqn:G.
  2:{ by rewrite (createAssistant_gated h node inputId iw assistantKey s G). }
  apply andb_prop in G as [G Hel]. apply andb_prop in G as [G Hv].
  apply andb_prop in G as [He Hi].
  destruct (createAssistant_fresh h node inputId iw assistantKey s
              He Hi Hv) as (_ & -> & _); [|done|by apply NoDup_keys_set].
  apply orb_prop in Hel as [Hel|Hvue]; [left|by right].
  by destruct (or_el _ _).
Qed.

Lemma scan_inputs_again h node validInputs :
  named validInputs -> NoDup (map input_name validInputs) ->
  forall rest widgetIndex s,
    (forall iw, In iw rest -> In iw validInputs /\ settled h node iw s) ->
    nothing_stale h node validInputs s ->
    scan_inputs h node validInputs widgetIndex rest s = Normal s.
Proof.
  intros Hnamed Hnd rest.
  induction rest as [|iw rest IH]; intros idx s Hsub Hstale; [done|].
  cbn [scan_inputs].
  rewrite (scan_input_settled h node validInputs idx iw s Hnamed Hnd);
    [|apply Hsub; by left|done|apply Hsub; by left].
  apply IH; [|done]. intros ? ?. apply Hsub. by right.
Qed.

Lemma checkAndSetupNode_scan h node s :
  FEATURES_enabled h = true -> isValidNode h node = true ->
  validInputs_of h node <> [] ->
  checkAndSetupNode h node s =
  scan_inputs h node (validInputs_of h node) 0 (validInputs_of h node) s.
Proof.
  intros He Hv Hne. unfold checkAndSetupNode, validInputs_of in *.
  rewrite He, Hv. cbn [negb]. cbv zeta.
  destruct (Node.widgets node) as [ws|]; [|done].
  by destruct (List.filter _ ws).
Qed.

Example fresh_page_scan :
  let s1 := state_of (checkAndSetupNode legacy_host node5 fresh_page) in
  getInstance "main_5_text" fresh_page = None
  /\ getInstance "main_5_text" s1 = Some 0.
Proof. vm_compute. by split. Qed.

(** * Further properties *)

(** ** What [cleanup] of a node leaves alone *)

Lemma node_loop_other ks : forall s key,
  key ∉ ks ->
  getInstance key (foldl node_step s ks) = getInstance key s.
Proof.
  destruct node_step_facts as (_ & N2 & _).
  induction ks as [|k ks IH]; intros s key Hni; simpl; [done|].
  apply not_elem_of_cons in Hni as [Hne Hni].
  rewrite IH by done. by apply N2.
Qed.

Lemma node_step_sub s k k' w :
  getInstance k' (node_step s k) = Some w -> getInstance k' s = Some w.
Proof.
  destruct node_step_facts as (N1 & N2 & N3 & _).
  destruct (decide (k = k')) as [<-|Hne]; [|by rewrite N2].
  destruct (getInstance k s) as [w0|] eqn:E.
  - destruct (N3 s k w0 E) as [H _]. rewrite H; done.
  - by rewrite (N1 s k k E).
Qed.

Lemma node_loop_object ks : forall s w,
  (forall k, k ∈ ks -> getInstance k s <> Some w) ->
  heap (foldl node_step s ks) !! w = heap s !! w.
Proof.
  destruct node_step_dom_facts as (_ & _ & E3).
  induction ks as [|k ks IH]; intros s w H; simpl; [done|].
  rewrite IH.
  - apply E3. apply H. apply list_elem_of_here.
  - intros k' Hin Hg. apply node_step_sub in Hg.
    by apply (H k'); [apply list_elem_of_further|].
Qed.

(** Outside a workflow switch, [cleanup] of a node leaves every key its
    filter does not select registered as before, leaves alone every object
    that is registered under no selected key, and when no registered key is
    selected it changes nothing at all: no history is cleared and nothing is
    logged. *)
Theorem cleanup_node_spares_other_keys (h : Host) (n : JsId) (silent : bool)
  (s : State) :
  PROMPT_ASSISTANT_WORKFLOW_SWITCHING h = false ->
  (forall key, key_matches (String_ n) key = false ->
     getInstance key (cleanup h (Some n) silent s) = getInstance key s)
  /\ (forall w,
        (forall key, getInstance key s = Some w ->
                     key_matches (String_ n) key = false) ->
        heap (cleanup h (Some n) silent s) !! w = heap s !! w)
  /\ ((forall key, key ∈ JsMap.keys (instances s) ->
                   key_matches (String_ n) key = false) ->
      cleanup h (Some n) silent s = s).
Proof.
  intros Hsw. unfold cleanup. rewrite Hsw. cbv zeta.
  set (ks := filter (fun key => key_matches (String_ n) key = true)
               (JsMap.keys (instances s))).
  split; [|split].
  - intros key Hm. destruct (0 <? length ks)%nat; [|done].
    set (r := foldl (clear_tags_step n) _ _).
    assert (instances r.1 = instances s) as Hr.
    { subst r. by destruct (clear_tags_frame n ks
                              (call (clearNodeHistory n) s) []) as (-> & _). }
    clearbody r.
    assert (getInstance key (foldl node_step r.1 ks) = getInstance key s) as H.
    { rewrite node_loop_other.
      - unfold getInstance. by rewrite Hr.
      - subst ks. intros Hin. apply list_elem_of_filter in Hin as [Hin _].
        congruence. }
    by destruct (negb silent).
  - intros w Hw. destruct (0 <? length ks)%nat; [|done].
    set (r := foldl (clear_tags_step n) _ _).
    assert (instances r.1 = instances s /\ heap r.1 = heap s) as [Hr Hh].
    { subst r. by destruct (clear_tags_frame n ks
                              (call (clearNodeHistory n) s) [])
        as (-> & -> & _). }
    clearbody r.
    assert (heap (foldl node_step r.1 ks) !! w = heap s !! w) as H.
    { rewrite node_loop_object; [by rewrite Hh|].
      intros k Hin Hg. subst ks.
      apply list_elem_of_filter in Hin as [Hin _].
      unfold getInstance in Hg. rewrite Hr in Hg.
      specialize (Hw k Hg). congruence. }
    by destruct (negb silent).
  - intros Hnone.
    assert (ks = []) as ->; [|done].
    subst ks. destruct (filter _ _) as [|k t] eqn:E; [done|]. exfalso.
    assert (k ∈ filter (fun key => key_matches (String_ n) key = true)
                  (JsMap.keys (instances s))) as Hk
      by (rewrite E; apply list_elem_of_here).
    apply list_elem_of_filter in Hk as [Hk Hin].
    specialize (Hnone k Hin). congruence.
Qed.

Lemma cleanup_node_spares_witness :
  getInstance "main_5_text" (cleanup legacy_host (Some (IdNum 6)) false page_mounted)
  = getInstance "main_5_text" page_mounted
  /\ cleanup legacy_host (Some (IdNum 6)) false page_mounted = page_mounted.
Proof.
  destruct (cleanup_node_spares_other_keys legacy_host (IdNum 6) false
              page_mounted) as (H1 & _ & H3); [reflexivity|].
  split.
  - apply H1. reflexivity.
  - apply H3. intros key Hin. vm_compute in Hin.
    apply list_elem_of_In in Hin. destruct Hin as [<-|[]]. reflexivity.
Defined.

(** ** The keys of a node are selected by the cleanup of that node *)

Lemma includes_cons c s :
  includes (String c s) "_" = Ascii.eqb "_" c || includes s "_".
Proof.
  cbn [includes startsWith]. by destruct s; rewrite ?andb_true_r.
Qed.

Lemma split_prefix g rest :
  no_underscore g ->
  split "_" (g +:+ "_" +:+ rest) = g :: split "_" rest.
Proof.
  unfold no_underscore. induction g as [|c g IH]; intros Hg.
  - change ("" +:+ "_" +:+ rest) with (String "_" rest). cbn [split].
    by rewrite Ascii.eqb_refl.
  - rewrite includes_cons in Hg. apply orb_false_elim in Hg as [Hc Hg].
    change (String c g +:+ "_" +:+ rest) with (String c (g +:+ "_" +:+ rest)).
    cbn [split]. rewrite Ascii.eqb_sym, Hc. by rewrite IH.
Qed.

Lemma split_head g :
  no_underscore g -> split "_" g = [g].
Proof.
  unfold no_underscore. induction g as [|c g IH]; intros Hg; [done|].
  rewrite includes_cons in Hg. apply orb_false_elim in Hg as [Hc Hg].
  cbn [split]. rewrite Ascii.eqb_sym, Hc. by rewrite IH.
Qed.

Lemma split_nonempty sep s : split sep s <> [].
Proof.
  destruct s as [|c s]; [done|]. cbn [split].
  destruct (Ascii.eqb c sep); [done|]. by destruct (split sep s).
Qed.

Lemma key_matches_node_key h node n inputId :
  Node.id node = Some n ->
  no_underscore (graphId_of h node) -> no_underscore (String_ n) ->
  key_matches (String_ n) (_getAssistantKey h node inputId) = true.
Proof.
  intros Hid Hg Hn. unfold key_matches, _getAssistantKey. rewrite Hid.
  cbn [interp].
  rewrite (split_prefix (graphId_of h node)) by done.
  rewrite (split_prefix (String_ n)) by done.
  destruct (split "_" (interp_str inputId)) as [|p ps] eqn:E;
    [by apply split_nonempty in E|].
  cbn [length lookup list_lookup Nat.leb andb].
  rewrite bool_decide_eq_true_2 by done. by rewrite !orb_true_r.
Qed.

(** Outside a workflow switch, [cleanup] called with the id of a node selects
    every key [_getAssistantKey] makes for that node, whatever the input,
    provided neither the graph id nor the node id contains an underscore;
    and [cleanup] called with a key selects that key. *)
Theorem cleanup_selects_keys_of_node (h : Host) (node : Node.t) (n : JsId)
  (inputId : option string) :
  PROMPT_ASSISTANT_WORKFLOW_SWITCHING h = false ->
  Node.id node = Some n ->
  no_underscore (graphId_of h node) -> no_underscore (String_ n) ->
  cleanup_selects h (Some n) (_getAssistantKey h node inputId) = true
  /\ cleanup_selects h (Some (IdStr (_getAssistantKey h node inputId)))
       (_getAssistantKey h node inputId) = true.
Proof.
  intros Hsw Hid Hg Hn. unfold cleanup_selects. rewrite Hsw. split.
  - by apply key_matches_node_key.
  - unfold key_matches. cbn [String_]. by rewrite String.eqb_refl.
Qed.

Lemma cleanup_selects_keys_witness :
  cleanup_selects legacy_host (Some (IdNum 5))
    (_getAssistantKey legacy_host node5 (Some "text")) = true
  /\ cleanup_selects legacy_host
       (Some (IdStr (_getAssistantKey legacy_host node5 (Some "text"))))
       (_getAssistantKey legacy_host node5 (Some "text")) = true.
Proof.
  apply (cleanup_selects_keys_of_node legacy_host node5 (IdNum 5) (Some "text"));
    reflexivity.
Defined.

(** ** What [createAssistant] returns *)

(** [createAssistant] returns nothing exactly when one of its guards rejects
    the call, and then it leaves the state as it was. Otherwise it returns an
    object, that object is what the registry holds under the key afterwards,
    and no other key of the registry is touched. *)
Theorem createAssistant_returns_registered (h : Host) (node : Node.t)
  (inputId : option string) (iw : InputWidget.t)
  (assistantKey : option string) (s : State) :
  let r := createAssistant h node inputId iw assistantKey s in
  let key := key_of h node inputId assistantKey in
  (accepts h node inputId iw = false -> r = (None, s))
  /\ (accepts h node inputId iw = true ->
      exists w, r.1 = Some w
        /\ getInstance key r.2 = Some w
        /\ forall k', k' <> key -> getInstance k' r.2 = getInstance k' s).
Proof.
  cbv zeta. split.
  - intros G. by apply createAssistant_gated.
  - intros G. unfold accepts in G.
    destruct (getInstance (key_of h node inputId assistantKey) s)
      as [w0|] eqn:Hg.
    + exists w0. unfold createAssistant.
      fold (key_of h node inputId assistantKey).
      apply andb_prop in G as [G Hel]. apply andb_prop in G as [G Hv].
      apply andb_prop in G as [He Hi]. rewrite He, Hi, Hv. cbn [negb orb].
      cbv zeta.
      assert (negb (from_option (fun _ => true) false
                      (or_el (InputWidget.inputEl iw) (InputWidget.element iw)))
              && negb (vueNodesMode h) = false) as ->.
      { apply orb_prop in Hel as [->| ->]; [done|by rewrite andb_false_r]. }
      rewrite Hg. by cbn [fst snd].
    + apply andb_prop in G as [G Hel]. apply andb_prop in G as [G Hv].
      apply andb_prop in G as [He Hi].
      destruct (createAssistant_fresh h node inputId iw assistantKey s
                  He Hi Hv) as (H1 & H2 & _); [|done|].
      { apply orb_prop in Hel as [Hel|Hvue]; [left|by right].
        by destruct (or_el _ _). }
      exists (next_obj s). split; [done|]. unfold getInstance. rewrite H2.
      split; [apply get_set_same|]. intros k' Hne.
      by rewrite get_set_other.
Qed.

(** ** The undo state is initialised once *)

Lemma same_undo_refl s : same_undo s s.
Proof. by split. Qed.

Lemma same_undo_trans s1 s2 s3 :
  same_undo s1 s2 -> same_undo s2 s3 -> same_undo s1 s3.
Proof.
  intros [A1 A2] [B1 B2]. split; [congruence|]. intros w. by rewrite B2, A2.
Qed.

Lemma same_undo_upd_elem e f s : same_undo s (upd_elem e f s).
Proof. by split. Qed.

Lemma same_undo_upd_obj w f s :
  (forall a, Assistant._undoStateInitialized (f a)
             = Assistant._undoStateInitialized a) ->
  same_undo s (upd_obj w f s).
Proof.
  intros Hf. split; [done|]. intros w'. rewrite get_obj_upd_obj.
  by destruct (decide (w' = w)).
Qed.

Lemma same_undo_listen e k w s : same_undo s (listen e k w s).
Proof.
  unfold listen, push_cleanup.
  apply (same_undo_trans s (add_listener e k w s));
    [apply same_undo_upd_elem | by apply same_undo_upd_obj].
Qed.

Lemma same_undo_listen_window w s : same_undo s (listen_window w s).
Proof.
  unfold listen_window, push_cleanup.
  apply (same_undo_trans s (with_window_resize (fun l => l ++ [w]) s));
    [by split | by apply same_undo_upd_obj].
Qed.

Lemma binding_part_same_undo h w e s :
  same_undo s
    (if Assistant._inputEventsBound (get_obj w s) then s
     else
       let s := upd_elem e (Elem.set_bound true) s in
       let s := upd_obj w (Assistant.set_inputEventsBound true) s in
       let s := listen e Blur w s in
       let s := listen e Input w s in
       if ResizeObserver h then listen e Resize w s else listen_window w s).
Proof.
  destruct (Assistant._inputEventsBound (get_obj w s));
    [apply same_undo_refl|]. cbv zeta.
  pose proof (same_undo_upd_elem e (Elem.set_bound true) s) as B1.
  set (s1 := upd_elem e _ s) in *. clearbody s1.
  assert (same_undo s1 (upd_obj w (Assistant.set_inputEventsBound true) s1))
    as B2 by (by apply same_undo_upd_obj).
  set (s2 := upd_obj w _ s1) in *. clearbody s2.
  pose proof (same_undo_listen e Blur w s2) as B3.
  set (s3 := listen e Blur w s2) in *. clearbody s3.
  pose proof (same_undo_listen e Input w s3) as B4.
  set (s4 := listen e Input w s3) in *. clearbody s4.
  assert (same_undo s4 (if ResizeObserver h then listen e Resize w s4
                        else listen_window w s4)) as B5
    by (destruct (ResizeObserver h);
        [apply same_undo_listen | apply same_undo_listen_window]).
  eauto 10 using same_undo_trans.
Qed.

Lemma initialize_undo h w iw node inputId s e :
  or_el (InputWidget.inputEl iw) (Assistant.inputEl (get_obj w s)) = Some e ->
  let s1 := _initializeInputElBindings h w iw node inputId s in
  cache_calls s1 =
    cache_calls s ++
    (if Assistant._undoStateInitialized (get_obj w s) then []
     else [undo_call (Node.id node) inputId (initial_value (get_elem e s))])
  /\ Assistant._undoStateInitialized (get_obj w s1) = true.
Proof.
  intros He. cbv zeta. unfold _initializeInputElBindings. rewrite He. cbv zeta.
  set (s0 := if Assistant._undoStateInitialized (get_obj w s) then s else _).
  assert (cache_calls s0 =
            cache_calls s ++
            (if Assistant._undoStateInitialized (get_obj w s) then []
             else [undo_call (Node.id node) inputId (initial_value (get_elem e s))])
          /\ Assistant._undoStateInitialized (get_obj w s0) = true)
    as [C0 U0].
  { subst s0.
    destruct (Assistant._undoStateInitialized (get_obj w s)) eqn:E.
    - by rewrite app_nil_r.
    - split.
      + unfold undo_call, initial_value.
        by destruct (blank (default "" (dom_value (get_elem e s)))).
      + rewrite get_obj_upd_obj. by destruct (decide (w = w)). }
  clearbody s0.
  destruct (binding_part_same_undo h w e s0) as [C1 U1].
  cbv zeta in C1, U1. by rewrite C1, U1.
Qed.

(** The first run of [_initializeInputElBindings] that finds an element makes
    one call to the history service, unless the undo state of the widget was
    initialised before. The initial value is [inputEl.value || '']: the text
    of a textarea, and the empty text for any other element, whatever it
    shows. The call is [addHistoryAndUpdateUndoState] with the initial value
    when that is not blank and [initUndoState] otherwise, so an element that
    is not a textarea always gets [initUndoState] with the empty text. The
    run sets the undo flag of the widget, and every later run, whatever it is
    called with, makes no call. *)
Theorem undo_state_initialised_once (h : Host) (w : WId) (iw : InputWidget.t)
  (node : Node.t) (inputId : option string) (s : State) (e : ElemId) :
  or_el (InputWidget.inputEl iw) (Assistant.inputEl (get_obj w s)) = Some e ->
  let s1 := _initializeInputElBindings h w iw node inputId s in
  cache_calls s1 =
    cache_calls s ++
    (if Assistant._undoStateInitialized (get_obj w s) then []
     else [undo_call (Node.id node) inputId (initial_value (get_elem e s))])
  /\ (Elem.kind (get_elem e s) <> TEXTAREA ->
      undo_call (Node.id node) inputId (initial_value (get_elem e s))
      = initUndoState (Node.id node) inputId (Some ""))
  /\ (Elem.kind (get_elem e s) = TEXTAREA ->
      initial_value (get_elem e s) = Elem.value (get_elem e s))
  /\ forall iw' node' inputId',
       cache_calls (_initializeInputElBindings h w iw' node' inputId' s1)
       = cache_calls s1.
Proof.
  intros He. cbv zeta.
  destruct (initialize_undo h w iw node inputId s e He) as [C1 U1].
  split; [done|].
  split.
  { intros Hk. unfold initial_value, dom_value.
    by destruct (Elem.kind (get_elem e s)). }
  split.
  { intros Hk. unfold initial_value, dom_value. by rewrite Hk. }
  intros iw' node' inputId'.
  set (s1 := _initializeInputElBindings h w iw node inputId s) in *.
  clearbody s1.
  destruct (or_el (InputWidget.inputEl iw') (Assistant.inputEl (get_obj w s1)))
    as [e'|] eqn:He'.
  - destruct (initialize_undo h w iw' node' inputId' s1 e' He') as [C2 _].
    cbv zeta in C2. rewrite C2, U1. by rewrite app_nil_r.
  - unfold _initializeInputElBindings. by rewrite He'.
Qed.

Lemma undo_state_initialised_witness :
  let s1 := _initializeInputElBindings legacy_host 0 widget_text node5
              (Some "text")
              (upd_obj 0 (Assistant.set_undoStateInitialized false) page_scanned)
  in
  cache_calls s1 =
    cache_calls page_scanned
    ++ [addHistoryAndUpdateUndoState (Some (IdNum 5)) (Some "text") "hello"]
  /\ cache_calls (_initializeInputElBindings legacy_host 0 widget_note node5
                    (Some "note") s1) = cache_calls s1.
Proof.
  cbv zeta.
  destruct (undo_state_initialised_once legacy_host 0 widget_text node5
              (Some "text")
              (upd_obj 0 (Assistant.set_undoStateInitialized false) page_scanned)
              1) as (H1 & _ & _ & H2); [reflexivity|].
  split; [exact H1 | apply H2].
Defined.

(** ** Teardown removes what binding attached *)

Lemma listen_view e k w s :
  (forall e', Elem.listeners (get_elem e' (listen e k w s))
              = Elem.listeners (get_elem e' s)
                ++ (if decide (e' = e) then [(k, w)] else []))
  /\ window_resize (listen e k w s) = window_resize s
  /\ Assistant._eventCleanupFunctions (get_obj w (listen e k w s))
     = Assistant._eventCleanupFunctions (get_obj w s) ++ [RemoveListener e k w]
  /\ Assistant._inputEventsBound (get_obj w (listen e k w s))
     = Assistant._inputEventsBound (get_obj w s).
Proof.
  unfold listen, push_cleanup, add_listener. repeat split.
  - intros e'.
    change (get_elem e' (upd_obj w ?f ?s0)) with (get_elem e' s0).
    rewrite get_elem_upd_elem.
    destruct (decide (e' = e)) as [->|]; [done|by rewrite app_nil_r].
  - rewrite get_obj_upd_obj. by destruct (decide (w = w)).
  - rewrite get_obj_upd_obj. by destruct (decide (w = w)).
Qed.

Lemma listen_window_view w s :
  (forall e', Elem.listeners (get_elem e' (listen_window w s))
              = Elem.listeners (get_elem e' s))
  /\ window_resize (listen_window w s) = window_resize s ++ [w]
  /\ Assistant._eventCleanupFunctions (get_obj w (listen_window w s))
     = Assistant._eventCleanupFunctions (get_obj w s) ++ [RemoveWindowResize w].
Proof.
  unfold listen_window, push_cleanup. repeat split.
  rewrite get_obj_upd_obj. by destruct (decide (w = w)).
Qed.

Lemma initialize_view h w iw node inputId s e :
  or_el (InputWidget.inputEl iw) (Assistant.inputEl (get_obj w s)) = Some e ->
  Assistant._inputEventsBound (get_obj w s) = false ->
  let s1 := _initializeInputElBindings h w iw node inputId s in
  (forall e', Elem.listeners (get_elem e' s1)
              = Elem.listeners (get_elem e' s)
                ++ (if decide (e' = e) then bound_listeners h w else []))
  /\ window_resize s1
     = window_resize s ++ (if ResizeObserver h then [] else [w])
  /\ Assistant._eventCleanupFunctions (get_obj w s1)
     = Assistant._eventCleanupFunctions (get_obj w s) ++ bound_cleanups h w e.
Proof.
  intros He Hb. cbv zeta. unfold _initializeInputElBindings. rewrite He.
  cbv zeta.
  set (s0 := if Assistant._undoStateInitialized (get_obj w s) then s else _).
  assert ((forall e', Elem.listeners (get_elem e' s0)
                      = Elem.listeners (get_elem e' s))
          /\ window_resize s0 = window_resize s
          /\ Assistant._eventCleanupFunctions (get_obj w s0)
             = Assistant._eventCleanupFunctions (get_obj w s)
          /\ Assistant._inputEventsBound (get_obj w s0) = false)
    as (L0 & W0 & C0 & B0).
  { subst s0. destruct (Assistant._undoStateInitialized (get_obj w s)); [done|].
    set (s' := if negb _ then _ else _).
    assert (elems s' = elems s /\ window_resize s' = window_resize s
            /\ heap s' = heap s) as (E1 & E2 & E3)
      by (subst s'; by destruct (negb _)).
    clearbody s'. repeat split.
    - intros e'. unfold get_elem. cbn [elems upd_obj with_heap]. by rewrite E1.
    - done.
    - rewrite get_obj_upd_obj. destruct (decide (w = w)); [|done].
      unfold get_obj. by rewrite E3.
    - rewrite get_obj_upd_obj. destruct (decide (w = w)); [|done].
      unfold get_obj. rewrite E3. exact Hb. }
  clearbody s0. rewrite B0.
  set (s1 := upd_elem e (Elem.set_bound true) s0).
  assert ((forall e', Elem.listeners (get_elem e' s1)
                      = Elem.listeners (get_elem e' s0))
          /\ window_resize s1 = window_resize s0
          /\ get_obj w s1 = get_obj w s0) as (L1 & W1 & O1).
  { subst s1. repeat split. intros e'. rewrite get_elem_upd_elem.
    by destruct (decide (e' = e)). }
  clearbody s1.
  set (s2 := upd_obj w (Assistant.set_inputEventsBound true) s1).
  assert ((forall e', Elem.listeners (get_elem e' s2)
                      = Elem.listeners (get_elem e' s1))
          /\ window_resize s2 = window_resize s1
          /\ Assistant._eventCleanupFunctions (get_obj w s2)
             = Assistant._eventCleanupFunctions (get_obj w s1))
    as (L2 & W2 & C2).
  { subst s2. repeat split. rewrite get_obj_upd_obj.
    by destruct (decide (w = w)). }
  clearbody s2.
  destruct (listen_view e Blur w s2) as (L3 & W3 & C3 & _).
  set (s3 := listen e Blur w s2) in *. clearbody s3.
  destruct (listen_view e Input w s3) as (L4 & W4 & C4 & _).
  set (s4 := listen e Input w s3) in *. clearbody s4.
  unfold bound_listeners, bound_cleanups.
  destruct (ResizeObserver h).
  - destruct (listen_view e Resize w s4) as (L5 & W5 & C5 & _).
    repeat split.
    + intros e'. rewrite L5, L4, L3, L2, L1, L0.
      destruct (decide (e' = e)); by rewrite <- ?app_assoc, ?app_nil_r.
    + rewrite W5, W4, W3, W2, W1, W0. by rewrite app_nil_r.
    + rewrite C5, C4, C3, C2, O1, C0. by rewrite <- !app_assoc.
  - destruct (listen_window_view w s4) as (L5 & W5 & C5).
    repeat split.
    + intros e'. rewrite L5, L4, L3, L2, L1, L0.
      destruct (decide (e' = e)); by rewrite <- ?app_assoc, ?app_nil_r.
    + by rewrite W5, W4, W3, W2, W1, W0.
    + rewrite C5, C4, C3, C2, O1, C0. by rewrite <- !app_assoc.
Qed.

Lemma remove_one_fresh {A} `{EqDecision A} (x : A) l r :
  x ∉ l -> remove_one x (l ++ x :: r) = l ++ r.
Proof.
  induction l as [|y l IH]; intros Hni; cbn [remove_one app].
  - by rewrite decide_True.
  - apply not_elem_of_cons in Hni as [Hne Hni].
    rewrite decide_False by done. by rewrite IH.
Qed.

Lemma run_cleanup_view c s :
  (forall e', Elem.listeners (get_elem e' (run_cleanup c s))
     = match c with
       | RemoveListener e k w =>
           if decide (e' = e)
           then remove_one (k, w) (Elem.listeners (get_elem e' s))
           else Elem.listeners (get_elem e' s)
       | RemoveWindowResize _ => Elem.listeners (get_elem e' s)
       end)
  /\ window_resize (run_cleanup c s)
     = match c with
       | RemoveListener _ _ _ => window_resize s
       | RemoveWindowResize w => remove_one w (window_resize s)
       end.
Proof.
  destruct c as [e k w|w]; cbn [run_cleanup]; split; try done.
  intros e'. rewrite get_elem_upd_elem.
  destruct (decide (e' = e)) as [->|]; done.
Qed.

#[local] Transparent _cleanupInstance.

Lemma cleanupInstance_listeners w k b s :
  same_listeners
    (foldl (fun s c => run_cleanup c s) s
       (Assistant._eventCleanupFunctions (get_obj w s)))
    (_cleanupInstance w k b s).
Proof.
  unfold _cleanupInstance. cbv zeta.
  set (a := get_obj w s).
  assert (same_listeners
            (foldl (fun s c => run_cleanup c s) s
               (Assistant._eventCleanupFunctions a))
            (cleanup_elements a s)) as H.
  { unfold cleanup_elements. cbv zeta.
    set (s1 := foldl _ s _).
    assert (forall oe s, same_listeners s (reset_bound oe s)) as RB.
    { intros oe s'. unfold reset_bound. destruct oe; [|apply same_listeners_refl].
      case_match; [by apply same_listeners_upd_elem|apply same_listeners_refl]. }
    assert (forall e s, same_listeners s (reset_marker_if_mounted e s)) as RM.
    { intros e s'. unfold reset_marker_if_mounted, reset_marker.
      case_match; [by apply same_listeners_upd_elem|apply same_listeners_refl]. }
    pose proof (RB (Assistant.inputEl a) s1) as H2.
    set (s2 := reset_bound _ s1) in *. clearbody s2.
    pose proof (RB (Assistant.text_element a) s2) as H3.
    set (s3 := reset_bound _ s2) in *. clearbody s3.
    assert (same_listeners s3
              (from_option (fun e => reset_marker_if_mounted e s3) s3
                 (Assistant.inputEl a))) as H4
      by (destruct (Assistant.inputEl a); [apply RM|apply same_listeners_refl]).
    set (s4 := from_option _ s3 _) in *. clearbody s4.
    assert (same_listeners s1 s4) as H14
      by eauto using same_listeners_trans.
    destruct (Assistant.text_element a) as [e|]; [|done].
    destruct (bool_decide _); [done|].
    apply (same_listeners_trans s1 s4); [done|apply RM]. }
  set (s1 := cleanup_elements a s) in *. clearbody s1.
  apply (same_listeners_trans _ s1); [done|].
  apply same_listeners_heap.
  - by destruct (Assistant.element a), (truthy_str k), b.
  - by destruct (Assistant.element a), (truthy_str k), b.
Qed.

#[local] Opaque _cleanupInstance.

(** Binding and teardown undo each other on the listeners. For an object that
    is not bound yet, has no saved de-registration closure and owns no
    listener, [_initializeInputElBindings] attaches to the element exactly
    the blur and input listeners and the size observer (or the window
    listener), and [_cleanupInstance] then leaves every element and the
    window with the listeners they had before the binding. *)
Theorem teardown_removes_bound_listeners (h : Host) (w : WId)
  (iw : InputWidget.t) (node : Node.t) (inputId : option string)
  (k : string) (skipRemove : bool) (s : State) (e : ElemId) :
  or_el (InputWidget.inputEl iw) (Assistant.inputEl (get_obj w s)) = Some e ->
  Assistant._inputEventsBound (get_obj w s) = false ->
  Assistant._eventCleanupFunctions (get_obj w s) = [] ->
  unlistened w s ->
  let s1 := _initializeInputElBindings h w iw node inputId s in
  Elem.listeners (get_elem e s1)
    = Elem.listeners (get_elem e s) ++ bound_listeners h w
  /\ (forall e', e' <> e ->
        Elem.listeners (get_elem e' s1) = Elem.listeners (get_elem e' s))
  /\ same_listeners s (_cleanupInstance w k skipRemove s1).
Proof.
  intros He Hb Hc [Hl Hw]. cbv zeta.
  destruct (initialize_view h w iw node inputId s e He Hb) as (L1 & W1 & C1).
  cbv zeta in L1, W1, C1.
  set (s1 := _initializeInputElBindings h w iw node inputId s) in *.
  clearbody s1. rewrite Hc in C1. cbn [app] in C1.
  split; [|split].
  - rewrite L1. by rewrite decide_True.
  - intros e' Hne. rewrite L1, decide_False by done. by rewrite app_nil_r.
  - apply (same_listeners_trans s
             (foldl (fun s c => run_cleanup c s) s1
                (Assistant._eventCleanupFunctions (get_obj w s1))));
      [|apply cleanupInstance_listeners].
    rewrite C1. unfold bound_cleanups. cbn [foldl].
    destruct (run_cleanup_view (RemoveListener e Blur w) s1) as [A1 B1].
    set (s2 := run_cleanup (RemoveListener e Blur w) s1) in *. clearbody s2.
    destruct (run_cleanup_view (RemoveListener e Input w) s2) as [A2 B2].
    set (s3 := run_cleanup (RemoveListener e Input w) s2) in *. clearbody s3.
    unfold bound_listeners in L1.
    destruct (ResizeObserver h).
    + destruct (run_cleanup_view (RemoveListener e Resize w) s3) as [A3 B3].
      split.
      * intros e'. rewrite A3, A2, A1, L1.
        destruct (decide (e' = e)) as [->|]; [|by rewrite app_nil_r].
        cbn [app]. rewrite (remove_one_fresh (Blur, w)) by apply Hl.
        rewrite (remove_one_fresh (Input, w)) by apply Hl.
        rewrite (remove_one_fresh (Resize, w)) by apply Hl.
        by rewrite app_nil_r.
      * rewrite B3, B2, B1, W1. by rewrite app_nil_r.
    + destruct (run_cleanup_view (RemoveWindowResize w) s3) as [A3 B3].
      split.
      * intros e'. rewrite A3, A2, A1, L1.
        destruct (decide (e' = e)) as [->|]; [|by rewrite app_nil_r].
        cbn [app]. rewrite (remove_one_fresh (Blur, w)) by apply Hl.
        rewrite (remove_one_fresh (Input, w)) by apply Hl.
        by rewrite app_nil_r.
      * rewrite B3, B2, B1, W1.
        rewrite (remove_one_fresh w) by done. by rewrite app_nil_r.
Qed.

Lemma fresh_page_unlistened w : unlistened w fresh_page.
Proof.
  split; [|apply not_elem_of_nil].
  intros e k. unfold get_elem, fresh_page. cbn [elems].
  destruct (decide (e = 1)) as [->|H1].
  { rewrite lookup_insert_eq. apply not_elem_of_nil. }
  rewrite lookup_insert_ne by done.
  destruct (decide (e = 2)) as [->|H2].
  { rewrite lookup_insert_eq. apply not_elem_of_nil. }
  rewrite lookup_insert_ne by done. rewrite lookup_empty.
  apply not_elem_of_nil.
Defined.

Lemma teardown_removes_bound_witness :
  let s1 := _initializeInputElBindings legacy_host 0 widget_text node5
              (Some "text") fresh_page in
  Elem.listeners (get_elem 1 s1) = [(Blur, 0); (Input, 0); (Resize, 0)]
  /\ same_listeners fresh_page (_cleanupInstance 0 "main_5_text" false s1).
Proof.
  cbv zeta.
  destruct (teardown_removes_bound_listeners legacy_host 0 widget_text node5
              (Some "text") "main_5_text" false fresh_page 1)
    as (H1 & _ & H3);
    [reflexivity | reflexivity | reflexivity | apply fresh_page_unlistened |].
  split; [exact H1 | exact H3].
Defined.

(** ** A mount that succeeds *)

Lemma litegraph_binding_part w ci s e :
  or_el (ci_textarea ci) (Assistant.inputEl (get_obj w s)) = Some e ->
  let s1 :=
    match ci_textarea ci with
    | Some t =>
        if bool_decide (Assistant.inputEl (get_obj w s) = Some t) then s
        else retarget w t s
    | None => s
    end in
  bound_only s s1 /\ Assistant.inputEl (get_obj w s1) = Some e.
Proof.
  intros Htgt. cbv zeta. destruct (ci_textarea ci) as [t|].
  - cbn [or_el] in Htgt. injection Htgt as ->.
    destruct (bool_decide _) eqn:E.
    + apply bool_decide_eq_true in E. split; [apply bound_only_refl|done].
    + split; [apply bound_only_retarget | apply retarget_inputEl].
  - cbn [or_el] in Htgt. split; [apply bound_only_refl|done].
Qed.

Lemma legacy_mount_facts (h : Host) (w : WId) (ui : UiId)
  (ci : ContainerInfo) (s : State) (e : ElemId) :
  ci_mode ci = LITEGRAPH ->
  Assistant.isDestroyed (get_obj w s) = false ->
  mount_target ci w s = Some e ->
  Elem._promptAssistantMounted (get_elem e s) = false ->
  has_assistant (ci_container ci) s = false ->
  let s' := mount_settled h w ui (Some ci) s in
  Elem._promptAssistantMounted (get_elem e s') = true
  /\ Elem._promptAssistantWidgetKey (get_elem e s')
     = Assistant.widgetKey (get_obj w s)
  /\ dom_parent s' !! ui = Some (ci_container ci)
  /\ Assistant._isMounting (get_obj w s') = false
  /\ Assistant._renderMode (get_obj w s') = Some LITEGRAPH
  /\ instances s' = instances s
  /\ (forall e', e' <> e ->
        Elem._promptAssistantMounted (get_elem e' s')
        = Elem._promptAssistantMounted (get_elem e' s)).
Proof.
  intros Hmode Hd Htgt Hm Hfree. cbv zeta.
  unfold mount_target in Htgt. rewrite Hmode in Htgt.
  unfold mount_settled, positioning. rewrite Hmode.
  unfold _applyLitegraphPositioning. cbv zeta.
  destruct (litegraph_binding_part w ci s e Htgt) as [B1 Hin]. cbv zeta in B1, Hin.
  set (s1 := match ci_textarea ci with Some _ => _ | None => s end) in *.
  clearbody s1. rewrite Hin. cbn [or_el].
  set (s2 := if negb (Assistant._inputEventsBound (get_obj w s1)) then _ else s1).
  assert (bound_only s1 s2) as B2.
  { subst s2. destruct (negb _); [|apply bound_only_refl].
    pose proof (bound_only_bind_core e w s1) as C1.
    set (s3 := listen e Input w _) in *.
    pose proof (bound_only_init_undo w e s3) as C2.
    by apply (bound_only_trans s1 s3). }
  clearbody s2.
  pose proof (bound_only_trans _ _ _ B1 B2) as (Hi & _ & Hp & _ & _ & _ & _ & _ & He & Ho).
  destruct (elem_core_marker _ _ (He e)) as [Hm2 _].
  destruct (obj_id_fields _ _ (Ho w)) as (Hk2 & _ & Hd2 & _).
  cbn [from_option]. rewrite Hm2, Hm.
  assert (has_assistant (ci_container ci) s2 = false) as ->
    by (unfold has_assistant in *; by rewrite Hp).
  set (s3 := with_dom_parent _ _).
  assert (get_elem e s3 = Elem.set_marker true (Assistant.widgetKey (get_obj w s2))
                            (get_elem e s2)
          /\ (forall e', e' <> e -> get_elem e' s3 = get_elem e' s2)
          /\ dom_parent s3 !! ui = Some (ci_container ci)
          /\ instances s3 = instances s2
          /\ get_obj w s3 = get_obj w s2) as (E3 & E3' & D3 & I3 & O3).
  { subst s3. unfold claim. repeat split.
    - change (get_elem e (with_dom_parent ?f ?s0)) with (get_elem e s0).
      rewrite get_elem_upd_elem. by rewrite decide_True.
    - intros e' Hne.
      change (get_elem e' (with_dom_parent ?f ?s0)) with (get_elem e' s0).
      rewrite get_elem_upd_elem. by rewrite decide_False.
    - cbn [dom_parent with_dom_parent]. apply lookup_insert_eq. }
  clearbody s3.
  set (s4 := upd_obj w (Assistant.set_renderMode (Some LITEGRAPH)) s3).
  assert (get_obj w s4 = Assistant.set_renderMode (Some LITEGRAPH) (get_obj w s3))
    as O4 by (subst s4; rewrite get_obj_upd_obj; by rewrite decide_True).
  assert (elems s4 = elems s3 /\ dom_parent s4 = dom_parent s3
          /\ instances s4 = instances s3) as (E4 & D4 & I4) by done.
  clearbody s4.
  unfold onComplete. rewrite O4, O3.
  cbn [Assistant.isDestroyed Assistant.set_renderMode]. rewrite Hd2, Hd.
  cbn [negb].
  set (s5 := upd_obj w (Assistant.set_isMounting false) s4).
  assert (get_obj w s5 = Assistant.set_isMounting false (get_obj w s4))
    as O5 by (subst s5; rewrite get_obj_upd_obj; by rewrite decide_True).
  assert (elems s5 = elems s4 /\ dom_parent s5 = dom_parent s4
          /\ instances s5 = instances s4) as (E5 & D5 & I5) by done.
  clearbody s5.
  assert (forall x, get_elem x s5 = get_elem x s3) as G5
    by (intros x; unfold get_elem; by rewrite E5, E4).
  repeat split.
  - by rewrite G5, E3.
  - rewrite G5, E3. cbn [Elem._promptAssistantWidgetKey Elem.set_marker].
    exact Hk2.
  - by rewrite D5, D4.
  - by rewrite O5.
  - by rewrite O5, O4.
  - by rewrite I5, I4, I3.
  - intros e' Hne. rewrite G5, E3' by done.
    by destruct (elem_core_marker _ _ (He e')).
Qed.

(** When the search of the legacy mode finds a container without a toolbar
    for an object that is not destroyed, and the element to mount on carries
    no mount marker, the mount goes through: the element is marked as
    mounted under the key of the object, the toolbar is attached below the
    container, the object leaves its mounting phase and records the render
    mode, the registry is not touched and no other element is marked. *)
Theorem legacy_mount_claims_element (h : Host) (w : WId) (ui : UiId)
  (ci : ContainerInfo) (s : State) (e : ElemId) :
  ci_mode ci = LITEGRAPH ->
  Assistant.isDestroyed (get_obj w s) = false ->
  mount_target ci w s = Some e ->
  Elem._promptAssistantMounted (get_elem e s) = false ->
  has_assistant (ci_container ci) s = false ->
  let s' := mount_settled h w ui (Some ci) s in
  Elem._promptAssistantMounted (get_elem e s') = true
  /\ Elem._promptAssistantWidgetKey (get_elem e s')
     = Assistant.widgetKey (get_obj w s)
  /\ dom_parent s' !! ui = Some (ci_container ci)
  /\ Assistant._isMounting (get_obj w s') = false
  /\ Assistant._renderMode (get_obj w s') = Some LITEGRAPH
  /\ instances s' = instances s
  /\ (forall e', e' <> e ->
        Elem._promptAssistantMounted (get_elem e' s')
        = Elem._promptAssistantMounted (get_elem e' s)).
Proof. apply legacy_mount_facts. Qed.

Lemma legacy_mount_witness :
  Elem._promptAssistantMounted (get_elem 1 page_mounted) = true
  /\ Elem._promptAssistantWidgetKey (get_elem 1 page_mounted)
     = Some "main_5_text"
  /\ dom_parent page_mounted !! 0 = Some 7
  /\ Assistant._isMounting (get_obj 0 page_mounted) = false.
Proof.
  destruct (legacy_mount_claims_element legacy_host 0 0
              (mkInfo LITEGRAPH 7 (Some 1) None false) page_scanned 1)
    as (H1 & H2 & H3 & H4 & _); try reflexivity.
  split; [exact H1|]. split; [exact H2|]. split; [exact H3 | exact H4].
Defined.

(** ** Teardown releases the element *)

Lemma run_cleanup_flags c s e :
  elem_static (get_elem e (run_cleanup c s)) = elem_static (get_elem e s)
  /\ elem_flags (get_elem e (run_cleanup c s)) = elem_flags (get_elem e s).
Proof.
  destruct c as [e0 k w|w]; cbn [run_cleanup]; [|done].
  rewrite get_elem_upd_elem. by destruct (decide (e = e0)) as [->|].
Qed.

Lemma run_cleanups_flags cs : forall s e,
  elem_static (get_elem e (foldl (fun s c => run_cleanup c s) s cs))
  = elem_static (get_elem e s)
  /\ elem_flags (get_elem e (foldl (fun s c => run_cleanup c s) s cs))
     = elem_flags (get_elem e s).
Proof.
  induction cs as [|c cs IH]; intros s e; cbn [foldl]; [done|].
  destruct (IH (run_cleanup c s) e) as [-> ->]. apply run_cleanup_flags.
Qed.

Lemma reset_bound_view oe s e :
  elem_static (get_elem e (reset_bound oe s)) = elem_static (get_elem e s)
  /\ Elem._promptAssistantMounted (get_elem e (reset_bound oe s))
     = Elem._promptAssistantMounted (get_elem e s)
  /\ Elem._promptAssistantWidgetKey (get_elem e (reset_bound oe s))
     = Elem._promptAssistantWidgetKey (get_elem e s)
  /\ Elem._promptAssistantBound (get_elem e (reset_bound oe s))
     = if decide (oe = Some e) then false
       else Elem._promptAssistantBound (get_elem e s).
Proof.
  unfold reset_bound. destruct oe as [e0|].
  - destruct (Elem._promptAssistantBound (get_elem e0 s)) eqn:E.
    + rewrite get_elem_upd_elem.
      destruct (decide (e = e0)) as [->|Hne].
      * by rewrite decide_True.
      * rewrite decide_False by congruence. done.
    + destruct (decide (Some e0 = Some e)) as [[= ->]|]; by rewrite ?E.
  - by rewrite decide_False.
Qed.

Lemma reset_marker_view e0 s e :
  elem_static (get_elem e (reset_marker_if_mounted e0 s))
  = elem_static (get_elem e s)
  /\ Elem._promptAssistantBound (get_elem e (reset_marker_if_mounted e0 s))
     = Elem._promptAssistantBound (get_elem e s)
  /\ Elem._promptAssistantMounted (get_elem e (reset_marker_if_mounted e0 s))
     = (if decide (e = e0) then false
        else Elem._promptAssistantMounted (get_elem e s))
  /\ Elem._promptAssistantWidgetKey (get_elem e (reset_marker_if_mounted e0 s))
     = (if decide (e = e0)
        then if Elem._promptAssistantMounted (get_elem e s) then None
             else Elem._promptAssistantWidgetKey (get_elem e s)
        else Elem._promptAssistantWidgetKey (get_elem e s)).
Proof.
  unfold reset_marker_if_mounted, reset_marker.
  destruct (Elem._promptAssistantMounted (get_elem e0 s)) eqn:E.
  - rewrite get_elem_upd_elem.
    destruct (decide (e = e0)) as [->|Hne]; [by rewrite E|done].
  - destruct (decide (e = e0)) as [->|Hne]; by rewrite ?E.
Qed.

#[local] Transparent _cleanupInstance.

Lemma cleanupInstance_elems w k b s :
  elems (_cleanupInstance w k b s) = elems (cleanup_elements (get_obj w s) s).
Proof.
  unfold _cleanupInstance. cbv zeta.
  by destruct (Assistant.element (get_obj w s)), (truthy_str k), b.
Qed.

#[local] Opaque _cleanupInstance.

Ltac flags_tac :=
  repeat match goal with
  | H : context [decide ?P] |- _ => destruct (decide P); simplify_eq
  end;
  repeat match goal with
  | H : context [if Elem._promptAssistantMounted ?x then _ else _] |- _ =>
      let E := fresh "E" in
      destruct (Elem._promptAssistantMounted x) eqn:E
  end;
  repeat split; intros; congruence.

Lemma cleanup_elements_view a s e :
  let s' := cleanup_elements a s in
  elem_static (get_elem e s') = elem_static (get_elem e s)
  /\ (Assistant.inputEl a = Some e \/ Assistant.text_element a = Some e ->
      Elem._promptAssistantMounted (get_elem e s') = false
      /\ Elem._promptAssistantBound (get_elem e s') = false
      /\ (Elem._promptAssistantMounted (get_elem e s) = true ->
          Elem._promptAssistantWidgetKey (get_elem e s') = None))
  /\ (Assistant.inputEl a <> Some e -> Assistant.text_element a <> Some e ->
      elem_flags (get_elem e s') = elem_flags (get_elem e s)).
Proof.
  cbv zeta. unfold cleanup_elements. cbv zeta.
  destruct (run_cleanups_flags (Assistant._eventCleanupFunctions a) s e)
    as [S1 F1].
  set (s1 := foldl _ s _) in *. clearbody s1.
  destruct (reset_bound_view (Assistant.inputEl a) s1 e) as (S2 & M2 & K2 & B2).
  set (s2 := reset_bound _ s1) in *. clearbody s2.
  destruct (reset_bound_view (Assistant.text_element a) s2 e)
    as (S3 & M3 & K3 & B3).
  set (s3 := reset_bound _ s2) in *. clearbody s3.
  unfold elem_flags in *. injection F1 as M1 K1 B1.
  destruct (Assistant.inputEl a) as [i|], (Assistant.text_element a) as [t|];
    cbn [from_option].
  - destruct (reset_marker_view i s3 e) as (S4 & B4 & M4 & K4).
    set (s4 := reset_marker_if_mounted i s3) in *. clearbody s4.
    destruct (bool_decide (Some t = Some i)) eqn:Eti.
    + apply bool_decide_eq_true in Eti. injection Eti as ->.
      split; [congruence|]. split.
      * intros Hor. assert (e = i) as -> by (destruct Hor; congruence).
        flags_tac.
      * intros Hi Ht. flags_tac.
    + apply bool_decide_eq_false in Eti.
      destruct (reset_marker_view t s4 e) as (S5 & B5 & M5 & K5).
      set (s5 := reset_marker_if_mounted t s4) in *. clearbody s5.
      split; [congruence|]. split.
      * intros [[= ->]|[= ->]]; flags_tac.
      * intros Hi Ht. flags_tac.
  - destruct (reset_marker_view i s3 e) as (S4 & B4 & M4 & K4).
    set (s4 := reset_marker_if_mounted i s3) in *. clearbody s4.
    split; [congruence|]. split.
    + intros [[= ->]|?]; [|done]. flags_tac.
    + intros Hi _. flags_tac.
  - destruct (bool_decide (Some t = None)) eqn:Eti;
      [by apply bool_decide_eq_true in Eti|].
    destruct (reset_marker_view t s3 e) as (S5 & B5 & M5 & K5).
    set (s5 := reset_marker_if_mounted t s3) in *. clearbody s5.
    split; [congruence|]. split.
    + intros [?|[= ->]]; [done|]. flags_tac.
    + intros _ Ht. flags_tac.
  - split; [congruence|]. split; [by intros [?|?]|].
    intros _ _. flags_tac.
Qed.

(** [_cleanupInstance] releases the input element of the instance it tears
    down: afterwards the element carries neither the mount marker nor the
    binding flag, and the key that came with the marker is deleted, whichever
    instance had set them. The text of an element, its kind and its place in
    the document are never touched, and an element the instance does not
    refer to keeps its marker and its flag. *)
Theorem teardown_releases_element (w : WId) (k : string) (skipRemove : bool)
  (s : State) (e : ElemId) :
  Assistant.inputEl (get_obj w s) = Some e
  \/ Assistant.text_element (get_obj w s) = Some e ->
  let s' := _cleanupInstance w k skipRemove s in
  Elem._promptAssistantMounted (get_elem e s') = false
  /\ Elem._promptAssistantBound (get_elem e s') = false
  /\ (Elem._promptAssistantMounted (get_elem e s) = true ->
      Elem._promptAssistantWidgetKey (get_elem e s') = None)
  /\ (forall e', elem_static (get_elem e' s') = elem_static (get_elem e' s))
  /\ (forall e',
        Assistant.inputEl (get_obj w s) <> Some e' ->
        Assistant.text_element (get_obj w s) <> Some e' ->
        elem_flags (get_elem e' s') = elem_flags (get_elem e' s)).
Proof.
  intros Hor. cbv zeta.
  assert (forall x, get_elem x (_cleanupInstance w k skipRemove s)
                    = get_elem x (cleanup_elements (get_obj w s) s)) as G
    by (intros x; unfold get_elem; by rewrite cleanupInstance_elems).
  destruct (cleanup_elements_view (get_obj w s) s e) as (_ & H2 & _).
  destruct (H2 Hor) as (A1 & A2 & A3).
  rewrite !G. split; [done|]. split; [done|]. split; [done|]. split.
  - intros e'. rewrite G.
    by destruct (cleanup_elements_view (get_obj w s) s e') as (H & _).
  - intros e' Hi Ht. rewrite G.
    destruct (cleanup_elements_view (get_obj w s) s e') as (_ & _ & H).
    by apply H.
Qed.

Lemma teardown_releases_witness :
  Elem._promptAssistantMounted (get_elem 1 page_mounted) = true
  /\ Elem._promptAssistantMounted
       (get_elem 1 (_cleanupInstance 0 "main_5_text" false page_mounted))
     = false
  /\ Elem._promptAssistantWidgetKey
       (get_elem 1 (_cleanupInstance 0 "main_5_text" false page_mounted))
     = None.
Proof.
  split; [reflexivity|].
  destruct (teardown_releases_element 0 "main_5_text" false page_mounted 1)
    as (H1 & _ & H3 & _); [left; reflexivity|].
  split; [exact H1 | apply H3; reflexivity].
Defined.

(** ** The outcome of the expand handler *)

Lemma set_value_twice c1 c2 el :
  Elem.set_value c2 (Elem.set_value c1 el) = Elem.set_value c2 el.
Proof. done. Qed.

Lemma setInputValue_view w content silent s e :
  Assistant.inputEl (get_obj w s) = Some e ->
  Elem.kind (get_elem e s) <> Plain ->
  let s' := (setInputValue w content silent s).2 in
  heap s' = heap s
  /\ get_elem e s'
     = (if silent then Elem.set_value content (get_elem e s)
        else Elem.dispatch ["input"; "change"]
               (Elem.set_value content (get_elem e s)))
  /\ forall e', e' <> e -> get_elem e' s' = get_elem e' s.
Proof.
  intros He Hk. cbv zeta. unfold setInputValue. rewrite He.
  destruct (Elem.kind (get_elem e s)) eqn:Ek; [| | | |done]; cbn [snd];
    (split; [by destruct silent|]); split.
  all: try (destruct silent; rewrite ?get_elem_upd_elem, ?decide_True by done;
            done).
  all: intros e' Hne; destruct silent;
    by rewrite ?get_elem_upd_elem, ?decide_False by done.
Qed.

Lemma streaming_view w e chunks : forall acc,
  Assistant.inputEl (get_obj w acc.2) = Some e ->
  Elem.kind (get_elem e acc.2) <> Plain ->
  let r := foldl (stream_chunk w) acc chunks in
  heap r.2 = heap acc.2
  /\ get_elem e r.2
     = match chunks with
       | [] => get_elem e acc.2
       | _ :: _ => Elem.set_value (acc.1 +:+ concat_text chunks) (get_elem e acc.2)
       end
  /\ forall e', e' <> e -> get_elem e' r.2 = get_elem e' acc.2.
Proof.
  induction chunks as [|c chunks IH]; intros acc He Hk; cbn [foldl]; [done|].
  destruct (setInputValue_view w (acc.1 +:+ c) true acc.2 e He Hk)
    as (H1 & H2 & H3). cbv zeta in H1, H2, H3.
  assert ((stream_chunk w acc c).1 = acc.1 +:+ c) as P1 by done.
  assert ((stream_chunk w acc c).2 = (setInputValue w (acc.1 +:+ c) true acc.2).2)
    as P2 by done.
  set (acc' := stream_chunk w acc c) in *. clearbody acc'.
  rewrite <- P2 in H1, H2, H3.
  destruct (IH acc') as (G1 & G2 & G3).
  { unfold get_obj. rewrite H1. exact He. }
  { rewrite H2. exact Hk. }
  cbv zeta in G1, G2, G3. rewrite P1 in G2.
  split; [by rewrite G1|]. split.
  - rewrite G2. destruct chunks as [|c' chunks].
    + cbn [concat_text]. rewrite H2. by rewrite append_nil_r.
    + rewrite H2, set_value_twice. cbn [concat_text].
      by rewrite !append_assoc.
  - intros e' Hne. rewrite G3 by done. by apply H3.
Qed.

(** The expand handler rejects a blank input without a request and without
    touching the state. Otherwise it sends exactly one request. When the run
    succeeds the input holds the final text and the events [input] and
    [change] have been dispatched on it once, after all chunks. When it
    fails the input is left with whatever the streaming callback wrote last:
    the text of the chunks received so far if there was one, the original
    text otherwise; no event has been dispatched. No other element is
    touched in either case. *)
Theorem expand_outcome (h : Host) (w : WId) (chunks : list string)
  (result : option ApiResult) (s : State) :
  let r := expand_onClick h w chunks result s in
  (blank (getInputValue w s) = true -> r = (Failed, s))
  /\ (blank (getInputValue w s) = false ->
      exists e,
        Assistant.inputEl (get_obj w s) = Some e
        /\ provider_calls r.2
           = provider_calls s ++ [expand_request h (getInputValue w s)]
        /\ (forall e', e' <> e -> get_elem e' r.2 = get_elem e' s)
        /\ match r.1 with
           | Succeeded _ =>
               get_elem e r.2
               = Elem.dispatch ["input"; "change"]
                   (Elem.set_value
                      (first_text
                         (if enableStreaming h then concat_text chunks else "")
                         (from_option data None result))
                      (get_elem e s))
           | Failed =>
               get_elem e r.2
               = Elem.set_value
                   (streamed_text h chunks (getInputValue w s)) (get_elem e s)
           end).
Proof.
  cbv zeta. split.
  { intros Hb. unfold expand_onClick. by rewrite Hb. }
  intros Hb. destruct (getInputValue_nonblank w s Hb) as (e & He & Hk).
  exists e. split; [done|].
  assert (getInputValue w s = Elem.value (get_elem e s)) as Hv.
  { unfold getInputValue. rewrite He. by destruct (Elem.kind (get_elem e s)). }
  unfold expand_onClick. rewrite Hb. cbv zeta.
  fold (expand_request h (getInputValue w s)).
  set (s0 := with_provider_calls _ s).
  assert (heap s0 = heap s /\ elems s0 = elems s
          /\ provider_calls s0
             = provider_calls s ++ [expand_request h (getInputValue w s)])
    as (Hh0 & He0 & Hp0) by done.
  assert (forall x, get_elem x s0 = get_elem x s) as G0
    by (intros x; unfold get_elem; by rewrite He0).
  assert (get_obj w s0 = get_obj w s) as O0
    by (unfold get_obj; by rewrite Hh0).
  clearbody s0.
  set (st := if enableStreaming h then foldl _ _ _ else ("", s0)).
  assert (heap st.2 = heap s0
          /\ provider_calls st.2 = provider_calls s0
          /\ st.1 = (if enableStreaming h then concat_text chunks else "")
          /\ get_elem e st.2
             = Elem.set_value (streamed_text h chunks (getInputValue w s))
                 (get_elem e s)
          /\ forall e', e' <> e -> get_elem e' st.2 = get_elem e' s)
    as (Hh1 & Hp1 & Ht1 & Ge1 & Go1).
  { subst st. unfold streamed_text. destruct (enableStreaming h).
    - destruct (streaming_view w e chunks ("", s0)) as (A1 & A2 & A3);
        [cbn [snd]; by rewrite O0 | cbn [snd]; by rewrite G0|].
      cbv zeta in A1, A2, A3. cbn [fst snd] in A1, A2, A3.
      destruct (streaming_frame w chunks ("", s0)) as [F1 F2].
      cbn [fst snd] in F1, F2.
      destruct F1 as (_ & _ & _ & _ & _ & _ & _ & _ & Fp & _).
      split; [done|]. split; [done|]. split; [done|]. split.
      + rewrite A2, G0. destruct chunks; [|done].
        rewrite Hv. by destruct (get_elem e s).
      + intros e' Hne. by rewrite A3, G0.
    - cbn [fst snd]. split; [done|]. split; [done|]. split; [done|]. split.
      + rewrite G0, Hv. by destruct (get_elem e s).
      + intros e' Hne. apply G0. }
  clearbody st. rewrite Ht1.
  set (final := first_text _ _).
  assert (match result with
          | Some r => success r && truthy_str final
          | None => false
          end = false ->
          (match result with
           | Some r =>
               if success r && truthy_str final
               then (Succeeded false,
                     record_result w final op_expand
                       (updateInputWithHighlight w final st.2))
               else (Failed, st.2)
           | None => (Failed, st.2)
           end) = (Failed, st.2)) as Hfail.
  { destruct result as [r|]; [|done]. by intros ->. }
  destruct (match result with
            | Some r => success r && truthy_str final
            | None => false
            end) eqn:Hok.
  - destruct result as [r|]; [|done]. rewrite Hok. cbn [fst snd].
    assert (Assistant.inputEl (get_obj w st.2) = Some e) as He1
      by (unfold get_obj; rewrite Hh1; fold (get_obj w s0); by rewrite O0).
    assert (Elem.kind (get_elem e st.2) <> Plain) as Hk1
      by (by rewrite Ge1).
    destruct (setInputValue_view w final false st.2 e He1 Hk1)
      as (U1 & U2 & U3). cbv zeta in U1, U2, U3.
    assert (updateInputWithHighlight w final st.2
            = (setInputValue w final false st.2).2) as ->
      by (unfold updateInputWithHighlight; by rewrite He1).
    destruct (record_result_frame w final op_expand
                (setInputValue w final false st.2).2)
      as (_ & _ & Rp & Re & _).
    assert (forall x, get_elem x (record_result w final op_expand
                                    (setInputValue w final false st.2).2)
                      = get_elem x (setInputValue w final false st.2).2)
      as GR by (intros x; unfold get_elem; by rewrite Re).
    destruct (setInputValue_frame w final false st.2)
      as (_ & _ & _ & _ & _ & _ & _ & _ & Up & _).
    split; [by rewrite Rp, Up, Hp1|]. split.
    + intros e' Hne. by rewrite GR, U3, Go1.
    + rewrite GR, U2, Ge1. by rewrite set_value_twice.
  - rewrite (Hfail eq_refl). cbn [fst snd].
    split; [by rewrite Hp1|]. split; [done|done].
Qed.

(** ** Writing the input and reading it back *)

(** On a widget bound to a textarea, [setInputValue] succeeds and
    [getInputValue] then reads back the text written. The write dispatches
    [input] and [change], in this order, unless it is silent, and touches
    nothing of the element but its text and no other element. On a widget
    without input element it fails and changes nothing. *)
Theorem input_value_round_trip (w : WId) (content : string) (silent : bool)
  (s : State) :
  let r := setInputValue w content silent s in
  (Assistant.inputEl (get_obj w s) = None -> r = (false, s))
  /\ forall e,
       Assistant.inputEl (get_obj w s) = Some e ->
       Elem.kind (get_elem e s) = TEXTAREA ->
       r.1 = true
       /\ getInputValue w r.2 = content
       /\ Elem.dispatched (get_elem e r.2)
          = Elem.dispatched (get_elem e s)
            ++ (if silent then [] else ["input"; "change"])
       /\ elem_flags (get_elem e r.2) = elem_flags (get_elem e s)
       /\ Elem.listeners (get_elem e r.2) = Elem.listeners (get_elem e s)
       /\ forall e', e' <> e -> get_elem e' r.2 = get_elem e' s.
Proof.
  cbv zeta. split.
  { intros Hn. unfold setInputValue. by rewrite Hn. }
  intros e He Hk.
  assert (Elem.kind (get_elem e s) <> Plain) as Hk' by (by rewrite Hk).
  destruct (setInputValue_view w content silent s e He Hk') as (H1 & H2 & H3).
  cbv zeta in H1, H2, H3.
  split; [unfold setInputValue; by rewrite He, Hk|].
  split.
  { unfold getInputValue, get_obj. rewrite H1. fold (get_obj w s).
    rewrite He, H2. destruct silent; cbn; by rewrite Hk. }
  rewrite H2. destruct silent; cbn; by rewrite ?app_nil_r.
Qed.

Lemma input_value_round_trip_witness :
  let r := setInputValue 0 "a cat" false page_mounted in
  r.1 = true /\ getInputValue 0 r.2 = "a cat"
  /\ Elem.dispatched (get_elem 1 r.2) = ["input"; "change"].
Proof.
  cbv zeta.
  destruct (input_value_round_trip 0 "a cat" false page_mounted) as [_ H].
  destruct (H 1 eq_refl eq_refl) as (H1 & H2 & H3 & _).
  split; [exact H1|]. split; [exact H2 | exact H3].
Defined.

(** ** The registry *)

(** [addInstance] followed by [getInstance] gives the object added, whatever
    the key held before; the other keys answer as before; [hasInstance] tells
    exactly whether [getInstance] finds an object; and the order in which the
    registry is iterated is kept, a key that is new going to the end. *)
Theorem registry_round_trip (key : string) (w : WId) (s : State) :
  getInstance key (addInstance key w s) = Some w
  /\ (forall k', key <> k' ->
        getInstance k' (addInstance key w s) = getInstance k' s)
  /\ (forall k, hasInstance k s = true <-> exists x, getInstance k s = Some x)
  /\ JsMap.keys (instances (addInstance key w s))
     = (if hasInstance key s then JsMap.keys (instances s)
        else JsMap.keys (instances s) ++ [key]).
Proof.
  unfold addInstance, getInstance, hasInstance. cbn [instances with_instances].
  split; [apply get_set_same|]. split; [intros k' Hne; by apply get_set_other|].
  split.
  - intros k. unfold JsMap.has.
    destruct (JsMap.get k (instances s)) as [x|]; split; try done.
    + eauto.
    + by intros [x ?].
  - apply keys_set.
Qed.

(** ** Node types *)

Lemma lower_ascii_idem c : lower_ascii (lower_ascii c) = lower_ascii c.
Proof. by destruct c as [[] [] [] [] [] [] [] []]. Qed.

Lemma is_hex_lower c : is_hex (lower_ascii c) = is_hex c.
Proof. unfold is_hex. by rewrite lower_ascii_idem. Qed.

Lemma hex_run_lower n : forall s,
  hex_run n (toLowerCase s) = toLowerCase <$> hex_run n s.
Proof.
  induction n as [|n IH]; intros s; [done|].
  destruct s as [|c s]; [done|]. cbn [toLowerCase hex_run].
  rewrite is_hex_lower. destruct (is_hex c); [apply IH|done].
Qed.

Lemma hex_groups_step n gs s :
  hex_groups (n :: gs) s =
  match hex_run n s with
  | Some r =>
      match r, gs with
      | EmptyString, [] => true
      | String c s', _ :: _ => Ascii.eqb c "-" && hex_groups gs s'
      | _, _ => false
      end
  | None => false
  end.
Proof.
  cbn [hex_groups]. destruct (hex_run n s) as [r|]; [|done].
  destruct r as [|c r]; [done|]. destruct gs as [|m gs].
  - by destruct c as [[] [] [] [] [] [] [] []].
  - by destruct c as [[] [] [] [] [] [] [] []].
Qed.

Lemma lower_ascii_dash_eqb c :
  Ascii.eqb (lower_ascii c) "-" = Ascii.eqb c "-".
Proof. by destruct c as [[] [] [] [] [] [] [] []]. Qed.

Lemma hex_groups_lower gs : forall s,
  hex_groups gs (toLowerCase s) = hex_groups gs s.
Proof.
  induction gs as [|n gs IH]; intros s; [done|].
  rewrite !hex_groups_step, hex_run_lower.
  destruct (hex_run n s) as [r|]; [|done]. cbn [fmap option_fmap option_map].
  destruct r as [|c r]; [done|]. cbn [toLowerCase].
  destruct gs as [|m gs]; [done|].
  by rewrite lower_ascii_dash_eqb, IH.
Qed.

Lemma hex_run_length n : forall s r,
  hex_run n s = Some r -> String.length s = (n + String.length r)%nat.
Proof.
  induction n as [|n IH]; intros s r; cbn [hex_run].
  - by intros [= ->].
  - destruct s as [|c s]; [done|]. destruct (is_hex c); [|done].
    intros H. cbn [String.length]. by rewrite (IH s r H).
Qed.

Lemma hex_groups_length gs : forall s,
  hex_groups gs s = true ->
  String.length s = (list_sum gs + (length gs - 1))%nat.
Proof.
  induction gs as [|n gs IH]; intros s; [done|].
  rewrite hex_groups_step.
  destruct (hex_run n s) as [r|] eqn:E; [|done].
  apply hex_run_length in E. rewrite E.
  destruct r as [|c r].
  - destruct gs; [|done]. intros _. simpl. lia.
  - destruct gs as [|m gs]; [done|]. intros H.
    apply andb_prop in H as [_ H]. apply IH in H.
    simpl in *. lia.
Qed.

(** The test for a subgraph type does not depend on the case of the letters,
    and a type it accepts has exactly thirty-six characters. *)
Theorem uuid_type_shape (ty : string) :
  is_uuid (toLowerCase ty) = is_uuid ty
  /\ (is_uuid ty = true -> String.length ty = 36%nat).
Proof.
  unfold is_uuid. split; [apply hex_groups_lower|].
  intros H. by apply hex_groups_length in H.
Qed.

(** A node without an id, with the id [-1] or without a type is never valid.
    Outside the Vue mode a node is valid exactly when, besides, it has
    widgets. In the Vue mode a node of a subgraph type or of a Markdown type
    that has an id other than [-1] is valid even without widgets. *)
Theorem node_validity (h : Host) (node : Node.t) :
  (isValidNode h node = true ->
   exists i ty, Node.id node = Some i /\ i <> IdNum (-1)
                /\ Node.type node = Some ty)
  /\ (vueNodesMode h = false ->
      isValidNode h node = true ->
      Node.widgets node <> None)
  /\ (forall i ty, Node.id node = Some i -> i <> IdNum (-1) ->
        Node.type node = Some ty ->
        Node.widgets node <> None -> isValidNode h node = true)
  /\ (forall i, Node.id node = Some i -> i <> IdNum (-1) ->
        vueNodesMode h = true ->
        _isSubgraphNode node = true
        \/ (exists ty, Node.type node = Some ty
                       /\ (str_in ty markdownNodeTypes = true
                           \/ includes (toLowerCase ty) "markdown" = true)) ->
        isValidNode h node = true).
Proof.
  unfold isValidNode. split; [|split; [|split]].
  - destruct (Node.id node) as [i|]; [|done].
    destruct (bool_decide (i = IdNum (-1))) eqn:E; [done|].
    apply bool_decide_eq_false in E.
    destruct (Node.type node) as [ty|]; [|done]. eauto.
  - intros Hv. rewrite Hv.
    destruct (Node.id node) as [i|]; [|done].
    destruct (bool_decide _); [done|].
    destruct (Node.type node) as [ty|]; [|done]. cbn [andb].
    by destruct (Node.widgets node).
  - intros i ty -> Hne -> Hw. rewrite bool_decide_eq_false_2 by done.
    cbv zeta. destruct (_ && _); [done|]. by destruct (Node.widgets node).
  - intros i -> Hne Hv Hor. rewrite bool_decide_eq_false_2 by done.
    rewrite Hv. cbn [andb]. unfold _isSubgraphNode in Hor.
    destruct (Node.type node) as [ty|]; [|by destruct Hor as [?|(? & ? & _)]].
    cbv zeta. destruct Hor as [H|(ty' & [= <-] & [H|H])].
    + apply andb_prop in H as [_ ->]. by rewrite orb_true_r.
    + by rewrite H.
    + rewrite H. by rewrite orb_true_r.
Qed.

(** ** The preset width *)

(** The preset width grows with the switches: it is 22 pixels for each button
    the switches stand for plus 6 pixels, 5 more when the history is on
    (for the divider), and 28 pixels when everything is off. Switching one
    more feature on never makes the toolbar narrower. *)
Theorem width_follows_buttons (hasHistory hasTag hasExpand hasTranslate : bool) :
  (calculateAssistantWidth hasHistory hasTag hasExpand hasTranslate
   = if hasHistory || hasTag || hasExpand || hasTranslate
     then 22 * button_count hasHistory hasTag hasExpand hasTranslate + 6
          + (if hasHistory then 5 else 0)
     else 28)%Z
  /\ forall hasHistory' hasTag' hasExpand' hasTranslate',
       implb hasHistory hasHistory' = true -> implb hasTag hasTag' = true ->
       implb hasExpand hasExpand' = true ->
       implb hasTranslate hasTranslate' = true ->
       (calculateAssistantWidth hasHistory hasTag hasExpand hasTranslate
        <= calculateAssistantWidth hasHistory' hasTag' hasExpand' hasTranslate')%Z.
Proof.
  split.
  - by destruct hasHistory, hasTag, hasExpand, hasTranslate.
  - intros a b c d.
    destruct hasHistory, hasTag, hasExpand, hasTranslate, a, b, c, d;
      cbn [implb]; intros; try discriminate; by vm_compute.
Qed.

(** ** The offset that avoids the scroll bar *)

Lemma adjust_settled el m (b : bool) :
  el = Some (mkStyle (Some (String_bool b))
               (Some (if b then "16px" else "4px"))) ->
  _adjustPositionForScrollbar el (Some m) false
  = Some (mkStyle (Some (String_bool (_detectScrollbar (Some m))))
            (Some (if _detectScrollbar (Some m) then "16px" else "4px"))).
Proof.
  intros ->. unfold _adjustPositionForScrollbar. cbv zeta.
  cbn [dataset_hasScrollbar negb andb].
  destruct b, (_detectScrollbar (Some m)); reflexivity.
Qed.

Lemma last_cons {A} (l : list A) : forall a d, List.last (a :: l) d = List.last l a.
Proof.
  induction l as [|b l IH]; intros a d; [done|].
  change (List.last (b :: l) d = List.last (b :: l) a). by rewrite !IH.
Qed.

(** Once the adjustment that follows the mount has been forced, skipping the
    adjustments that find the recorded state unchanged loses nothing: after
    any number of later adjustments the toolbar records whether the input, as
    it was at the last of them, has a vertical scroll bar, and is offset by
    16 pixels if it has one and by 4 pixels if not. An input that is not a
    textarea never counts as having a scroll bar. *)
Theorem scrollbar_offset_tracks_input (el : ToolbarStyle) (first : Metrics)
  (later : list Metrics) :
  let m := List.last later first in
  adjust_each (Some el) first later
  = Some (mkStyle (Some (String_bool (_detectScrollbar (Some m))))
            (Some (if _detectScrollbar (Some m) then "16px" else "4px")))
  /\ (is_textarea m = false -> _detectScrollbar (Some m) = false)
  /\ (is_textarea m = true ->
      _detectScrollbar (Some m) = (clientHeight m <? scrollHeight m)%Z).
Proof.
  cbv zeta. split.
  - unfold adjust_each.
    assert (_adjustPositionForScrollbar (Some el) (Some first) true
            = Some (mkStyle (Some (String_bool (_detectScrollbar (Some first))))
                 (Some (if _detectScrollbar (Some first) then "16px" else "4px"))))
      as H0 by done.
    set (t0 := _adjustPositionForScrollbar (Some el) (Some first) true) in *.
    clearbody t0. revert first t0 H0.
    induction later as [|m later IH]; intros first t0 H0; [done|].
    cbn [foldl]. rewrite (IH m).
    + by rewrite last_cons.
    + by apply (adjust_settled t0 m (_detectScrollbar (Some first))).
  - unfold _detectScrollbar. split; by intros ->.
Qed.

(** ** The text of the input as a list of items *)

Lemma string_strong_ind (P : string -> Prop) :
  (forall s, (forall t, (String.length t < String.length s)%nat -> P t) -> P s) ->
  forall s, P s.
Proof.
  intros H s.
  assert (forall n t, (String.length t < n)%nat -> P t) as G.
  { induction n as [|n IH]; intros t Hlt; [lia|].
    apply H. intros u Hu. apply IH. lia. }
  apply (G (S (String.length s))). lia.
Qed.

Lemma trimStart_unfold s :
  trimStart s =
  match s with
  | EmptyString => EmptyString
  | String c1 s1 =>
      let a := nat_of_ascii c1 in
      if (((9 <=? a) && (a <=? 13)) || (a =? 32))%nat then trimStart s1
      else
        match s1 with
        | String c2 s2 =>
            let b := nat_of_ascii c2 in
            if ((a =? 194) && (b =? 160))%nat then trimStart s2
            else
              match s2 with
              | String c3 s3 =>
                  if three_byte_space a b (nat_of_ascii c3) then trimStart s3
                  else s
              | EmptyString => s
              end
        | EmptyString => s
        end
  end.
Proof. by destruct s. Qed.

Lemma blank_unfold s :
  blank s =
  match s with
  | EmptyString => true
  | String c1 s1 =>
      let a := nat_of_ascii c1 in
      if (((9 <=? a) && (a <=? 13)) || (a =? 32))%nat then blank s1
      else
        match s1 with
        | String c2 s2 =>
            let b := nat_of_ascii c2 in
            if ((a =? 194) && (b =? 160))%nat then blank s2
            else
              match s2 with
              | String c3 s3 =>
                  if three_byte_space a b (nat_of_ascii c3) then blank s3
                  else false
              | EmptyString => false
              end
        | EmptyString => false
        end
  end.
Proof. by destruct s. Qed.

Lemma blank_trimStart : forall s, blank (trimStart s) = blank s.
Proof.
  apply string_strong_ind. intros s IH.
  rewrite (trimStart_unfold s), (blank_unfold s).
  destruct s as [|c1 s1]; [done|]. cbv zeta.
  destruct (((9 <=? nat_of_ascii c1) && (nat_of_ascii c1 <=? 13)
             || (nat_of_ascii c1 =? 32))%nat) eqn:E1.
  { apply IH. cbn [String.length]. lia. }
  destruct s1 as [|c2 s2].
  { rewrite blank_unfold. cbv zeta. by rewrite E1. }
  destruct (((nat_of_ascii c1 =? 194) && (nat_of_ascii c2 =? 160))%nat) eqn:E2.
  { apply IH. cbn [String.length]. lia. }
  destruct s2 as [|c3 s3].
  { rewrite blank_unfold. cbv zeta. by rewrite E1, E2. }
  destruct (three_byte_space (nat_of_ascii c1) (nat_of_ascii c2)
              (nat_of_ascii c3)) eqn:E3.
  { apply IH. cbn [String.length]. lia. }
  rewrite blank_unfold. cbv zeta. by rewrite E1, E2, E3.
Qed.

Lemma trimEnd_empty s : trimEnd s = "" <-> blank s = true.
Proof.
  destruct s as [|c s]; [done|]. cbn [trimEnd].
  by destruct (blank (String c s)).
Qed.

Lemma trim_empty s : trim s = "" <-> blank s = true.
Proof. unfold trim. by rewrite trimEnd_empty, blank_trimStart. Qed.

Lemma truthy_trim s : truthy_str (trim s) = negb (blank s).
Proof.
  destruct (blank s) eqn:E.
  - apply trim_empty in E. by rewrite E.
  - destruct (trim s) eqn:T; [|done].
    apply trim_empty in T. congruence.
Qed.

Section TextGridFacts.
Variable query : string -> option CacheHit.

Lemma add_part_ok items part :
  Forall (item_ok 100) items -> Forall (item_ok 100) (add_part query items part).
Proof.
  intros H. unfold add_part. cbv zeta.
  set (text := trim (strip_brackets (trim part))).
  destruct (truthy_str text && (0 <? js_length text)%nat
            && (js_length text <=? 100)%nat) eqn:G; [|done].
  destruct (existsb _ items); [done|].
  apply andb_prop in G as [G G3]. apply andb_prop in G as [G1 _].
  apply Nat.leb_le in G3.
  apply Forall_app. split; [done|]. by apply Forall_singleton.
Qed.

Lemma add_line_ok items line :
  Forall (item_ok 100) items -> Forall (item_ok 100) (add_line query items line).
Proof.
  intros H. unfold add_line. cbv zeta. destruct (negb _); [done|].
  apply (foldl_invariant (Forall (item_ok 100))); [|done].
  intros a b. apply add_part_ok.
Qed.

Lemma add_word_ok items word :
  Forall (item_ok 100) items -> Forall (item_ok 100) (add_word query items word).
Proof.
  intros H. unfold add_word. cbv zeta.
  set (text := trim word).
  destruct (truthy_str text && (0 <? js_length text)%nat
            && (js_length text <=? 50)%nat) eqn:G; [|done].
  apply andb_prop in G as [G G3]. apply andb_prop in G as [G1 _].
  apply Nat.leb_le in G3.
  apply Forall_app. split; [done|]. apply Forall_singleton.
  split; [done|]. split; [cbn [ti_text]; lia|done].
Qed.

Lemma items_by_commas_ok inputValue :
  Forall (item_ok 100) (items_by_commas query inputValue).
Proof.
  unfold items_by_commas.
  apply (foldl_invariant (Forall (item_ok 100))); [|done].
  intros a b. apply add_line_ok.
Qed.

(** [_getTextGridItems] returns no item for a blank text. Each item it
    returns has a text that is not empty and takes at most 100 code units,
    and carries that text as its value. For a text that is not blank and
    takes, once trimmed, at most 100 code units, it returns at least one
    item. *)
Theorem text_items_are_short_texts (inputValue : string) :
  (blank inputValue = true -> textGridItems query inputValue = [])
  /\ Forall (item_ok 100) (textGridItems query inputValue)
  /\ (blank inputValue = false ->
      (js_length (trim inputValue) <= 100)%nat ->
      textGridItems query inputValue <> []).
Proof.
  unfold textGridItems. rewrite truthy_trim, negb_involutive. cbv zeta.
  split; [by intros ->|]. split.
  - destruct (blank inputValue) eqn:Hb; [done|].
    pose proof (items_by_commas_ok inputValue) as H1.
    destruct (items_by_commas query inputValue) as [|i1 items1]; [|done].
    assert (Forall (item_ok 100)
              (foldl (add_word query) [] (split_white (trim inputValue))))
      as H2.
    { apply (foldl_invariant (Forall (item_ok 100))); [|done].
      intros a b. apply add_word_ok. }
    destruct (foldl (add_word query) [] _) as [|i2 items2]; [|done].
    destruct (js_length (trim inputValue) <=? 100)%nat eqn:G; [|done].
    apply Nat.leb_le in G. apply Forall_singleton.
    split; [|done]. cbn [ti_text]. by rewrite truthy_trim, Hb.
  - intros -> Hlen.
    destruct (items_by_commas query inputValue) as [|i1 items1]; [|done].
    destruct (foldl (add_word query) [] _) as [|i2 items2]; [|done].
    apply Nat.leb_le in Hlen. by rewrite Hlen.
Qed.

Lemma existsb_text_false items text :
  Forall (fun it => ti_value it = ti_text it) items ->
  existsb (fun item => String.eqb (ti_text item) text
                       || String.eqb (ti_value item) text) items = false ->
  text ∉ map ti_text items.
Proof.
  induction items as [|it items IH]; intros Hv He.
  - apply not_elem_of_nil.
  - cbn [existsb] in He. apply orb_false_elim in He as [H1 H2].
    apply orb_false_elim in H1 as [H1 _].
    apply Forall_cons in Hv as [_ Hv].
    cbn [map]. apply not_elem_of_cons. split; [|by apply IH].
    apply String.eqb_neq in H1. congruence.
Qed.

Lemma add_part_distinct items part :
  NoDup (map ti_text items)
  /\ Forall (fun it => ti_value it = ti_text it) items ->
  NoDup (map ti_text (add_part query items part))
  /\ Forall (fun it => ti_value it = ti_text it) (add_part query items part).
Proof.
  intros [Hn Hv]. unfold add_part. cbv zeta.
  set (text := trim (strip_brackets (trim part))).
  destruct (_ && _); [|done].
  destruct (existsb _ items) eqn:He; [done|].
  apply existsb_text_false in He; [|done]. split.
  - rewrite map_app. cbn [map ti_text]. apply NoDup_app.
    split; [done|]. split; [|apply NoDup_singleton].
    intros x Hx Hin. apply list_elem_of_singleton in Hin as ->. done.
  - apply Forall_app. split; [done|]. by apply Forall_singleton.
Qed.

Lemma items_by_commas_distinct inputValue :
  NoDup (map ti_text (items_by_commas query inputValue)).
Proof.
  unfold items_by_commas.
  apply (foldl_invariant
           (fun items => NoDup (map ti_text items)
                         /\ Forall (fun it => ti_value it = ti_text it) items));
    [|split; [apply NoDup_nil_2|done]].
  intros items line H. unfold add_line. cbv zeta. destruct (negb _); [done|].
  apply (foldl_invariant
           (fun items => NoDup (map ti_text items)
                         /\ Forall (fun it => ti_value it = ti_text it) items));
    [|done].
  intros a b. apply add_part_distinct.
Qed.

(** The items parsed from the lines and the commas of a text have pairwise
    different texts, and when there is at least one of them they are what
    [_getTextGridItems] returns. The fallback that splits at white space does
    not remove repetitions: a text of fifty-one words [a] comes back as
    fifty-one items. *)
Theorem comma_items_are_distinct (inputValue : string) :
  NoDup (map ti_text (items_by_commas query inputValue))
  /\ (blank inputValue = false ->
      items_by_commas query inputValue <> [] ->
      textGridItems query inputValue = items_by_commas query inputValue)
  /\ map ti_text
       (textGridItems query
          (concat_text (replicate 50 "a ") +:+ "a"))
     = replicate 51 "a".
Proof.
  split; [apply items_by_commas_distinct|]. split.
  - intros Hb Hne. unfold textGridItems.
    rewrite truthy_trim, Hb. cbn [negb]. cbv zeta.
    by destruct (items_by_commas query inputValue).
  - vm_compute. reflexivity.
Qed.

End TextGridFacts.

Section TextGridCache.
Variables query query' : string -> option CacheHit.

Lemma existsb_item_texts text items :
  existsb (fun item => String.eqb (ti_text item) text
                       || String.eqb (ti_value item) text) items
  = existsb (fun p => String.eqb p.1 text || String.eqb p.2 text)
      (item_texts items).
Proof. induction items as [|it items IH]; [done|]. cbn. by rewrite IH. Qed.

Lemma add_part_texts items items' part :
  item_texts items = item_texts items' ->
  item_texts (add_part query items part)
  = item_texts (add_part query' items' part).
Proof.
  intros H. unfold add_part. cbv zeta. rewrite !existsb_item_texts, H.
  destruct (_ && _); [|done]. destruct (existsb _ _); [done|].
  unfold item_texts in *. rewrite !map_app. by rewrite H.
Qed.

Lemma foldl_texts {B} (f f' : list TextItem -> B -> list TextItem) l :
  (forall a a' b, item_texts a = item_texts a' ->
                  item_texts (f a b) = item_texts (f' a' b)) ->
  forall a a', item_texts a = item_texts a' ->
               item_texts (foldl f a l) = item_texts (foldl f' a' l).
Proof.
  intros H. induction l as [|b l IH]; intros a a' Ha; [done|].
  cbn [foldl]. apply IH. by apply H.
Qed.

Lemma item_texts_nil items items' :
  item_texts items = item_texts items' ->
  match items, items' with
  | [], [] | _ :: _, _ :: _ => True
  | _, _ => False
  end.
Proof. by destruct items, items'. Qed.

(** The translate cache only decorates the items: which texts
    [_getTextGridItems] returns, and in which order, does not depend on what
    the cache answers. *)
Theorem text_items_ignore_cache (inputValue : string) :
  map ti_text (textGridItems query inputValue)
  = map ti_text (textGridItems query' inputValue).
Proof.
  assert (item_texts (textGridItems query inputValue)
          = item_texts (textGridItems query' inputValue)) as H.
  { unfold textGridItems. destruct (negb _); [done|]. cbv zeta.
    assert (item_texts (items_by_commas query inputValue)
            = item_texts (items_by_commas query' inputValue)) as H1.
    { unfold items_by_commas. apply foldl_texts; [|done].
      intros a a' line Ha. unfold add_line. cbv zeta.
      destruct (negb _); [done|]. apply foldl_texts; [|done].
      intros b b' part Hb. by apply add_part_texts. }
    pose proof (item_texts_nil _ _ H1) as N1.
    destruct (items_by_commas query inputValue) as [|i1 l1],
             (items_by_commas query' inputValue) as [|i1' l1'];
      try done.
    assert (item_texts (foldl (add_word query) [] (split_white (trim inputValue)))
            = item_texts (foldl (add_word query') []
                            (split_white (trim inputValue)))) as H2.
    { apply foldl_texts; [|done]. intros a a' word Ha.
      unfold add_word. cbv zeta. destruct (_ && _); [|done].
      unfold item_texts in *. rewrite !map_app. by rewrite Ha. }
    pose proof (item_texts_nil _ _ H2) as N2.
    destruct (foldl (add_word query) [] _) as [|i2 l2],
             (foldl (add_word query') [] _) as [|i2' l2'];
      try done.
    by destruct (js_length (trim inputValue) <=? 100)%nat. }
  unfold item_texts in H.
  apply (f_equal (map fst)) in H. rewrite !map_map in H. exact H.
Qed.

End TextGridCache.

(** ** The master switch *)

Lemma cleanup_all_empties h silent s :
  instances (cleanup h None silent s) = [].
Proof.
  unfold cleanup. destruct (PROMPT_ASSISTANT_WORKFLOW_SWITCHING h); [done|].
  destruct (instances s) as [|kv l] eqn:E; [exact E|].
  cbn [length Nat.ltb Nat.leb]. cbv zeta. by destruct (negb silent).
Qed.

Lemma toggle_same_value h canvas mode value s :
  FEATURES_enabled h = value ->
  masterSwitch_onChange h canvas mode value s = mkToggled value canvas s false.
Proof.
  intros <-. unfold masterSwitch_onChange, toggleGlobalFeature. cbv zeta.
  cbn [FEATURES_enabled set_enabled]. by rewrite !eqb_reflx.
Qed.

Lemma toggle_ends_old_or_new h canvas mode enable force s :
  t_enabled (toggleGlobalFeature h canvas mode enable force s) = enable
  \/ t_enabled (toggleGlobalFeature h canvas mode enable force s)
     = FEATURES_enabled h.
Proof.
  unfold toggleGlobalFeature. cbv zeta.
  repeat case_match; cbn [t_enabled]; auto.
Qed.

(** The setting that switches the assistant off, when it was on, tears down
    every instance without a summary in the log: the registry is empty, each
    object that was registered is emptied and its toolbar detached, and the
    selection events go back to the handler that was saved when the
    assistant was switched on (to none if none was saved). Choosing the value
    the switch already has does nothing. In every case the switch ends at the
    value chosen. *)
Theorem master_switch_off_tears_down (h : Host) (canvas : option Canvas)
  (creationMode : option string) (s : State) :
  (forall value, FEATURES_enabled h = value ->
     masterSwitch_onChange h canvas creationMode value s
     = mkToggled value canvas s false)
  /\ (forall value,
        t_enabled (masterSwitch_onChange h canvas creationMode value s) = value)
  /\ (FEATURES_enabled h = true ->
      let r := masterSwitch_onChange h canvas creationMode false s in
      instances (t_state r) = []
      /\ log (t_state r) = log s
      /\ (forall key w, getInstance key s = Some w ->
            heap (t_state r) !! w = Some Assistant.husk
            /\ forall ui, Assistant.element (get_obj w s) = Some ui ->
                 dom_parent (t_state r) !! ui = None)
      /\ t_canvas r
         = match canvas with
           | Some c => Some (set_onSelectionChange (_originalSelectionChange c) c)
           | None => None
           end).
Proof.
  split; [intros value; apply toggle_same_value|]. split.
  - intros value. unfold masterSwitch_onChange.
    destruct (toggle_ends_old_or_new (set_enabled value h) canvas creationMode
                value (negb (Bool.eqb (FEATURES_enabled h) value)) s)
      as [-> | ->]; done.
  - intros He. cbv zeta. unfold masterSwitch_onChange, toggleGlobalFeature.
    cbv zeta. cbn [FEATURES_enabled set_enabled]. rewrite He.
    cbn [Bool.eqb negb andb t_state t_canvas].
    set (h' := set_enabled false (set_enabled false h)).
    split; [apply cleanup_all_empties|]. split.
    + by rewrite cleanup_silent_eq.
    + split; [|done]. intros key w Hg.
      destruct (cleanup_selected_removed h' None true s key w Hg)
        as (_ & H2 & H3); [|by split].
      unfold cleanup_selects. by destruct (PROMPT_ASSISTANT_WORKFLOW_SWITCHING h').
Qed.




(** A handler saved at an earlier switch-on outlives the handler of the host:
    after on, off, the host dropping its handler, on and off again, the
    selection events go to the handler the host has dropped. *)
Example stale_handler_is_restored :
  let c := mkCanvas (Some []) (Some (handler_of_host 1)) false None in
  let on_ c := t_canvas (toggleGlobalFeature legacy_host c None true true
                           fresh_page) in
  let off c := t_canvas (toggleGlobalFeature legacy_host c None false true
                           fresh_page) in
  let dropped := option_map (set_onSelectionChange None) (off (on_ (Some c))) in
  option_map onSelectionChange (off (on_ dropped))
  = Some (Some (handler_of_host 1)).
Proof. reflexivity. Qed.

(** ** A search that settles after the teardown *)

(** [_cleanupInstance] deletes the property [isDestroyed] together with all
    the others, so the callback of the mount does not see that the object was
    torn down, and the positioning itself never asks. A search of the legacy
    mode that settles after the teardown therefore still mounts: the textarea
    it found, if it carries no marker, is marked as mounted without a key,
    and the toolbar is attached below the container, although the object is
    registered under no key. *)
Theorem mount_after_teardown_still_claims (h : Host) (w : WId) (k : string)
  (skipRemove : bool) (ui : UiId) (ci : ContainerInfo) (s : State)
  (e : ElemId) :
  ci_mode ci = LITEGRAPH -> ci_textarea ci = Some e ->
  let s1 := _cleanupInstance w k skipRemove s in
  Elem._promptAssistantMounted (get_elem e s1) = false ->
  has_assistant (ci_container ci) s1 = false ->
  let s2 := mount_settled h w ui (Some ci) s1 in
  get_obj w s1 = Assistant.husk
  /\ Elem._promptAssistantMounted (get_elem e s2) = true
  /\ Elem._promptAssistantWidgetKey (get_elem e s2) = None
  /\ dom_parent s2 !! ui = Some (ci_container ci)
  /\ instances s2 = instances s1.
Proof.
  intros Hmode Ht. cbv zeta. intros Hm Hfree.
  assert (get_obj w (_cleanupInstance w k skipRemove s) = Assistant.husk) as Hh.
  { unfold get_obj. rewrite cleanupInstance_heap. by rewrite lookup_insert_eq. }
  split; [done|].
  destruct (legacy_mount_facts h w ui ci
              (_cleanupInstance w k skipRemove s) e Hmode)
    as (H1 & H2 & H3 & _ & _ & H6 & _); try done.
  - by rewrite Hh.
  - unfold mount_target. by rewrite Hmode, Ht.
  - rewrite Hh in H2. done.
Qed.

Lemma mount_after_teardown_witness :
  let ci := mkInfo LITEGRAPH 7 (Some 1) None false in
  let s1 := _cleanupInstance 0 "main_5_text" false page_scanned in
  let s2 := mount_settled legacy_host 0 0 (Some ci) s1 in
  getInstance "main_5_text" s2 = None
  /\ Elem._promptAssistantMounted (get_elem 1 s2) = true
  /\ dom_parent s2 !! 0 = Some 7.
Proof.
  cbv zeta.
  destruct (mount_after_teardown_still_claims legacy_host 0 "main_5_text"
              false 0 (mkInfo LITEGRAPH 7 (Some 1) None false) page_scanned 1)
    as (_ & H2 & _ & H4 & H5); try reflexivity.
  split; [|by split].
  unfold getInstance. rewrite H5. reflexivity.
Defined.

(** ** A mount that succeeds in the Vue mode *)

Lemma vue_binding_part h w e s :
  bound_only s
    (if bool_decide (Assistant.inputEl (get_obj w s) = Some e) then s
     else
       let s := retarget w e s in
       if Elem._promptAssistantBound (get_elem e s) then s
       else
         let s := upd_elem e (Elem.set_bound true) s in
         let s := listen e Blur w s in
         let s := listen e Input w s in
         let s := if ResizeObserver h then listen e Resize w s else s in
         init_undo_if_needed w e s).
Proof.
  destruct (bool_decide _); [apply bound_only_refl|]. cbv zeta.
  pose proof (bound_only_retarget w e s) as B0.
  set (s0 := retarget w e s) in *. clearbody s0.
  destruct (Elem._promptAssistantBound (get_elem e s0)); [done|].
  assert (bound_only s0 (upd_elem e (Elem.set_bound true) s0)) as B1
    by (by apply bound_only_upd_elem).
  set (s2 := upd_elem e _ s0) in *. clearbody s2.
  pose proof (bound_only_listen e Blur w s2) as B2.
  set (s3 := listen e Blur w s2) in *. clearbody s3.
  pose proof (bound_only_listen e Input w s3) as B3.
  set (s4 := listen e Input w s3) in *. clearbody s4.
  assert (bound_only s4 (if ResizeObserver h then listen e Resize w s4 else s4))
    as B4 by (destruct (ResizeObserver h);
              [apply bound_only_listen | apply bound_only_refl]).
  set (s5 := if ResizeObserver h then _ else _) in *. clearbody s5.
  pose proof (bound_only_init_undo w e s5) as B5.
  eauto 10 using bound_only_trans.
Qed.

(** In the Vue mode the mount goes through on a textarea that carries no
    marker or the marker of the key of the object itself, below a container
    that holds no toolbar or this very toolbar: the textarea is marked as
    mounted under the key of the object, the toolbar is below the container,
    the object leaves its mounting phase, and the registry is not touched.
    Positioning the same object again is therefore not taken for a second
    claim. *)
Theorem vue_mount_claims_element (h : Host) (w : WId) (ui : UiId)
  (ci : ContainerInfo) (s : State) (e : ElemId) :
  ci_mode ci = VUE_NODES ->
  Assistant.isDestroyed (get_obj w s) = false ->
  (vue_target ci).1 = Some e ->
  (Elem._promptAssistantMounted (get_elem e s) = false
   \/ Elem._promptAssistantWidgetKey (get_elem e s)
      = Assistant.widgetKey (get_obj w s)) ->
  (has_assistant (vue_target ci).2 s = false
   \/ contains (vue_target ci).2 ui s = true) ->
  let s' := mount_settled h w ui (Some ci) s in
  Elem._promptAssistantMounted (get_elem e s') = true
  /\ Elem._promptAssistantWidgetKey (get_elem e s')
     = Assistant.widgetKey (get_obj w s)
  /\ dom_parent s' !! ui = Some (vue_target ci).2
  /\ Assistant._isMounting (get_obj w s') = false
  /\ Assistant._renderMode (get_obj w s') = Some VUE_NODES
  /\ instances s' = instances s.
Proof.
  intros Hmode Hd Htgt Hmark Hcont. cbv zeta.
  unfold mount_settled, positioning. rewrite Hmode.
  unfold _applyVueNodesPositioning. cbv zeta. rewrite Htgt.
  pose proof (vue_binding_part h w e s) as B1. cbv zeta in B1.
  set (s1 := if bool_decide _ then s else _) in *. clearbody s1.
  destruct B1 as (Hi & _ & Hp & _ & _ & _ & _ & _ & He & Ho).
  destruct (elem_core_marker _ _ (He e)) as [Hm1 Hk1].
  destruct (obj_id_fields _ _ (Ho w)) as (Hw1 & _ & Hd1 & _).
  cbn [from_option].
  assert (Elem._promptAssistantMounted (get_elem e s1)
          && negb (bool_decide (Elem._promptAssistantWidgetKey (get_elem e s1)
                                = Assistant.widgetKey (get_obj w s1))) = false)
    as ->.
  { rewrite Hm1, Hk1, Hw1. destruct Hmark as [-> | ->]; [done|].
    rewrite bool_decide_eq_true_2 by done. by rewrite andb_false_r. }
  assert (has_assistant (vue_target ci).2 s1
          && negb (contains (vue_target ci).2 ui s1) = false) as ->.
  { unfold has_assistant, contains in *. rewrite Hp.
    destruct Hcont as [-> | ->]; [done|by rewrite andb_false_r]. }
  set (s2 := claim e (Assistant.widgetKey (get_obj w s1)) s1).
  assert (get_elem e s2 = Elem.set_marker true (Assistant.widgetKey (get_obj w s1))
                            (get_elem e s1)
          /\ dom_parent s2 = dom_parent s1 /\ instances s2 = instances s1
          /\ get_obj w s2 = get_obj w s1) as (E2 & D2 & I2 & O2).
  { subst s2. unfold claim. repeat split.
    rewrite get_elem_upd_elem. by rewrite decide_True. }
  clearbody s2.
  set (s3 := if contains (vue_target ci).2 ui s2 then s2 else _).
  assert (get_elem e s3 = get_elem e s2 /\ instances s3 = instances s2
          /\ get_obj w s3 = get_obj w s2
          /\ dom_parent s3 !! ui = Some (vue_target ci).2) as (E3 & I3 & O3 & D3).
  { subst s3. unfold contains.
    destruct (bool_decide (dom_parent s2 !! ui = Some (vue_target ci).2)) eqn:C.
    - apply bool_decide_eq_true in C. by repeat split.
    - repeat split. cbn [dom_parent with_dom_parent]. apply lookup_insert_eq. }
  clearbody s3.
  set (s4 := upd_obj w (Assistant.set_renderMode (Some VUE_NODES)) s3).
  assert (get_obj w s4 = Assistant.set_renderMode (Some VUE_NODES) (get_obj w s3))
    as O4 by (subst s4; rewrite get_obj_upd_obj; by rewrite decide_True).
  assert (elems s4 = elems s3 /\ dom_parent s4 = dom_parent s3
          /\ instances s4 = instances s3) as (E4 & D4 & I4) by done.
  clearbody s4.
  unfold onComplete. rewrite O4, O3, O2.
  cbn [Assistant.isDestroyed Assistant.set_renderMode]. rewrite Hd1, Hd.
  cbn [negb].
  set (s5 := upd_obj w (Assistant.set_isMounting false) s4).
  assert (get_obj w s5 = Assistant.set_isMounting false (get_obj w s4))
    as O5 by (subst s5; rewrite get_obj_upd_obj; by rewrite decide_True).
  assert (elems s5 = elems s4 /\ dom_parent s5 = dom_parent s4
          /\ instances s5 = instances s4) as (E5 & D5 & I5) by done.
  clearbody s5.
  assert (get_elem e s5 = get_elem e s3) as G5
    by (unfold get_elem; by rewrite E5, E4).
  repeat split.
  - by rewrite G5, E3, E2.
  - rewrite G5, E3, E2.
    cbn [Elem._promptAssistantWidgetKey Elem.set_marker]. exact Hw1.
  - by rewrite D5, D4.
  - by rewrite O5.
  - by rewrite O5, O4.
  - by rewrite I5, I4, I3, I2.
Qed.

Lemma vue_mount_witness :
  let ci := mkInfo VUE_NODES 7 (Some 1) None false in
  let s1 := mount_settled legacy_host 0 0 (Some ci) page_scanned in
  let s2 := mount_settled legacy_host 0 0 (Some ci) s1 in
  Elem._promptAssistantMounted (get_elem 1 s2) = true
  /\ dom_parent s2 !! 0 = Some 7
  /\ getInstance "main_5_text" s2 = Some 0.
Proof.
  cbv zeta.
  destruct (vue_mount_claims_element legacy_host 0 0
              (mkInfo VUE_NODES 7 (Some 1) None false)
              (mount_settled legacy_host 0 0
                 (Some (mkInfo VUE_NODES 7 (Some 1) None false)) page_scanned)
              1) as (H1 & _ & H3 & _ & _ & H6); try reflexivity.
  - right. reflexivity.
  - right. reflexivity.
  - split; [exact H1|]. split; [exact H3|].
    unfold getInstance. rewrite H6. reflexivity.
Defined.

(** ** Elements after a cleanup *)

#[local] Transparent _cleanupInstance.

Lemma cleanupInstance_next w k b s :
  next_obj (_cleanupInstance w k b s) = next_obj s.
Proof.
  unfold _cleanupInstance. cbv zeta.
  destruct (cleanup_elements_frame (get_obj w s) s) as (_ & _ & H & _).
  set (s1 := cleanup_elements (get_obj w s) s) in *. clearbody s1.
  by destruct (Assistant.element (get_obj w s)), (truthy_str k), b.
Qed.

#[local] Opaque _cleanupInstance.

Lemma same_page_refl s : same_page s s.
Proof. by split. Qed.

Lemma same_page_trans s1 s2 s3 :
  same_page s1 s2 -> same_page s2 s3 -> same_page s1 s3.
Proof.
  intros [A1 A2] [B1 B2]. split; [congruence|]. intros e. by rewrite B2, A2.
Qed.

Lemma same_page_elems s s' :
  next_obj s' = next_obj s -> elems s' = elems s -> same_page s s'.
Proof. intros Hn He. split; [done|]. intros e. unfold get_elem. by rewrite He. Qed.

Lemma released_elems e s s' :
  elems s' = elems s -> released e s -> released e s'.
Proof. unfold released, get_elem. by intros ->. Qed.

Lemma cleanupInstance_page w k b s : same_page s (_cleanupInstance w k b s).
Proof.
  split; [apply cleanupInstance_next|]. intros e.
  assert (get_elem e (_cleanupInstance w k b s)
          = get_elem e (cleanup_elements (get_obj w s) s)) as ->
    by (unfold get_elem; by rewrite cleanupInstance_elems).
  by destruct (cleanup_elements_view (get_obj w s) s e) as (H & _).
Qed.

Lemma cleanupInstance_released w k b s e :
  (released e s -> released e (_cleanupInstance w k b s))
  /\ (Assistant.inputEl (get_obj w s) = Some e ->
      released e (_cleanupInstance w k b s)).
Proof.
  assert (get_elem e (_cleanupInstance w k b s)
          = get_elem e (cleanup_elements (get_obj w s) s)) as G
    by (unfold get_elem; by rewrite cleanupInstance_elems).
  destruct (cleanup_elements_view (get_obj w s) s e) as (_ & H2 & H3).
  unfold released. rewrite G. split.
  - intros [Hm Hb].
    destruct (decide (Assistant.inputEl (get_obj w s) = Some e)) as [Hi|Hi];
      [destruct (H2 (or_introl Hi)) as (? & ? & _); done|].
    destruct (decide (Assistant.text_element (get_obj w s) = Some e)) as [Ht|Ht];
      [destruct (H2 (or_intror Ht)) as (? & ? & _); done|].
    specialize (H3 Hi Ht). unfold elem_flags in H3. split; congruence.
  - intros Hi. destruct (H2 (or_introl Hi)) as (? & ? & _). done.
Qed.

Section TeardownLoopElems.
Variable step : State -> string -> State.

Hypothesis step_other : forall s k k',
  k <> k' -> getInstance k' (step s k) = getInstance k' s.
Hypothesis step_obj_other : forall s k w,
  getInstance k s <> Some w -> heap (step s k) !! w = heap s !! w.
Hypothesis step_page : forall s k, same_page s (step s k).
Hypothesis step_released : forall s k e,
  released e s -> released e (step s k).
Hypothesis step_hit_released : forall s k w e,
  getInstance k s = Some w -> Assistant.inputEl (get_obj w s) = Some e ->
  released e (step s k).

Lemma loop_page ks : forall s, same_page s (foldl step s ks).
Proof.
  induction ks as [|k ks IH]; intros s; cbn [foldl]; [apply same_page_refl|].
  apply (same_page_trans s (step s k)); [apply step_page | apply IH].
Qed.

Lemma loop_released ks : forall s e,
  released e s -> released e (foldl step s ks).
Proof. induction ks as [|k ks IH]; intros s e H; cbn [foldl]; auto. Qed.

Lemma loop_hit_released ks : forall s key w e,
  key ∈ ks -> getInstance key s = Some w ->
  Assistant.inputEl (get_obj w s) = Some e ->
  released e (foldl step s ks).
Proof.
  induction ks as [|k ks IH]; intros s key w e Hin Hget Hel; cbn [foldl].
  - by apply elem_of_nil in Hin.
  - destruct (decide (getInstance k s = Some w)) as [Hk|Hk].
    + apply loop_released. by eapply step_hit_released.
    + assert (k <> key) as Hne by (intros ->; done).
      apply elem_of_cons in Hin as [->|Hin]; [done|].
      apply (IH _ key w); [done | by rewrite step_other |].
      unfold get_obj. rewrite step_obj_other; done.
Qed.
End TeardownLoopElems.

Lemma switching_step_elem_facts :
  (forall s k, same_page s (switching_step s k))
  /\ (forall s k e, released e s -> released e (switching_step s k))
  /\ (forall s k w e, getInstance k s = Some w ->
        Assistant.inputEl (get_obj w s) = Some e ->
        released e (switching_step s k)).
Proof.
  unfold switching_step. split; [|split].
  - intros s k. destruct (getInstance k s);
      [apply cleanupInstance_page | apply same_page_refl].
  - intros s k e H. destruct (getInstance k s) as [w|]; [|done].
    by apply (proj1 (cleanupInstance_released w k false s e)).
  - intros s k w e -> Hi.
    by apply (proj2 (cleanupInstance_released w k false s e)).
Qed.

Lemma node_step_elem_facts :
  (forall s k, same_page s (node_step s k))
  /\ (forall s k e, released e s -> released e (node_step s k))
  /\ (forall s k w e, getInstance k s = Some w ->
        Assistant.inputEl (get_obj w s) = Some e ->
        released e (node_step s k)).
Proof.
  unfold node_step. split; [|split].
  - intros s k. destruct (getInstance k s) as [w|]; [|apply same_page_refl].
    apply (same_page_trans s (_cleanupInstance w k true s));
      [apply cleanupInstance_page | by apply same_page_elems].
  - intros s k e H. destruct (getInstance k s) as [w|]; [|done].
    apply (released_elems e (_cleanupInstance w k true s)); [done|].
    by apply (proj1 (cleanupInstance_released w k true s e)).
  - intros s k w e -> Hi.
    apply (released_elems e (_cleanupInstance w k true s)); [done|].
    by apply (proj2 (cleanupInstance_released w k true s e)).
Qed.

Lemma global_loop_page kvs : forall s names,
  same_page s (foldl global_step (s, names) kvs).1.
Proof.
  induction kvs as [|[k w] kvs IH]; intros s names; cbn [foldl];
    [apply same_page_refl|].
  apply (same_page_trans s (_cleanupInstance w k true s));
    [apply cleanupInstance_page | apply IH].
Qed.

Lemma global_loop_released kvs : forall s names e,
  released e s -> released e (foldl global_step (s, names) kvs).1.
Proof.
  induction kvs as [|[k w] kvs IH]; intros s names e H; cbn [foldl]; [done|].
  apply IH. by apply (proj1 (cleanupInstance_released w k true s e)).
Qed.

Lemma global_loop_hit_released kvs : forall s names key w e,
  (key, w) ∈ kvs -> Assistant.inputEl (get_obj w s) = Some e ->
  released e (foldl global_step (s, names) kvs).1.
Proof.
  induction kvs as [|[k w'] kvs IH]; intros s names key w e Hin He;
    cbn [foldl].
  - by apply elem_of_nil in Hin.
  - destruct (decide (w' = w)) as [->|Hne].
    + apply global_loop_released.
      by apply (proj2 (cleanupInstance_released w k true s e)).
    + apply elem_of_cons in Hin as [Heq|Hin]; [congruence|].
      apply (IH _ _ key w); [done|].
      unfold get_obj. rewrite cleanupInstance_heap.
      by rewrite lookup_insert_ne.
Qed.

Lemma clear_tags_page n ks : forall s names,
  let r := foldl (clear_tags_step n) (s, names) ks in
  next_obj r.1 = next_obj s /\ elems r.1 = elems s.
Proof.
  induction ks as [|k ks IH]; intros s names; [done|]. cbn [foldl].
  assert (next_obj (clear_tags_step n (s, names) k).1 = next_obj s
          /\ elems (clear_tags_step n (s, names) k).1 = elems s) as [G1 G2].
  { unfold clear_tags_step. destruct (getInstance k s); [|done].
    destruct (Assistant.inputId _) as [i|]; [|done].
    by destruct (truthy_str i). }
  destruct (clear_tags_step n (s, names) k) as [s' names'].
  destruct (IH s' names') as (H1 & H2).
  cbn [fst] in *. cbv zeta. by rewrite H1, H2.
Qed.

Lemma cleanup_elem_facts (h : Host) (nodeId : option JsId)
  (silent : bool) (s : State) :
  let s' := cleanup h nodeId silent s in
  same_page s s'
  /\ (forall e, released e s -> released e s')
  /\ (forall key w e,
        getInstance key s = Some w ->
        cleanup_selects h nodeId key = true ->
        Assistant.inputEl (get_obj w s) = Some e ->
        released e s').
Proof.
  cbv zeta. unfold cleanup, cleanup_selects.
  destruct switching_step_facts as (_ & S2 & _).
  destruct switching_step_dom_facts as (_ & _ & S3).
  destruct switching_step_elem_facts as (S4 & S5 & S6).
  destruct node_step_facts as (_ & N2 & _).
  destruct node_step_dom_facts as (_ & _ & N3).
  destruct node_step_elem_facts as (N4 & N5 & N6).
  destruct (PROMPT_ASSISTANT_WORKFLOW_SWITCHING h).
  - cbv zeta.
    set (ks := filter (fun key => key_matches_switching nodeId key = true)
                 (JsMap.keys (instances s))).
    pose proof (loop_page switching_step S4 ks s) as P.
    pose proof (loop_released switching_step S5 ks s) as R.
    assert (forall key w e, getInstance key s = Some w ->
              key_matches_switching nodeId key = true ->
              Assistant.inputEl (get_obj w s) = Some e ->
              released e (foldl switching_step s ks)) as Hh.
    { intros key w e Hg Hm Hi.
      apply (loop_hit_released switching_step S2 S3 S5 S6 ks s key w e);
        [|done|done].
      by apply (filter_keys_elem (key_matches_switching nodeId) key w). }
    set (s1 := foldl switching_step s ks) in *. clearbody s1.
    destruct nodeId; done.
  - destruct nodeId as [n|].
    + cbv zeta.
      set (ks := filter (fun key => key_matches (String_ n) key = true)
                   (JsMap.keys (instances s))).
      destruct (0 <? length ks)%nat eqn:L.
      2:{ split; [apply same_page_refl|]. split; [done|].
          intros key w e Hg Hm Hi. exfalso.
          assert (key ∈ ks) as Hin
            by (by apply (filter_keys_elem (key_matches (String_ n)) key w)).
          destruct ks; [by apply elem_of_nil in Hin|done]. }
      destruct (clear_tags_frame n ks (call (clearNodeHistory n) s) [])
        as (F1 & F2 & _).
      destruct (clear_tags_page n ks (call (clearNodeHistory n) s) [])
        as (F3 & F4).
      cbv zeta in F1, F2, F3, F4.
      set (r := foldl (clear_tags_step n) (call (clearNodeHistory n) s, []) ks)
        in *.
      change (instances (call (clearNodeHistory n) s)) with (instances s) in F1.
      change (heap (call (clearNodeHistory n) s)) with (heap s) in F2.
      change (next_obj (call (clearNodeHistory n) s)) with (next_obj s) in F3.
      change (elems (call (clearNodeHistory n) s)) with (elems s) in F4.
      pose proof (loop_page node_step N4 ks r.1) as P.
      pose proof (loop_released node_step N5 ks r.1) as R.
      pose proof (loop_hit_released node_step N2 N3 N5 N6 ks r.1) as Hh.
      set (s1 := foldl node_step r.1 ks) in *. clearbody s1.
      assert (same_page s r.1) as P0 by (by apply same_page_elems).
      assert (same_page s
                (if negb silent then logger_log (log_node_summary n r.2) s1
                 else s1)) as Q1.
      { apply (same_page_trans s r.1); [done|].
        apply (same_page_trans r.1 s1); [done|].
        destruct silent; [apply same_page_refl | by apply same_page_elems]. }
      assert (forall e, released e s1 ->
                released e (if negb silent
                            then logger_log (log_node_summary n r.2) s1
                            else s1)) as Q2
        by (intros e; by destruct silent).
      split; [done|]. split.
      * intros e He. apply Q2, R. by apply (released_elems e s).
      * intros key w e Hg Hm Hi. apply Q2.
        apply (Hh key w e).
        -- by apply (filter_keys_elem (key_matches (String_ n)) key w).
        -- unfold getInstance. by rewrite F1.
        -- unfold get_obj. by rewrite F2.
    + destruct (0 <? length (instances s))%nat eqn:L.
      2:{ split; [apply same_page_refl|]. split; [done|].
          intros key w e Hg _ _. exfalso. unfold getInstance in Hg.
          destruct (instances s); done. }
      cbv zeta.
      set (s0 := call clearAllTagCache (call clearAllHistory s)).
      pose proof (global_loop_page (instances s0) s0 []) as P.
      pose proof (global_loop_released (instances s0) s0 []) as R.
      pose proof (global_loop_hit_released (instances s0) s0 []) as Hh.
      change (instances s0) with (instances s) in Hh at 1.
      change (released ?e s0) with (released e s) in R.
      change (get_obj ?w s0) with (get_obj w s) in Hh.
      assert (same_page s s0) as P0 by (by apply same_page_elems).
      set (r := foldl global_step (s0, []) (instances s0)) in *. clearbody r.
      assert (same_page s
                (if negb silent
                 then logger_log log_remaining
                        (logger_log (log_global_summary r.2)
                           (with_instances (fun _ => []) r.1))
                 else with_instances (fun _ => []) r.1)) as Q1.
      { apply (same_page_trans s s0); [exact P0|].
        apply (same_page_trans s0 r.1); [exact P|].
        destruct silent; by apply same_page_elems. }
      assert (forall e, released e r.1 ->
                released e (if negb silent
                 then logger_log log_remaining
                        (logger_log (log_global_summary r.2)
                           (with_instances (fun _ => []) r.1))
                 else with_instances (fun _ => []) r.1)) as Q2
        by (intros e; by destruct silent).
      split; [done|]. split.
      * intros e He. by apply Q2, R.
      * intros key w e Hg _ Hi. apply Q2. apply (Hh key w e); [|done].
        by apply get_Some_elem.
Qed.

(** [cleanup] releases the input element of every instance it selects: after
    the call the element carries neither the mount marker nor the binding
    flag. An element that was released before stays released. No element
    changes its text, its kind or its place in the document, and the next
    identity to hand out is the same. *)
Theorem cleanup_releases_elements (h : Host) (nodeId : option JsId)
  (silent : bool) (s : State) :
  let s' := cleanup h nodeId silent s in
  same_page s s'
  /\ (forall e, released e s -> released e s')
  /\ (forall key w e,
        getInstance key s = Some w ->
        cleanup_selects h nodeId key = true ->
        Assistant.inputEl (get_obj w s) = Some e ->
        released e s').
Proof. apply cleanup_elem_facts. Qed.

(** ** A scan after a cleanup *)

(** After [cleanup] has torn down the instance of an input, the next scan of
    that input builds a new assistant. The input is one whose name is not
    shared, whose registered instance holds the element of the widget, and
    that passes the checks of creation. The scan then registers a fresh
    object under the same key; the old object stays emptied, and the new one
    is not destroyed and waits for its mount. *)
Theorem scan_after_cleanup_recreates (h : Host) (node : Node.t)
  (validInputs : list InputWidget.t) (widgetIndex : nat) (iw : InputWidget.t)
  (name : string) (nodeId : option JsId) (silent : bool) (s : State) (w : WId) :
  (length (filter (fun x => input_name x = input_name iw) validInputs) <= 1)%nat ->
  input_name iw = Some name -> truthy_str name = true ->
  getInstance (input_key h node iw) s = Some w ->
  (w < next_obj s)%nat ->
  cleanup_selects h nodeId (input_key h node iw) = true ->
  Assistant.inputEl (get_obj w s)
  = or_el (InputWidget.inputEl iw) (InputWidget.element iw) ->
  FEATURES_enabled h = true ->
  isValidInput h (processedWidget node iw) node = true ->
  (or_el (InputWidget.inputEl (processedWidget node iw))
         (InputWidget.element (processedWidget node iw)) <> None
   \/ vueNodesMode h = true) ->
  exists s2,
    scan_input h node validInputs widgetIndex iw
      (cleanup h nodeId silent s) = Normal s2
    /\ getInstance (input_key h node iw) s2 = Some (next_obj s)
    /\ get_obj w s2 = Assistant.husk
    /\ Assistant.isDestroyed (get_obj (next_obj s) s2) = false
    /\ Assistant._isMounting (get_obj (next_obj s) s2) = true
    /\ Assistant.inputEl (get_obj (next_obj s) s2)
       = or_el (InputWidget.inputEl (processedWidget node iw))
               (InputWidget.element (processedWidget node iw)).
Proof.
  intros Hlen Hn Ht Hg Hw Hsel Hel He Hv Hp.
  destruct (cleanup_selected_removed h nodeId silent s _ w Hg Hsel)
    as (C1 & C2 & _).
  destruct (cleanup_elem_facts h nodeId silent s) as ([P1 _] & _ & P3).
  specialize (P3 (input_key h node iw) w).
  set (s1 := cleanup h nodeId silent s) in *. clearbody s1.
  assert (creatable h node iw s1 = true) as Hc.
  { unfold creatable. rewrite He, Hv. cbn [andb].
    assert (from_option (fun _ => true) false
              (or_el (InputWidget.inputEl (processedWidget node iw))
                     (InputWidget.element (processedWidget node iw)))
            || vueNodesMode h = true) as ->.
    { destruct Hp as [Hp|Hp]; [|rewrite Hp; apply orb_true_r].
      destruct (or_el (InputWidget.inputEl (processedWidget node iw))
                      (InputWidget.element (processedWidget node iw)));
        [reflexivity | congruence]. }
    rewrite andb_true_r.
    destruct (or_el (InputWidget.inputEl iw) (InputWidget.element iw))
      as [e|]; [|done].
    cbn [from_option]. destruct (P3 e Hg Hsel Hel) as [Hm _]. by rewrite Hm. }
  rewrite (scan_input_create h node validInputs widgetIndex iw s1 name
             Hlen Hn Ht C1), Hc.
  assert (key_of h node (Some name) (Some (input_key h node iw))
          = input_key h node iw) as Hk
    by (apply key_of_given, getAssistantKey_truthy).
  destruct (createAssistant_fresh h node (Some name) (processedWidget node iw)
              (Some (input_key h node iw)) s1 He Ht Hv Hp)
    as (_ & F2 & _ & _ & _ & _ & _ & F8 & F9 & F10);
    [by rewrite Hk|].
  cbv zeta in F2, F8, F9, F10. rewrite Hk in F2, F9.
  rewrite P1 in F2, F8, F9, F10.
  set (r := createAssistant h node (Some name) (processedWidget node iw)
              (Some (input_key h node iw)) s1) in *. clearbody r.
  exists r.2. split; [done|]. split.
  { unfold getInstance. rewrite F2. apply get_set_same. }
  split.
  { rewrite F8; [|lia]. unfold get_obj. by rewrite C2. }
  unfold obj_id in F9. unfold obj_els in F10.
  injection F9 as _ _ _ D M _. injection F10 as _ I. done.
Qed.

Lemma scan_after_cleanup_witness :
  exists s2,
    scan_input legacy_host node5 [widget_text] 0 widget_text
      (cleanup legacy_host (Some (IdNum 5)) true page_mounted) = Normal s2
    /\ getInstance "main_5_text" s2 = Some 1
    /\ get_obj 0 s2 = Assistant.husk.
Proof.
  destruct (scan_after_cleanup_recreates legacy_host node5 [widget_text] 0
              widget_text "text" (Some (IdNum 5)) true page_mounted 0)
    as (s2 & H1 & H2 & H3 & _);
    [vm_compute; lia | reflexivity | reflexivity | reflexivity
    | vm_compute; lia | reflexivity | reflexivity | reflexivity
    | reflexivity | left; vm_compute; discriminate |].
  exists s2. split; [exact H1|]. split; [exact H2 | exact H3].
Defined.

(** ** The DOM scan rebuilds an orphaned instance *)

(** [_mountDomAssistant] finds an instance under the key of the element whose
    toolbar is missing from the page. It calls [cleanup] for the node and
    then builds a new assistant on the element: when the old instance held
    that element and the checks of creation pass, the key ends up registered
    to a fresh object made for the element, which waits for its mount, and
    the old object is left emptied. *)
Theorem dom_mount_rebuilds_orphan (h : Host) (node : Node.t)
  (element : ElemId) (inputId : string) (s : State) (w : WId) :
  let key := _getAssistantKey h node (Some inputId) in
  let virtualWidget :=
    InputWidget.mk (Some inputId) (Some inputId) (Some element)
      (Some element) in
  getInstance key s = Some w ->
  (w < next_obj s)%nat ->
  from_option (fun _ => true) false (Assistant.element (get_obj w s))
  && isUIPresent h node (Assistant.element (get_obj w s)) s = false ->
  cleanup_selects h (Node.id node) key = true ->
  Assistant.inputEl (get_obj w s) = Some element ->
  FEATURES_enabled h = true -> truthy_str inputId = true ->
  isValidInput h virtualWidget node = true ->
  let s' := _mountDomAssistant h node element inputId s in
  getInstance key s' = Some (next_obj s)
  /\ get_obj w s' = Assistant.husk
  /\ Assistant.inputEl (get_obj (next_obj s) s') = Some element
  /\ Assistant.isDestroyed (get_obj (next_obj s) s') = false
  /\ Assistant._isMounting (get_obj (next_obj s) s') = true.
Proof.
  cbv zeta. intros Hg Hw Hlost Hsel Hel He Ht Hv.
  unfold _mountDomAssistant. cbv zeta. rewrite Hg, Hlost.
  destruct (cleanup_selected_removed h (Node.id node) false s _ w Hg Hsel)
    as (C1 & C2 & _).
  destruct (cleanup_elem_facts h (Node.id node) false s) as ([P1 _] & _ & P3).
  destruct (P3 _ w element Hg Hsel Hel) as [Hm _].
  set (s1 := cleanup h (Node.id node) false s) in *. clearbody s1.
  rewrite Hm.
  assert (key_of h node (Some inputId)
            (Some (_getAssistantKey h node (Some inputId)))
          = _getAssistantKey h node (Some inputId)) as Hk
    by (apply key_of_given, getAssistantKey_truthy).
  destruct (createAssistant_fresh h node (Some inputId)
              (InputWidget.mk (Some inputId) (Some inputId) (Some element)
                 (Some element))
              (Some (_getAssistantKey h node (Some inputId))) s1 He Ht Hv)
    as (_ & F2 & _ & _ & _ & _ & _ & F8 & F9 & F10);
    [by left | by rewrite Hk |].
  cbv zeta in F2, F8, F9, F10. rewrite Hk in F2, F9.
  rewrite P1 in F2, F8, F9, F10.
  set (r := createAssistant h node (Some inputId) _ _ s1) in *. clearbody r.
  split.
  { unfold getInstance. rewrite F2. apply get_set_same. }
  split.
  { rewrite F8; [|lia]. unfold get_obj. by rewrite C2. }
  unfold obj_id in F9. unfold obj_els in F10.
  injection F9 as _ _ _ D M _. injection F10 as _ I. done.
Qed.

Lemma dom_mount_rebuilds_witness :
  getInstance "main_5_text"
    (_mountDomAssistant legacy_host node5 1 "text" page_scanned) = Some 1
  /\ get_obj 0 (_mountDomAssistant legacy_host node5 1 "text" page_scanned)
     = Assistant.husk.
Proof.
  destruct (dom_mount_rebuilds_orphan legacy_host node5 1 "text"
              page_scanned 0) as (H1 & H2 & _);
    [reflexivity | vm_compute; lia | reflexivity | reflexivity | reflexivity
    | reflexivity | reflexivity | reflexivity |].
  split; [exact H1 | exact H2].
Defined.

(** ** The nodes after the switch has been turned on *)

Lemma scan_nodes_facts h nodes : forall s,
  nodes_of (scan_nodes h nodes s).1 = nodes_of nodes
  /\ (forall s', (scan_nodes h nodes s).2 = Normal s' ->
        Forall flagged (scan_nodes h nodes s).1).
Proof.
  unfold nodes_of.
  induction nodes as [|[[node []]|] rest IH]; intros s; cbn [scan_nodes].
  - split; [done|]. intros _ _. constructor.
  - destruct (IH s) as [H1 H2]. cbn [fst snd map option_map]. split.
    + by rewrite H1.
    + intros s' E. constructor; [done | by eapply H2].
  - destruct (checkAndSetupNode h node s) as [s1|s1].
    + destruct (IH s1) as [H1 H2]. cbn [fst snd map option_map]. split.
      * by rewrite H1.
      * intros s' E. constructor; [done | by eapply H2].
    + cbn [fst snd map option_map]. split; [done|]. intros s' E. discriminate.
  - destruct (IH s) as [H1 H2]. cbn [fst snd map option_map]. split.
    + by rewrite H1.
    + intros s' E. constructor; [done | by eapply H2].
Qed.

(** Turning the switch on from off in the automatic mode, on a canvas with a
    graph, keeps the nodes of the graph and their order. When the call ends
    with the switch on, every node of the graph is flagged as initialised;
    when a scan raised, the switch is back off and the nodes after the one
    whose scan raised are left without flag. The selection handler of the
    assistant is installed in both cases. *)
Theorem switch_on_flags_every_node (h : Host) (c : Canvas)
  (nodes : list (option (Node.t * bool))) (mode : option string)
  (force : bool) (s : State) :
  FEATURES_enabled h = false ->
  canvas_graph c = Some nodes ->
  default "auto" (or_str mode None) = "auto" ->
  let r := toggleGlobalFeature h (Some c) mode true force s in
  exists c' nodes',
    t_canvas r = Some c'
    /\ canvas_graph c' = Some nodes'
    /\ nodes_of nodes' = nodes_of nodes
    /\ onSelectionChange c' = Some handler_of_assistant
    /\ (t_enabled r = true -> Forall flagged nodes')
    /\ (t_enabled r = false ->
        exists done_ rest,
          nodes' = done_ ++ rest /\ Forall flagged done_
          /\ Forall (fun n => forall node b, n = Some (node, b) -> b = false)
               rest).
Proof.
  intros Hoff Hg Hauto. cbv zeta. unfold toggleGlobalFeature. cbv zeta.
  rewrite Hoff. cbn [Bool.eqb]. rewrite andb_false_r. rewrite Hg.
  set (reset := map (fun n : option (Node.t * bool) =>
                       match n with
                       | Some (node, _) => Some (node, false)
                       | None => None
                       end) nodes).
  assert (nodes_of reset = nodes_of nodes) as Hr.
  { subst reset. unfold nodes_of. rewrite map_map. apply map_ext.
    by intros [[? ?]|]. }
  assert (Forall (fun n => forall node b, n = Some (node, b) -> b = false)
            reset) as Hf.
  { subst reset. apply Forall_forall. intros n Hin.
    apply list_elem_of_In in Hin.
    apply in_map_iff in Hin as ([[node0 b0]|] & <- & _); intros node b [= ];
      by subst. }
  clearbody reset.
  set (c1 := set_onSelectionChange (Some handler_of_assistant) _).
  assert (canvas_graph c1 = Some reset) as G1.
  { subst c1. destruct c as [g on created orig].
    destruct created, on as [f|]; cbn;
      try destruct (bool_decide (f = handler_of_assistant));
      reflexivity. }
  assert (onSelectionChange c1 = Some handler_of_assistant) as O1 by done.
  clearbody c1. rewrite Hauto. cbn [String.eqb Ascii.eqb Bool.eqb].
  rewrite G1.
  assert (exists done_ rest,
            (scan_nodes (set_enabled true h) reset s).1 = done_ ++ rest
            /\ Forall flagged done_
            /\ Forall (fun n => forall node b, n = Some (node, b) -> b = false)
                 rest) as Hsplit.
  { clear G1 Hr. revert s. induction reset as [|[[node b]|] rest IH];
      intros s; cbn [scan_nodes].
    - exists [], []. repeat split; constructor.
    - apply Forall_cons in Hf as [Hb Hf]. rewrite (Hb node b eq_refl).
      destruct (checkAndSetupNode (set_enabled true h) node s) as [s1|s1].
      + destruct (IH Hf s1) as (d & r & E & D & R). cbn [fst].
        exists (Some (node, true) :: d), r. rewrite E.
        split; [done|]. split; [by constructor | done].
      + cbn [fst]. exists [Some (node, true)], rest.
        split; [done|]. split; [by repeat constructor | done].
    - apply Forall_cons in Hf as [_ Hf].
      destruct (IH Hf s) as (d & r & E & D & R). cbn [fst].
      exists (None :: d), r. rewrite E.
      split; [done|]. split; [by constructor | done]. }
  destruct (scan_nodes_facts (set_enabled true h) reset s) as [N1 N2].
  destruct ((scan_nodes (set_enabled true h) reset s).2) as [s'|s'] eqn:E;
    cbn [t_canvas t_enabled];
    exists (set_nodes (scan_nodes (set_enabled true h) reset s).1 c1),
           (scan_nodes (set_enabled true h) reset s).1;
    (split; [done|]); (split; [done|]);
    (split; [by rewrite N1|]); (split; [done|]).
  - split; [intros _; by eapply N2 | done].
  - split; [done | intros _; exact Hsplit].
Qed.

Lemma switch_on_flags_witness :
  let c := mkCanvas (Some [Some (node5, true); None]) None false None in
  let r := toggleGlobalFeature (set_enabled false legacy_host) (Some c) None
             true false fresh_page in
  exists c' nodes',
    t_canvas r = Some c' /\ canvas_graph c' = Some nodes'
    /\ nodes_of nodes' = [Some node5; None].
Proof.
  cbv zeta.
  destruct (switch_on_flags_every_node (set_enabled false legacy_host)
              (mkCanvas (Some [Some (node5, true); None]) None false None)
              [Some (node5, true); None] None false fresh_page)
    as (c' & nodes' & H1 & H2 & H3 & _); [reflexivity..|].
  exists c', nodes'. split; [exact H1|]. split; [exact H2 | exact H3].
Defined.

(** * The cleanup of a node while a workflow is switched *)

Lemma startsWith_cons c s d p :
  startsWith (String c s) (String d p) = Ascii.eqb d c && startsWith s p.
Proof. done. Qed.

(** A key that begins with a graph id other than the node id does not begin
    with the node id and the separator. *)
Lemma startsWith_graph_key g : forall p rest,
  no_underscore g -> no_underscore p -> g <> p ->
  startsWith (g +:+ "_" +:+ rest) (p +:+ "_") = false.
Proof.
  unfold no_underscore.
  induction g as [|c g IH]; intros p rest Hg Hp Hne.
  - destruct p as [|d p]; [done|].
    rewrite includes_cons in Hp. apply orb_false_elim in Hp as [Hd _].
    change ("" +:+ "_" +:+ rest) with (String "_" rest).
    change (String d p +:+ "_") with (String d (p +:+ "_")).
    rewrite startsWith_cons. rewrite Ascii.eqb_sym in Hd. by rewrite Hd.
  - rewrite includes_cons in Hg. apply orb_false_elim in Hg as [Hc Hg].
    change (String c g +:+ "_" +:+ rest) with (String c (g +:+ "_" +:+ rest)).
    destruct p as [|d p].
    + change ("" +:+ "_") with (String "_" "").
      rewrite startsWith_cons. by rewrite Hc.
    + rewrite includes_cons in Hp. apply orb_false_elim in Hp as [_ Hp].
      change (String d p +:+ "_") with (String d (p +:+ "_")).
      rewrite startsWith_cons.
      destruct (Ascii.eqb d c) eqn:E; [|done]. cbn [andb].
      apply Ascii.eqb_eq in E as ->.
      apply IH; [done|done|]. intros ->. done.
Qed.

(** C10. While the workflow-switching flag is set, [cleanup] called for a
    node makes no call to the history or tag services, but it does not
    remove the instances of that node either: its filter asks for a key that
    begins with the node id, and the keys [_getAssistantKey] makes begin with
    the graph id. An instance of the node registered under such a key stays
    registered, and when it is the only one registered the call changes
    nothing at all. The same call without the flag removes it. *)
Theorem cleanup_while_switching_misses_node (h h' : Host) (node : Node.t)
  (n : JsId) (inputId : option string) (silent : bool) (s : State) (w : WId) :
  PROMPT_ASSISTANT_WORKFLOW_SWITCHING h = true ->
  PROMPT_ASSISTANT_WORKFLOW_SWITCHING h' = false ->
  Node.id node = Some n ->
  no_underscore (graphId_of h node) -> no_underscore (String_ n) ->
  graphId_of h node <> String_ n ->
  getInstance (_getAssistantKey h node inputId) s = Some w ->
  let key := _getAssistantKey h node inputId in
  cache_calls (cleanup h (Some n) silent s) = cache_calls s
  /\ getInstance key (cleanup h (Some n) silent s) = Some w
  /\ (JsMap.keys (instances s) = [key] -> cleanup h (Some n) silent s = s)
  /\ getInstance key (cleanup h' (Some n) silent s) = None.
Proof.
  intros Hsw Hsw' Hid Hg Hn Hne Hget. cbv zeta.
  assert (key_matches_switching (Some n) (_getAssistantKey h node inputId)
          = false) as Hmiss.
  { unfold key_matches_switching, _getAssistantKey. rewrite Hid.
    cbn [interp]. by apply startsWith_graph_key. }
  destruct (cleanup_while_switching_keeps_caches h (Some n) silent s Hsw)
    as (H1 & _ & _ & H4).
  split; [done|]. split; [by rewrite H4|]. split.
  - intros Hk. unfold cleanup. rewrite Hsw. cbv zeta. rewrite Hk.
    rewrite filter_cons, decide_False by (by rewrite Hmiss). done.
  - apply (cleanup_selected_removed h' (Some n) silent s _ w Hget).
    unfold cleanup_selects. rewrite Hsw'.
    by apply key_matches_node_key.
Qed.

Lemma cleanup_while_switching_misses_witness :
  getInstance "main_5_text" page_mounted = Some 0
  /\ cleanup host_switching (Some (IdNum 5)) false page_mounted = page_mounted
  /\ getInstance "main_5_text"
       (cleanup legacy_host (Some (IdNum 5)) false page_mounted) = None.
Proof.
  destruct (cleanup_while_switching_misses_node host_switching legacy_host
              node5 (IdNum 5) (Some "text") false page_mounted 0)
    as (_ & _ & H3 & H4);
    [reflexivity | reflexivity | reflexivity | reflexivity | reflexivity
    | vm_compute; discriminate | reflexivity |].
  split; [reflexivity|]. split; [apply H3; reflexivity | exact H4].
Defined.

(** * What reaches the history while an answer streams in *)

Lemma stream_chunk_view w acc chunk e :
  Assistant.inputEl (get_obj w acc.2) = Some e ->
  Elem.kind (get_elem e acc.2) <> Plain ->
  get_elem e (stream_chunk w acc chunk).2
  = Elem.set_value (acc.1 +:+ chunk) (get_elem e acc.2)
  /\ getInputValue w (stream_chunk w acc chunk).2 = acc.1 +:+ chunk
  /\ forall e', e' <> e ->
       get_elem e' (stream_chunk w acc chunk).2 = get_elem e' acc.2.
Proof.
  intros He Hk.
  destruct (setInputValue_view w (acc.1 +:+ chunk) true acc.2 e He Hk)
    as (H1 & H2 & H3). cbv zeta in H1, H2, H3.
  assert ((stream_chunk w acc chunk).2
          = (setInputValue w (acc.1 +:+ chunk) true acc.2).2) as -> by done.
  set (s' := (setInputValue w (acc.1 +:+ chunk) true acc.2).2) in *.
  clearbody s'. split; [done|]. split; [|done].
  unfold getInputValue, get_obj. rewrite H1. fold (get_obj w acc.2).
  rewrite He, H2. cbn [Elem.kind Elem.set_value Elem.value].
  by destruct (Elem.kind (get_elem e acc.2)).
Qed.

Lemma blur_listener_calls wf nodeId inputId e s :
  cache_calls (blur_listener wf nodeId inputId e s)
  = cache_calls s
    ++ [addHistory (mkItem (default "" (or_str wf None)) nodeId inputId
                      (dom_value (get_elem e s)) op_input);
        initUndoState nodeId inputId (dom_value (get_elem e s))].
Proof.
  unfold blur_listener, call, with_cache_calls. cbn [cache_calls].
  by rewrite <- app_assoc.
Qed.

(** C6, amended. A streaming callback appends its chunk to the text collected
    so far and writes that text to the bound input: the input then reads as
    the collected text, no event is dispatched, no other element changes and
    no call is made to the history service, however many chunks arrive. The
    handler as a whole adds to the calls of the history service exactly the
    record of the final text (one [addHistory] followed by the reset of the
    undo state) when it succeeds and nothing when it fails. The blur listener
    of the binding is not suspended meanwhile: run after a chunk on the bound
    textarea, it records the text collected so far as an input of the user. *)
Theorem streaming_records_only_final_text (h : Host) (w : WId) (s : State) :
  (forall acc chunks,
     cache_calls (foldl (stream_chunk w) acc chunks).2 = cache_calls acc.2
     /\ (foldl (stream_chunk w) acc chunks).1 = acc.1 +:+ concat_text chunks
     /\ forall chunk,
          (stream_chunk w acc chunk).1 = acc.1 +:+ chunk
          /\ (forall e,
                Elem.dispatched (get_elem e (stream_chunk w acc chunk).2)
                = Elem.dispatched (get_elem e acc.2))
          /\ (forall e,
                Assistant.inputEl (get_obj w acc.2) = Some e ->
                Elem.kind (get_elem e acc.2) <> Plain ->
                get_elem e (stream_chunk w acc chunk).2
                = Elem.set_value (acc.1 +:+ chunk) (get_elem e acc.2)
                /\ getInputValue w (stream_chunk w acc chunk).2
                   = acc.1 +:+ chunk
                /\ forall e', e' <> e ->
                     get_elem e' (stream_chunk w acc chunk).2
                     = get_elem e' acc.2))
  /\ (forall chunks result,
        let r := expand_onClick h w chunks result s in
        let final :=
          first_text (if enableStreaming h then concat_text chunks else "")
            (from_option data None result) in
        cache_calls r.2 =
        cache_calls s ++
        match r.1 with
        | Succeeded _ => recorded w final op_expand s
        | Failed => []
        end)
  /\ (forall provider chunks result,
        let r := translate_onClick h w provider chunks result s in
        exists final,
          cache_calls r.2 =
          cache_calls s ++
          match r.1 with
          | Succeeded _ => recorded w final op_translate s
          | Failed => []
          end
          /\ (r.1 = Succeeded false ->
              final =
              finalResultText h (isMarkdownLiteGraph w s) (getInputValue w s)
                (formatTranslatedText h
                   (first_text
                      (if translate_streams h provider then concat_text chunks
                       else "")
                      (from_option data None result)))))
  /\ (forall acc chunk e workflow_id nodeId inputId,
        Assistant.inputEl (get_obj w acc.2) = Some e ->
        Elem.kind (get_elem e acc.2) = TEXTAREA ->
        cache_calls
          (blur_listener workflow_id nodeId inputId e
             (stream_chunk w acc chunk).2)
        = cache_calls acc.2
          ++ [addHistory
                (mkItem (default "" (or_str workflow_id None)) nodeId inputId
                   (Some (acc.1 +:+ chunk)) op_input);
              initUndoState nodeId inputId (Some (acc.1 +:+ chunk))]).
Proof.
  split; [|split; [|split]].
  - intros acc chunks.
    destruct (streaming_frame w chunks acc)
      as ((_ & _ & _ & _ & _ & _ & H & _) & Ht).
    split; [done|]. split; [done|]. intros chunk.
    destruct (stream_chunk_frame w acc chunk) as (_ & Hc & Hd).
    split; [done|]. split; [intros e; by destruct (Hd e)|].
    intros e He Hk. by apply stream_chunk_view.
  - intros chunks result. apply (expand_onClick_calls h w chunks result s).
  - intros provider chunks result.
    apply (translate_onClick_calls h w provider chunks result s).
  - intros acc chunk e wf nodeId inputId He Hk.
    rewrite blur_listener_calls.
    destruct (stream_chunk_view w acc chunk e He) as (Hv & _ & _);
      [by rewrite Hk|].
    destruct (stream_chunk_frame w acc chunk)
      as ((_ & _ & _ & _ & _ & _ & Hcalls & _) & _ & _).
    rewrite Hcalls, Hv. unfold dom_value.
    cbn [Elem.kind Elem.set_value Elem.value]. by rewrite Hk.
Qed.

(** The claim as it stands fails when the input loses focus while the answer
    streams in. On the page with the mounted assistant of node 5, whose
    textarea carries the blur listener of the binding, the chunk [bon] of
    the answer [bonjour] has arrived when the listener runs: the history
    service is handed [bon]. *)
Lemma blur_while_streaming_records_partial_text :
  let first := stream_chunk 0 ("", page_mounted) "bon" in
  Assistant.inputEl (get_obj 0 page_mounted) = Some 1
  /\ (Blur, 0) ∈ Elem.listeners (get_elem 1 page_mounted)
  /\ (foldl (stream_chunk 0) ("", page_mounted) ["bon"; "jour"]).1 = "bonjour"
  /\ cache_calls
       (blur_listener (Some "unknown") (Some (IdNum 5)) (Some "text") 1
          first.2)
     = cache_calls page_mounted
       ++ [addHistory
             (mkItem "unknown" (Some (IdNum 5)) (Some "text") (Some "bon")
                op_input);
           initUndoState (Some (IdNum 5)) (Some "text") (Some "bon")].
Proof.
  cbv zeta. split; [reflexivity|]. split; [|split; reflexivity].
  apply list_elem_of_In. vm_compute. by left.
Qed.

(** * The scan of a node keeps one instance for each key *)

(** The scan works through the widgets of a node that has a valid input, and
    of any node outside the Vue mode; the DOM scan of the Vue mode is the
    other path. *)
Lemma checkAndSetupNode_widgets h node s :
  FEATURES_enabled h = true -> isValidNode h node = true ->
  validInputs_of h node <> [] \/ vueNodesMode h = false ->
  checkAndSetupNode h node s =
  scan_inputs h node (validInputs_of h node) 0 (validInputs_of h node) s.
Proof.
  intros He Hv [Hne|Hvue]; [by apply checkAndSetupNode_scan|].
  unfold checkAndSetupNode, validInputs_of. rewrite He, Hv, Hvue.
  cbn [negb andb]. cbv zeta.
  destruct (Node.widgets node) as [ws|]; [|done].
  by destruct (List.filter _ ws).
Qed.

Lemma check_existing_stale h node iw k w s ui old cur :
  Assistant.element (get_obj w s) = Some ui ->
  isUIPresent h node (Some ui) s = true ->
  Assistant.text_element (get_obj w s) = Some old ->
  InputWidget.inputEl iw = Some cur ->
  old <> cur ->
  Elem.in_body (get_elem old s) = false ->
  check_existing h node iw k w s = Rebuild (cleanup h (Node.id node) false s).
Proof.
  intros He Hp Ho Hc Hne Hb. unfold check_existing. cbv zeta.
  rewrite He, Hp, Ho, Hc, Hb. cbn [from_option negb orb andb].
  by rewrite bool_decide_eq_false_2.
Qed.

Lemma scan_input_rebuild_eq h node validInputs widgetIndex iw s w s1 :
  (length (filter (fun x => input_name x = input_name iw) validInputs) <= 1)%nat ->
  getInstance (input_key h node iw) s = Some w ->
  check_existing h node iw (input_key h node iw) w s = Rebuild s1 ->
  getInstance (input_key h node iw) s1 = None ->
  scan_input h node validInputs widgetIndex iw s
  = scan_input h node validInputs widgetIndex iw s1.
Proof.
  intros Hlen Hg Hc Hn. unfold scan_input. cbv zeta.
  destruct (1 <? length _)%nat eqn:E; [apply Nat.ltb_lt in E; lia|].
  fold (input_key h node iw). by rewrite Hg, Hc, Hn.
Qed.

Lemma creatable_parts h node iw s :
  creatable h node iw s = true ->
  FEATURES_enabled h = true
  /\ isValidInput h (processedWidget node iw) node = true
  /\ (or_el (InputWidget.inputEl (processedWidget node iw))
            (InputWidget.element (processedWidget node iw)) <> None
      \/ vueNodesMode h = true).
Proof.
  unfold creatable. intros H.
  apply andb_true_iff in H as [H H4]. apply andb_true_iff in H as [H H3].
  apply andb_true_iff in H as [H1 _]. split; [done|]. split; [done|].
  apply orb_true_iff in H4 as [H4|H4]; [left | by right].
  by destruct (or_el _ _).
Qed.

(** The scan of an input whose key is not registered and that creation
    accepts registers a fresh object under the key. *)
Lemma scan_input_creates h node validInputs widgetIndex iw name s :
  (length (filter (fun x => input_name x = input_name iw) validInputs) <= 1)%nat ->
  input_name iw = Some name -> truthy_str name = true ->
  getInstance (input_key h node iw) s = None ->
  creatable h node iw s = true ->
  exists s2,
    scan_input h node validInputs widgetIndex iw s = Normal s2
    /\ getInstance (input_key h node iw) s2 = Some (next_obj s)
    /\ (forall w, w <> next_obj s -> get_obj w s2 = get_obj w s)
    /\ Assistant.isDestroyed (get_obj (next_obj s) s2) = false
    /\ Assistant._isMounting (get_obj (next_obj s) s2) = true
    /\ Assistant.inputEl (get_obj (next_obj s) s2)
       = or_el (InputWidget.inputEl (processedWidget node iw))
               (InputWidget.element (processedWidget node iw)).
Proof.
  intros Hlen Hn Ht Hg Hc.
  destruct (creatable_parts h node iw s Hc) as (He & Hv & Hp).
  rewrite (scan_input_create h node validInputs widgetIndex iw s name
             Hlen Hn Ht Hg), Hc.
  assert (key_of h node (Some name) (Some (input_key h node iw))
          = input_key h node iw) as Hk
    by (apply key_of_given, getAssistantKey_truthy).
  destruct (createAssistant_fresh h node (Some name) (processedWidget node iw)
              (Some (input_key h node iw)) s He Ht Hv Hp)
    as (_ & F2 & _ & _ & _ & _ & _ & F8 & F9 & F10);
    [by rewrite Hk|].
  cbv zeta in F2, F8, F9, F10. rewrite Hk in F2, F9.
  set (r := createAssistant h node (Some name) (processedWidget node iw)
              (Some (input_key h node iw)) s) in *. clearbody r.
  exists r.2. split; [done|]. split.
  { unfold getInstance. rewrite F2. apply get_set_same. }
  split; [done|].
  unfold obj_id in F9. unfold obj_els in F10.
  injection F9 as _ _ _ D M _. injection F10 as _ I. done.
Qed.

(** The scan of an input whose registered instance holds an element that the
    host has replaced and taken out of the document: the node is cleaned up
    and, when creation accepts the input, a fresh instance is registered
    under the key. *)
Lemma scan_input_rebuilds h node validInputs widgetIndex iw name s w ui old cur :
  (length (filter (fun x => input_name x = input_name iw) validInputs) <= 1)%nat ->
  input_name iw = Some name -> truthy_str name = true ->
  getInstance (input_key h node iw) s = Some w ->
  (w < next_obj s)%nat ->
  Assistant.element (get_obj w s) = Some ui ->
  isUIPresent h node (Some ui) s = true ->
  Assistant.text_element (get_obj w s) = Some old ->
  InputWidget.inputEl iw = Some cur ->
  old <> cur ->
  Elem.in_body (get_elem old s) = false ->
  cleanup_selects h (Node.id node) (input_key h node iw) = true ->
  let s1 := cleanup h (Node.id node) false s in
  exists s2,
    scan_input h node validInputs widgetIndex iw s = Normal s2
    /\ get_obj w s2 = Assistant.husk
    /\ dom_parent s2 !! ui = None
    /\ (creatable h node iw s1 = false ->
        s2 = s1 /\ getInstance (input_key h node iw) s2 = None)
    /\ (creatable h node iw s1 = true ->
        getInstance (input_key h node iw) s2 = Some (next_obj s)
        /\ Assistant.isDestroyed (get_obj (next_obj s) s2) = false
        /\ Assistant._isMounting (get_obj (next_obj s) s2) = true
        /\ Assistant.inputEl (get_obj (next_obj s) s2)
           = or_el (InputWidget.inputEl (processedWidget node iw))
                   (InputWidget.element (processedWidget node iw))).
Proof.
  intros Hlen Hn Ht Hg Hw Hui Hp Ho Hc Hne Hb Hsel. cbv zeta.
  pose proof (check_existing_stale h node iw (input_key h node iw) w s ui old
                cur Hui Hp Ho Hc Hne Hb) as Hck.
  destruct (cleanup_selected_removed h (Node.id node) false s _ w Hg Hsel)
    as (C1 & C2 & C3). specialize (C3 ui Hui).
  destruct (cleanup_elem_facts h (Node.id node) false s) as ([P1 _] & _ & _).
  rewrite (scan_input_rebuild_eq h node validInputs widgetIndex iw s w _
             Hlen Hg Hck C1).
  set (s1 := cleanup h (Node.id node) false s) in *. clearbody s1.
  assert (get_obj w s1 = Assistant.husk) as Hh
    by (unfold get_obj; by rewrite C2).
  destruct (creatable h node iw s1) eqn:Hcr.
  - destruct (scan_input_creates h node validInputs widgetIndex iw name s1
                Hlen Hn Ht C1 Hcr) as (s2 & E & G & O & D & M & I).
    rewrite P1 in G, O, D, M, I.
    assert (dom_parent s2 = dom_parent s1) as Hd.
    { rewrite (scan_input_create h node validInputs widgetIndex iw s1 name
                 Hlen Hn Ht C1), Hcr in E. injection E as <-.
      destruct (creatable_parts h node iw s1 Hcr) as (He & Hv & Hel).
      destruct (createAssistant_fresh h node (Some name)
                  (processedWidget node iw) (Some (input_key h node iw)) s1
                  He Ht Hv Hel) as (_ & _ & _ & F4 & _); [|done].
      rewrite key_of_given by apply getAssistantKey_truthy. exact C1. }
    exists s2. split; [done|]. split; [rewrite O; [done|lia]|].
    split; [by rewrite Hd|]. split; [done|]. by intros _.
  - exists s1. split.
    + by rewrite (scan_input_create h node validInputs widgetIndex iw s1 name
                    Hlen Hn Ht C1), Hcr.
    + split; [done|]. split; [done|]. split; [by intros _ | done].
Qed.

(** C1, amended. The registry holds every key at most once, and [cleanup]
    and [createAssistant] keep it so. [createAssistant] called for a
    registered key changes nothing and returns the registered instance, or
    nothing when one of its guards rejects the call. The scan leaves a
    registered instance as it is when its toolbar is attached and the widget
    still shows the element of the instance, or that element is still in the
    document. When the element of the instance was replaced and has left the
    document, the scan cleans the node up, which empties the instance and
    detaches its toolbar when the cleanup selects the key, and registers a
    fresh instance under the key if creation accepts the input. On a node
    that the scan works through by its widgets (it has a valid input, or the
    page is not in the Vue mode), whose valid inputs have distinct names that
    are not empty, in a state where the check of the scan finds no registered
    instance of the node stale, the scan ends normally, a second scan changes
    nothing, and the registry then holds exactly one instance for each valid
    input that was registered or that creation accepts, the registrations
    made before being kept and no other key being added. *)
Theorem scan_keeps_one_instance_per_key (h : Host) (node : Node.t) (s : State) :
  FEATURES_enabled h = true ->
  isValidNode h node = true ->
  validInputs_of h node <> [] \/ vueNodesMode h = false ->
  named (validInputs_of h node) ->
  NoDup (map input_name (validInputs_of h node)) ->
  well_formed s ->
  nothing_stale h node (validInputs_of h node) s ->
  NoDup (JsMap.keys (instances s)) ->
  (forall nodeId silent,
     NoDup (JsMap.keys (instances (cleanup h nodeId silent s))))
  /\ (forall inputId iw assistantKey,
        NoDup (JsMap.keys (instances
                 (createAssistant h node inputId iw assistantKey s).2)))
  /\ (forall inputId iw assistantKey w,
        getInstance (key_of h node inputId assistantKey) s = Some w ->
        (createAssistant h node inputId iw assistantKey s).2 = s
        /\ ((createAssistant h node inputId iw assistantKey s).1 = Some w
            \/ (createAssistant h node inputId iw assistantKey s).1 = None))
  /\ (forall iw widgetIndex w ui,
        In iw (validInputs_of h node) ->
        getInstance (input_key h node iw) s = Some w ->
        Assistant.element (get_obj w s) = Some ui ->
        isUIPresent h node (Some ui) s = true ->
        match Assistant.text_element (get_obj w s), InputWidget.inputEl iw with
        | Some old, Some cur =>
            old = cur \/ Elem.in_body (get_elem old s) = true
        | _, _ => True
        end ->
        scan_input h node (validInputs_of h node) widgetIndex iw s = Normal s)
  /\ (forall s0 iw widgetIndex w ui old cur,
        In iw (validInputs_of h node) ->
        well_formed s0 ->
        getInstance (input_key h node iw) s0 = Some w ->
        Assistant.element (get_obj w s0) = Some ui ->
        isUIPresent h node (Some ui) s0 = true ->
        Assistant.text_element (get_obj w s0) = Some old ->
        InputWidget.inputEl iw = Some cur ->
        old <> cur ->
        Elem.in_body (get_elem old s0) = false ->
        cleanup_selects h (Node.id node) (input_key h node iw) = true ->
        let s1 := cleanup h (Node.id node) false s0 in
        exists s2,
          scan_input h node (validInputs_of h node) widgetIndex iw s0
          = Normal s2
          /\ get_obj w s2 = Assistant.husk
          /\ dom_parent s2 !! ui = None
          /\ (creatable h node iw s1 = false ->
              s2 = s1 /\ getInstance (input_key h node iw) s2 = None)
          /\ (creatable h node iw s1 = true ->
              getInstance (input_key h node iw) s2 = Some (next_obj s0)
              /\ Assistant.isDestroyed (get_obj (next_obj s0) s2) = false
              /\ Assistant._isMounting (get_obj (next_obj s0) s2) = true
              /\ Assistant.inputEl (get_obj (next_obj s0) s2)
                 = or_el (InputWidget.inputEl (processedWidget node iw))
                         (InputWidget.element (processedWidget node iw))))
  /\ exists s1,
       checkAndSetupNode h node s = Normal s1
       /\ checkAndSetupNode h node s1 = Normal s1
       /\ NoDup (JsMap.keys (instances s1))
       /\ (forall k w, getInstance k s = Some w -> getInstance k s1 = Some w)
       /\ (forall iw, In iw (validInputs_of h node) ->
             getInstance (input_key h node iw) s <> None
             \/ creatable h node iw s = true ->
             exists w, getInstance (input_key h node iw) s1 = Some w)
       /\ (forall k w, getInstance k s1 = Some w ->
             getInstance k s = Some w
             \/ exists iw, In iw (validInputs_of h node)
                           /\ k = input_key h node iw
                           /\ creatable h node iw s = true).
Proof.
  intros He Hv Hne Hnamed Hnd Hwf Hstale Huniq.
  split; [intros; by apply cleanup_NoDup|].
  split; [intros; by apply createAssistant_NoDup|].
  split; [intros; by apply createAssistant_existing|].
  split.
  { intros iw idx w ui Hin Hg Hui Hp Hel.
    apply (scan_input_skip h node _ idx iw s w); [|done|].
    - by rewrite (filter_unique input_name _ iw Hnd Hin).
    - by apply (check_existing_sound h node iw _ w s ui). }
  split.
  { intros s0 iw idx w ui old cur Hin [_ Hwf0] Hg Hui Hp Ho Hc Hneq Hb Hsel.
    destruct (Hnamed iw Hin) as (name & Hn & Ht).
    apply (scan_input_rebuilds h node _ idx iw name s0 w ui old cur);
      try done.
    - by rewrite (filter_unique input_name _ iw Hnd Hin).
    - by apply (Hwf0 (input_key h node iw)). }
  destruct (scan_inputs_first h node (validInputs_of h node) Hnamed Hnd
              (validInputs_of h node) 0%nat s)
    as (s1 & Hscan & Hwf1 & Hst1 & [Hkeep Hcr] & Hset & Hnd1 & Hfrom);
    [done|done|done|].
  exists s1. rewrite !checkAndSetupNode_widgets by done.
  split; [done|]. split.
  { apply scan_inputs_again; [done|done| |done]. intros iw Hin. by split; auto. }
  split; [by auto|]. split; [done|]. split; [|done].
  intros iw Hin Hor.
  destruct (Hset iw Hin) as [Hr|Hc].
  - destruct (getInstance (input_key h node iw) s1) as [w|]; [by eauto|done].
  - rewrite Hcr in Hc. destruct Hor as [Hr|Hc']; [|congruence].
    destruct (getInstance (input_key h node iw) s) as [w|] eqn:E; [|done].
    exists w. by apply Hkeep.
Qed.

Lemma page_replaced_well_formed : well_formed page_replaced.
Proof.
  split.
  - intros u Hu.
    assert (dom_parent page_replaced = {[0%nat := 7%nat]}) as -> by reflexivity.
    apply lookup_singleton_ne. change (next_obj page_replaced) with 1%nat in Hu.
    lia.
  - intros k w.
    change (getInstance k page_replaced)
      with (JsMap.get k [("main_5_text", 0%nat)]).
    cbn [JsMap.get]. destruct (String.eqb _ _); [|done].
    intros [= <-]. change (next_obj page_replaced) with 1%nat. lia.
Defined.

Lemma scan_keeps_one_instance_witness :
  (exists s1,
     checkAndSetupNode legacy_host node5 fresh_page = Normal s1
     /\ checkAndSetupNode legacy_host node5 s1 = Normal s1
     /\ exists w,
          getInstance (input_key legacy_host node5 widget_text) s1 = Some w)
  /\ (exists s2,
        scan_input legacy_host node5_new [widget_text_new] 0 widget_text_new
          page_replaced = Normal s2
        /\ get_obj 0 s2 = Assistant.husk
        /\ getInstance "main_5_text" s2 = Some 1).
Proof.
  assert (validInputs_of legacy_host node5 = [widget_text]) as HV
    by reflexivity.
  assert (validInputs_of legacy_host node5_new = [widget_text_new]) as HV'
    by reflexivity.
  split.
  - destruct (scan_keeps_one_instance_per_key legacy_host node5 fresh_page)
      as (_ & _ & _ & _ & _ & s1 & H1 & H2 & _ & _ & H3 & _).
    + reflexivity.
    + reflexivity.
    + left. by rewrite HV.
    + rewrite HV. intros iw [<-|[]]. exists "text". by split.
    + rewrite HV. vm_compute. apply NoDup_cons.
      split; [apply not_elem_of_nil|apply NoDup_nil_2].
    + split; [intros u _; reflexivity|]. intros k w Hk. discriminate Hk.
    + intros iw w _ Hk. discriminate Hk.
    + apply NoDup_nil_2.
    + exists s1. split; [done|]. split; [done|].
      apply H3; [rewrite HV; by left|]. right. reflexivity.
  - destruct (scan_keeps_one_instance_per_key legacy_host node5_new fresh_page)
      as (_ & _ & _ & _ & H5 & _).
    + reflexivity.
    + reflexivity.
    + left. by rewrite HV'.
    + rewrite HV'. intros iw [<-|[]]. exists "text". by split.
    + rewrite HV'. vm_compute. apply NoDup_cons.
      split; [apply not_elem_of_nil|apply NoDup_nil_2].
    + split; [intros u _; reflexivity|]. intros k w Hk. discriminate Hk.
    + intros iw w _ Hk. discriminate Hk.
    + apply NoDup_nil_2.
    + destruct (H5 page_replaced widget_text_new 0%nat 0%nat 0%nat 1%nat 3%nat)
        as (s2 & E & Hh & _ & _ & Hc).
      * rewrite HV'. by left.
      * apply page_replaced_well_formed.
      * reflexivity.
      * reflexivity.
      * reflexivity.
      * reflexivity.
      * reflexivity.
      * discriminate.
      * reflexivity.
      * reflexivity.
      * rewrite HV' in E. exists s2. split; [exact E|]. split; [exact Hh|].
        apply Hc. reflexivity.
Defined.
